(* ===== verification/_CoqProject ===== *)
-Q . S2P
Prelude.v
Order.v
Sorting.v
Numeric.v
Pearson.v
Series.v
Iterrows.v
Frame.v
Figure.v
Scenario.v
Widgets.v
Sidebar.v
Overview.v
Format.v
Float64.v
Summation.v
Geography.v
Industry.v
Trends.v
Tools.v
Heatmap.v
Page.v
Script.v
Statements.v
Dependence.v
Dashboard.v
