(* ===== verification/Prelude.v ===== *)
(** * Verification of the "Global AI Content Impact Analysis" dashboard

    The program ([src/app2.py]) is one Streamlit script.  Every user
    interaction re-runs it from top to bottom: it loads a CSV table,
    reads three multi-select widgets from the sidebar, keeps the rows
    whose Year, Country and Industry are all selected, and then computes
    from that filtered view every number and table the five tabs show
    (means, a total, distinct counts, group-by tables, rankings, tool
    counts, a correlation matrix).  The script has no state of its
    own between two runs; the table is read-only.  What can go wrong
    is therefore functional: a wrong mask, a wrong grouping, a crash
    or a wrong figure on an empty selection, a result that depends on
    the order of the rows, a page Streamlit rejects.

    ** Files, in dependency order

    - [Prelude] (this file): the scope [frame_scope], the tactics and
      the hint databases of the development, and the list lemmas every
      component shares (filters, sub-multisets, pointwise masks).
    - [Order]: the interface [PyOrd] of the key types the script sorts
      and groups by (a decidable total order), with its instances for
      [Z] (the Year column), [string] (Country, Industry; Python
      compares strings by code point, which the byte-wise order of
      UTF-8 strings preserves) and pairs (the two-key group-by of the
      trend tab, ordered lexicographically as Python tuples are).
    - [Sorting]: [sort_by], a stable insertion sort by a key, which is
      the model of Python's [sorted] and of pandas' [sort_values]; its
      lemmas (permutation, sortedness, stability, uniqueness).
    - [Numeric]: the interface [Number] of the values a float64 cell
      holds, abstracted to an exact ordered field, and its instance on
      the canonical rationals [Qc]; the NaN-skipping reductions
      [nansum], [nancount] and [nanmean] of pandas.
    - [Pearson]: the correlation coefficient of two columns as
      [DataFrame.corr] computes it (Welford's one-pass update), its
      textbook definition, and the inequality of Cauchy and Schwarz.
    - [Series]: the column operations the script calls: [isin], the
      mask conjunction [&], boolean indexing, [unique], [nunique],
      [value_counts], [sort_values].
    - [Iterrows]: the two loops of the script, the list comprehensions
      over [tool_counts.iterrows()] of lines 299 and 353: the
      generator, one pass of the loop, and the loop by well-founded
      recursion on the rows the generator has left.
    - [Frame]: the row type [Row] (one field per column of the CSV,
      in the order of the specification), the metric columns, and
      [groupby] with its aggregations.
    - [Figure]: what the script hands to a plotting call: a table
      with named and typed columns, the kind of chart, the columns the
      call names and its title and options.  [table_ok] is the typing
      invariant of a table, [figure_ok] adds that every column the
      call names is a column of its table and that every column drawn
      as a quantity is numeric; [select_dtypes] is the selection of
      columns by dtype.
    - [Scenario]: the three records of the scenarios of the
      specification, over the rationals; the witnesses of the
      development evaluate the model on them.
    - [Widgets]: [st.multiselect], [st.selectbox] and [st.radio] as
      functions of their options and of what the user chose.
    - [Sidebar]: lines 26-71 of the script: the option lists, the four
      multi-select widgets and [filtered_df], the filter engine.
    - [Overview] (module [tab1]), [Geography] ([tab2]), [Industry]
      ([tab3]), [Trends] ([tab4]) and [Tools] ([tab5]): the tables
      the five tabs compute from [filtered_df] (lines 82-399) and the
      figures they draw from them, each under the name the script
      gives it.  A module is named after the [with tabN:] block it
      translates, so that names the script binds in several tabs
      ([metric], [figures]) stay apart.
    - [Format]: the format specifications [.1f] and [,.0f] of the
      f-strings of the cards (lines 88-141): rounding half to even,
      digit grouping, and the text of the eight cards.
    - [Float64]: the implementation of the number signature on
      binary64, the numbers of the program, and what becomes of the
      cards there.
    - [Summation]: the sums the libraries compute behind [.sum()] and
      [.mean()]: the pairwise summation of numpy ([pairwise_sum],
      behind the cards) and the compensated summation of the group
      means of pandas ([kahan_add]).
    - [Heatmap]: lines 411-415: the correlation matrix of the numeric
      columns and the text seaborn writes on every cell of the heat
      map.
    - [Page]: one run of the script on a loaded table.  [render] is
      the page: the configuration of line 13 and everything the script
      writes, in script order, to the top of the page, to the sidebar
      and to each of the five tabs: titles, cards, charts, rows of
      columns and every input widget with its arguments, as a function
      of the table and of the user's inputs.
    - [Script]: one run of the script on whatever table the file
      holds.  The script reads the columns by name; [accesses] lists
      the first statement that reads each one, and [run_script] is
      the page, or the exception ([KeyError], [ValueError]) of the
      first of these statements whose column the file lacks, with its
      line.
    - [Statements]: the script statement by statement.  Every
      statement of lines 23-415 that reads a column or writes to the
      page, with its line, the columns it reads and what it does to
      the page; [exec] is the effect of one statement on the page
      written so far, [run_stmts] a run that stops at the first
      statement that reads a missing column, and [run_screen] what
      the user then sees: the page written so far and the exception.
    - [Dependence]: what the screen shows of a file.  [present] is
      a record with the fields of the columns outside the header
      blanked, [agree] says that two records hold the same values in
      the columns of a header; every element of the page comes with
      the columns it is computed from.
    - [Dashboard]: the session.  [load_data] is the cached loader of
      lines 16-20 with its cache as explicit state, [step] one run of
      the script (load, then [run_script]) and [run_session] a
      sequence of runs, each ending with a page or an exception;
      [reachable] is the set of cache states a session can be in.

    ** How the model corresponds to the code

    A DataFrame is the list of its rows, in row order; a column
    [df['c']] is the list [c <$> df].  The index labels of pandas are
    not modelled beyond the position of a row: the script never reads
    them (every group-by is followed by [reset_index], and the
    comprehensions over [iterrows] discard the label).
    A float64 cell is an [option V]: [None] is NaN (a missing CSV
    field), [Some v] a number, where [V] is any implementation of the
    signature [NumOps].  The development has two: the rationals [Qc],
    which satisfy the laws of exact arithmetic ([Number]) and on which
    the witnesses are evaluated, and binary64 ([Float64]), the numbers
    of the program, on which the laws fail.  A theorem that assumes
    [Number] holds for the exact values, and on the numbers of the
    program up to rounding; a theorem that does not holds on both.
    The correlation matrix is stated on [Qc]: a coefficient is kept
    as its sign and its square, and the two decimals the heat map
    prints are computed from the square with the integer square root.
    An int64 cell is a [Z]; the script does no integer arithmetic, so
    no wrap-around can occur.  Strings are [string]s of bytes.

    pandas, Streamlit and plotly are libraries the script only calls:
    their operations are modelled from their documented behaviour
    (they are marked as such in the map of the manifest), while every
    definition of [Sidebar], of the five tab files, of [Format],
    [Heatmap], [Page], [Script], [Statements] and [Dashboard]
    translates lines of the script.  The page is state: a statement
    appends to a container (the main area, the sidebar, a tab, a
    column of a row of a tab), and the variables [col1], [col2], ...
    are bound to the columns of the latest [st.columns] call.  An
    exception is a value: a run ends with [Shown] and
    its page or with [Raised], the exception and the line of the
    statement that raised it; the table of the file is the list of
    the columns of its header and its records ([CsvTable]); a record
    has a field for every column of the specification, and the field
    of a column the header lacks is never looked at
    ([screen_reads_columns] of [Dependence]).
    Sorting is modelled by a stable sort: Python's [sorted] is stable,
    and so is pandas' [sort_values] on the tables of this script
    whenever they have at most 16 rows (numpy's introsort then is an
    insertion sort); no theorem depends on how ties are broken except
    those that say so.

    A widget is a function of its arguments and of the user's input
    for the run: [None] for a multi-select the user has not touched,
    otherwise the positions picked; a position for a select box or a
    radio.  A tab is a function of the table, of the selection of the
    sidebar and of the positions chosen in its own widgets
    ([tab2.country_comparison], [tab4.trend_chart], ...).

    ** What the theorems show

    - the filter engine ([Sidebar]): the mask computation of the
      script equals the set comprehension of the specification; the
      result is a sub-list of the table; selecting everything is the
      identity; an empty selection in any dimension gives the empty
      view; selecting more shows more; the first of the two "Select
      Industries" widgets has no effect;
    - the cards ([Overview]): on the empty view they show NaN and
      zero and no reduction fails; on a view of one record they show
      that record; they do not depend on row order; percentages stay
      within the bounds of the data; the counts are bounded by the
      selection;
    - the group-by tables ([Geography], [Industry], [Trends]): a row
      exists exactly for the keys of the view and holds the mean over
      the records of that key; keys are distinct and ascending; the
      tables do not depend on row order; the one-pass computation
      with an accumulator per key agrees with the declarative one;
      the bars are a ranking (a sorted permutation of the table, NaN
      last); a sector of the inner ring of the sunburst is the sum of
      its sectors of the outer ring and both rings add up to the
      total of the overview (grouping the records of some keys gives
      the groups of those keys, [agg_filter]); the boxes partition
      the adoption rates; along every trend line the years strictly
      increase;
    - the tools ([Tools]): the count table has every tool once with
      the number of records naming it, in decreasing order; the pies
      of the industries add up to the overall chart; on the empty view
      the select boxes return [None] and the pies are empty; ties of
      the count table follow row order;
    - the card texts ([Format]): [.1f] shows the nearest tenth, ties
      to even; removing the commas of [,.0f] gives back the digits; on
      an empty view the cards read "nan%", "0 TB/year" and "0";
    - binary64 ([Float64]): the theorems that use the signature only
      hold as they are; addition is commutative but not associative;
      the cards of a view of at most two records do not depend on the
      order of the records, and there are three records whose mean is
      shown as "42.5%" in one row order and as "42.4%" in the other;
    - the heat map ([Pearson], [Heatmap]): the one-pass update of
      pandas computes Pearson's coefficient of the textbook
      definition; the matrix is symmetric with ones on its diagonal;
      an entry is NaN exactly when one of its columns is constant;
      every number printed lies between -1.00 and 1.00 and is the
      coefficient rounded to the nearest hundredth; the heat map is a
      7 by 7 table and does not depend on row order;
    - the page ([Page]): every figure is well typed and names only
      columns of the table it is given; no two input widgets and no
      two charts of a page can be confused, and every default of a
      multi-select is one of its options, so that Streamlit never
      rejects the page; when a dimension of the sidebar is empty the
      whole page is the "no data" display: "nan%" and "0" on the
      cards, and no record, point, slice or annotated cell in the
      preview, the charts, the pies and the heat map
      ([page_content]);
    - the sums ([Summation]): the pairwise summation ends on every
      array with a recursion of logarithmic depth; on exact numbers
      it and the compensated summation compute the sum from left to
      right, so that the theorems about [nansum], [nanmean] and
      [groupby_mean] are theorems about what the libraries return; on
      binary64 the three sums of the same eight cells differ, and
      with them the mean on a card and the mean in a group-by table
      of the same records;
    - the loops ([Iterrows]): the comprehension ends on every table
      after exactly one pass per row, its variant decreases at every
      pass, and it builds the list of the values of its expression on
      the rows; the data of both pies is the count table itself;
    - the run ([Script]): the outcome is the page exactly when the
      file has every column of the specification, and otherwise the
      exception of the first statement, in script order, that reads a
      missing column, whatever the records and the widgets;
    - the statements ([Statements]): run one by one on a complete
      file they build the page of [render], and on any file the run
      ends as [run_script] says, so that both summaries are checked
      against the statements; no statement removes or changes what
      an earlier one wrote; when a run stops, the screen shows the
      page of the statements above the failing line, a part of the
      complete page: the title alone without a key column, the
      sidebar and a part of the first tab without a metric column,
      all but the end of the last tab without the regulation column;
    - the columns ([Dependence]): a card is computed from its one
      column, the charts of the second, third and fourth tab from
      the keys and the metrics, the pies from the tools and a key,
      and these are columns the statements above have read; hence
      two files with the same header whose records agree in the
      columns of the header give the same screen, page and
      exception, and the exception depends on the header alone;
    - the session ([Dashboard]): the file is read until the first
      successful load and never again, every later run is a run on
      the table of that load; a failed load is not cached and is
      retried by the next run; once a run has found a file with the
      columns of the specification every later run shows a page; a
      table that lacks a column is cached like any other, so that
      every later run stops with the same exception also after the
      file has been repaired.

    ** Bounds and fuel

    Every definition but one is a structural recursion on a list:
    there is no bound on the size of the table, the number of
    options, the length of a session or the numbers in the cells.
    The comprehension of [Iterrows] recurses on the state of a
    generator and is defined by well-founded recursion on the number
    of rows left; [loop_run] is the same loop with a bound on the
    number of passes, and [comprehension_terminates] shows that the
    number of rows is the least bound with which it ends.  The
    integer square root of the annotations is that of the standard
    library.  On binary64 the reductions of [Numeric] add a column
    from left to right, which is what numpy does for fewer than eight
    cells; the examples of [Float64] have three.  [pairwise_sum]
    recurses on the two pieces of an array of more than 128 cells and
    is defined by well-founded recursion on the length;
    [pairwise_sum_depth] is the same routine with a bound on the
    depth, and depth [d + 1] is enough for [112 * 2 ^ d + 16]
    cells.

    ** Not modelled

    The CSV parser (the result of reading the file, a table or a
    failure, is an input of [load_data]; the dtypes it infers are
    those of the fixed schema, and a column the specification does
    not name is ignored, although the script would show it in the
    preview and, when numeric, in the heat map); where on the page
    Streamlit puts the box of an exception, and the statements that
    neither read a column nor write to the page (they cannot raise
    on a table that parsed); error bounds for the rounding of
    binary64 arithmetic (how far a sum on binary64 is from the exact
    sum; the theorems on binary64 are exact statements about
    particular numbers and about what the laws leave), the sign
    of a zero sum, and the summation a build of pandas with the
    optional bottleneck package uses in the place of numpy's; the
    drawing done by plotly,
    matplotlib, seaborn and pyecharts (the model stops at the tables,
    column names, titles, annotations and options handed to them, so
    the bins of the histograms, the quartiles of the box plots, the
    percentages of the pies and the colours are not computed: that
    code runs inside the libraries, most of it in the browser, and
    the specification puts it out of scope); the names of countries
    plotly can place on a map; the session state Streamlit keeps for
    a widget between two runs (the state of every widget is an input
    of each run).  Nothing else of the script is left: every line of
    [src/app2.py] but the imports is translated by a definition. *)

From stdpp Require Export prelude strings.

(** [naive_solver] clears hypotheses it has already consumed; the
    warning about it carries no information. *)
#[export] Set Warnings "-clear-no-such-hyp".

(** ** The scope of the development's notations *)

Declare Scope frame_scope.
Delimit Scope frame_scope with frame.
Open Scope frame_scope.

(** ** Hint databases

    [frame] collects the introduction lemmas of the components
    (permutations, sortedness, sub-lists); [frame_simpl] is the rewrite
    database of their simplification equations. *)

Create HintDb frame.
Create Rewrite HintDb frame_simpl.

(** ** Tactics *)

(** Case analysis on every [decide] and [bool_decide] of the goal. *)
Ltac case_decides :=
  repeat first [progress case_bool_decide | progress case_decide]; simplify_eq/=.

(** Rewrite with the simplification equations, then clean up. *)
Ltac frame_simpl :=
  repeat (progress (autorewrite with frame_simpl in *; simplify_eq/=)).

(** Close a goal about a concrete table by evaluation of its decision. *)
Ltac by_eval := compute_done.

(** ** Filters *)

Section filter.
Context {A : Type}.
Implicit Types (l k : list A) (P Q : A → Prop).

Lemma filter_ext_elem P Q `{!∀ x, Decision (P x), !∀ x, Decision (Q x)} l :
  (∀ x, x ∈ l → P x ↔ Q x) → filter P l = filter Q l.
Proof.
  induction l as [|x l IH]; intros HPQ; [done|].
  rewrite !filter_cons, IH by (intros; apply HPQ; by right).
  destruct (decide (P x)), (decide (Q x)); try done;
    exfalso; specialize (HPQ x (list_elem_of_here _ _)); tauto.
Qed.

Lemma filter_all P `{!∀ x, Decision (P x)} l :
  Forall P l → filter P l = l.
Proof.
  induction 1 as [|x l ?? IH]; [done|].
  by rewrite filter_cons_True, IH.
Qed.

Lemma filter_none P `{!∀ x, Decision (P x)} l :
  Forall (λ x, ¬ P x) l → filter P l = [].
Proof.
  induction 1 as [|x l ?? IH]; [done|].
  by rewrite filter_cons_False.
Qed.

Lemma filter_False P `{!∀ x, Decision (P x)} l :
  (∀ x, ¬ P x) → filter P l = [].
Proof. intros. apply filter_none, Forall_forall; auto. Qed.

Lemma Forall_filter_holds P `{!∀ x, Decision (P x)} l :
  Forall P (filter P l).
Proof. apply Forall_forall. by intros x [? _]%list_elem_of_filter. Qed.

Lemma filter_idemp P `{!∀ x, Decision (P x)} l :
  filter P (filter P l) = filter P l.
Proof. apply filter_all, Forall_filter_holds. Qed.

Lemma filter_comm P Q `{!∀ x, Decision (P x), !∀ x, Decision (Q x)} l :
  filter P (filter Q l) = filter Q (filter P l).
Proof. rewrite !list_filter_filter. apply filter_ext_elem; tauto. Qed.

Lemma length_filter_complement P `{!∀ x, Decision (P x)} l :
  length (filter P l) + length (filter (λ x, ¬ P x) l) = length l.
Proof. by rewrite <-length_app, filter_app_complement. Qed.

Lemma filter_or_disjoint P Q `{!∀ x, Decision (P x), !∀ x, Decision (Q x)} l :
  (∀ x, P x → Q x → False) →
  filter P l ++ filter Q l ≡ₚ filter (λ x, P x ∨ Q x) l.
Proof.
  intros Hdisj. induction l as [|x l IH]; [done|].
  rewrite !filter_cons.
  destruct (decide (P x)) as [HP|HP], (decide (Q x)) as [HQ|HQ].
  - by destruct (Hdisj x).
  - rewrite decide_True by auto. simpl. by rewrite IH.
  - rewrite decide_True by auto. by rewrite <-Permutation_middle, IH.
  - rewrite decide_False by tauto. done.
Qed.

Lemma filter_length_eq P `{!∀ x, Decision (P x)} l :
  length (filter P l) = length l → filter P l = l.
Proof.
  induction l as [|x l IH]; [done|]. rewrite filter_cons.
  destruct (decide (P x)); simpl; intros Hlen.
  - f_equal. apply IH. lia.
  - pose proof (length_filter P l). lia.
Qed.
End filter.

(** ** The first element that satisfies a predicate *)

Section head_filter.
Context {A : Type} (P : A → Prop) `{!∀ x, Decision (P x)}.

Lemma head_filter_None (l : list A) :
  head (filter P l) = None ↔ Forall (λ y, ¬ P y) l.
Proof.
  rewrite head_None. split.
  - intros Hn. apply Forall_forall. intros y Hy HP.
    eapply (not_elem_of_nil y). rewrite <-Hn. by apply list_elem_of_filter.
  - intros Hl. by apply filter_none.
Qed.

End head_filter.

(** ** Images of duplicate-free lists *)

Section fmap.
Context {A B : Type} (f : A → B).
Implicit Types (l : list A).

Lemma NoDup_fmap_elem_inj l x y :
  NoDup (f <$> l) → x ∈ l → y ∈ l → f x = f y → x = y.
Proof.
  induction l as [|z l IH]; csimpl; [by intros _ ?%elem_of_nil|].
  intros [Hz Hnd]%NoDup_cons [->|Hx]%elem_of_cons [->|Hy]%elem_of_cons Hf;
    [done| | |by apply IH].
  - destruct Hz. rewrite Hf. by apply list_elem_of_fmap_2.
  - destruct Hz. rewrite <-Hf. by apply list_elem_of_fmap_2.
Qed.

Lemma filter_fmap_eq `{!EqDecision B} l x :
  NoDup (f <$> l) → x ∈ l → filter (λ y, f y = f x) l = [x].
Proof.
  induction l as [|z l IH]; csimpl; [by intros _ ?%elem_of_nil|].
  intros [Hz Hnd]%NoDup_cons [->|Hx]%elem_of_cons.
  - rewrite filter_cons_True by done. f_equal. apply filter_none, Forall_forall.
    intros y Hy Hf. apply Hz. rewrite <-Hf. by apply list_elem_of_fmap_2.
  - rewrite filter_cons_False; [by apply IH|].
    intros Hf. apply Hz. rewrite Hf. by apply list_elem_of_fmap_2.
Qed.

Lemma filter_fmap (P : B → Prop) `{!∀ y, Decision (P y)} l :
  filter P (f <$> l) = f <$> filter (λ x, P (f x)) l.
Proof.
  induction l as [|x l IH]; [done|].
  csimpl. rewrite !filter_cons. simpl. case_decide; by rewrite IH.
Qed.
End fmap.

(** Pairs are distinct when, for every first component, the second
    components that come with it are. *)
Lemma NoDup_by_fst {A B} `{EqDecision A} (l : list (A * B)) :
  (∀ a, NoDup (filter (λ p, p.1 = a) l).*2) → NoDup l.
Proof.
  intros H. induction l as [|[a b] l IH]; [constructor|]. constructor.
  - intros Hin. specialize (H a). rewrite filter_cons_True in H by done.
    csimpl in H. apply NoDup_cons in H as [Hb _]. apply Hb.
    apply list_elem_of_fmap. exists (a, b). split; [done|].
    by apply list_elem_of_filter.
  - apply IH. intros a'. specialize (H a'). rewrite filter_cons in H.
    case_decide; [|done]. csimpl in H. by apply NoDup_cons in H as [_ ?].
Qed.

(** A permutation of at most two elements is the identity or the
    swap. *)
Lemma Permutation_length_le_2 {A} (l k : list A) :
  l ≡ₚ k → length l ≤ 2 → l = k ∨ ∃ x y, l = [x; y] ∧ k = [y; x].
Proof.
  intros Hp Hl. destruct l as [|x [|y [|z l]]]; simpl in Hl; [| | |lia].
  - left. symmetry. by apply Permutation_nil.
  - left. by apply Permutation_singleton_l.
  - apply Permutation_length_2_inv in Hp as [->| ->]; eauto.
Qed.

(** ** Picking positions of a list *)

Section lookup.
Context {A : Type}.
Implicit Types (l k : list A).

Lemma omap_lookup_seq_app k l :
  omap (λ i, (k ++ l) !! i) (seq (length k) (length l)) = l.
Proof.
  revert k. induction l as [|x l IH]; intros k; csimpl; [done|].
  rewrite list_lookup_middle by done. csimpl. f_equal.
  specialize (IH (k ++ [x])).
  by rewrite <-app_assoc, length_app, Nat.add_1_r in IH.
Qed.

Lemma omap_lookup_seq l : omap (λ i, l !! i) (seq 0 (length l)) = l.
Proof. apply (omap_lookup_seq_app []). Qed.

Lemma omap_lookup_subseteq l (idx : list nat) : omap (λ i, l !! i) idx ⊆ l.
Proof.
  intros x (i & _ & Hi)%list_elem_of_omap. by eapply list_elem_of_lookup_2.
Qed.
End lookup.

(** ** Look-up by label

    A row of a table with named columns is a list of (label, value)
    pairs; [alookup] is the access by label, which finds the first
    column of that name. *)

Section alookup.
Context `{EqDecision K} {A : Type}.
Implicit Types (k : K) (l : list (K * A)).

Fixpoint alookup k l : option A :=
  match l with
  | [] => None
  | (k', v) :: l' => if decide (k = k') then Some v else alookup k l'
  end.

Lemma alookup_Some_elem_of k v l : alookup k l = Some v → (k, v) ∈ l.
Proof.
  induction l as [|[k' v'] l IH]; simpl; [done|].
  case_decide; [intros [= ->]; subst; by left|]. intros ?. right. by apply IH.
Qed.

Lemma alookup_is_Some k l : is_Some (alookup k l) ↔ k ∈ l.*1.
Proof.
  induction l as [|[k' v'] l IH]; csimpl.
  { split; [by intros [??]|by intros ?%elem_of_nil]. }
  rewrite elem_of_cons, <-IH. case_decide; [|tauto].
  split; [by left|by eexists].
Qed.

Lemma alookup_NoDup k v l : NoDup l.*1 → (k, v) ∈ l → alookup k l = Some v.
Proof.
  induction l as [|[k' v'] l IH]; csimpl; [by intros _ ?%elem_of_nil|].
  intros [Hk Hnd]%NoDup_cons [[= -> ->]|Hin]%elem_of_cons.
  - by rewrite decide_True.
  - rewrite decide_False; [by apply IH|].
    intros ->. apply Hk. by apply (list_elem_of_fmap_2 fst) in Hin.
Qed.

Lemma alookup_fmap (f : A → K) (g : A → A) (x : A) (xs : list A) :
  Inj (=) (=) f → x ∈ xs → alookup (f x) ((λ y, (f y, g y)) <$> xs) = Some (g x).
Proof.
  intros Hf. induction xs as [|y xs IH]; csimpl; [by intros ?%elem_of_nil|].
  case_decide as Heq; [by apply Hf in Heq as ->|].
  intros [->|?]%elem_of_cons; [done|by apply IH].
Qed.
End alookup.

#[export] Hint Rewrite @filter_nil @filter_idemp : frame_simpl.
#[export] Hint Resolve Forall_filter_holds sublist_filter : frame.
