(* ===== verification/Order.v ===== *)
(** * Order: the key types of the script and their Python order

    The script sorts and groups by three kinds of keys: integers (the
    Year column), strings (Country, Industry) and pairs of them (the
    two-key group-by of the trend tab).  [PyOrd] is the interface the
    sorting and grouping components are proved against: a decidable
    total order with decidable equality.  The instances below are the
    orders Python uses: [<=] on integers, code-point order on strings,
    lexicographic order on tuples. *)

From Stdlib Require Import OrderedTypeEx.
From S2P Require Import Prelude.

Class PyOrd (K : Type) := {
  py_le : relation K;
  py_eq_dec :: EqDecision K;
  py_le_dec :: RelDecision py_le;
  py_le_po :: PartialOrder py_le;
  py_le_total :: Total py_le;
}.
#[global] Hint Mode PyOrd ! : typeclass_instances.
Arguments py_le {K _} _ _ : simpl never.

Infix "⪯" := py_le (at level 70) : frame_scope.
Notation "(⪯)" := py_le (only parsing) : frame_scope.

(** The strict order and the boolean test the code's comparisons use. *)
Definition py_lt `{PyOrd K} (x y : K) : Prop := x ⪯ y ∧ x ≠ y.
Definition py_leb `{PyOrd K} (x y : K) : bool := bool_decide (x ⪯ y).

Infix "≺" := py_lt (at level 70) : frame_scope.

(** ** Integers *)

#[export] Instance Z_PyOrd : PyOrd Z := {| py_le := Z.le |}.

(** ** Strings

    [str_le] is [String.leb], the lexicographic order on the bytes. *)

Definition str_le (s1 s2 : string) : Prop := String.leb s1 s2 = true.

#[export] Instance str_le_dec : RelDecision str_le.
Proof. intros s1 s2. unfold str_le. apply _. Defined.

Lemma str_le_alt s1 s2 : str_le s1 s2 ↔ String_as_OT.lt s1 s2 ∨ s1 = s2.
Proof.
  unfold str_le, String.leb.
  rewrite <-String_as_OT.cmp_lt, <-String_as_OT.cmp_eq.
  unfold String_as_OT.cmp. destruct (String.compare s1 s2); intuition congruence.
Qed.

#[export] Instance str_le_po : PartialOrder str_le.
Proof.
  split; [split|].
  - intros s. apply str_le_alt. by right.
  - intros s1 s2 s3 [H12| ->]%str_le_alt [H23| ->]%str_le_alt;
      apply str_le_alt; eauto using String_as_OT.lt_trans.
  - intros s1 s2. apply String.leb_antisym.
Qed.

#[export] Instance str_le_total : Total str_le.
Proof. intros s1 s2. apply String.leb_total. Qed.

#[export] Instance string_PyOrd : PyOrd string := {| py_le := str_le |}.

(** ** Tuples: lexicographic order *)

Section pair.
Context `{PyOrd A, PyOrd B}.

Definition pair_le (p q : A * B) : Prop :=
  p.1 ≺ q.1 ∨ (p.1 = q.1 ∧ p.2 ⪯ q.2).

#[export] Instance pair_le_dec : RelDecision pair_le.
Proof. intros p q. unfold pair_le, py_lt. apply _. Defined.

Lemma py_lt_trans_le (x y z : A) : x ≺ y → y ⪯ z → x ≺ z.
Proof.
  intros [Hxy Hne] Hyz. split; [by etrans|].
  intros ->. apply Hne. by apply (anti_symm (⪯)).
Qed.

#[export] Instance pair_le_po : PartialOrder pair_le.
Proof.
  split; [split|].
  - intros [a b]. right. done.
  - intros [a1 b1] [a2 b2] [a3 b3]; unfold pair_le; simpl.
    intros [H12|[-> H12]] [H23|[-> H23]]; eauto.
    + left. eapply py_lt_trans_le; [done|apply H23].
    + right. split; [done|by etrans].
  - intros [a1 b1] [a2 b2]; unfold pair_le, py_lt; simpl.
    intros [[H1 Hne]|[-> H1]] [[H2 ?]|[? H2]]; simplify_eq.
    + destruct Hne. by apply (anti_symm (⪯)).
    + f_equal. by apply (anti_symm (⪯)).
Qed.

#[export] Instance pair_le_total : Total pair_le.
Proof.
  intros [a1 b1] [a2 b2]. unfold pair_le, py_lt; simpl.
  destruct (decide (a1 = a2)) as [->|Hne].
  - destruct (total (⪯) b1 b2); eauto.
  - destruct (total (⪯) a1 a2); eauto.
Qed.

#[export] Instance pair_PyOrd : PyOrd (A * B) := {| py_le := pair_le |}.
End pair.

(** ** Consequences of the interface *)

Section py_ord.
Context `{PyOrd K}.
Implicit Types x y z : K.

Lemma py_leb_le x y : py_leb x y = true ↔ x ⪯ y.
Proof. unfold py_leb. apply bool_decide_eq_true. Qed.

Lemma py_le_refl x : x ⪯ x.
Proof. done. Qed.

Lemma py_not_le x y : ¬ x ⪯ y → y ⪯ x.
Proof. destruct (total (⪯) x y); tauto. Qed.

Lemma py_not_le_lt x y : ¬ x ⪯ y ↔ y ≺ x.
Proof.
  split.
  - intros Hn. split; [by apply py_not_le|]. intros ->. by apply Hn.
  - intros [Hyx Hne] Hxy. apply Hne. by apply (anti_symm (⪯)).
Qed.

Lemma py_lt_irrefl x : ¬ x ≺ x.
Proof. by intros [_ ?]. Qed.

Lemma py_lt_le x y : x ≺ y → x ⪯ y.
Proof. by intros [? _]. Qed.

Lemma py_le_lt_eq x y : x ⪯ y ↔ x ≺ y ∨ x = y.
Proof.
  split; [|by intros [[]| ->]].
  destruct (decide (x = y)); [by right|by left].
Qed.

#[export] Instance py_lt_dec : RelDecision (py_lt (K:=K)).
Proof. intros x y. unfold py_lt. apply _. Defined.

#[export] Instance flip_py_le_total : Total (flip (py_le (K:=K))).
Proof. intros x y. destruct (total (⪯) x y); auto. Qed.
End py_ord.

#[export] Hint Resolve py_le_refl py_not_le py_lt_le : frame.
