(* ===== verification/Sorting.v ===== *)
(** * Sorting: a stable sort by key

    [sort_by R key] is the insertion sort that orders a list by the
    keys of its elements and keeps elements of equal key in their
    original order.  It is the model of Python's [sorted] (with
    [key := id], see [sorted]) and of pandas' [sort_values]
    ([sort_desc_by] is the descending variant, computed as pandas
    computes it: reverse, sort ascending, reverse).

    The lemmas are stated for an arbitrary decidable relation on keys,
    each under the order axioms it needs; the components use them at
    the [PyOrd] instances of [Order]. *)

From stdpp Require Export sorting.
From S2P Require Import Prelude Order.

Section sort_by.
Context {A K : Type} (R : relation K) `{!RelDecision R} (key : A → K).
Implicit Types (x y : A) (l k : list A).

(** The order on elements induced by the order on keys. *)
Definition key_rel : relation A := λ x y, R (key x) (key y).

(** [insert_by x l] puts [x] before the first element whose key is
    not smaller than its own. *)
Fixpoint insert_by (x : A) (l : list A) : list A :=
  match l with
  | [] => [x]
  | y :: l' =>
      if decide (R (key x) (key y)) then x :: y :: l' else y :: insert_by x l'
  end.

Definition sort_by (l : list A) : list A := foldr insert_by [] l.

(** Descending order, ties in original order. *)
Definition sort_desc_by (l : list A) : list A :=
  reverse (sort_by (reverse l)).

(** ** Permutation *)

Lemma insert_by_Permutation x l : insert_by x l ≡ₚ x :: l.
Proof.
  induction l as [|y l IH]; simpl; [done|].
  case_decide; [done|]. by rewrite IH, Permutation_swap.
Qed.

Lemma sort_by_Permutation l : sort_by l ≡ₚ l.
Proof.
  induction l as [|x l IH]; simpl; [done|].
  by rewrite insert_by_Permutation, IH.
Qed.

Lemma sort_desc_by_Permutation l : sort_desc_by l ≡ₚ l.
Proof.
  unfold sort_desc_by.
  by rewrite reverse_Permutation, sort_by_Permutation, reverse_Permutation.
Qed.

Lemma elem_of_sort_by x l : x ∈ sort_by l ↔ x ∈ l.
Proof. by rewrite sort_by_Permutation. Qed.

Lemma length_sort_by l : length (sort_by l) = length l.
Proof. by rewrite sort_by_Permutation. Qed.

Lemma NoDup_sort_by l : NoDup (sort_by l) ↔ NoDup l.
Proof. by rewrite sort_by_Permutation. Qed.

Lemma sort_by_nil_inv l : sort_by l = [] → l = [].
Proof.
  intros Hl. apply Permutation_nil_r. by rewrite <-Hl, sort_by_Permutation.
Qed.

(** ** Sortedness *)

Lemma HdRel_insert_by z x l :
  key_rel z x → HdRel key_rel z l → HdRel key_rel z (insert_by x l).
Proof. destruct 2; simpl; [|case_decide]; by constructor. Qed.

Lemma Sorted_insert_by `{!Total R} x l :
  Sorted key_rel l → Sorted key_rel (insert_by x l).
Proof.
  induction 1 as [|y l Hl IH Hhd]; simpl; [by repeat constructor|].
  case_decide as Hxy.
  - by repeat constructor.
  - constructor; [done|]. apply HdRel_insert_by; [|done].
    by destruct (total R (key x) (key y)).
Qed.

Lemma Sorted_sort_by `{!Total R} l : Sorted key_rel (sort_by l).
Proof. induction l; simpl; [constructor|by apply Sorted_insert_by]. Qed.

Lemma StronglySorted_sort_by `{!Total R, !Transitive R} l :
  StronglySorted key_rel (sort_by l).
Proof.
  apply Sorted_StronglySorted, Sorted_sort_by.
  intros x y z. unfold key_rel. apply transitivity.
Qed.

Lemma Sorted_sort_desc_by `{!Total R} l :
  Sorted (flip key_rel) (sort_desc_by l).
Proof. apply Sorted_reverse, Sorted_sort_by. Qed.

(** ** A sorted list is left as it is *)

Lemma insert_by_HdRel x l : HdRel key_rel x l → insert_by x l = x :: l.
Proof. destruct 1 as [|y l Hxy]; simpl; [done|]. by rewrite decide_True. Qed.

Lemma sort_by_Sorted l : Sorted key_rel l → sort_by l = l.
Proof.
  induction 1 as [|x l Hl IH Hhd]; simpl; [done|].
  by rewrite IH, insert_by_HdRel.
Qed.

Lemma sort_by_idemp `{!Total R} l : sort_by (sort_by l) = sort_by l.
Proof. apply sort_by_Sorted, Sorted_sort_by. Qed.

(** ** Stability: elements of one key keep their order *)

Lemma filter_insert_by `{!Reflexive R} (P : K → Prop)
    `{!∀ c, Decision (P c)} x l :
  (∀ y, y ∈ l → P (key x) → P (key y) → R (key x) (key y)) →
  filter (λ y, P (key y)) (insert_by x l) = filter (λ y, P (key y)) (x :: l).
Proof.
  induction l as [|y l IH]; intros HP; simpl; [done|].
  case_decide as Hxy; [done|].
  rewrite (filter_cons _ y), IH by (intros; apply HP; [by right|done..]).
  rewrite !(filter_cons _ x), !(filter_cons _ y).
  destruct (decide (P (key x))), (decide (P (key y))); try done.
  destruct Hxy. apply HP; [by left|done..].
Qed.

Lemma sort_by_stable `{!Reflexive R, !EqDecision K} (c : K) l :
  filter (λ y, key y = c) (sort_by l) = filter (λ y, key y = c) l.
Proof.
  induction l as [|x l IH]; simpl; [done|].
  pose proof (filter_insert_by (λ c', c' = c) x (sort_by l)) as ->;
    [|by intros y _ -> ->].
  by rewrite !filter_cons, IH.
Qed.

Lemma sort_desc_by_stable `{!Reflexive R, !EqDecision K} (c : K) l :
  filter (λ y, key y = c) (sort_desc_by l) = filter (λ y, key y = c) l.
Proof.
  unfold sort_desc_by.
  by rewrite filter_reverse, sort_by_stable, filter_reverse, reverse_involutive.
Qed.

Lemma StronglySorted_sort_desc_by `{!Total R, !Transitive R} l :
  StronglySorted (flip key_rel) (sort_desc_by l).
Proof.
  apply Sorted_StronglySorted, Sorted_sort_desc_by.
  intros x y z. unfold flip, key_rel. intros ??. by etrans.
Qed.

Lemma elem_of_sort_desc_by x l : x ∈ sort_desc_by l ↔ x ∈ l.
Proof. by rewrite sort_desc_by_Permutation. Qed.

Lemma length_sort_desc_by l : length (sort_desc_by l) = length l.
Proof. by rewrite sort_desc_by_Permutation. Qed.

(** ** Sorting commutes with filtering *)

Lemma insert_by_filter `{!Transitive R} (P : A → Prop)
    `{!∀ x, Decision (P x)} x l :
  StronglySorted key_rel l → P x →
  filter P (insert_by x l) = insert_by x (filter P l).
Proof.
  intros Hl HPx. induction Hl as [|y l Hl IH Hall]; simpl.
  { by rewrite filter_cons_True. }
  case_decide as Hxy.
  - rewrite filter_cons_True by done. rewrite (filter_cons _ y).
    case_decide; simpl; [by rewrite decide_True|].
    symmetry. apply insert_by_HdRel.
    assert (Forall (key_rel x) (filter P l)) as [|z ? ? _]; [|by constructor..].
    apply Forall_forall. intros z [_ Hz]%list_elem_of_filter.
    rewrite Forall_forall in Hall. unfold key_rel. etrans; [done|by apply Hall].
  - rewrite !(filter_cons _ y), IH.
    case_decide; simpl; [by rewrite decide_False|done].
Qed.

Lemma filter_insert_by_False (P : A → Prop) `{!∀ x, Decision (P x)} x l :
  ¬ P x → filter P (insert_by x l) = filter P l.
Proof.
  intros HPx. induction l as [|y l IH]; simpl.
  { by rewrite filter_cons_False. }
  case_decide; [by rewrite filter_cons_False|].
  by rewrite !(filter_cons _ y), IH.
Qed.

Lemma sort_by_filter `{!Total R, !Transitive R} (P : A → Prop)
    `{!∀ x, Decision (P x)} l :
  filter P (sort_by l) = sort_by (filter P l).
Proof.
  induction l as [|x l IH]; simpl; [done|].
  rewrite filter_cons. case_decide as HPx; simpl.
  - rewrite insert_by_filter, IH; auto using StronglySorted_sort_by.
  - by rewrite filter_insert_by_False.
Qed.

(** ** The result depends on the input only up to permutation when no
    two elements share a key *)

Lemma sort_by_unique `{!Total R, !Transitive R, !AntiSymm (=) R} l k :
  NoDup (key <$> l) → l ≡ₚ k → sort_by l = sort_by k.
Proof.
  intros Hnd Hlk.
  apply (StronglySorted_unique_strong key_rel (sort_by l) (sort_by k));
    [|apply StronglySorted_sort_by..|by rewrite !sort_by_Permutation].
  intros x y Hx Hy Hxy Hyx.
  rewrite elem_of_sort_by in Hx, Hy. rewrite <-Hlk in Hy.
  apply (NoDup_fmap_elem_inj key l); [done..|by apply (anti_symm R)].
Qed.
End sort_by.

(** ** Sorting the image of a list *)

Section sort_by_fmap.
Context {A B K : Type} (R : relation K) `{!RelDecision R}.
Context (key : A → K) (f : B → A).

Lemma insert_by_fmap x l :
  insert_by R key (f x) (f <$> l) = f <$> insert_by R (key ∘ f) x l.
Proof.
  induction l as [|y l IH]; csimpl; [done|].
  case_decide; csimpl; [done|]. by rewrite IH.
Qed.

Lemma sort_by_fmap l : sort_by R key (f <$> l) = f <$> sort_by R (key ∘ f) l.
Proof.
  induction l as [|x l IH]; csimpl; [done|].
  by rewrite IH, insert_by_fmap.
Qed.
End sort_by_fmap.

(** The sort depends on the key function only through its values. *)

Section sort_by_ext.
Context {A K : Type} (R : relation K) `{!RelDecision R}.
Implicit Types (f g : A → K).

Lemma insert_by_ext f g x l :
  (∀ y, f y = g y) → insert_by R f x l = insert_by R g x l.
Proof.
  intros Hfg. induction l as [|y l IH]; simpl; [done|].
  by rewrite !Hfg, IH.
Qed.

Lemma sort_by_ext f g l : (∀ y, f y = g y) → sort_by R f l = sort_by R g l.
Proof.
  intros Hfg. induction l as [|x l IH]; simpl; [done|].
  rewrite IH. by apply insert_by_ext.
Qed.
End sort_by_ext.

#[export] Hint Resolve sort_by_Permutation Sorted_sort_by
  StronglySorted_sort_by : frame.
#[export] Hint Rewrite @length_sort_by @elem_of_sort_by : frame_simpl.

(** ** Python's [sorted]

    [sorted l] orders keys by the order of their type; on keys the
    order is antisymmetric, so the result is determined by the
    elements alone. *)

Section sorted.
Context `{PyOrd K}.
Implicit Types l k : list K.

Definition sorted (l : list K) : list K := sort_by (⪯) id l.

Lemma sorted_Permutation l : sorted l ≡ₚ l.
Proof. apply sort_by_Permutation. Qed.

Lemma elem_of_sorted x l : x ∈ sorted l ↔ x ∈ l.
Proof. apply elem_of_sort_by. Qed.

Lemma length_sorted l : length (sorted l) = length l.
Proof. apply length_sort_by. Qed.

Lemma NoDup_sorted l : NoDup (sorted l) ↔ NoDup l.
Proof. apply NoDup_sort_by. Qed.

Lemma Sorted_sorted l : Sorted (⪯) (sorted l).
Proof. apply (Sorted_sort_by (⪯) id). Qed.

Lemma StronglySorted_sorted l : StronglySorted (⪯) (sorted l).
Proof. apply (StronglySorted_sort_by (⪯) id). Qed.

Lemma sorted_Sorted l : Sorted (⪯) l → sorted l = l.
Proof. apply (sort_by_Sorted (⪯) id). Qed.

Lemma sorted_idemp l : sorted (sorted l) = sorted l.
Proof. apply sort_by_idemp; apply _. Qed.

Lemma sorted_filter (P : K → Prop) `{!∀ x, Decision (P x)} l :
  filter P (sorted l) = sorted (filter P l).
Proof. apply sort_by_filter; apply _. Qed.

#[export] Instance sorted_Proper : Proper ((≡ₚ) ==> (=)) sorted.
Proof.
  intros l k Hlk.
  apply (Sorted_unique (⪯)); auto using Sorted_sorted.
  by rewrite !sorted_Permutation.
Qed.

(** With distinct keys the order is strict. *)
Lemma Sorted_lt_sorted l : NoDup l → Sorted py_lt (sorted l).
Proof.
  intros Hnd%NoDup_sorted.
  pose proof (StronglySorted_sorted l) as Hs.
  induction Hs as [|x k Hk IH Hall]; [constructor|].
  apply NoDup_cons in Hnd as [Hx Hnd].
  constructor; [by apply IH|].
  destruct Hall as [|y k' Hxy _]; constructor.
  split; [done|]. intros ->. apply Hx. by left.
Qed.

Lemma StronglySorted_lt_sorted l : NoDup l → StronglySorted py_lt (sorted l).
Proof.
  intros Hnd%NoDup_sorted.
  pose proof (StronglySorted_sorted l) as Hs.
  induction Hs as [|x k Hk IH Hall]; [constructor|].
  apply NoDup_cons in Hnd as [Hx Hnd].
  constructor; [by apply IH|].
  apply Forall_forall. intros y Hy. split.
  - by apply (proj1 (Forall_forall _ _) Hall).
  - by intros ->.
Qed.
End sorted.

(** A sub-list selected by a predicate keeps the order. *)
Lemma StronglySorted_filter {A} (R : relation A) (P : A → Prop)
    `{!∀ x, Decision (P x)} (l : list A) :
  StronglySorted R l → StronglySorted R (filter P l).
Proof.
  induction 1 as [|x l Hl IH Hall]; [constructor|].
  rewrite filter_cons. case_decide; [|done].
  constructor; [done|]. apply Forall_forall.
  intros y [_ Hy]%list_elem_of_filter.
  by apply (proj1 (Forall_forall _ _) Hall).
Qed.

#[export] Hint Resolve sorted_Permutation Sorted_sorted : frame.
#[export] Hint Rewrite @length_sorted @elem_of_sorted @sorted_idemp : frame_simpl.
