(* ===== verification/Numeric.v ===== *)
(** * Numeric: the values of float64 cells and the NaN-skipping reductions

    A float64 cell of the table is a [cell V := option V]: [None] is
    NaN, the value pandas gives a missing field.  [NumOps] is the
    signature of the arithmetic the script performs on cells (addition,
    division by a count, conversion from an integer, comparison);
    [Number] adds the laws of exact arithmetic.  The reductions and
    their theorems are stated against this interface; the rationals
    [Qc] implement it, and every concrete evaluation runs there.

    [nansum], [nancount] and [nanmean] are [Series.sum], [Series.count]
    and [Series.mean] of pandas with their default [skipna=True]:
    NaN cells are dropped, the sum of nothing is zero, the mean of
    nothing is NaN. *)

From Stdlib Require Import QArith Qcanon.
From stdpp Require Import numbers.
From S2P Require Import Prelude.
#[local] Close Scope Q_scope.
#[local] Close Scope Qc_scope.

(** ** The interface *)

Class NumOps (V : Type) := {
  nzero : V;
  nadd : V → V → V;
  ndiv : V → nat → V;
  nofZ : Z → V;
  nle : relation V;
  num_eq_dec :: EqDecision V;
  nle_dec :: RelDecision nle;
}.
#[global] Hint Mode NumOps ! : typeclass_instances.
Arguments nadd {V _} _ _ : simpl never.
Arguments ndiv {V _} _ _ : simpl never.
Arguments nle {V _} _ _ : simpl never.

(** [nrep n x] is [x + (x + ... + 0)], [n] times. *)
Definition nrep `{NumOps V} (n : nat) (x : V) : V := Nat.iter n (nadd x) nzero.

Class Number (V : Type) `{NumOps V} := {
  nadd_comm :: Comm (=) (nadd (V:=V));
  nadd_assoc :: Assoc (=) (nadd (V:=V));
  nadd_left_id :: LeftId (=) nzero (nadd (V:=V));
  nle_po :: PartialOrder (nle (V:=V));
  nle_total :: Total (nle (V:=V));
  nadd_le_mono (x1 x2 y1 y2 : V) :
    nle x1 x2 → nle y1 y2 → nle (nadd x1 y1) (nadd x2 y2);
  ndiv_le_mono (n : nat) (x y : V) : nle x y → nle (ndiv x n) (ndiv y n);
  ndiv_nrep (n : nat) (x : V) : n ≠ 0 → ndiv (nrep n x) n = x;
}.
#[global] Hint Mode Number ! - : typeclass_instances.

Infix "⊕" := nadd (at level 50, left associativity) : frame_scope.
Infix "≼" := nle (at level 70) : frame_scope.

(** A cell of a float64 column. *)
Abbreviation cell V := (option V).

(** ** The reductions *)

Section reductions.
Context `{NumOps V}.
Implicit Types (s : list (cell V)) (l : list V).

(** [Series.dropna]. *)
Definition dropna (s : list (cell V)) : list V := omap id s.

(** The accumulation loop [acc += x] from zero. *)
Definition sum_values (l : list V) : V := foldl nadd nzero l.

Definition nansum (s : list (cell V)) : V := sum_values (dropna s).
Definition nancount (s : list (cell V)) : nat := length (dropna s).

Definition nanmean (s : list (cell V)) : cell V :=
  if decide (nancount s = 0) then None
  else Some (ndiv (nansum s) (nancount s)).

(** The mean of an int64 column: the integers are added exactly and
    the sum is converted. *)
Definition int_mean (s : list Z) : cell V :=
  if decide (length s = 0) then None
  else Some (ndiv (nofZ (foldl Z.add 0%Z s)) (length s)).

(** [dropna] on lists *)

Lemma dropna_nil : dropna [] = [].
Proof. done. Qed.
Lemma dropna_cons_Some x s : dropna (Some x :: s) = x :: dropna s.
Proof. done. Qed.
Lemma dropna_cons_None s : dropna (None :: s) = dropna s.
Proof. done. Qed.
Lemma dropna_app s1 s2 : dropna (s1 ++ s2) = dropna s1 ++ dropna s2.
Proof. apply omap_app. Qed.
Lemma dropna_Some l : dropna (Some <$> l) = l.
Proof. induction l; csimpl; by f_equal. Qed.
Lemma elem_of_dropna x s : x ∈ dropna s ↔ Some x ∈ s.
Proof.
  unfold dropna. rewrite list_elem_of_omap. split.
  - by intros ([y|] & ? & ?); simplify_eq/=.
  - by exists (Some x).
Qed.

#[export] Instance dropna_Permutation : Proper ((≡ₚ) ==> (≡ₚ)) dropna.
Proof. apply omap_Permutation. Qed.

Lemma dropna_filter (P : cell V → Prop) `{!∀ c, Decision (P c)} s :
  dropna (filter P s) = filter (λ x, P (Some x)) (dropna s).
Proof.
  induction s as [|[x|] s IH]; [done|..].
  - rewrite filter_cons, dropna_cons_Some, filter_cons.
    case_decide; by rewrite ?dropna_cons_Some, IH.
  - rewrite filter_cons, dropna_cons_None.
    case_decide; by rewrite ?dropna_cons_None, IH.
Qed.

(** The count *)

Lemma nancount_nil : nancount [] = 0.
Proof. done. Qed.
Lemma nancount_le s : nancount s ≤ length s.
Proof.
  unfold nancount. induction s as [|[x|] s IH]; csimpl; lia.
Qed.
Lemma nancount_app s1 s2 : nancount (s1 ++ s2) = nancount s1 + nancount s2.
Proof. unfold nancount. by rewrite dropna_app, length_app. Qed.
Lemma nancount_0 s : nancount s = 0 ↔ Forall (λ c, c = None) s.
Proof.
  unfold nancount. induction s as [|[x|] s IH]; csimpl.
  - by split; [constructor|].
  - split; [done|]. by intros [? _]%Forall_cons.
  - rewrite Forall_cons. tauto.
Qed.

#[export] Instance nancount_Permutation : Proper ((≡ₚ) ==> (=)) nancount.
Proof. intros s1 s2 Hs. unfold nancount. by rewrite Hs. Qed.

(** The mean, on the cases the code can meet *)

Lemma nanmean_nil : nanmean [] = None.
Proof. done. Qed.

Lemma nanmean_None s : nanmean s = None ↔ Forall (λ c, c = None) s.
Proof. unfold nanmean. rewrite <-nancount_0. by case_decide. Qed.

Lemma nanmean_is_Some s : is_Some (nanmean s) ↔ ∃ x, Some x ∈ s.
Proof.
  rewrite <-not_eq_None_Some, nanmean_None, <-nancount_0.
  unfold nancount. setoid_rewrite <-elem_of_dropna.
  destruct (dropna s) as [|x l]; simpl.
  - split; [done|]. by intros [? ?%elem_of_nil].
  - split; [|done]. intros _. exists x. by left.
Qed.

Lemma nanmean_Some s m :
  nanmean s = Some m ↔ nancount s ≠ 0 ∧ m = ndiv (nansum s) (nancount s).
Proof.
  unfold nanmean. case_decide; [by split; [|intros []]|].
  split; [by intros [= <-]|by intros [_ ->]].
Qed.
End reductions.

#[export] Hint Rewrite @dropna_nil @dropna_cons_Some @dropna_cons_None
  @dropna_app @dropna_Some @nancount_app @nanmean_nil : frame_simpl.

(** ** Consequences of exact arithmetic *)

Section exact.
Context `{Number V}.
Implicit Types (s : list (cell V)) (l : list V) (x y c : V).

#[export] Instance nadd_right_id : RightId (=) nzero (nadd (V:=V)).
Proof. intros x. by rewrite (comm nadd), (left_id nzero nadd). Qed.

Lemma foldl_nadd x l : foldl nadd x l = x ⊕ sum_values l.
Proof.
  unfold sum_values. revert x.
  induction l as [|y l IH]; intros x; simpl.
  - by rewrite (right_id nzero nadd).
  - by rewrite IH, (IH (nzero ⊕ y)), (left_id nzero nadd), (assoc nadd).
Qed.

Lemma sum_values_nil : sum_values (V:=V) [] = nzero.
Proof. done. Qed.

Lemma sum_values_cons x l : sum_values (x :: l) = x ⊕ sum_values l.
Proof.
  unfold sum_values at 1. simpl.
  by rewrite foldl_nadd, (left_id nzero nadd).
Qed.

Lemma sum_values_app l1 l2 :
  sum_values (l1 ++ l2) = sum_values l1 ⊕ sum_values l2.
Proof. unfold sum_values at 1. by rewrite foldl_app, foldl_nadd. Qed.

Lemma sum_values_foldr l : sum_values l = foldr nadd nzero l.
Proof. induction l; simpl; [done|]. by rewrite sum_values_cons; f_equal. Qed.

#[export] Instance sum_values_Permutation :
  Proper ((≡ₚ) ==> (=)) (sum_values (V:=V)).
Proof.
  induction 1 as [|x l1 l2 _ IH|x y l|l1 l2 l3 _ IH1 _ IH2];
    rewrite ?sum_values_cons; [done|by f_equal| |congruence].
  by rewrite !(assoc nadd), (comm nadd y x).
Qed.

#[export] Instance nansum_Permutation : Proper ((≡ₚ) ==> (=)) (nansum (V:=V)).
Proof. intros s1 s2 Hs. unfold nansum. by rewrite Hs. Qed.

#[export] Instance nanmean_Permutation :
  Proper ((≡ₚ) ==> (=)) (nanmean (V:=V)).
Proof.
  intros s1 s2 Hs. unfold nanmean.
  by rewrite (nancount_Permutation _ _ Hs), (nansum_Permutation _ _ Hs).
Qed.

Lemma nansum_nil : nansum (V:=V) [] = nzero.
Proof. done. Qed.
Lemma nansum_cons_Some x s : nansum (Some x :: s) = x ⊕ nansum s.
Proof. apply sum_values_cons. Qed.
Lemma nansum_cons_None s : nansum (None :: s) = nansum s.
Proof. done. Qed.
Lemma nansum_app s1 s2 : nansum (s1 ++ s2) = nansum s1 ⊕ nansum s2.
Proof. unfold nansum. by rewrite dropna_app, sum_values_app. Qed.

Lemma nanmean_singleton x : nanmean [Some x] = Some x.
Proof.
  unfold nanmean. simpl. f_equal.
  rewrite nansum_cons_Some, nansum_nil. by apply (ndiv_nrep 1).
Qed.

(** Bounds: a sum of [n] values below [c] is below [n] times [c]. *)

Lemma sum_values_le_nrep c l :
  Forall (λ x, x ≼ c) l → sum_values l ≼ nrep (length l) c.
Proof.
  induction 1 as [|x l Hx _ IH]; [done|].
  rewrite sum_values_cons. by apply nadd_le_mono.
Qed.

Lemma sum_values_ge_nrep c l :
  Forall (λ x, c ≼ x) l → nrep (length l) c ≼ sum_values l.
Proof.
  induction 1 as [|x l Hx _ IH]; [done|].
  rewrite sum_values_cons. by apply nadd_le_mono.
Qed.

Lemma nanmean_le c s m :
  (∀ x, Some x ∈ s → x ≼ c) → nanmean s = Some m → m ≼ c.
Proof.
  intros Hs [Hn ->]%nanmean_Some.
  rewrite <-(ndiv_nrep (nancount s) c) by done.
  apply ndiv_le_mono, sum_values_le_nrep, Forall_forall.
  intros x Hx. by apply Hs, elem_of_dropna.
Qed.

Lemma nanmean_ge c s m :
  (∀ x, Some x ∈ s → c ≼ x) → nanmean s = Some m → c ≼ m.
Proof.
  intros Hs [Hn ->]%nanmean_Some.
  rewrite <-(ndiv_nrep (nancount s) c) at 1 by done.
  apply ndiv_le_mono, sum_values_ge_nrep, Forall_forall.
  intros x Hx. by apply Hs, elem_of_dropna.
Qed.

Lemma nanmean_const c s :
  (∀ x, Some x ∈ s → x = c) → (∃ x, Some x ∈ s) → nanmean s = Some c.
Proof.
  intros Hs [m Hm]%nanmean_is_Some. rewrite Hm. f_equal.
  apply (anti_symm nle).
  - apply (nanmean_le c s); [|done]. by intros x ->%Hs.
  - apply (nanmean_ge c s); [|done]. by intros x ->%Hs.
Qed.
End exact.

#[export] Hint Rewrite @sum_values_cons @sum_values_app @nansum_nil
  @nansum_cons_Some @nansum_cons_None @nansum_app @nanmean_singleton
  : frame_simpl.

(** ** The implementation on the rationals *)

Section Qc.
Local Open Scope Qc_scope.

Definition Qc_of_nat (n : nat) : Qc := Qc_of_Z (Z.of_nat n).
Definition Qc_div_count (x : Qc) (n : nat) : Qc := x / Qc_of_nat n.

#[export] Instance Qc_NumOps : NumOps Qc := {|
  nzero := 0; nadd := Qcplus; ndiv := Qc_div_count;
  nofZ := Qc_of_Z; nle := Qcle
|}.

Lemma Qc_of_nat_nonneg n : 0 ≤ Qc_of_nat n.
Proof.
  unfold Qc_of_nat. rewrite <-Z2Qc_inj_0.
  apply (proj1 (Z2Qc_inj_le _ _)). lia.
Qed.

Lemma Qc_of_nat_ne_0 n : n ≠ 0%nat → Qc_of_nat n ≠ 0.
Proof.
  unfold Qc_of_nat. rewrite <-Z2Qc_inj_0. intros Hn ?%Z2Qc_inj. lia.
Qed.

Lemma Qc_of_nat_0 : Qc_of_nat 0 = 0.
Proof. apply Z2Qc_inj_0. Qed.

Lemma Qc_of_nat_1 : Qc_of_nat 1 = 1.
Proof. apply Z2Qc_inj_1. Qed.

Lemma Qc_of_nat_S n : Qc_of_nat (S n) = 1 + Qc_of_nat n.
Proof.
  unfold Qc_of_nat. by rewrite Nat2Z.inj_succ, <-Z.add_1_l, Z2Qc_inj_add.
Qed.

Lemma Qc_nrep n x : nrep n x = Qc_of_nat n * x.
Proof.
  induction n as [|n IH].
  - change (Qc_of_nat 0) with (Qc_of_Z 0).
    by rewrite Z2Qc_inj_0, Qcmult_0_l.
  - change (nrep (S n) x) with (x + nrep n x). rewrite IH, Qc_of_nat_S. ring.
Qed.

Lemma Qc_inv_of_nat_nonneg n : 0 ≤ / Qc_of_nat n.
Proof.
  destruct (decide (n = 0%nat)) as [->|Hn]; [done|].
  apply Qclt_le_weak, Qcinv_pos.
  destruct (Qcle_lt_or_eq _ _ (Qc_of_nat_nonneg n)) as [|Heq]; [done|].
  by destruct (Qc_of_nat_ne_0 n).
Qed.

#[export] Instance Qc_Number : Number Qc.
Proof.
  split; try apply _.
  - intros x1 x2 y1 y2. apply Qcplus_le_compat.
  - intros n x y Hxy. apply Qcmult_le_compat_r; [done|].
    apply Qc_inv_of_nat_nonneg.
  - intros n x Hn. rewrite Qc_nrep.
    change (Qc_of_nat n * x / Qc_of_nat n = x).
    rewrite (Qcmult_comm (Qc_of_nat n)).
    by apply Qcdiv_mult_l, Qc_of_nat_ne_0.
Qed.
End Qc.
