(* ===== verification/Pearson.v ===== *)
(** * Pearson: the correlation coefficient of two columns

    [DataFrame.corr()] of pandas (line 414 of [src/app2.py]) computes,
    for every pair of numeric columns, Pearson's coefficient over the
    rows in which both cells are numbers.  pandas runs one pass over
    those rows with Welford's update of the two means, the two sums of
    squared deviations and the sum of their products ([welford]), and
    returns [covxy / sqrt (ssqdm_x * ssqdm_y)] clipped to the interval
    from -1 to 1, or NaN when there is no row or the divisor is zero.

    The numbers are the rationals [Qc].  A square root of a rational
    is in general not rational, so a coefficient [r] is kept as its
    sign and its square ([Coef]); the text the heat map prints for it
    is computed from these in [Heatmap].

    - [two_pass] is the textbook definition: the means first, then the
      sums over the centred values; [welford_two_pass] proves that
      the one-pass update computes exactly that.
    - [pearson] is the coefficient of the textbook definition;
      [nancorr_pearson] proves that pandas' result is that coefficient.
    - [cauchy_schwarz] gives [r * r ≤ 1], so that the clipping never
      changes an exact coefficient; [pearson_None] says that the
      coefficient is NaN exactly when one of the two columns is
      constant (which includes fewer than two rows); [pearson_swap],
      [pearson_diag] and [pearson_Permutation] give the symmetry of
      the matrix, its diagonal and its independence of row order. *)

From Stdlib Require Import QArith Qcanon.
From stdpp Require Import numbers.
From S2P Require Import Prelude Numeric.
#[local] Close Scope Q_scope.
#[local] Close Scope Qc_scope.

Section sums.
#[local] Open Scope Qc_scope.
Implicit Types (l : list Qc) (ps : list (Qc * Qc)) (p : Qc * Qc) (a b s t x : Qc).

(** ** Sums over the rows *)

Definition qsum l : Qc := foldr Qcplus 0 l.

Definition Sx ps : Qc := qsum ps.*1.
Definition Sy ps : Qc := qsum ps.*2.
Definition Sxx ps : Qc := qsum ((λ p, p.1 * p.1) <$> ps).
Definition Syy ps : Qc := qsum ((λ p, p.2 * p.2) <$> ps).
Definition Sxy ps : Qc := qsum ((λ p, p.1 * p.2) <$> ps).

(** The number of rows, as a number. *)
Definition count ps : Qc := Qc_of_nat (length ps).

(** The rows with [a] taken from the first and [b] from the second
    component. *)
Definition shift a b ps : list (Qc * Qc) := (λ p, (p.1 - a, p.2 - b)) <$> ps.

(** ** The textbook definition *)

Definition mean_x ps : Qc := Sx ps / count ps.
Definition mean_y ps : Qc := Sy ps / count ps.
Definition centered ps : list (Qc * Qc) := shift (mean_x ps) (mean_y ps) ps.

(** ** The one-pass update of pandas *)

(** The variables of the loop of [nancorr]. *)
Record Welford := mkWelford {
  nobs : nat;
  meanx : Qc;
  meany : Qc;
  ssqdm_x : Qc;
  ssqdm_y : Qc;
  covxy : Qc;
}.

Definition welford_init : Welford := mkWelford 0 0 0 0 0 0.

(** The body of the loop for one row [(vx, vy)]. *)
Definition welford_step (w : Welford) p : Welford :=
  let n := S (nobs w) in
  let dx := p.1 - meanx w in
  let dy := p.2 - meany w in
  let mx := meanx w + 1 / Qc_of_nat n * dx in
  let my := meany w + 1 / Qc_of_nat n * dy in
  mkWelford n mx my (ssqdm_x w + (p.1 - mx) * dx) (ssqdm_y w + (p.2 - my) * dy)
    (covxy w + (p.1 - mx) * dy).

Definition welford ps : Welford := foldl welford_step welford_init ps.

(** What the loop has computed, by the textbook definition. *)
Definition two_pass ps : Welford :=
  mkWelford (length ps) (mean_x ps) (mean_y ps)
    (Sxx (centered ps)) (Syy (centered ps)) (Sxy (centered ps)).

(** ** The coefficient *)

(** The number [cov / sqrt var2], for [0 < var2]: whether it is
    negative, and its square. *)
Record Coef := mkCoef { coef_neg : bool; coef_sq : Qc }.

Definition coef (cov var2 : Qc) : Coef :=
  mkCoef (bool_decide (cov < 0)) (cov * cov / var2).

(** pandas clips the quotient to the interval from -1 to 1, against
    rounding errors: a square above one becomes one. *)
Definition clip (c : Coef) : Coef :=
  if decide (1 < coef_sq c) then mkCoef (coef_neg c) 1 else c.

(** The end of [nancorr], with [minp = 1]: NaN without a row, NaN when
    the divisor is zero, the clipped quotient otherwise. *)
Definition nancorr_result (w : Welford) : option Coef :=
  if decide (nobs w < 1)%nat then None
  else if decide (ssqdm_x w * ssqdm_y w = 0) then None
  else Some (clip (coef (covxy w) (ssqdm_x w * ssqdm_y w))).

Definition nancorr ps : option Coef := nancorr_result (welford ps).

(** Pearson's coefficient of the rows. *)
Definition pearson ps : option Coef :=
  let c := centered ps in
  if decide (Sxx c * Syy c = 0) then None
  else Some (coef (Sxy c) (Sxx c * Syy c)).

(** The rows of a column paired with itself. *)
Definition diag l : list (Qc * Qc) := (λ x, (x, x)) <$> l.

(** ** Lemmas on the sums *)

Lemma qsum_sum_values l : qsum l = sum_values l.
Proof. by rewrite sum_values_foldr. Qed.

Lemma qsum_app l1 l2 : qsum (l1 ++ l2) = qsum l1 + qsum l2.
Proof. induction l1 as [|x l1 IH]; simpl; [ring|]. rewrite IH. ring. Qed.

#[export] Instance qsum_Permutation : Proper ((≡ₚ) ==> (=)) qsum.
Proof. intros l1 l2 Hl. by rewrite !qsum_sum_values, Hl. Qed.

Lemma Qc_sq_nonneg x : 0 ≤ x * x.
Proof.
  destruct (Qclt_le_dec x 0) as [Hx|Hx]; [|by apply Qcmult_nonneg_nonneg].
  apply Qclt_le_weak, Qcopp_le_compat in Hx.
  replace (x * x) with (- x * - x) by ring.
  by apply Qcmult_nonneg_nonneg.
Qed.

(** Two non-negative numbers that add up to zero are zero. *)
Lemma Qc_nonneg_sum_0 x y : 0 ≤ x → 0 ≤ y → x + y = 0 → x = 0 ∧ y = 0.
Proof.
  intros Hx Hy Heq. split; apply Qcle_antisym; try done; rewrite <-Heq.
  - rewrite <-(Qcplus_0_r x) at 1. by apply Qcplus_le_compat.
  - rewrite <-(Qcplus_0_l y) at 1. by apply Qcplus_le_compat.
Qed.

Lemma count_ne_0 ps : ps ≠ [] → count ps ≠ 0.
Proof. intros Hps. apply Qc_of_nat_ne_0. by destruct ps. Qed.

Lemma count_succ_ne_0 ps : count ps + 1 ≠ 0.
Proof.
  intros Heq. pose proof (Qc_of_nat_nonneg (length ps)) as Hn.
  assert (0 < count ps + 1) as Hlt by by apply Qcplus_nonneg_pos.
  rewrite Heq in Hlt. by apply Qclt_not_le in Hlt.
Qed.

Lemma count_snoc ps p : count (ps ++ [p]) = count ps + 1.
Proof. unfold count. rewrite length_app, Nat.add_1_r, Qc_of_nat_S. ring. Qed.

Lemma Sx_snoc ps p : Sx (ps ++ [p]) = Sx ps + p.1.
Proof. unfold Sx. rewrite fmap_app, qsum_app. simpl. ring. Qed.

Lemma Sy_snoc ps p : Sy (ps ++ [p]) = Sy ps + p.2.
Proof. unfold Sy. rewrite fmap_app, qsum_app. simpl. ring. Qed.

Lemma Sxx_snoc ps p : Sxx (ps ++ [p]) = Sxx ps + p.1 * p.1.
Proof. unfold Sxx. rewrite fmap_app, qsum_app. simpl. ring. Qed.

Lemma Syy_snoc ps p : Syy (ps ++ [p]) = Syy ps + p.2 * p.2.
Proof. unfold Syy. rewrite fmap_app, qsum_app. simpl. ring. Qed.

Lemma Sxy_snoc ps p : Sxy (ps ++ [p]) = Sxy ps + p.1 * p.2.
Proof. unfold Sxy. rewrite fmap_app, qsum_app. simpl. ring. Qed.

Lemma Sxx_nonneg ps : 0 ≤ Sxx ps.
Proof.
  unfold Sxx. induction ps as [|p ps IH]; [done|]. csimpl.
  apply Qcplus_nonneg_nonneg; [apply Qc_sq_nonneg|done].
Qed.

Lemma Sxx_eq_0 ps : Sxx ps = 0 ↔ Forall (λ p, p.1 = 0) ps.
Proof.
  induction ps as [|p ps IH]; [by split|].
  rewrite Forall_cons, <-IH. clear IH.
  change (Sxx (p :: ps)) with (p.1 * p.1 + Sxx ps). split.
  - intros [Hp Hs]%Qc_nonneg_sum_0;
      [|apply Qc_sq_nonneg|apply Sxx_nonneg].
    split; [|done]. by apply Qcmult_integral in Hp as [?|?].
  - intros [-> ->]. ring.
Qed.

(** Swapping the two columns *)

Lemma Sx_swap ps : Sx (prod_swap <$> ps) = Sy ps.
Proof. unfold Sx, Sy. by rewrite <-!list_fmap_compose. Qed.

Lemma Sy_swap ps : Sy (prod_swap <$> ps) = Sx ps.
Proof. unfold Sx, Sy. by rewrite <-!list_fmap_compose. Qed.

Lemma Sxx_swap ps : Sxx (prod_swap <$> ps) = Syy ps.
Proof. unfold Syy, Sxx. by rewrite <-list_fmap_compose. Qed.

Lemma Syy_swap ps : Syy (prod_swap <$> ps) = Sxx ps.
Proof. unfold Syy, Sxx. by rewrite <-list_fmap_compose. Qed.

Lemma Sxy_swap ps : Sxy (prod_swap <$> ps) = Sxy ps.
Proof.
  unfold Sxy. rewrite <-list_fmap_compose. f_equal.
  apply list_fmap_ext. intros _ [x y] _. simpl. ring.
Qed.

Lemma count_swap ps : count (prod_swap <$> ps) = count ps.
Proof. unfold count. by rewrite length_fmap. Qed.

Lemma centered_swap ps : centered (prod_swap <$> ps) = prod_swap <$> centered ps.
Proof.
  unfold centered, mean_x, mean_y, shift.
  rewrite Sx_swap, Sy_swap, count_swap, <-!list_fmap_compose.
  by apply list_fmap_ext; intros _ [x y] _.
Qed.

Lemma Syy_nonneg ps : 0 ≤ Syy ps.
Proof. rewrite <-Sxx_swap. apply Sxx_nonneg. Qed.

Lemma Syy_eq_0 ps : Syy ps = 0 ↔ Forall (λ p, p.2 = 0) ps.
Proof.
  rewrite <-Sxx_swap, Sxx_eq_0, Forall_fmap. apply Forall_proper; [|done].
  by intros [x y].
Qed.

(** The sums of shifted rows *)

Lemma Sxy_shift a b ps :
  Sxy (shift a b ps) = Sxy ps - b * Sx ps - a * Sy ps + count ps * a * b.
Proof.
  unfold Sxy, Sx, Sy, count, shift. induction ps as [|p ps IH]; csimpl.
  - rewrite Qc_of_nat_0. ring.
  - rewrite IH, Qc_of_nat_S. ring.
Qed.

Lemma Sxx_shift a b ps :
  Sxx (shift a b ps) = Sxx ps - 2 * a * Sx ps + count ps * a * a.
Proof.
  unfold Sxx, Sx, count, shift. induction ps as [|p ps IH]; csimpl.
  - rewrite Qc_of_nat_0. ring.
  - rewrite IH, Qc_of_nat_S. ring.
Qed.

Lemma Syy_shift a b ps :
  Syy (shift a b ps) = Syy ps - 2 * b * Sy ps + count ps * b * b.
Proof.
  unfold Syy, Sy, count, shift. induction ps as [|p ps IH]; csimpl.
  - rewrite Qc_of_nat_0. ring.
  - rewrite IH, Qc_of_nat_S. ring.
Qed.

(** ** The inequality of Cauchy and Schwarz *)

Lemma Sxx_combination s t ps :
  Sxx ((λ p, (s * p.2 - t * p.1, 0)) <$> ps)
  = s * s * Syy ps - 2 * s * t * Sxy ps + t * t * Sxx ps.
Proof.
  unfold Sxx, Syy, Sxy. induction ps as [|p ps IH]; csimpl; [ring|].
  rewrite IH. ring.
Qed.

Lemma Sxx_0_Sxy ps : Sxx ps = 0 → Sxy ps = 0.
Proof.
  rewrite Sxx_eq_0. unfold Sxy.
  induction 1 as [|p ps Hp _ IH]; csimpl; [done|]. rewrite IH, Hp. ring.
Qed.

Lemma cauchy_schwarz ps : Sxy ps * Sxy ps ≤ Sxx ps * Syy ps.
Proof.
  destruct (Qcle_lt_or_eq _ _ (Sxx_nonneg ps)) as [Hpos|Hz].
  - pose proof (Sxx_nonneg ((λ p, (Sxx ps * p.2 - Sxy ps * p.1, 0)) <$> ps))
      as H.
    rewrite Sxx_combination in H.
    apply (Qcmult_lt_0_le_reg_r _ _ (Sxx ps)); [done|].
    apply Qcle_minus_iff.
    by replace (Sxx ps * Syy ps * Sxx ps + - (Sxy ps * Sxy ps * Sxx ps))
      with (Sxx ps * Sxx ps * Syy ps - 2 * Sxx ps * Sxy ps * Sxy ps
            + Sxy ps * Sxy ps * Sxx ps) by ring.
  - rewrite (Sxx_0_Sxy ps), <-Hz by done. by rewrite !Qcmult_0_l.
Qed.

(** ** The one-pass update computes the textbook definition *)

Lemma mean_x_nil : mean_x [] = 0.
Proof. apply Qcmult_0_l. Qed.

Lemma mean_y_nil : mean_y [] = 0.
Proof. apply Qcmult_0_l. Qed.

Lemma two_pass_nil : two_pass [] = welford_init.
Proof. unfold two_pass. by rewrite mean_x_nil, mean_y_nil. Qed.

Lemma two_pass_singleton p : two_pass [p] = mkWelford 1 p.1 p.2 0 0 0.
Proof.
  unfold two_pass, centered, mean_x, mean_y, Sxx, Syy, Sxy, Sx, Sy, count, shift.
  csimpl. rewrite Qc_of_nat_1. f_equal; field; done.
Qed.

Lemma two_pass_snoc ps p : welford_step (two_pass ps) p = two_pass (ps ++ [p]).
Proof.
  destruct (decide (ps = [])) as [->|Hps].
  { rewrite app_nil_l, two_pass_singleton, two_pass_nil.
    unfold welford_step. simpl. rewrite Qc_of_nat_1. f_equal; field; done. }
  pose proof (count_ne_0 ps Hps) as Hn. pose proof (count_succ_ne_0 ps) as Hn1.
  unfold welford_step, two_pass, centered, mean_x, mean_y.
  cbn [nobs meanx meany ssqdm_x ssqdm_y covxy].
  rewrite !Sxx_shift, !Syy_shift, !Sxy_shift, !Sx_snoc, !Sy_snoc, !Sxx_snoc,
    !Syy_snoc, !Sxy_snoc, !count_snoc, length_app, Nat.add_1_r.
  rewrite Qc_of_nat_S. change (Qc_of_nat (length ps)) with (count ps).
  rewrite (Qcplus_comm 1). generalize dependent (count ps). intros n Hn Hn1.
  f_equal; field; done.
Qed.

Lemma welford_two_pass ps : welford ps = two_pass ps.
Proof.
  unfold welford. induction ps as [|p ps IH] using rev_ind.
  - by rewrite two_pass_nil.
  - by rewrite foldl_app, IH; simpl; rewrite two_pass_snoc.
Qed.

(** ** The coefficient *)

Lemma pearson_Some ps c :
  pearson ps = Some c ↔
  Sxx (centered ps) * Syy (centered ps) ≠ 0
  ∧ c = coef (Sxy (centered ps)) (Sxx (centered ps) * Syy (centered ps)).
Proof. unfold pearson. simpl. case_decide; naive_solver. Qed.

(** The square of the coefficient is at most one. *)
Lemma pearson_bounds ps c : pearson ps = Some c → 0 ≤ coef_sq c ∧ coef_sq c ≤ 1.
Proof.
  intros [Hne ->]%pearson_Some. simpl.
  pose proof (Sxx_nonneg (centered ps)) as Hx.
  pose proof (Syy_nonneg (centered ps)) as Hy.
  assert (0 < Sxx (centered ps) * Syy (centered ps)) as Hpos.
  { destruct (Qcle_lt_or_eq _ _ (Qcmult_nonneg_nonneg _ _ Hx Hy)); [done|].
    by destruct Hne. }
  split.
  - apply Qcmult_nonneg_nonneg; [apply Qc_sq_nonneg|].
    by apply Qclt_le_weak, Qcinv_pos.
  - apply (Qcmult_lt_0_le_reg_r _ _ (Sxx (centered ps) * Syy (centered ps)));
      [done|].
    unfold Qcdiv.
    rewrite <-Qcmult_assoc, (Qcmult_comm (/ _)), Qcmult_inv_r by done.
    rewrite Qcmult_1_r, Qcmult_1_l. apply cauchy_schwarz.
Qed.

(** Hence the clipping of [nancorr] changes nothing in exact
    arithmetic, and pandas' result is Pearson's coefficient. *)
Lemma clip_pearson ps c : pearson ps = Some c → clip c = c.
Proof.
  intros [_ Hle]%pearson_bounds. unfold clip.
  case_decide as Hlt; [|done]. by apply Qcle_not_lt in Hle.
Qed.

Lemma pearson_nil : pearson [] = None.
Proof. done. Qed.

Lemma nancorr_pearson ps : nancorr ps = pearson ps.
Proof.
  unfold nancorr, nancorr_result. rewrite welford_two_pass. simpl.
  case_decide as Hn.
  { destruct ps; [by rewrite pearson_nil|simpl in Hn; lia]. }
  destruct (pearson ps) as [c|] eqn:Hp.
  - pose proof (clip_pearson _ _ Hp) as Hc.
    apply pearson_Some in Hp as [Hne ->]. by rewrite decide_False, Hc.
  - unfold pearson in Hp. simpl in Hp. by case_decide.
Qed.

Lemma pearson_swap ps : pearson (prod_swap <$> ps) = pearson ps.
Proof.
  unfold pearson. simpl.
  by rewrite centered_swap, Sxx_swap, Syy_swap, Sxy_swap,
    (Qcmult_comm (Syy _)).
Qed.

(** Constant columns *)

Lemma Sx_const a ps : Forall (λ p, p.1 = a) ps → Sx ps = count ps * a.
Proof.
  unfold Sx, count. induction 1 as [|p ps Hp _ IH]; csimpl.
  - rewrite Qc_of_nat_0. ring.
  - rewrite Hp, IH, Qc_of_nat_S. ring.
Qed.

Lemma mean_x_const a ps : Forall (λ p, p.1 = a) ps → ps ≠ [] → mean_x ps = a.
Proof.
  intros Ha Hps. unfold mean_x. rewrite (Sx_const a) by done.
  field. by apply count_ne_0.
Qed.

Lemma Sxx_centered_0 ps : Sxx (centered ps) = 0 ↔ ∃ a, Forall (λ p, p.1 = a) ps.
Proof.
  rewrite Sxx_eq_0. unfold centered, shift. rewrite Forall_fmap. split.
  - intros Hall. exists (mean_x ps). eapply Forall_impl; [done|].
    intros p Hp. simpl in Hp. rewrite <-(Qcplus_0_l (mean_x ps)), <-Hp. ring.
  - intros [a Ha]. destruct (decide (ps = [])) as [->|Hps]; [constructor|].
    rewrite (mean_x_const a) by done.
    eapply Forall_impl; [done|]. intros p Hp. simpl. rewrite Hp. ring.
Qed.

Lemma Syy_centered_0 ps : Syy (centered ps) = 0 ↔ ∃ b, Forall (λ p, p.2 = b) ps.
Proof.
  rewrite <-Sxx_swap, <-centered_swap, Sxx_centered_0.
  setoid_rewrite Forall_fmap. apply exist_proper. intros b.
  apply Forall_proper; [|done]. by intros [x y].
Qed.

(** The coefficient is NaN exactly when a column is constant. *)
Lemma pearson_None ps :
  pearson ps = None ↔
  (∃ a, Forall (λ p, p.1 = a) ps) ∨ (∃ b, Forall (λ p, p.2 = b) ps).
Proof.
  rewrite <-Sxx_centered_0, <-Syy_centered_0. unfold pearson. simpl.
  case_decide as Hz.
  - split; [intros _|done]. by apply Qcmult_integral.
  - split; [done|]. intros [Hx|Hy]; destruct Hz; rewrite ?Hx, ?Hy; ring.
Qed.

(** Row order *)

#[export] Instance centered_Permutation : Proper ((≡ₚ) ==> (≡ₚ)) centered.
Proof.
  intros ps1 ps2 Hps. unfold centered.
  assert (mean_x ps1 = mean_x ps2) as ->.
  { unfold mean_x, Sx, count. by rewrite Hps. }
  assert (mean_y ps1 = mean_y ps2) as ->.
  { unfold mean_y, Sy, count. by rewrite Hps. }
  unfold shift. by rewrite Hps.
Qed.

#[export] Instance pearson_Permutation : Proper ((≡ₚ) ==> (=)) pearson.
Proof.
  intros ps1 ps2 Hps. unfold pearson, Sxx, Syy, Sxy. simpl.
  by rewrite !(qsum_Permutation _ _ (fmap_Permutation _ _ _
    (centered_Permutation _ _ Hps))).
Qed.

(** A column against itself *)

Lemma pearson_diag l c : pearson (diag l) = Some c → c = mkCoef false 1.
Proof.
  intros [Hne ->]%pearson_Some.
  assert (Syy (centered (diag l)) = Sxx (centered (diag l))
          ∧ Sxy (centered (diag l)) = Sxx (centered (diag l))) as [Hy Hxy].
  { unfold centered, mean_x, mean_y, Sx, Sy, Sxx, Syy, Sxy, shift, diag.
    by rewrite <-!list_fmap_compose. }
  rewrite Hy, Hxy in *. unfold coef. f_equal.
  - apply bool_decide_eq_false, Qcle_not_lt, Sxx_nonneg.
  - field. intros H0. apply Hne. rewrite H0. ring.
Qed.
End sums.

#[export] Instance Coef_eq_dec : EqDecision Coef.
Proof. solve_decision. Defined.
