(* ===== verification/Series.v ===== *)
(** * Series: the column operations of pandas the script calls

    A column (a pandas Series) is the list of its cells in row order.
    This file models [Series.isin], the element-wise [==] and [&] on
    boolean masks, boolean indexing [df[mask]], [Series.unique] (the
    hash-table scan that keeps values in order of first appearance),
    [Series.nunique], [Series.value_counts] and [sort_values] with
    [ascending=False].

    Each operation comes with the lemmas that relate it to the list
    library: a mask built from a predicate selects what [filter]
    selects, [unique] is duplicate-free and has the elements of its
    argument, counts add up to the length of the column. *)

From S2P Require Import Prelude Order Sorting Numeric.

(** ** Boolean masks *)

Section masks.
Context {A : Type}.
Implicit Types (s : list A) (m : list bool).

(** The mask of a decidable predicate over a column. *)
Definition mask_of (P : A → Prop) `{!∀ x, Decision (P x)} (s : list A)
  : list bool := (λ x, bool_decide (P x)) <$> s.

(** [m1 & m2]. *)
Definition mask_and (m1 m2 : list bool) : list bool := zip_with andb m1 m2.

(** [df[m]]: the rows at the positions where [m] is [True].  pandas
    raises when the lengths differ; the masks of the script are
    computed from the frame they index, so the lengths agree
    ([length_mask_of]), and the model pairs positions up to the
    shorter length. *)
Definition getitem_mask {B} (df : list B) (m : list bool) : list B :=
  (filter (λ p, p.2 = true) (zip df m)).*1.

Lemma length_mask_of P `{!∀ x, Decision (P x)} s :
  length (mask_of P s) = length s.
Proof. apply length_fmap. Qed.

Lemma length_mask_and m1 m2 :
  length m1 = length m2 → length (mask_and m1 m2) = length m1.
Proof. intros Hm. unfold mask_and. rewrite length_zip_with. lia. Qed.

Lemma mask_and_mask_of P Q `{!∀ x, Decision (P x), !∀ x, Decision (Q x)} s :
  mask_and (mask_of P s) (mask_of Q s) = mask_of (λ x, P x ∧ Q x) s.
Proof.
  unfold mask_and, mask_of. induction s as [|x s IH]; csimpl; [done|].
  rewrite IH. f_equal. by rewrite bool_decide_and.
Qed.

Lemma getitem_mask_fmap {B} (f : B → A) P `{!∀ x, Decision (P x)}
    (df : list B) :
  getitem_mask df (mask_of P (f <$> df)) = filter (λ r, P (f r)) df.
Proof.
  unfold getitem_mask, mask_of. induction df as [|r df IH]; csimpl; [done|].
  rewrite !filter_cons; simpl.
  destruct (decide (P (f r))) as [HP|HP].
  - rewrite bool_decide_eq_true_2 by done. rewrite decide_True by done.
    csimpl. by f_equal.
  - rewrite bool_decide_eq_false_2 by done. by rewrite decide_False.
Qed.

Lemma getitem_mask_of P `{!∀ x, Decision (P x)} s :
  getitem_mask s (mask_of P s) = filter P s.
Proof. rewrite <-(list_fmap_id s) at 2. apply (getitem_mask_fmap id). Qed.

Lemma getitem_mask_all_true {B} (df : list B) m :
  length m = length df → Forall (λ b, b = true) m → getitem_mask df m = df.
Proof.
  unfold getitem_mask. revert m.
  induction df as [|r df IH]; intros [|b m] Hlen Hm; simplify_eq/=; [done|].
  apply list.Forall_cons in Hm as [-> Hm].
  rewrite filter_cons_True by done. csimpl. f_equal. by apply IH.
Qed.

Lemma getitem_mask_all_false {B} (df : list B) m :
  Forall (λ b, b = false) m → getitem_mask df m = [].
Proof.
  unfold getitem_mask. intros Hm. revert df.
  induction Hm as [|b m -> _ IH]; intros [|r df]; simpl; [done..|].
  rewrite filter_cons_False by done. apply IH.
Qed.

Lemma getitem_mask_sublist {B} (df : list B) m : getitem_mask df m `sublist_of` df.
Proof.
  unfold getitem_mask. revert m.
  induction df as [|r df IH]; intros [|b m]; simpl;
    [done|done|apply sublist_nil_l|].
  rewrite filter_cons; simpl. case_decide; csimpl.
  - by apply sublist_skip.
  - by apply sublist_cons.
Qed.
End masks.

Infix "&&&" := mask_and (at level 40, left associativity) : frame_scope.

(** ** [isin] and [==] *)

Section isin.
Context `{EqDecision A}.
Implicit Types (s values : list A).

(** [s.isin(values)]. *)
Definition isin (s values : list A) : list bool := mask_of (.∈ values) s.

(** [s == v]. *)
Definition eq_mask (s : list A) (v : A) : list bool := mask_of (.= v) s.

Lemma length_isin s values : length (isin s values) = length s.
Proof. apply length_mask_of. Qed.

Lemma isin_nil s : Forall (λ b, b = false) (isin s []).
Proof.
  apply Forall_fmap, Forall_forall. intros x _; cbv beta.
  apply bool_decide_eq_false_2, not_elem_of_nil.
Qed.

Lemma isin_superset s values :
  s ⊆ values → Forall (λ b, b = true) (isin s values).
Proof.
  intros Hs. apply Forall_fmap, Forall_forall. intros x Hx; cbv beta.
  by apply bool_decide_eq_true_2, Hs.
Qed.

Lemma isin_lookup s values i b :
  isin s values !! i = Some b ↔ ∃ x, s !! i = Some x ∧ b = bool_decide (x ∈ values).
Proof. unfold isin, mask_of. rewrite list_lookup_fmap_Some. naive_solver. Qed.
End isin.

(** ** [unique]: the distinct values in order of first appearance *)

Section unique.
Context `{EqDecision A}.
Implicit Types (s seen : list A) (x y : A).

(** The scan pandas runs with a hash table: a value is emitted the
    first time it is met. *)
Fixpoint unique_from (seen s : list A) : list A :=
  match s with
  | [] => []
  | x :: s' =>
      if decide (x ∈ seen) then unique_from seen s'
      else x :: unique_from (x :: seen) s'
  end.

Definition unique (s : list A) : list A := unique_from [] s.

Definition nunique (s : list A) : nat := length (unique s).

(** The reference definition: keep the head, drop it from the rest. *)
Fixpoint unique_ref (s : list A) : list A :=
  match s with
  | [] => []
  | x :: s' => x :: filter (.≠ x) (unique_ref s')
  end.

Lemma unique_from_filter seen s :
  unique_from seen s = filter (.∉ seen) (unique_ref s).
Proof.
  revert seen. induction s as [|x s IH]; intros seen; simpl; [done|].
  rewrite filter_cons. case_decide as Hx.
  - rewrite decide_False by tauto. rewrite IH, list_filter_filter.
    apply filter_ext_elem. intros y _. split; [|tauto].
    intros Hy. split; [done|]. by intros ->.
  - rewrite decide_True by done. f_equal.
    rewrite IH, list_filter_filter. apply filter_ext_elem. intros y _.
    rewrite not_elem_of_cons. tauto.
Qed.

Lemma unique_unique_ref s : unique s = unique_ref s.
Proof.
  unfold unique. rewrite unique_from_filter.
  apply filter_all, Forall_forall. intros x _. apply not_elem_of_nil.
Qed.

Lemma unique_nil : unique [] = [].
Proof. done. Qed.

Lemma unique_cons x s : unique (x :: s) = x :: filter (.≠ x) (unique s).
Proof. by rewrite !unique_unique_ref. Qed.

Lemma elem_of_unique x s : x ∈ unique s ↔ x ∈ s.
Proof.
  induction s as [|y s IH]; [done|].
  rewrite unique_cons, !elem_of_cons, list_elem_of_filter, IH.
  destruct (decide (x = y)); naive_solver.
Qed.

Lemma NoDup_unique s : NoDup (unique s).
Proof.
  induction s as [|x s IH]; [constructor|].
  rewrite unique_cons. constructor; [|by apply NoDup_filter].
  rewrite list_elem_of_filter. tauto.
Qed.

Lemma unique_NoDup s : NoDup s → unique s = s.
Proof.
  induction 1 as [|x s Hx _ IH]; [done|].
  rewrite unique_cons, IH. f_equal. apply filter_all, Forall_forall.
  by intros y Hy ->.
Qed.

Lemma unique_idemp s : unique (unique s) = unique s.
Proof. apply unique_NoDup, NoDup_unique. Qed.

Lemma unique_filter (P : A → Prop) `{!∀ x, Decision (P x)} s :
  unique (filter P s) = filter P (unique s).
Proof.
  induction s as [|x s IH]; [done|].
  rewrite filter_cons, (unique_cons x s), filter_cons.
  case_decide; rewrite ?unique_cons, IH.
  - f_equal. apply filter_comm.
  - rewrite list_filter_filter. apply filter_ext_elem. intros y _.
    split; [|tauto]. intros HP. split; [done|]. by intros ->.
Qed.

(** The scan read at its last step: a value met before leaves the
    result as it is, a new value is appended. *)
Lemma unique_snoc s x :
  unique (s ++ [x]) = if decide (x ∈ s) then unique s else unique s ++ [x].
Proof.
  induction s as [|y s IH]; [done|].
  rewrite <-app_comm_cons, !unique_cons, IH.
  destruct (decide (x = y)) as [->|Hxy].
  - rewrite (decide_True (P:=y ∈ y :: s)) by (by left).
    case_decide; [done|]. rewrite filter_app, (filter_cons_False _ y) by auto.
    by rewrite app_nil_r.
  - case_decide as Hx.
    + by rewrite decide_True by (by right).
    + rewrite decide_False by (rewrite elem_of_cons; tauto).
      by rewrite filter_app, (filter_cons_True _ x).
Qed.

Lemma unique_sublist s : unique s `sublist_of` s.
Proof.
  induction s as [|x s IH]; [done|].
  rewrite unique_cons. apply sublist_skip.
  etrans; [apply sublist_filter|done].
Qed.

Lemma head_unique s : head (unique s) = head s.
Proof. destruct s; [done|]. by rewrite unique_cons. Qed.

Lemma unique_nil_inv s : unique s = [] → s = [].
Proof. destruct s; [done|]. by rewrite unique_cons. Qed.

Lemma nunique_le s : nunique s ≤ length s.
Proof. apply sublist_length, unique_sublist. Qed.

(** A column whose values all come from [vs] has at most [length vs]
    distinct values. *)
Lemma nunique_subseteq s (vs : list A) : s ⊆ vs → nunique s ≤ length vs.
Proof.
  intros Hs. apply submseteq_length, NoDup_submseteq; [apply NoDup_unique|].
  intros x Hx. apply Hs. by apply elem_of_unique.
Qed.

Lemma nunique_0 s : nunique s = 0 ↔ s = [].
Proof.
  unfold nunique. rewrite length_zero_iff_nil.
  split; [apply unique_nil_inv|by intros ->].
Qed.

(** The distinct values depend only on which values occur. *)
Lemma unique_Permutation_elem s1 s2 :
  (∀ x, x ∈ s1 ↔ x ∈ s2) → unique s1 ≡ₚ unique s2.
Proof.
  intros Hs. apply NoDup_Permutation; auto using NoDup_unique.
  intros x. by rewrite !elem_of_unique.
Qed.

#[export] Instance unique_Permutation : Proper ((≡ₚ) ==> (≡ₚ)) unique.
Proof. intros s1 s2 Hs. apply unique_Permutation_elem. by setoid_rewrite Hs. Qed.

#[export] Instance nunique_Permutation : Proper ((≡ₚ) ==> (=)) nunique.
Proof. intros s1 s2 Hs. unfold nunique. by rewrite Hs. Qed.
End unique.

#[export] Hint Resolve NoDup_unique unique_sublist getitem_mask_sublist : frame.
#[export] Hint Rewrite @unique_nil @unique_idemp @length_isin
  @length_mask_of : frame_simpl.
#[export] Hint Rewrite @elem_of_unique : frame_simpl.

(** ** [value_counts]: how often each value occurs, most frequent first *)

Section value_counts.
Context `{EqDecision A}.
Implicit Types (s : list (option A)) (l ks : list A) (x y : A).

Definition count_of (x : A) (l : list A) : nat := length (filter (.= x) l).

(** The table of one row per distinct value. *)
Definition counts_table (l : list A) : list (A * nat) :=
  (λ x, (x, count_of x l)) <$> unique l.

(** [Series.value_counts()] with its defaults: missing values are
    dropped, rows are ordered by decreasing count. *)
Definition value_counts (s : list (option A)) : list (A * nat) :=
  sort_desc_by (≤) snd (counts_table (dropna s)).

Lemma count_of_nil x : count_of x [] = 0.
Proof. done. Qed.

Lemma count_of_cons x y l :
  count_of x (y :: l) = (if decide (y = x) then 1 else 0) + count_of x l.
Proof. unfold count_of. rewrite filter_cons. by case_decide. Qed.

Lemma count_of_pos x l : 0 < count_of x l ↔ x ∈ l.
Proof.
  induction l as [|y l IH].
  { rewrite count_of_nil, elem_of_nil. lia. }
  rewrite count_of_cons, elem_of_cons, <-IH. case_decide; subst.
  - split; [by left|lia].
  - split; [intros; right; lia|intros [->|?]; [done|lia]].
Qed.

#[export] Instance count_of_Permutation x :
  Proper ((≡ₚ) ==> (=)) (count_of x).
Proof. intros l1 l2 Hl. unfold count_of. by rewrite Hl. Qed.

(** Over a duplicate-free list of keys that covers the column, the
    counts add up to the length of the column. *)
Lemma sum_count_of ks l :
  NoDup ks → l ⊆ ks → sum_list ((λ x, count_of x l) <$> ks) = length l.
Proof.
  intros Hks. induction l as [|y l IH]; intros Hl.
  { rewrite (sum_list_fmap_same 0); [simpl; lia|]. by apply Forall_forall. }
  assert (y ∈ ks) as Hy by (apply Hl; by left).
  assert (l ⊆ ks) as Hl' by (intros z Hz; apply Hl; by right).
  simpl. rewrite <-(IH Hl'). clear IH Hl Hl'.
  induction Hks as [|k ks Hk Hks IH]; [by apply elem_of_nil in Hy|].
  csimpl. rewrite count_of_cons.
  apply elem_of_cons in Hy as [->|Hy].
  - rewrite decide_True by done.
    enough (sum_list ((λ x, count_of x (k :: l)) <$> ks)
            = sum_list ((λ x, count_of x l) <$> ks)) by lia.
    f_equal. apply list_fmap_ext. intros _ x Hx%list_elem_of_lookup_2.
    rewrite count_of_cons, decide_False; [done|]. by intros ->.
  - rewrite decide_False by (by intros ->). rewrite IH by done. lia.
Qed.

Lemma counts_table_keys l : (counts_table l).*1 = unique l.
Proof.
  unfold counts_table. rewrite <-list_fmap_compose.
  by rewrite list_fmap_id.
Qed.

Lemma elem_of_counts_table x n l :
  (x, n) ∈ counts_table l ↔ x ∈ l ∧ n = count_of x l.
Proof.
  unfold counts_table. rewrite list_elem_of_fmap.
  setoid_rewrite elem_of_unique. naive_solver.
Qed.

Lemma sum_counts_table l : sum_list (counts_table l).*2 = length l.
Proof.
  unfold counts_table. rewrite <-list_fmap_compose.
  apply sum_count_of; [apply NoDup_unique|].
  intros x. by rewrite elem_of_unique.
Qed.

Lemma counts_table_Permutation l1 l2 :
  l1 ≡ₚ l2 → counts_table l1 ≡ₚ counts_table l2.
Proof.
  intros Hl. unfold counts_table.
  rewrite (list_fmap_ext _ (λ x, (x, count_of x l2)) (unique l1));
    [by rewrite Hl|].
  intros _ x _. by rewrite Hl.
Qed.

(** The specification of [value_counts]. *)

Lemma value_counts_Permutation s :
  value_counts s ≡ₚ counts_table (dropna s).
Proof. apply sort_desc_by_Permutation. Qed.

Lemma elem_of_value_counts x n s :
  (x, n) ∈ value_counts s ↔ Some x ∈ s ∧ n = count_of x (dropna s).
Proof.
  by rewrite value_counts_Permutation, elem_of_counts_table, elem_of_dropna.
Qed.

Lemma value_counts_keys s : (value_counts s).*1 ≡ₚ unique (dropna s).
Proof. by rewrite value_counts_Permutation, counts_table_keys. Qed.

Lemma NoDup_value_counts_keys s : NoDup (value_counts s).*1.
Proof. rewrite value_counts_keys. apply NoDup_unique. Qed.

Lemma value_counts_sorted s :
  StronglySorted (λ p q, q.2 ≤ p.2) (value_counts s).
Proof. apply (StronglySorted_sort_desc_by (≤) snd). Qed.

Lemma value_counts_total s :
  sum_list (value_counts s).*2 = length (dropna s).
Proof. by rewrite value_counts_Permutation, sum_counts_table. Qed.

Lemma value_counts_pos x n s : (x, n) ∈ value_counts s → 0 < n.
Proof.
  intros [Hx ->]%elem_of_value_counts.
  by apply count_of_pos, elem_of_dropna.
Qed.

Lemma value_counts_nil : value_counts [] = [].
Proof. done. Qed.

Lemma value_counts_nil_inv s : value_counts s = [] → dropna s = [].
Proof.
  intros Hs. apply unique_nil_inv, Permutation_nil_r.
  by rewrite <-value_counts_keys, Hs.
Qed.
End value_counts.

(** ** [sort_values(col, ascending=False)]

    pandas sorts the rows whose cell is a number in decreasing order
    of that number and puts the rows whose cell is NaN last, in row
    order ([na_position='last']). *)

Section sort_values.
Context `{NumOps V} {A : Type} (val : A → cell V).
Implicit Types (t : list A).

(** The rows whose cell is a number, paired with it. *)
Definition notna (t : list A) : list (A * V) :=
  omap (λ a, pair a <$> val a) t.

(** The rows whose cell is NaN. *)
Definition isna (t : list A) : list A := filter (λ a, val a = None) t.

Definition sort_values_desc (t : list A) : list A :=
  (sort_desc_by nle snd (notna t)).*1 ++ isna t.

(** The order of the result: decreasing numbers, then NaN. *)
Definition desc_nan_last (c1 c2 : cell V) : Prop :=
  match c1, c2 with
  | _, None => True
  | Some x, Some y => y ≼ x
  | None, Some _ => False
  end.

Lemma elem_of_notna a v t : (a, v) ∈ notna t ↔ a ∈ t ∧ val a = Some v.
Proof.
  unfold notna. rewrite list_elem_of_omap. split.
  - intros (a' & Ha & Hv). destruct (val a') eqn:E; simplify_eq/=. done.
  - intros [Ha Hv]. exists a. by rewrite Hv.
Qed.

Lemma notna_fst t : (notna t).*1 = filter (λ a, val a ≠ None) t.
Proof.
  induction t as [|a t IH]; [done|]. unfold notna in *. csimpl.
  rewrite filter_cons. destruct (val a) eqn:E; case_decide; csimpl;
    by rewrite ?IH.
Qed.

Lemma sort_values_desc_nil : sort_values_desc [] = [].
Proof. done. Qed.

Lemma sort_values_desc_Permutation t : sort_values_desc t ≡ₚ t.
Proof.
  unfold sort_values_desc, isna.
  rewrite sort_desc_by_Permutation, notna_fst.
  rewrite (comm (++)). apply filter_app_complement.
Qed.

Lemma elem_of_sort_values_desc a t : a ∈ sort_values_desc t ↔ a ∈ t.
Proof. by rewrite sort_values_desc_Permutation. Qed.

Lemma length_sort_values_desc t : length (sort_values_desc t) = length t.
Proof. by rewrite sort_values_desc_Permutation. Qed.

Lemma sort_values_desc_notna t :
  Forall (λ a, is_Some (val a)) t →
  sort_values_desc t = (sort_desc_by nle snd (notna t)).*1.
Proof.
  intros Ht. unfold sort_values_desc, isna.
  rewrite filter_none, app_nil_r; [done|].
  eapply Forall_impl; [done|]. intros a [v ->]. done.
Qed.

(** The numbers of the sorted pairs are the cells of their rows. *)
Lemma sort_desc_notna_val t :
  Forall (λ p, val p.1 = Some p.2) (sort_desc_by nle snd (notna t)).
Proof.
  apply Forall_forall. intros [a v].
  rewrite elem_of_sort_desc_by, elem_of_notna. by intros [_ ?].
Qed.

Lemma isna_sorted t :
  StronglySorted (λ a b, desc_nan_last (val a) (val b)) (isna t).
Proof.
  unfold isna. induction t as [|a t IH]; [constructor|].
  rewrite filter_cons. case_decide; [|done]. constructor; [done|].
  apply Forall_forall. intros b [Hb _]%list_elem_of_filter. rewrite Hb.
  unfold desc_nan_last. by destruct (val a).
Qed.

Lemma sort_values_desc_sorted `{!Number V} t :
  StronglySorted (λ a b, desc_nan_last (val a) (val b)) (sort_values_desc t).
Proof.
  unfold sort_values_desc.
  apply StronglySorted_app_2; [| |apply isna_sorted].
  - intros a b _ [Hb _]%list_elem_of_filter. rewrite Hb.
    unfold desc_nan_last. by destruct (val a).
  - pose proof (StronglySorted_sort_desc_by nle snd (notna t)) as Hs.
    pose proof (sort_desc_notna_val t) as Hv.
    induction Hs as [|p l Hs IH Hp]; csimpl; [constructor|].
    apply list.Forall_cons in Hv as [Hpv Hv].
    constructor; [by apply IH|].
    apply Forall_fmap, Forall_forall. intros q Hq. simpl.
    rewrite Hpv, (proj1 (Forall_forall _ _) Hv q Hq). simpl.
    by apply (proj1 (Forall_forall _ _) Hp q Hq).
Qed.
End sort_values.

#[export] Hint Rewrite @count_of_nil @value_counts_nil : frame_simpl.
#[export] Hint Rewrite @sort_values_desc_nil : frame_simpl.
