(* ===== verification/Iterrows.v ===== *)
(** * Iterrows: the loops of the script

    The script has two loops of its own, the list comprehensions of
    lines 299 and 353:
    [[(row['Tool'], row['Count']) for _, row in tool_counts.iterrows()]].
    [DataFrame.iterrows()] is a generator over the rows of a table;
    the comprehension asks it for its next item until it is
    exhausted and appends the value of its expression for every item.

    [RowIter] is the state of the generator (the table and the
    position of the next row), [next] one request, [loop_step] one
    pass of the comprehension.  [comprehension] is the loop, defined
    by well-founded recursion on the number of rows the generator has
    left ([remaining], the variant of the loop); [loop_run] is the
    same loop with a bound on the number of passes.

    The theorems show that the loop ends after exactly one pass per
    row on every table, and that it builds the list of the values of
    its expression on the rows, in row order. *)

From Equations Require Import Equations.
From stdpp Require Import list.
From S2P Require Import Prelude.

(** A value together with the equation that it is the value of the
    expression inspected. *)
Definition inspect {A} (a : A) : {b | a = b} := exist _ a eq_refl.

Section iterrows.
Context {A B : Type}.
Implicit Types (t : list A) (acc : list B) (f : nat * A → B).

(** ** The generator *)

Record RowIter := mkRowIter { it_rows : list A; it_pos : nat }.

(** [t.iterrows()]: a generator at the first row. *)
Definition iterrows t : RowIter := mkRowIter t 0.

(** One request: the label and the row at the position, and the
    generator moved past it; [None] is [StopIteration]. *)
Definition next (it : RowIter) : option ((nat * A) * RowIter) :=
  match it_rows it !! it_pos it with
  | Some row => Some ((it_pos it, row), mkRowIter (it_rows it) (S (it_pos it)))
  | None => None
  end.

(** The rows the generator has left. *)
Definition remaining (it : RowIter) : nat := length (it_rows it) - it_pos it.

(** ** The comprehension *)

(** One pass of [[f x for x in it]]: the next item is requested and
    the value of the expression appended; [None] when the generator
    is exhausted and the loop is left. *)
Definition loop_step f (s : RowIter * list B) : option (RowIter * list B) :=
  match next s.1 with
  | Some (x, it') => Some (it', s.2 ++ [f x])
  | None => None
  end.

(** The loop with at most [n] passes: [None] when it has not ended by
    then. *)
Fixpoint loop_run (n : nat) f (s : RowIter * list B) : option (list B) :=
  match loop_step f s with
  | None => Some s.2
  | Some s' => match n with 0 => None | S n' => loop_run n' f s' end
  end.

Lemma next_remaining it x it' : next it = Some (x, it') → remaining it' < remaining it.
Proof.
  unfold next, remaining. destruct (it_rows it !! it_pos it) eqn:Hl; [|done].
  intros [= <- <-]. simpl. apply lookup_lt_Some in Hl. lia.
Qed.

(** The loop. *)
Equations? comprehension f (it : RowIter) acc : list B by wf (remaining it) lt :=
  comprehension f it acc with inspect (next it) := {
    | exist _ (Some (x, it')) Hn => comprehension f it' (acc ++ [f x]);
    | exist _ None _ => acc }.
Proof. by eapply next_remaining. Qed.

(** ** The generator *)

Lemma next_Some t i row :
  t !! i = Some row → next (mkRowIter t i) = Some ((i, row), mkRowIter t (S i)).
Proof. unfold next. simpl. by intros ->. Qed.

Lemma next_None t i : length t ≤ i → next (mkRowIter t i) = None.
Proof. unfold next. simpl. by intros ->%lookup_ge_None_2. Qed.

Lemma remaining_0 it : remaining it = 0 ↔ next it = None.
Proof.
  unfold remaining, next. destruct (it_rows it !! it_pos it) eqn:Hl.
  - apply lookup_lt_Some in Hl. split; [lia|done].
  - apply lookup_ge_None in Hl. split; [done|lia].
Qed.

(** ** The loop *)

Lemma comprehension_next f it acc :
  comprehension f it acc
  = match next it with
    | Some (x, it') => comprehension f it' (acc ++ [f x])
    | None => acc
    end.
Proof.
  funelim (comprehension f it acc); by rewrite <-?Heqcall, ?Hn, ?e.
Qed.

(** The rows from a position on, with their labels. *)
Definition items_from t (i : nat) : list (nat * A) :=
  imap (λ j row, (i + j, row)) (drop i t).

Lemma items_from_ge t i : length t ≤ i → items_from t i = [].
Proof. intros Hi. unfold items_from. by rewrite drop_ge. Qed.

Lemma items_from_lookup t i row :
  t !! i = Some row → items_from t i = (i, row) :: items_from t (S i).
Proof.
  intros Hi. unfold items_from. rewrite (drop_S _ _ _ Hi). csimpl.
  rewrite Nat.add_0_r. f_equal. apply imap_ext. intros j r _. simpl.
  f_equal. lia.
Qed.

Lemma items_from_0 t : items_from t 0 = imap pair t.
Proof. unfold items_from. by rewrite drop_0. Qed.

(** From any state the loop appends the values of the expression on
    the rows that are left. *)
Lemma comprehension_items f t i acc :
  comprehension f (mkRowIter t i) acc = acc ++ (f <$> items_from t i).
Proof.
  remember (length t - i) as n eqn:Hn. revert i acc Hn.
  induction n as [|n IH]; intros i acc Hn; rewrite comprehension_next.
  - rewrite next_None, items_from_ge by lia. by rewrite app_nil_r.
  - destruct (lookup_lt_is_Some_2 t i) as [row Hrow]; [lia|].
    rewrite (next_Some _ _ _ Hrow), (items_from_lookup _ _ _ Hrow), IH by lia.
    by rewrite <-app_assoc.
Qed.

(** With a bound on the passes: the loop ends exactly when the bound
    is at least the number of rows left. *)
Lemma loop_run_items n f t i acc :
  loop_run n f (mkRowIter t i, acc)
  = if decide (length t - i ≤ n) then Some (acc ++ (f <$> items_from t i))
    else None.
Proof.
  revert i acc. induction n as [|n IH]; intros i acc;
    (destruct (decide (length t ≤ i)) as [Hi|Hi];
     [cbn [loop_run]; unfold loop_step; cbn [fst snd];
      rewrite next_None, items_from_ge, decide_True by lia; by rewrite app_nil_r|]);
    (destruct (lookup_lt_is_Some_2 t i) as [row Hrow]; [lia|]);
    cbn [loop_run]; unfold loop_step; cbn [fst snd];
    rewrite (next_Some _ _ _ Hrow).
  - by rewrite decide_False by lia.
  - rewrite IH, (items_from_lookup _ _ _ Hrow). cbn [length].
    repeat case_decide; try lia; [|done]. by rewrite <-app_assoc.
Qed.

(** The variant decreases at every pass. *)
Lemma loop_step_remaining f s s' :
  loop_step f s = Some s' → remaining s'.1 < remaining s.1.
Proof.
  unfold loop_step. destruct (next s.1) as [[x it']|] eqn:Hn; [|done].
  intros [= <-]. by eapply next_remaining.
Qed.

Lemma comprehension_iterrows f t :
  comprehension f (iterrows t) [] = imap (λ i row, f (i, row)) t.
Proof.
  unfold iterrows. rewrite comprehension_items, items_from_0. simpl.
  by rewrite fmap_imap.
Qed.

(** C15. The comprehension ends on every table, after exactly one
    pass per row: run with a bound on the number of passes it ends
    when the bound is at least the number of rows and not before; the
    number of rows the generator has left decreases at every pass;
    and the list it builds holds the value of its expression on
    every row, in row order. *)
Theorem comprehension_terminates f t :
  (∀ n, loop_run n f (iterrows t, [])
        = if decide (length t ≤ n) then Some (comprehension f (iterrows t) [])
          else None)
  ∧ (∀ s s', loop_step f s = Some s' → remaining s'.1 < remaining s.1)
  ∧ comprehension f (iterrows t) [] = imap (λ i row, f (i, row)) t.
Proof.
  split_and!; [|apply loop_step_remaining|apply comprehension_iterrows].
  intros n. unfold iterrows.
  by rewrite loop_run_items, comprehension_items, Nat.sub_0_r.
Qed.
End iterrows.

(** ** Example *)

Lemma comprehension_terminates_witness :
  loop_run 2 snd (iterrows [10; 20], []) = Some [10; 20]
  ∧ loop_run 1 snd (iterrows [10; 20], []) = None.
Proof.
  pose proof (comprehension_terminates (A:=nat) snd [10; 20]) as (Hrun & _ & Heq).
  by rewrite !Hrun, Heq.
Defined.
