(* ===== verification/Frame.v ===== *)
(** * Frame: the table of the dashboard and [groupby]

    [Row V] is one record of the CSV, one field per column in the
    order of the specification; [V] is the type of the numbers in
    float64 cells (see [Numeric]).  Year, Country and Industry are
    required on every row; every other cell may be missing ([None]).
    A DataFrame is a [list (Row V)].

    [Metric] enumerates the float64 columns; the script names them by
    their header string ([metric_name]) in select boxes, chart titles
    and column look-ups.  [GroupCol] enumerates the two columns the
    "Group by" radio offers.

    [groupby key df] is [df.groupby(key)] with the defaults of pandas
    ([sort=True], only observed keys): the distinct keys in ascending
    order, each with its rows in their original order.
    [groupby_scan] is the one-pass algorithm pandas runs (a table of
    groups filled in row order, then sorted by key); [groupby_scan_eq]
    proves that both agree. *)

From S2P Require Import Prelude Order Sorting Numeric Series.

(** ** Rows and columns *)

Record Row (V : Type) := mkRow {
  Year : Z;
  Country : string;
  Industry : string;
  AI_Adoption_Rate : cell V;
  Job_Loss_Due_to_AI : cell V;
  Revenue_Increase_Due_to_AI : cell V;
  Consumer_Trust_in_AI : cell V;
  AI_Generated_Content_Volume : cell V;
  Human_AI_Collaboration_Rate : cell V;
  Top_AI_Tools_Used : option string;
  Regulation_Status : option string;
}.
Arguments mkRow {V}.
Arguments Year {V}.
Arguments Country {V}.
Arguments Industry {V}.
Arguments AI_Adoption_Rate {V}.
Arguments Job_Loss_Due_to_AI {V}.
Arguments Revenue_Increase_Due_to_AI {V}.
Arguments Consumer_Trust_in_AI {V}.
Arguments AI_Generated_Content_Volume {V}.
Arguments Human_AI_Collaboration_Rate {V}.
Arguments Top_AI_Tools_Used {V}.
Arguments Regulation_Status {V}.

Abbreviation DataFrame V := (list (Row V)).

#[export] Instance Row_eq_dec `{EqDecision V} : EqDecision (Row V).
Proof. solve_decision. Defined.

(** The float64 columns. *)
Inductive Metric :=
  | AdoptionRate | ContentVolume | JobLoss | RevenueIncrease
  | CollabRate | ConsumerTrust.

#[export] Instance Metric_eq_dec : EqDecision Metric.
Proof. solve_decision. Defined.

Definition metric_name (m : Metric) : string :=
  match m with
  | AdoptionRate => "AI Adoption Rate (%)"
  | ContentVolume => "AI-Generated Content Volume (TBs per year)"
  | JobLoss => "Job Loss Due to AI (%)"
  | RevenueIncrease => "Revenue Increase Due to AI (%)"
  | CollabRate => "Human-AI Collaboration Rate (%)"
  | ConsumerTrust => "Consumer Trust in AI (%)"
  end.

(** [row[metric]]. *)
Definition metric_col {V} (m : Metric) (r : Row V) : cell V :=
  match m with
  | AdoptionRate => AI_Adoption_Rate r
  | ContentVolume => AI_Generated_Content_Volume r
  | JobLoss => Job_Loss_Due_to_AI r
  | RevenueIncrease => Revenue_Increase_Due_to_AI r
  | CollabRate => Human_AI_Collaboration_Rate r
  | ConsumerTrust => Consumer_Trust_in_AI r
  end.

(** The columns the "Group by" radio offers. *)
Inductive GroupCol := ByCountry | ByIndustry.

#[export] Instance GroupCol_eq_dec : EqDecision GroupCol.
Proof. solve_decision. Defined.

Definition group_col_name (g : GroupCol) : string :=
  match g with ByCountry => "Country" | ByIndustry => "Industry" end.

Definition group_col {V} (g : GroupCol) (r : Row V) : string :=
  match g with ByCountry => Country r | ByIndustry => Industry r end.

(** The numeric columns of the table: Year (int64) and the float64
    columns, in table order; this is what [select_dtypes] returns for
    the numeric dtypes. *)
Inductive NumericCol := YearCol | MetricCol (m : Metric).

#[export] Instance NumericCol_eq_dec : EqDecision NumericCol.
Proof. solve_decision. Defined.

Definition numeric_col_name (c : NumericCol) : string :=
  match c with YearCol => "Year" | MetricCol m => metric_name m end.

Definition numeric_columns : list NumericCol :=
  [ YearCol; MetricCol AdoptionRate; MetricCol JobLoss;
    MetricCol RevenueIncrease; MetricCol ConsumerTrust;
    MetricCol ContentVolume; MetricCol CollabRate ].

Lemma numeric_col_name_inj : Inj (=) (=) numeric_col_name.
Proof. intros [|[]] [|[]] ?; by simplify_eq/=. Qed.

Lemma NoDup_numeric_columns : NoDup (numeric_col_name <$> numeric_columns).
Proof. by_eval. Qed.

Lemma metric_name_inj : Inj (=) (=) metric_name.
Proof. intros [] [] ?; by simplify_eq/=. Qed.

Lemma group_col_name_inj : Inj (=) (=) group_col_name.
Proof. intros [] [] ?; by simplify_eq/=. Qed.

(** ** [groupby] *)

Section groupby.
Context {A : Type} `{PyOrd K} (key : A → K).
Implicit Types (df : list A) (k : K) (r : A).

Definition group_keys (df : list A) : list K := sorted (unique (key <$> df)).

Definition group_rows (k : K) (df : list A) : list A :=
  filter (λ r, key r = k) df.

Definition groupby (df : list A) : list (K * list A) :=
  (λ k, (k, group_rows k df)) <$> group_keys df.

(** [groupby(...).agg(f)]: one value per group. *)
Definition agg {B} (f : list A → B) (df : list A) : list (K * B) :=
  prod_map id f <$> groupby df.

(** *** Keys *)

Lemma groupby_keys df : (groupby df).*1 = group_keys df.
Proof. unfold groupby. by rewrite <-list_fmap_compose, list_fmap_id. Qed.

Lemma agg_keys {B} (f : list A → B) df : (agg f df).*1 = group_keys df.
Proof.
  unfold agg. rewrite <-list_fmap_compose, <-groupby_keys.
  by apply list_fmap_ext; intros ? [??].
Qed.

Lemma elem_of_group_keys k df : k ∈ group_keys df ↔ ∃ r, r ∈ df ∧ key r = k.
Proof.
  unfold group_keys. rewrite elem_of_sorted, elem_of_unique, list_elem_of_fmap.
  naive_solver.
Qed.

Lemma NoDup_group_keys df : NoDup (group_keys df).
Proof. apply NoDup_sorted, NoDup_unique. Qed.

Lemma Sorted_group_keys df : Sorted py_lt (group_keys df).
Proof. apply Sorted_lt_sorted, NoDup_unique. Qed.

Lemma StronglySorted_group_keys df : StronglySorted py_lt (group_keys df).
Proof. apply StronglySorted_lt_sorted, NoDup_unique. Qed.

Lemma group_keys_nil : group_keys [] = [].
Proof. done. Qed.

Lemma group_keys_nil_inv df : group_keys df = [] → df = [].
Proof.
  intros Hk%sort_by_nil_inv%unique_nil_inv. by apply fmap_nil_inv in Hk.
Qed.

Lemma length_group_keys df : length (group_keys df) ≤ length df.
Proof.
  unfold group_keys. rewrite length_sorted.
  etrans; [apply nunique_le|]. by rewrite length_fmap.
Qed.

(** *** Groups *)

Lemma elem_of_groupby k rows df :
  (k, rows) ∈ groupby df ↔ k ∈ group_keys df ∧ rows = group_rows k df.
Proof. unfold groupby. rewrite list_elem_of_fmap. naive_solver. Qed.

Lemma elem_of_group_rows r k df : r ∈ group_rows k df ↔ r ∈ df ∧ key r = k.
Proof. unfold group_rows. rewrite list_elem_of_filter. tauto. Qed.

Lemma group_rows_sublist k df : group_rows k df `sublist_of` df.
Proof. apply sublist_filter. Qed.

Lemma group_rows_nonempty k df : k ∈ group_keys df → group_rows k df ≠ [].
Proof.
  intros (r & Hr & Hk)%elem_of_group_keys Hnil.
  assert (r ∈ group_rows k df) as Hin by (by apply elem_of_group_rows).
  rewrite Hnil in Hin. by apply elem_of_nil in Hin.
Qed.

Lemma groupby_nonempty k rows df : (k, rows) ∈ groupby df → rows ≠ [].
Proof. intros [? ->]%elem_of_groupby. by apply group_rows_nonempty. Qed.

Lemma groupby_nil : groupby [] = [].
Proof. done. Qed.

Lemma groupby_nil_inv df : groupby df = [] → df = [].
Proof.
  intros Hg. apply group_keys_nil_inv. by rewrite <-groupby_keys, Hg.
Qed.

(** The row that belongs to key [k] is found in the group of [k] and
    in no other. *)
Lemma groupby_row r df :
  r ∈ df → ∃ rows, (key r, rows) ∈ groupby df ∧ r ∈ rows.
Proof.
  intros Hr. exists (group_rows (key r) df). split.
  - apply elem_of_groupby. split; [|done]. apply elem_of_group_keys. eauto.
  - by apply elem_of_group_rows.
Qed.

Lemma groupby_row_unique r k rows df :
  (k, rows) ∈ groupby df → r ∈ rows → k = key r.
Proof. by intros [_ ->]%elem_of_groupby [_ ?]%elem_of_group_rows. Qed.

(** *** The groups partition the table *)

Lemma mjoin_group_rows (ks : list K) df :
  NoDup ks →
  mjoin ((λ k, group_rows k df) <$> ks) ≡ₚ filter (λ r, key r ∈ ks) df.
Proof.
  induction 1 as [|k ks Hk _ IH]; csimpl.
  { symmetry. apply Permutation_nil_r, filter_False. intros r. apply not_elem_of_nil. }
  rewrite IH. unfold group_rows.
  rewrite (filter_or_disjoint (λ r, key r = k) (λ r, key r ∈ ks)).
  - apply reflexive_eq, filter_ext_elem. intros r _. rewrite elem_of_cons. tauto.
  - by intros r -> ?.
Qed.

(** The same for the keys in order of first appearance. *)
Lemma mjoin_unique_groups df :
  mjoin ((λ k, group_rows k df) <$> unique (key <$> df)) ≡ₚ df.
Proof.
  rewrite mjoin_group_rows by apply NoDup_unique.
  apply reflexive_eq, filter_all, Forall_forall. intros r Hr.
  apply elem_of_unique. by apply list_elem_of_fmap_2.
Qed.

Lemma groupby_partition df : mjoin (groupby df).*2 ≡ₚ df.
Proof.
  unfold groupby. rewrite <-list_fmap_compose.
  rewrite (mjoin_group_rows (group_keys df) df (NoDup_group_keys df)).
  apply reflexive_eq, filter_all, Forall_forall. intros r Hr.
  apply elem_of_group_keys. eauto.
Qed.

Lemma groupby_lengths df : sum_list (length <$> (groupby df).*2) = length df.
Proof. by rewrite <-length_join, groupby_partition. Qed.

(** *** Row order does not matter *)

#[export] Instance group_keys_Permutation : Proper ((≡ₚ) ==> (=)) group_keys.
Proof. intros df1 df2 Hdf. unfold group_keys. by rewrite Hdf. Qed.

#[export] Instance group_rows_Permutation k :
  Proper ((≡ₚ) ==> (≡ₚ)) (group_rows k).
Proof. intros df1 df2 Hdf. unfold group_rows. by rewrite Hdf. Qed.

Lemma agg_Permutation {B} (f : list A → B) :
  Proper ((≡ₚ) ==> (=)) f → Proper ((≡ₚ) ==> (=)) (agg f).
Proof.
  intros Hf df1 df2 Hdf. unfold agg, groupby.
  rewrite <-!list_fmap_compose, (group_keys_Permutation _ _ Hdf).
  apply list_fmap_ext. intros _ k _; simpl. f_equal.
  apply Hf. by rewrite Hdf.
Qed.

Lemma elem_of_agg {B} (f : list A → B) k b df :
  (k, b) ∈ agg f df ↔ k ∈ group_keys df ∧ b = f (group_rows k df).
Proof.
  unfold agg. rewrite list_elem_of_fmap. split.
  - intros ([k' rows] & [= -> ->] & [? ->]%elem_of_groupby). done.
  - intros [Hk ->]. exists (k, group_rows k df). split; [done|].
    by apply elem_of_groupby.
Qed.

Lemma agg_nil {B} (f : list A → B) : agg f [] = [].
Proof. done. Qed.

Lemma agg_nil_inv {B} (f : list A → B) df : agg f df = [] → df = [].
Proof. intros Ha. apply group_keys_nil_inv. by rewrite <-(agg_keys f), Ha. Qed.

(** *** Selecting groups by their key

    Grouping the records whose key satisfies a predicate gives the
    groups of the whole table whose key satisfies it. *)

Lemma group_keys_filter (P : K → Prop) `{!∀ k, Decision (P k)} df :
  group_keys (filter (λ r, P (key r)) df) = filter P (group_keys df).
Proof.
  unfold group_keys. by rewrite sorted_filter, <-unique_filter, filter_fmap.
Qed.

Lemma group_rows_filter (P : K → Prop) `{!∀ k, Decision (P k)} k df :
  P k → group_rows k (filter (λ r, P (key r)) df) = group_rows k df.
Proof.
  intros Hk. unfold group_rows. rewrite list_filter_filter.
  apply filter_ext_elem. intros r _. naive_solver.
Qed.

Lemma agg_filter {B} (f : list A → B) (P : K → Prop) `{!∀ k, Decision (P k)} df :
  agg f (filter (λ r, P (key r)) df) = filter (λ kb, P kb.1) (agg f df).
Proof.
  unfold agg, groupby. rewrite <-!list_fmap_compose, group_keys_filter.
  rewrite filter_fmap. simpl.
  apply list_fmap_ext.
  intros _ k [Hk _]%list_elem_of_lookup_2%list_elem_of_filter. simpl.
  by rewrite group_rows_filter.
Qed.

(** *** The one-pass algorithm *)

(** The table of groups in order of first appearance: the row joins
    the group of its key, or opens a new group at the end. *)
Fixpoint add_in_groups (k : K) (r : A) (g : list (K * list A))
  : list (K * list A) :=
  match g with
  | [] => [(k, [r])]
  | (k', rows) :: g' =>
      if decide (k = k') then (k', rows ++ [r]) :: g'
      else (k', rows) :: add_in_groups k r g'
  end.

Definition scan_groups (df : list A) : list (K * list A) :=
  foldl (λ g r, add_in_groups (key r) r g) [] df.

Definition groupby_scan (df : list A) : list (K * list A) :=
  sort_by (⪯) fst (scan_groups df).

(** The groups of the keys [ks], in that order. *)
Definition groups_of (ks : list K) (df : list A) : list (K * list A) :=
  (λ k, (k, group_rows k df)) <$> ks.

Lemma group_rows_snoc k r df :
  group_rows k (df ++ [r])
  = if decide (key r = k) then group_rows k df ++ [r] else group_rows k df.
Proof.
  unfold group_rows. rewrite filter_app, filter_cons.
  case_decide; [done|]. by rewrite app_nil_r.
Qed.

Lemma groups_of_snoc_other ks r df :
  key r ∉ ks → groups_of ks (df ++ [r]) = groups_of ks df.
Proof.
  intros Hr. apply list_fmap_ext. intros _ k Hk%list_elem_of_lookup_2.
  rewrite group_rows_snoc, decide_False; [done|]. by intros <-.
Qed.

Lemma add_in_groups_groups_of ks r df :
  NoDup ks → (key r ∉ ks → group_rows (key r) df = []) →
  add_in_groups (key r) r (groups_of ks df)
  = groups_of (if decide (key r ∈ ks) then ks else ks ++ [key r]) (df ++ [r]).
Proof.
  induction 1 as [|k ks Hk Hks IH]; intros Hnew.
  { simpl. rewrite group_rows_snoc, decide_True, Hnew by auto using not_elem_of_nil.
    done. }
  simpl. destruct (decide (key r = k)) as [<-|Hne].
  - rewrite decide_True by (by left). simpl.
    by rewrite group_rows_snoc, decide_True, groups_of_snoc_other.
  - rewrite IH by (intros ?; apply Hnew; rewrite elem_of_cons; tauto).
    rewrite (decide_ext (key r ∈ k :: ks) (key r ∈ ks))
      by (rewrite elem_of_cons; tauto).
    case_decide; simpl; by rewrite group_rows_snoc, decide_False by done.
Qed.

Lemma scan_groups_groups_of df :
  scan_groups df = groups_of (unique (key <$> df)) df.
Proof.
  induction df as [|r df IH] using rev_ind; [done|].
  unfold scan_groups in *. rewrite foldl_app; simpl. rewrite IH.
  rewrite add_in_groups_groups_of; [|apply NoDup_unique|].
  - rewrite fmap_app. change (key <$> [r]) with [key r]. rewrite unique_snoc.
    by rewrite (decide_ext _ _ _ _ (elem_of_unique (key r) (key <$> df))).
  - rewrite elem_of_unique. intros Hr. apply filter_none, Forall_forall.
    intros r' Hr' Heq. apply Hr. rewrite <-Heq. by apply list_elem_of_fmap_2.
Qed.

(** The one-pass group-by (scan the rows, keep a table of groups in
    order of first appearance, sort the table by key) computes the
    declarative [groupby]: the sorted distinct keys, each with its
    rows in table order. *)
Lemma groupby_scan_eq df : groupby_scan df = groupby df.
Proof.
  unfold groupby_scan. rewrite scan_groups_groups_of.
  unfold groups_of. rewrite sort_by_fmap. reflexivity.
Qed.
End groupby.

(** ** [groupby(key)[col].mean().reset_index()] *)

Section groupby_mean.
Context `{NumOps V} {A : Type} `{PyOrd K} (key : A → K) (col : A → cell V).
Implicit Types (df : list A) (k : K) (r : A) (m : cell V).

(** The mean of a column over a list of rows, NaN cells skipped. *)
Definition col_mean (rows : list A) : cell V := nanmean (col <$> rows).

Definition groupby_mean (df : list A) : list (K * cell V) :=
  agg key col_mean df.

(** The same table computed in one pass over the rows, as pandas
    does: a table of accumulators, one per key in order of first
    appearance, each holding the running sum of the numbers of its
    group and how many there were; the table is then sorted by key
    and every sum divided by its count. *)
Definition acc_add (a : V * nat) (c : cell V) : V * nat :=
  match c with Some v => (a.1 ⊕ v, S a.2) | None => a end.

Definition acc_mean (a : V * nat) : cell V :=
  if decide (a.2 = 0) then None else Some (ndiv a.1 a.2).

Fixpoint add_in_accs (k : K) (c : cell V) (t : list (K * (V * nat)))
  : list (K * (V * nat)) :=
  match t with
  | [] => [(k, acc_add (nzero, 0) c)]
  | (k', a) :: t' =>
      if decide (k = k') then (k', acc_add a c) :: t'
      else (k', a) :: add_in_accs k c t'
  end.

Definition scan_accs (df : list A) : list (K * (V * nat)) :=
  foldl (λ t r, add_in_accs (key r) (col r) t) [] df.

Definition groupby_mean_scan (df : list A) : list (K * cell V) :=
  prod_map id acc_mean <$> sort_by (⪯) fst (scan_accs df).

(** The accumulator of a group: its sum and its count. *)
Definition acc_of (rows : list A) : V * nat :=
  (nansum (col <$> rows), nancount (col <$> rows)).

Lemma acc_of_snoc rows r : acc_of (rows ++ [r]) = acc_add (acc_of rows) (col r).
Proof.
  unfold acc_of, acc_add, nansum, nancount, sum_values.
  rewrite fmap_app, dropna_app. csimpl.
  destruct (col r) as [v|]; csimpl.
  - by rewrite foldl_app, length_app, Nat.add_1_r.
  - by rewrite app_nil_r.
Qed.

Lemma add_in_accs_groups k r (g : list (K * list A)) :
  key r = k →
  add_in_accs k (col r) (prod_map id acc_of <$> g)
  = prod_map id acc_of <$> add_in_groups k r g.
Proof.
  intros <-. induction g as [|[k' rows] g IH]; csimpl.
  - f_equal. unfold prod_map; simpl. f_equal. symmetry. apply (acc_of_snoc [] r).
  - case_decide; csimpl; [|by rewrite IH].
    unfold prod_map; simpl. by rewrite acc_of_snoc.
Qed.

Lemma scan_accs_groups df :
  scan_accs df = prod_map id acc_of <$> scan_groups key df.
Proof.
  induction df as [|r df IH] using rev_ind; [done|].
  unfold scan_accs, scan_groups in *. rewrite !foldl_app; simpl.
  rewrite IH. by apply add_in_accs_groups.
Qed.

Lemma col_mean_nil : col_mean [] = None.
Proof. done. Qed.

Lemma col_mean_None rows :
  col_mean rows = None ↔ ∀ r, r ∈ rows → col r = None.
Proof.
  unfold col_mean. rewrite nanmean_None, Forall_fmap, Forall_forall. done.
Qed.

Lemma groupby_mean_scan_eq df : groupby_mean_scan df = groupby_mean df.
Proof.
  unfold groupby_mean_scan. rewrite scan_accs_groups, sort_by_fmap.
  rewrite (sort_by_ext _ _ fst) by (by intros []).
  fold (groupby_scan key df). rewrite groupby_scan_eq.
  unfold groupby_mean, agg. rewrite <-list_fmap_compose.
  apply list_fmap_ext. by intros _ [k rows] _.
Qed.

Lemma groupby_mean_keys df : (groupby_mean df).*1 = group_keys key df.
Proof. apply agg_keys. Qed.

Lemma elem_of_groupby_mean k m df :
  (k, m) ∈ groupby_mean df ↔
  k ∈ key <$> df ∧ m = col_mean (group_rows key k df).
Proof.
  unfold groupby_mean.
  rewrite elem_of_agg, elem_of_group_keys, list_elem_of_fmap. naive_solver.
Qed.

Lemma groupby_mean_nil : groupby_mean [] = [].
Proof. done. Qed.

Lemma groupby_mean_nil_inv df : groupby_mean df = [] → df = [].
Proof. apply agg_nil_inv. Qed.

Lemma length_groupby_mean df :
  length (groupby_mean df) = nunique (key <$> df).
Proof.
  rewrite <-(length_fmap fst), groupby_mean_keys.
  unfold group_keys. by rewrite length_sorted.
Qed.

(** Every row of the table is the mean of a group that has a row. *)
Lemma groupby_mean_row r df :
  r ∈ df → (key r, col_mean (group_rows key (key r) df)) ∈ groupby_mean df.
Proof. intros Hr. apply elem_of_groupby_mean. by rewrite list_elem_of_fmap; eauto. Qed.

(** The key column is a key of the table: a key has one mean. *)
Lemma groupby_mean_functional k m1 m2 df :
  (k, m1) ∈ groupby_mean df → (k, m2) ∈ groupby_mean df → m1 = m2.
Proof. intros [_ ->]%elem_of_groupby_mean [_ ->]%elem_of_groupby_mean. done. Qed.

Section exact.
Context `{!Number V}.

#[export] Instance col_mean_Permutation : Proper ((≡ₚ) ==> (=)) col_mean.
Proof. intros rows1 rows2 Hr. unfold col_mean. by rewrite Hr. Qed.

#[export] Instance groupby_mean_Permutation :
  Proper ((≡ₚ) ==> (=)) groupby_mean.
Proof. apply agg_Permutation, _. Qed.

Lemma col_mean_singleton r : col_mean [r] = col r.
Proof.
  unfold col_mean. simpl. destruct (col r); [apply nanmean_singleton|done].
Qed.

Lemma col_mean_bounds lo hi x rows :
  (∀ r v, r ∈ rows → col r = Some v → lo ≼ v ∧ v ≼ hi) →
  col_mean rows = Some x → lo ≼ x ∧ x ≼ hi.
Proof.
  intros Hb Hm.
  assert (∀ v, Some v ∈ col <$> rows → lo ≼ v ∧ v ≼ hi) as Hv.
  { intros v (r & Hv & Hr)%list_elem_of_fmap. eauto. }
  split; [eapply nanmean_ge|eapply nanmean_le]; try done; intros; by apply Hv.
Qed.

(** A group of one row has that row's value as its mean. *)
Lemma groupby_mean_single r df :
  group_rows key (key r) df = [r] → (key r, col r) ∈ groupby_mean df.
Proof.
  intros Hg. apply elem_of_groupby_mean. rewrite Hg, col_mean_singleton.
  split; [|done]. apply list_elem_of_fmap_2.
  apply (elem_of_group_rows key r (key r) df). rewrite Hg. by left.
Qed.

(** Means lie between any bounds of the data. *)
Lemma groupby_mean_bounds lo hi k x df :
  (∀ r v, r ∈ df → col r = Some v → lo ≼ v ∧ v ≼ hi) →
  (k, Some x) ∈ groupby_mean df → lo ≼ x ∧ x ≼ hi.
Proof.
  intros Hb [_ Hm]%elem_of_groupby_mean. symmetry in Hm.
  eapply col_mean_bounds; [|done].
  intros r v [Hr _]%elem_of_group_rows. by apply Hb.
Qed.
End exact.
End groupby_mean.

#[export] Hint Rewrite @groupby_keys @agg_keys @group_keys_nil @groupby_nil
  : frame_simpl.
#[export] Hint Resolve NoDup_group_keys Sorted_group_keys group_rows_sublist
  : frame.
