(* ===== verification/Figure.v ===== *)
(** * Figure: the rendering boundary

    The script draws nothing itself: it hands a table and a chart
    directive to plotly express ([px.histogram], [px.bar], ...), to
    pyecharts ([Pie]) or to seaborn.  This file models what crosses
    that boundary:

    - [Table], a table with named and typed columns, which is what a
      pandas DataFrame is to the plotting library: the headers, the
      dtype of every column and, per row, one value per header;
    - [Figure], the arguments of a plotly express call: the kind of
      chart, the table, the columns named by [x], [y], [color],
      [path], [values], [locations] and [hover_data], the title and
      the literal display options;
    - [PieChart], the arguments of the pyecharts pie.

    plotly express looks every column it is given up by name and
    raises an error when the table has no such column.  [table_ok] is
    the typing invariant of a table: its headers are distinct and
    every row holds, under every header, a value of the dtype of that
    column.  [figure_ok] says that a figure is well formed: its table
    is well typed, every column the call names is one of its columns,
    and every column the call draws as a quantity is numeric.  The
    tabs prove it for each figure they build.

    [select_dtypes] is the column selection by dtype of lines 149 and
    412. *)

From S2P Require Import Prelude Order Sorting Numeric Series Frame.

(** ** Tables with named columns *)

(** A value of a table: an integer, a string, a float64 cell, or a
    missing string. *)
Inductive Val (V : Type) :=
  | VInt (z : Z)
  | VStr (s : string)
  | VNum (c : cell V)
  | VNone.
Arguments VInt {V}.
Arguments VStr {V}.
Arguments VNum {V}.
Arguments VNone {V}.

#[export] Instance Val_eq_dec `{EqDecision V} : EqDecision (Val V).
Proof. solve_decision. Defined.

(** The dtypes of the columns of the script. *)
Inductive DType := Int64 | Float64 | Object.

#[export] Instance DType_eq_dec : EqDecision DType.
Proof. solve_decision. Defined.

(** The dtype a value belongs to: a missing string lives in an object
    column, NaN in a float64 column. *)
Definition dtype_of {V} (v : Val V) : DType :=
  match v with
  | VInt _ => Int64
  | VNum _ => Float64
  | VStr _ | VNone => Object
  end.

(** [np.number]. *)
Definition np_number : list DType := [Int64; Float64].

Record Table (V : Type) := mkTable {
  schema : list (string * DType);
  rows : list (list (Val V));
}.
Arguments mkTable {V}.
Arguments schema {V}.
Arguments rows {V}.

Definition columns {V} (t : Table V) : list string := (schema t).*1.
Definition dtypes {V} (t : Table V) : list DType := (schema t).*2.

(** [select_dtypes(include=...).columns]: the headers of the columns
    whose dtype is one of [include], in table order. *)
Definition select_dtypes (include : list DType) (sch : list (string * DType))
  : list string :=
  (filter (λ cd, cd.2 ∈ include) sch).*1.

#[export] Instance Table_eq_dec `{EqDecision V} : EqDecision (Table V).
Proof. solve_decision. Defined.

(** The kinds of chart the script asks for. *)
Inductive ChartKind :=
  | Histogram | Choropleth | Bar | Sunburst | Box | Line | Scatter.

#[export] Instance ChartKind_eq_dec : EqDecision ChartKind.
Proof. solve_decision. Defined.

(** The arguments of a plotly express call. *)
Record Figure (V : Type) := mkFigure {
  fig_kind : ChartKind;
  fig_data : Table V;
  fig_x : option string;
  fig_y : option string;
  fig_color : option string;
  fig_path : list string;
  fig_values : option string;
  fig_locations : option string;
  fig_hover : list string;
  fig_title : string;
  fig_options : list (string * string);
}.
Arguments mkFigure {V}.
Arguments fig_kind {V}.
Arguments fig_data {V}.
Arguments fig_x {V}.
Arguments fig_y {V}.
Arguments fig_color {V}.
Arguments fig_path {V}.
Arguments fig_values {V}.
Arguments fig_locations {V}.
Arguments fig_hover {V}.
Arguments fig_title {V}.
Arguments fig_options {V}.

#[export] Instance Figure_eq_dec `{EqDecision V} : EqDecision (Figure V).
Proof. solve_decision. Defined.

(** The arguments of the pyecharts pie: the series, its (name, value)
    pairs and the title. *)
Record PieChart := mkPieChart {
  pie_series : string;
  pie_data : list (string * nat);
  pie_title : string;
  pie_options : list (string * string);
}.

#[export] Instance PieChart_eq_dec : EqDecision PieChart.
Proof. solve_decision. Defined.

Section figure.
Context {V : Type}.
Implicit Types (t : Table V) (f : Figure V) (fdf : DataFrame V)
  (r : Row V).

(** ** Well-formed tables and figures *)

Definition table_ok t : Prop :=
  NoDup (columns t) ∧ Forall (λ row, dtype_of <$> row = dtypes t) (rows t).

(** The columns a figure names. *)
Definition fig_columns f : list string :=
  option_list (fig_x f) ++ option_list (fig_y f) ++ option_list (fig_color f)
  ++ fig_path f ++ option_list (fig_values f) ++ option_list (fig_locations f)
  ++ fig_hover f.

(** The columns a figure draws as a quantity: the values of a
    sunburst, the colour of a map, the bins of a histogram, the height
    of a bar or of a box, both axes of a line and of a scatter
    plot. *)
Definition fig_measures f : list string :=
  match fig_kind f with
  | Histogram => option_list (fig_x f)
  | Choropleth => option_list (fig_color f)
  | Bar | Box => option_list (fig_y f)
  | Sunburst => option_list (fig_values f)
  | Line | Scatter => option_list (fig_x f) ++ option_list (fig_y f)
  end.

Definition figure_ok f : Prop :=
  table_ok (fig_data f) ∧ fig_columns f ⊆ columns (fig_data f)
  ∧ fig_measures f ⊆ select_dtypes np_number (schema (fig_data f)).

#[export] Instance table_ok_dec t : Decision (table_ok t).
Proof. unfold table_ok. apply _. Defined.

#[export] Instance figure_ok_dec f : Decision (figure_ok f).
Proof. unfold figure_ok. apply _. Defined.

(** The column of a table under a header. *)
Definition table_col (name : string) t : list (Val V) :=
  omap (λ row, alookup name (zip (columns t) row)) (rows t).

(** ** The table of the script as a [Table] *)

(** The headers of the CSV with their dtypes, in table order. *)
Definition frame_schema : list (string * DType) :=
  [ ("Year", Int64); ("Country", Object); ("Industry", Object);
    ("AI Adoption Rate (%)", Float64); ("Job Loss Due to AI (%)", Float64);
    ("Revenue Increase Due to AI (%)", Float64);
    ("Consumer Trust in AI (%)", Float64);
    ("AI-Generated Content Volume (TBs per year)", Float64);
    ("Human-AI Collaboration Rate (%)", Float64);
    ("Top AI Tools Used", Object); ("Regulation Status", Object) ].

Definition frame_columns : list string := frame_schema.*1.

Definition opt_str (s : option string) : Val V :=
  match s with Some s => VStr s | None => VNone end.

Definition frame_row r : list (Val V) :=
  [ VInt (Year r); VStr (Country r); VStr (Industry r);
    VNum (AI_Adoption_Rate r); VNum (Job_Loss_Due_to_AI r);
    VNum (Revenue_Increase_Due_to_AI r); VNum (Consumer_Trust_in_AI r);
    VNum (AI_Generated_Content_Volume r);
    VNum (Human_AI_Collaboration_Rate r);
    opt_str (Top_AI_Tools_Used r); opt_str (Regulation_Status r) ].

Definition frame_table fdf : Table V :=
  mkTable frame_schema (frame_row <$> fdf).

(** ** The tables of [reset_index] *)

(** One key column and one value column. *)
Definition kv_table (key_name val_name : string) (kv : list (string * cell V))
  : Table V :=
  mkTable [(key_name, Object); (val_name, Float64)]
    ((λ p, [VStr p.1; VNum p.2]) <$> kv).

(** Year, a second key and one value column. *)
Definition ykv_table (key_name val_name : string)
    (ykv : list (Z * string * cell V)) : Table V :=
  mkTable [("Year", Int64); (key_name, Object); (val_name, Float64)]
    ((λ p, [VInt p.1.1; VStr p.1.2; VNum p.2]) <$> ykv).

(** One key column and one column per named value. *)
Definition wide_table (key_name : string) (names : list string)
    (w : list (string * list (string * cell V))) : Table V :=
  mkTable ((key_name, Object) :: ((., Float64) <$> names))
    ((λ p, VStr p.1 :: (VNum ∘ snd <$> p.2)) <$> w).

(** ** Well-formedness of the tables *)

Lemma NoDup_frame_columns : NoDup frame_columns.
Proof. by_eval. Qed.

Lemma metric_name_frame_columns m : metric_name m ∈ frame_columns.
Proof. destruct m; by_eval. Qed.

Lemma dtype_of_opt_str s : dtype_of (opt_str s) = Object.
Proof. by destruct s. Qed.

Lemma frame_table_ok fdf : table_ok (frame_table fdf).
Proof.
  split; [apply NoDup_frame_columns|].
  apply Forall_fmap, Forall_forall. intros r _.
  unfold frame_row. csimpl. by rewrite !dtype_of_opt_str.
Qed.

Lemma kv_table_ok key_name val_name kv :
  key_name ≠ val_name → table_ok (kv_table key_name val_name kv).
Proof.
  intros Hne. split.
  - apply NoDup_cons. split; [set_solver|apply NoDup_singleton].
  - apply Forall_fmap, Forall_forall. by intros p _.
Qed.

Lemma ykv_table_ok key_name val_name ykv :
  "Year" ≠ key_name → "Year" ≠ val_name → key_name ≠ val_name →
  table_ok (ykv_table key_name val_name ykv).
Proof.
  intros H1 H2 H3. split.
  - repeat (apply NoDup_cons; split; [set_solver|]). apply NoDup_nil_2.
  - apply Forall_fmap, Forall_forall. by intros p _.
Qed.

Lemma wide_table_ok key_name names w :
  NoDup (key_name :: names) → Forall (λ p, length p.2 = length names) w →
  table_ok (wide_table key_name names w).
Proof.
  intros Hnd Hw. split.
  - unfold columns. simpl. by rewrite <-list_fmap_compose, list_fmap_id.
  - apply Forall_fmap. eapply Forall_impl; [done|].
    intros p Hp. unfold dtypes. simpl. f_equal.
    rewrite <-!list_fmap_compose. apply list_eq_same_length with (length names);
      rewrite ?length_fmap; [done..|].
    intros i d1 d2 _. rewrite !list_lookup_fmap.
    destruct (p.2 !! i), (names !! i); naive_solver.
Qed.

(** A well-typed table is rectangular. *)
Lemma table_ok_rectangular t :
  table_ok t → Forall (λ row, length row = length (columns t)) (rows t).
Proof.
  intros [_ Hrows]. eapply Forall_impl; [done|]. intros row Hrow. simpl in *.
  rewrite <-(length_fmap dtype_of row), Hrow. unfold columns, dtypes.
  by rewrite !length_fmap.
Qed.

(** The columns [select_dtypes] returns are columns of the table. *)
Lemma select_dtypes_subseteq include (sch : list (string * DType)) :
  select_dtypes include sch ⊆ sch.*1.
Proof.
  intros c (cd & -> & [_ Hcd]%list_elem_of_filter)%list_elem_of_fmap.
  by apply list_elem_of_fmap_2.
Qed.

Lemma elem_of_select_dtypes include (sch : list (string * DType)) c :
  c ∈ select_dtypes include sch ↔ ∃ d, (c, d) ∈ sch ∧ d ∈ include.
Proof.
  unfold select_dtypes. rewrite list_elem_of_fmap. split.
  - intros ([c' d] & -> & [Hd Hin]%list_elem_of_filter). by exists d.
  - intros (d & Hin & Hd). exists (c, d). split; [done|].
    by apply list_elem_of_filter.
Qed.

(** The value column of a key/value table is the column of values. *)
Lemma table_col_kv_val key_name val_name kv :
  key_name ≠ val_name →
  table_col val_name (kv_table key_name val_name kv) = VNum <$> kv.*2.
Proof.
  intros Hne. unfold table_col, kv_table. simpl.
  induction kv as [|p kv IH]; csimpl; [done|].
  rewrite decide_False, decide_True by done. simpl. by rewrite IH.
Qed.

Lemma table_col_kv_key key_name val_name kv :
  table_col key_name (kv_table key_name val_name kv) = VStr <$> kv.*1.
Proof.
  unfold table_col, kv_table. simpl.
  induction kv as [|p kv IH]; csimpl; [done|].
  rewrite decide_True by done. simpl. by rewrite IH.
Qed.

Lemma length_rows_frame_table fdf : length (rows (frame_table fdf)) = length fdf.
Proof. apply length_fmap. Qed.
End figure.

#[export] Hint Resolve frame_table_ok NoDup_frame_columns
  metric_name_frame_columns : frame.

(** Split a goal [Forall figure_ok [f1; ...; fn]] into one goal per
    figure and each of those into the table and the columns. *)
Ltac each_figure :=
  repeat (apply Forall_cons_2; [split_and!|]); [..|apply Forall_nil_2].
