(* ===== verification/Scenario.v ===== *)
(** * Scenario: the example table of the specification

    The three records of the scenarios of the specification (section
    8), completed with values for the columns the scenarios leave
    open, over the rationals.  The third record has a missing job-loss
    cell and a missing tool, so that the NaN paths of the reductions
    are exercised.  The witnesses of the development evaluate the
    model on this table. *)

From Stdlib Require Import QArith Qcanon.
From stdpp Require Import numbers.
From S2P Require Import Prelude Order Sorting Numeric Series Frame.
#[local] Close Scope Q_scope.
#[local] Close Scope Qc_scope.

(** A number cell from an integer literal. *)
Definition num (z : Z) : cell Qc := Some (Qc_of_Z z).

Definition row_usa_1 : Row Qc :=
  mkRow 2020 "USA" "Media" (num 40) (num 10) (num 20) (num 50) (num 10) (num 30)
    (Some "ChatGPT") (Some "Strict").

Definition row_usa_2 : Row Qc :=
  mkRow 2020 "USA" "Media" (num 60) (num 30) (num 40) (num 70) (num 20) (num 50)
    (Some "Bard") (Some "Strict").

Definition row_uk : Row Qc :=
  mkRow 2021 "UK" "Retail" (num 30) None (num 10) (num 40) (num 5) (num 20)
    None (Some "Lenient").

Definition scenario_df : DataFrame Qc := [row_usa_1; row_usa_2; row_uk].

(** The order of the rows is irrelevant to what the tabs show; the
    permuted table is used to witness it. *)
Definition scenario_df_permuted : DataFrame Qc := [row_uk; row_usa_2; row_usa_1].

Lemma scenario_df_Permutation : scenario_df ≡ₚ scenario_df_permuted.
Proof. by_eval. Qed.

(** The percentage cells of the example table lie within [0,100]. *)
Lemma scenario_df_percent r m v :
  r ∈ scenario_df → m ≠ ContentVolume → metric_col m r = Some v →
  Qc_of_Z 0 ≼ v ∧ v ≼ Qc_of_Z 100.
Proof.
  unfold scenario_df. intros Hr Hm Hv. set_unfold in Hr.
  destruct Hr as [->|[->|[->|[]]]]; destruct m; try done;
    cbv [metric_col AI_Adoption_Rate Job_Loss_Due_to_AI
         Revenue_Increase_Due_to_AI Consumer_Trust_in_AI
         Human_AI_Collaboration_Rate row_usa_1 row_usa_2 row_uk num] in Hv;
    simplify_eq; split; by_eval.
Qed.
