(* ===== verification/Widgets.v ===== *)
(** * Widgets: the input widgets of Streamlit

    The script is re-run on every interaction; a widget call returns
    the value the user has currently chosen.  A widget is therefore a
    function of its arguments and of the user's input for this run:

    - [multiselect options default c]: [c] is [None] as long as the
      user has not touched the widget (it then returns its default),
      and otherwise the positions of the option list the user picked,
      in the order picked;
    - [selectbox options i] and [radio options i]: [i] is the position
      the user chose, initially 0.  A position that does not exist in
      the option list (the list changed since the choice was made)
      falls back to the first option, as Streamlit resets the widget;
      with no option at all the widget returns [None].

    What the script relies on is proved here once: a multi-select
    returns a sub-collection of its options, a select box returns one
    of its options, and returns nothing only when it has none. *)

From S2P Require Import Prelude.

(** ** Multi-select *)

Definition Choice := option (list nat).

Definition multiselect {A} (options default : list A) (c : Choice) : list A :=
  match c with
  | None => default
  | Some picked => omap (λ i, options !! i) picked
  end.

Lemma multiselect_subseteq {A} (options default : list A) c :
  default ⊆ options → multiselect options default c ⊆ options.
Proof.
  destruct c as [picked|]; simpl; [intros _|done].
  apply omap_lookup_subseteq.
Qed.

Lemma multiselect_untouched {A} (options default : list A) :
  multiselect options default None = default.
Proof. done. Qed.

Lemma multiselect_all {A} (options default : list A) :
  multiselect options default (Some (seq 0 (length options))) = options.
Proof. apply omap_lookup_seq. Qed.

Lemma multiselect_none {A} (options default : list A) :
  multiselect options default (Some []) = [].
Proof. done. Qed.

(** ** Select box and radio *)

Definition selectbox {A} (options : list A) (i : nat) : option A :=
  match options !! i with
  | Some x => Some x
  | None => head options
  end.

(** [st.radio] chooses among its options like a select box. *)
Definition radio {A} (options : list A) (i : nat) : option A :=
  selectbox options i.

Section selectbox.
Context {A : Type}.
Implicit Types (options : list A) (i : nat) (x : A).

Lemma selectbox_elem_of options i x : selectbox options i = Some x → x ∈ options.
Proof.
  unfold selectbox. destruct (options !! i) as [y|] eqn:Hi.
  - intros [= <-]. by eapply list_elem_of_lookup_2.
  - apply head_Some_elem_of.
Qed.

Lemma selectbox_None options i : selectbox options i = None ↔ options = [].
Proof.
  unfold selectbox. split; [|by intros ->].
  destruct (options !! i); [done|]. by destruct options.
Qed.

Lemma selectbox_is_Some options i : options ≠ [] → is_Some (selectbox options i).
Proof.
  intros Hne. apply not_eq_None_Some. by rewrite selectbox_None.
Qed.

Lemma selectbox_default options : selectbox options 0 = head options.
Proof. by destruct options. Qed.

Lemma selectbox_lookup options i x :
  options !! i = Some x → selectbox options i = Some x.
Proof. unfold selectbox. by intros ->. Qed.

Lemma selectbox_nil i : selectbox (A:=A) [] i = None.
Proof. by apply selectbox_None. Qed.
End selectbox.

#[export] Hint Rewrite @multiselect_all @selectbox_nil : frame_simpl.
#[export] Hint Resolve multiselect_subseteq : frame.
