(* ===== verification/Sidebar.v ===== *)
(** * Sidebar: the filter widgets and the filter engine

    This file translates lines 26-71 of [src/app2.py]: the option
    lists computed from the table, the multi-select widgets of the
    sidebar, and [filtered_df], the view every tab reads.

    The script creates four multi-select widgets (see [Widgets] for
    what a widget returns): the name [selected_industries] is bound
    twice, first to a widget with the key ["industries_multiselect"]
    and then to a second widget with the same label; [sidebar] keeps
    both calls in the order of the script, and
    [sidebar_first_industries_dead] shows that the first one never
    reaches the filter. *)

From S2P Require Import Prelude Order Sorting Numeric Series Frame.
From S2P Require Import Scenario Widgets.

(** ** The script, lines 26-71 *)

(** The user's input to the sidebar, one field per widget in the order
    the script creates them. *)
Record SidebarInput := mkSidebarInput {
  in_years : Choice;
  in_countries : Choice;
  in_industries_keyed : Choice;
  in_industries : Choice;
}.

(** The names the sidebar binds. *)
Record Selection := mkSelection {
  selected_years : list Z;
  selected_countries : list string;
  selected_industries : list string;
}.

Section sidebar.
Context {V : Type}.
Implicit Types (df : DataFrame V) (inp : SidebarInput) (sel : Selection)
  (r : Row V).

(** Lines 30-32. *)
Definition years df : list Z := sorted (unique (Year <$> df)).
Definition countries df : list string := sorted (unique (Country <$> df)).
Definition industries df : list string := sorted (unique (Industry <$> df)).

(** Lines 35-37. *)
Definition default_years df : list Z := years df.
Definition default_countries df : list string := countries df.
Definition default_industries df : list string := industries df.

(** Lines 39-64: the four widgets.  The fourth binds
    [selected_industries] again. *)
Definition sidebar df inp : Selection :=
  let selected_years := multiselect (years df) (default_years df) (in_years inp) in
  let selected_countries :=
    multiselect (countries df) (default_countries df) (in_countries inp) in
  let selected_industries :=
    multiselect (industries df) (default_industries df)
      (in_industries_keyed inp) in
  let selected_industries :=
    multiselect (industries df) (default_industries df) (in_industries inp) in
  mkSelection selected_years selected_countries selected_industries.

(** Lines 67-71: three [isin] masks, joined by [&], index the table. *)
Definition filtered_df df sel : DataFrame V :=
  getitem_mask df
    (isin (Year <$> df) (selected_years sel)
     &&& isin (Country <$> df) (selected_countries sel)
     &&& isin (Industry <$> df) (selected_industries sel)).

(** The script from the table to the filtered view. *)
Definition run_filter df inp : DataFrame V := filtered_df df (sidebar df inp).

(** ** The filtered view of the specification *)

Definition selects sel r : Prop :=
  Year r ∈ selected_years sel ∧ Country r ∈ selected_countries sel
  ∧ Industry r ∈ selected_industries sel.

#[export] Instance selects_dec sel r : Decision (selects sel r).
Proof. unfold selects. apply _. Defined.

Definition FilteredView df sel : DataFrame V := filter (selects sel) df.

(** A selection within the options of the table. *)
Definition valid_selection df sel : Prop :=
  selected_years sel ⊆ years df ∧ selected_countries sel ⊆ countries df
  ∧ selected_industries sel ⊆ industries df.

(** Everything selected. *)
Definition select_all df : Selection :=
  mkSelection (years df) (countries df) (industries df).

(** ** The option lists *)

Lemma elem_of_years y df : y ∈ years df ↔ ∃ r, r ∈ df ∧ Year r = y.
Proof. exact (elem_of_group_keys Year y df). Qed.

Lemma elem_of_countries c df : c ∈ countries df ↔ ∃ r, r ∈ df ∧ Country r = c.
Proof. exact (elem_of_group_keys Country c df). Qed.

Lemma elem_of_industries i df :
  i ∈ industries df ↔ ∃ r, r ∈ df ∧ Industry r = i.
Proof. exact (elem_of_group_keys Industry i df). Qed.

Lemma select_all_selects df r : r ∈ df → selects (select_all df) r.
Proof.
  intros Hr. unfold selects; simpl.
  rewrite elem_of_years, elem_of_countries, elem_of_industries.
  split_and!; by exists r.
Qed.

(** ** The widgets *)

Lemma sidebar_valid df inp : valid_selection df (sidebar df inp).
Proof. repeat split; simpl; by apply multiselect_subseteq. Qed.

Lemma sidebar_untouched df :
  sidebar df (mkSidebarInput None None None None) = select_all df.
Proof. done. Qed.

(** ** The mask computation is the filter of the specification *)

Lemma filtered_df_mask df sel :
  isin (Year <$> df) (selected_years sel)
  &&& isin (Country <$> df) (selected_countries sel)
  &&& isin (Industry <$> df) (selected_industries sel)
  = mask_of (selects sel) df.
Proof.
  unfold isin, mask_of, mask_and.
  induction df as [|r df IH]; csimpl; [done|]. rewrite IH. f_equal.
  unfold selects. repeat case_bool_decide; simpl; try done; tauto.
Qed.

Lemma filtered_df_filter df sel : filtered_df df sel = filter (selects sel) df.
Proof. unfold filtered_df. rewrite filtered_df_mask. apply getitem_mask_of. Qed.

Lemma elem_of_filtered_df r df sel :
  r ∈ filtered_df df sel ↔
    r ∈ df ∧ Year r ∈ selected_years sel ∧ Country r ∈ selected_countries sel
    ∧ Industry r ∈ selected_industries sel.
Proof.
  rewrite filtered_df_filter, list_elem_of_filter. unfold selects. tauto.
Qed.

Lemma filtered_df_sublist df sel : filtered_df df sel `sublist_of` df.
Proof. apply getitem_mask_sublist. Qed.

(** A selection that covers the options of the table selects every
    record. *)
Lemma filtered_df_covering df sel :
  years df ⊆ selected_years sel → countries df ⊆ selected_countries sel →
  industries df ⊆ selected_industries sel → filtered_df df sel = df.
Proof.
  intros Hy Hc Hi. rewrite filtered_df_filter. apply filter_all, Forall_forall.
  intros r Hr. destruct (select_all_selects df r Hr) as (?&?&?).
  split_and!; auto.
Qed.

Lemma filtered_df_select_all df : filtered_df df (select_all df) = df.
Proof. by apply filtered_df_covering. Qed.

(** No record satisfies a selection with an empty dimension. *)
Lemma selects_empty sel r :
  selected_years sel = [] ∨ selected_countries sel = []
  ∨ selected_industries sel = [] → ¬ selects sel r.
Proof.
  intros Hsel (Hy & Hc & Hi).
  destruct Hsel as [Hnil|[Hnil|Hnil]]; rewrite Hnil in *; by eapply elem_of_nil.
Qed.

Lemma filtered_df_empty df sel :
  (∀ r, r ∈ df → ¬ selects sel r) → filtered_df df sel = [].
Proof. intros Hn. rewrite filtered_df_filter. by apply filter_none, Forall_forall. Qed.

(** The filter is applied row by row. *)
Lemma filtered_df_app df1 df2 sel :
  filtered_df (df1 ++ df2) sel = filtered_df df1 sel ++ filtered_df df2 sel.
Proof. rewrite !filtered_df_filter. apply filter_app. Qed.

Lemma filtered_df_nil sel : filtered_df [] sel = [].
Proof. done. Qed.

Lemma filtered_df_idemp df sel :
  filtered_df (filtered_df df sel) sel = filtered_df df sel.
Proof. rewrite !filtered_df_filter. apply filter_idemp. Qed.

#[export] Instance filtered_df_Permutation :
  Proper ((≡ₚ) ==> (=) ==> (≡ₚ)) filtered_df.
Proof.
  intros df1 df2 Hdf sel ? <-. rewrite !filtered_df_filter. by rewrite Hdf.
Qed.

(** The options of the filtered view are among the selected ones. *)
Lemma industries_filtered_df df sel :
  industries (filtered_df df sel) ⊆ selected_industries sel.
Proof.
  intros i (r & Hr & <-)%elem_of_industries.
  by apply elem_of_filtered_df in Hr as (_ & _ & _ & ?).
Qed.

Lemma countries_filtered_df df sel :
  countries (filtered_df df sel) ⊆ selected_countries sel.
Proof.
  intros c (r & Hr & <-)%elem_of_countries.
  by apply elem_of_filtered_df in Hr as (_ & _ & ? & _).
Qed.

Lemma years_filtered_df df sel :
  years (filtered_df df sel) ⊆ selected_years sel.
Proof.
  intros y (r & Hr & <-)%elem_of_years.
  by apply elem_of_filtered_df in Hr as (_ & ? & _ & _).
Qed.
(** ** The properties of the filter engine *)

(** C1. The filter engine refines its specification: the three [isin]
    masks joined by [&] select exactly the records whose year, country
    and industry are all selected, in the order of the table. *)
Theorem filtered_df_spec df sel : filtered_df df sel = FilteredView df sel.
Proof. apply filtered_df_filter. Qed.

(** C2. The filtered view is a sub-list of the table (no record is
    invented or duplicated, the row order is kept) and a record of the
    table is in it exactly when its year, its country and its
    industry are all selected (logical AND across the dimensions). *)
Theorem filtered_df_sound df sel :
  filtered_df df sel `sublist_of` df
  ∧ ∀ r, r ∈ filtered_df df sel ↔
      r ∈ df ∧ Year r ∈ selected_years sel
      ∧ Country r ∈ selected_countries sel
      ∧ Industry r ∈ selected_industries sel.
Proof. split; [apply filtered_df_sublist|intros r; apply elem_of_filtered_df]. Qed.

(** C4. On a fresh page, where no widget was touched, and equally when
    the user has picked every option by hand, the script shows the
    whole table. *)
Theorem run_filter_default df :
  run_filter df (mkSidebarInput None None None None) = df
  ∧ run_filter df (mkSidebarInput
      (Some (seq 0 (length (years df))))
      (Some (seq 0 (length (countries df))))
      None
      (Some (seq 0 (length (industries df))))) = df.
Proof.
  unfold run_filter, sidebar.
  cbn [in_years in_countries in_industries in_industries_keyed].
  rewrite !multiselect_all. split; apply filtered_df_select_all.
Qed.

(** C3. An empty selection in any one dimension gives the empty view,
    whatever the other two selections are. *)
Theorem filtered_df_empty_dimension df sel :
  selected_years sel = [] ∨ selected_countries sel = []
  ∨ selected_industries sel = [] →
  filtered_df df sel = [].
Proof. intros Hsel. apply filtered_df_empty. intros r _. by apply selects_empty. Qed.

(** C5. The first "Select Industries" widget (the one with the key
    ["industries_multiselect"]) is dead: whatever the user picks
    there, the selection the filter uses is unchanged, because the
    name [selected_industries] is bound again by the second widget. *)
Theorem sidebar_first_industries_dead df inp c :
  sidebar df (mkSidebarInput (in_years inp) (in_countries inp) c
                (in_industries inp))
  = sidebar df inp.
Proof. by destruct inp. Qed.

(** Selecting more shows more: when each of the three selections
    grows, the old view is a sub-list of the new one. *)
Theorem filtered_df_mono df sel1 sel2 :
  selected_years sel1 ⊆ selected_years sel2 →
  selected_countries sel1 ⊆ selected_countries sel2 →
  selected_industries sel1 ⊆ selected_industries sel2 →
  filtered_df df sel1 `sublist_of` filtered_df df sel2.
Proof.
  intros Hy Hc Hi. rewrite !filtered_df_filter.
  rewrite <-(list_filter_filter_l (selects sel1) (selects sel2) df).
  - apply sublist_filter.
  - intros r (?&?&?). split_and!; auto.
Qed.
End sidebar.

(** Rewrite the view of a selection with an empty dimension, a
    hypothesis of the goal, to the empty table. *)
Ltac empty_view :=
  rewrite filtered_df_empty by (intros ? _; by apply selects_empty).

#[export] Hint Rewrite @filtered_df_nil @filtered_df_idemp
  @filtered_df_select_all : frame_simpl.
#[export] Hint Resolve filtered_df_sublist sidebar_valid : frame.

(** ** The scenarios of the specification *)

(** Years {2020}, countries {USA}, industries {Media}: two of the three
    records remain. *)
Example scenario_filter :
  filtered_df scenario_df (mkSelection [2020%Z] ["USA"] ["Media"])
  = [row_usa_1; row_usa_2].
Proof. by_eval. Qed.

(** No country selected: nothing remains. *)
Example scenario_filter_no_country :
  run_filter scenario_df (mkSidebarInput None (Some []) None None) = [].
Proof. by_eval. Qed.

Lemma filtered_df_empty_dimension_witness :
  (selected_years (mkSelection [2020%Z] [] ["Media"]) = []
   ∨ selected_countries (mkSelection [2020%Z] [] ["Media"]) = []
   ∨ selected_industries (mkSelection [2020%Z] [] ["Media"]) = [])
  ∧ filtered_df scenario_df (mkSelection [2020%Z] [] ["Media"]) = [].
Proof.
  split; [right; left; reflexivity|].
  apply filtered_df_empty_dimension. right; left; reflexivity.
Defined.

Lemma filtered_df_mono_witness :
  filtered_df scenario_df (mkSelection [2020%Z] ["USA"] ["Media"])
  `sublist_of`
  filtered_df scenario_df (mkSelection [2020%Z; 2021%Z] ["USA"; "UK"] ["Media"]).
Proof. apply filtered_df_mono; simpl; set_solver. Defined.
