(* ===== verification/Overview.v ===== *)
(** * Overview: the key figures of the "Overview" tab

    Lines 82-115 of [src/app2.py]: eight [st.metric] cards computed
    from [filtered_df].  Five are means of a percentage column
    ([Series.mean], NaN cells skipped, NaN on an empty column), one is
    the total of the content volume ([Series.sum], zero on an empty
    column) and two are numbers of distinct values
    ([Series.nunique]).

    [overview_metrics] is the row of cards in the order the script
    draws them, each with its label and the value it shows, before
    formatting.  The theorems say what the cards show on the empty
    view, on a view of one record, on a permuted table, and how they
    are bounded by the data and by the selection. *)

From Stdlib Require Import QArith Qcanon.
From stdpp Require Import numbers.
From S2P Require Import Prelude Order Sorting Numeric Series Frame.
From S2P Require Import Figure Scenario Widgets Sidebar.
#[local] Close Scope Q_scope.
#[local] Close Scope Qc_scope.

(** What a card shows: a percentage with one decimal (or NaN), a
    volume in TB per year, or a count. *)
Inductive MetricValue (V : Type) :=
  | Percent (c : cell V)
  | Volume (v : V)
  | Count (n : nat).
Arguments Percent {V}.
Arguments Volume {V}.
Arguments Count {V}.

#[export] Instance MetricValue_eq_dec `{EqDecision V} :
  EqDecision (MetricValue V).
Proof. solve_decision. Defined.

Module tab1.
Section tab1.
Context `{NumOps V}.
Implicit Types (df fdf : DataFrame V) (sel : Selection) (r : Row V).

Definition avg_adoption fdf : cell V := col_mean AI_Adoption_Rate fdf.
Definition avg_job_loss fdf : cell V := col_mean Job_Loss_Due_to_AI fdf.
Definition avg_revenue fdf : cell V := col_mean Revenue_Increase_Due_to_AI fdf.
Definition avg_trust fdf : cell V := col_mean Consumer_Trust_in_AI fdf.

Definition total_content fdf : V :=
  nansum (AI_Generated_Content_Volume <$> fdf).

Definition avg_collab fdf : cell V := col_mean Human_AI_Collaboration_Rate fdf.
Definition num_countries fdf : nat := nunique (Country <$> fdf).
Definition num_industries fdf : nat := nunique (Industry <$> fdf).

(** The two rows of four cards. *)
Definition overview_metrics fdf : list (string * MetricValue V) :=
  [ ("Average AI Adoption", Percent (avg_adoption fdf));
    ("Average Job Impact", Percent (avg_job_loss fdf));
    ("Average Revenue Impact", Percent (avg_revenue fdf));
    ("Average Consumer Trust", Percent (avg_trust fdf));
    ("Total AI Content Volume", Volume (total_content fdf));
    ("Avg Collaboration Rate", Percent (avg_collab fdf));
    ("Countries Covered", Count (num_countries fdf));
    ("Industries Covered", Count (num_industries fdf)) ].

(** The whole tab as a function of the table and of the selection. *)
Definition overview df sel : list (string * MetricValue V) :=
  overview_metrics (filtered_df df sel).

(** ** The empty view *)

(** C8. When one of the three selections is empty the cards show NaN
    for every mean, zero for the total and zero for both counts: no
    reduction fails on the empty view. *)
Theorem overview_empty_dimension df sel :
  selected_years sel = [] ∨ selected_countries sel = []
    ∨ selected_industries sel = [] →
  overview df sel =
    [ ("Average AI Adoption", Percent None);
      ("Average Job Impact", Percent None);
      ("Average Revenue Impact", Percent None);
      ("Average Consumer Trust", Percent None);
      ("Total AI Content Volume", Volume nzero);
      ("Avg Collaboration Rate", Percent None);
      ("Countries Covered", Count 0);
      ("Industries Covered", Count 0) ].
Proof.
  intros Hsel. unfold overview.
  by empty_view.
Qed.

(** The counts are zero only on the empty view. *)
Lemma num_countries_0 fdf : num_countries fdf = 0 ↔ fdf = [].
Proof.
  unfold num_countries. rewrite nunique_0.
  split; [apply fmap_nil_inv|by intros ->].
Qed.

Lemma num_industries_0 fdf : num_industries fdf = 0 ↔ fdf = [].
Proof.
  unfold num_industries. rewrite nunique_0.
  split; [apply fmap_nil_inv|by intros ->].
Qed.

(** ** Counts and the selection *)

(** "Countries Covered" and "Industries Covered" never exceed the
    number of countries and industries selected in the sidebar, nor
    the number of records of the view. *)
Theorem num_countries_industries_le df sel :
  num_countries (filtered_df df sel) ≤ length (selected_countries sel)
  ∧ num_industries (filtered_df df sel) ≤ length (selected_industries sel)
  ∧ num_countries (filtered_df df sel) ≤ length (filtered_df df sel)
  ∧ num_industries (filtered_df df sel) ≤ length (filtered_df df sel).
Proof.
  unfold num_countries, num_industries. split_and!.
  - apply nunique_subseteq. intros c (r & -> & Hr)%list_elem_of_fmap.
    apply elem_of_filtered_df in Hr. apply Hr.
  - apply nunique_subseteq. intros c (r & -> & Hr)%list_elem_of_fmap.
    apply elem_of_filtered_df in Hr. apply Hr.
  - etrans; [apply nunique_le|]. by rewrite length_fmap.
  - etrans; [apply nunique_le|]. by rewrite length_fmap.
Qed.

(** With everything selected the counts are the numbers of options
    the sidebar offers. *)
Lemma num_countries_select_all df :
  num_countries (filtered_df df (select_all df)) = length (countries df).
Proof.
  rewrite filtered_df_select_all. unfold num_countries, countries.
  by rewrite length_sorted.
Qed.

Section exact.
Context `{!Number V}.

(** ** A view of one record *)

(** The total of a column with one cell. *)
Lemma nansum_singleton (c : cell V) : nansum [c] = default nzero c.
Proof.
  destruct c as [x|]; [|done].
  rewrite nansum_cons_Some, nansum_nil. apply nadd_right_id.
Qed.

(** C7. On a view of exactly one record every card shows that
    record's own value: the means are its cells (NaN where the cell
    is missing), the total is its content volume, the counts are 1. *)
Theorem overview_metrics_single r :
  overview_metrics [r] =
    [ ("Average AI Adoption", Percent (AI_Adoption_Rate r));
      ("Average Job Impact", Percent (Job_Loss_Due_to_AI r));
      ("Average Revenue Impact", Percent (Revenue_Increase_Due_to_AI r));
      ("Average Consumer Trust", Percent (Consumer_Trust_in_AI r));
      ("Total AI Content Volume",
         Volume (default nzero (AI_Generated_Content_Volume r)));
      ("Avg Collaboration Rate", Percent (Human_AI_Collaboration_Rate r));
      ("Countries Covered", Count 1);
      ("Industries Covered", Count 1) ].
Proof.
  unfold overview_metrics, avg_adoption, avg_job_loss, avg_revenue, avg_trust,
    avg_collab, total_content.
  rewrite !col_mean_singleton by apply _. csimpl. by rewrite nansum_singleton.
Qed.

(** ** Row order *)

#[export] Instance overview_metrics_Permutation :
  Proper ((≡ₚ) ==> (=)) overview_metrics.
Proof.
  intros fdf1 fdf2 Hp.
  unfold overview_metrics, avg_adoption, avg_job_loss, avg_revenue, avg_trust,
    avg_collab, total_content, num_countries, num_industries.
  rewrite !(col_mean_Permutation _ fdf1 fdf2 Hp).
  rewrite (nansum_Permutation _ _ (fmap_Permutation _ _ _ Hp)).
  by rewrite !(nunique_Permutation _ _ (fmap_Permutation _ _ _ Hp)).
Qed.


(** ** Bounds *)

(** The mean of a column over the view lies between any two bounds of
    the cells of that column in the table. *)
Lemma filtered_mean_bounds (col : Row V → cell V) lo hi df sel x :
  (∀ r v, r ∈ df → col r = Some v → lo ≼ v ∧ v ≼ hi) →
  col_mean col (filtered_df df sel) = Some x → lo ≼ x ∧ x ≼ hi.
Proof.
  intros Hb. apply (col_mean_bounds col lo hi x). intros r v Hr.
  apply elem_of_filtered_df in Hr. apply Hb, Hr.
Qed.

(** Every percentage a card shows lies between any two bounds of
    the percentage cells of the table: percentages within [0,100] in
    the data give percentages within [0,100] on the cards, whatever
    is selected. *)
Theorem overview_percent_bounds lo hi df sel label x :
  (∀ r m v, r ∈ df → m ≠ ContentVolume → metric_col m r = Some v →
     lo ≼ v ∧ v ≼ hi) →
  (label, Percent (Some x)) ∈ overview df sel → lo ≼ x ∧ x ≼ hi.
Proof.
  intros Hb Hin. unfold overview, overview_metrics in Hin.
  assert (∀ m, m ≠ ContentVolume →
    col_mean (metric_col m) (filtered_df df sel) = Some x → lo ≼ x ∧ x ≼ hi)
    as Hm by (intros m ?; apply filtered_mean_bounds; eauto).
  set_unfold in Hin. destruct_or!; simplify_eq.
  - by apply (Hm AdoptionRate).
  - by apply (Hm JobLoss).
  - by apply (Hm RevenueIncrease).
  - by apply (Hm ConsumerTrust).
  - by apply (Hm CollabRate).
Qed.

(** ** The total and the groups *)

(** The total over a table is the total over the concatenation of any
    partition of it. *)
Lemma total_content_app fdf1 fdf2 :
  total_content (fdf1 ++ fdf2) = total_content fdf1 ⊕ total_content fdf2.
Proof. unfold total_content. by rewrite fmap_app, nansum_app. Qed.

Lemma total_content_mjoin (gs : list (DataFrame V)) :
  total_content (mjoin gs) = sum_values (total_content <$> gs).
Proof.
  induction gs as [|g gs IH]; [done|].
  csimpl. by rewrite total_content_app, sum_values_cons, IH.
Qed.

#[export] Instance total_content_Permutation :
  Proper ((≡ₚ) ==> (=)) total_content.
Proof. intros fdf1 fdf2 Hp. unfold total_content. by rewrite Hp. Qed.

(** The total is the sum of the totals of the groups of any group-by
    of the view: grouping loses and duplicates no record. *)
Lemma total_content_groupby `{PyOrd K} (key : Row V → K) fdf :
  total_content fdf = sum_values (total_content <$> (groupby key fdf).*2).
Proof. by rewrite <-total_content_mjoin, groupby_partition. Qed.
End exact.

(** ** The data preview and the histograms *)

(** Line 119: [st.dataframe(filtered_df, height=300)]. *)
Definition data_preview fdf : Table V := frame_table fdf.

(** Lines 125-133. *)
Definition adoption_histogram fdf : Figure V :=
  mkFigure Histogram (frame_table fdf) (Some "AI Adoption Rate (%)") None None
    [] None None [] "AI Adoption Rate Distribution"
    [ ("color_discrete_sequence", "#1292ED"); ("nbins", "20");
      ("opacity", "0.8"); ("barmode", "overlay"); ("bargap", "0.2") ].

(** Lines 136-144. *)
Definition job_loss_histogram fdf : Figure V :=
  mkFigure Histogram (frame_table fdf) (Some "Job Loss Due to AI (%)") None None
    [] None None [] "Job Loss Due to AI Distribution"
    [ ("color_discrete_sequence", "#ff7f0e"); ("nbins", "15");
      ("opacity", "0.8"); ("barmode", "overlay"); ("bargap", "0.3") ].

(** The figures of the tab, in the order the script draws them. *)
Definition figures fdf : list (Figure V) :=
  [adoption_histogram fdf; job_loss_histogram fdf].

(** The values a histogram bins are the numbers of its column. *)
Definition histogram_values (col : Row V → cell V) fdf : list V :=
  dropna (col <$> fdf).

Lemma overview_figures_ok fdf : Forall figure_ok (figures fdf).
Proof.
  unfold figures. each_figure; first [apply frame_table_ok|by_eval].
Qed.

Lemma length_histogram_values col fdf :
  length (histogram_values col fdf) ≤ length fdf.
Proof.
  unfold histogram_values. etrans; [apply nancount_le|]. by rewrite length_fmap.
Qed.
End tab1.
End tab1.
Import tab1.

(** ** The scenario of the specification *)

(** Years {2020}, countries {USA}, industries {Media}: the mean
    adoption of the two remaining records, 40 and 60, is 50. *)
Example scenario_overview :
  overview scenario_df (mkSelection [2020%Z] ["USA"] ["Media"]) =
    [ ("Average AI Adoption", Percent (num 50));
      ("Average Job Impact", Percent (num 20));
      ("Average Revenue Impact", Percent (num 30));
      ("Average Consumer Trust", Percent (num 60));
      ("Total AI Content Volume", Volume (Qc_of_Z 30));
      ("Avg Collaboration Rate", Percent (num 40));
      ("Countries Covered", Count 1);
      ("Industries Covered", Count 1) ].
Proof. by_eval. Qed.

Lemma overview_metrics_single_witness :
  overview_metrics [row_uk] =
    [ ("Average AI Adoption", Percent (num 30));
      ("Average Job Impact", Percent None);
      ("Average Revenue Impact", Percent (num 10));
      ("Average Consumer Trust", Percent (num 40));
      ("Total AI Content Volume", Volume (Qc_of_Z 5));
      ("Avg Collaboration Rate", Percent (num 20));
      ("Countries Covered", Count 1);
      ("Industries Covered", Count 1) ].
Proof. exact (overview_metrics_single row_uk). Defined.

Lemma overview_empty_dimension_witness :
  (selected_years (mkSelection [2020%Z] [] ["Media"]) = []
   ∨ selected_countries (mkSelection [2020%Z] [] ["Media"]) = []
   ∨ selected_industries (mkSelection [2020%Z] [] ["Media"]) = [])
  ∧ head (overview scenario_df (mkSelection [2020%Z] [] ["Media"]))
    = Some ("Average AI Adoption", Percent None).
Proof.
  split; [right; left; reflexivity|].
  rewrite (overview_empty_dimension scenario_df); [done|].
  right; left; reflexivity.
Defined.


Lemma overview_percent_bounds_witness :
  ("Average Consumer Trust", Percent (num 60))
    ∈ overview scenario_df (mkSelection [2020%Z] ["USA"] ["Media"])
  ∧ Qc_of_Z 0 ≼ Qc_of_Z 60 ∧ Qc_of_Z 60 ≼ Qc_of_Z 100.
Proof.
  assert (("Average Consumer Trust", Percent (num 60))
    ∈ overview scenario_df (mkSelection [2020%Z] ["USA"] ["Media"])) as Hin
    by by_eval.
  split; [exact Hin|].
  exact (overview_percent_bounds _ _ scenario_df _ _ _ scenario_df_percent Hin).
Defined.
