(* ===== verification/Format.v ===== *)
(** * Format: the text of the cards of the overview

    Lines 89-115 of [src/app2.py] hand every key figure to
    [st.metric] as text: a mean as [f"{x:.1f}%"], the total volume as
    [f"{x:,.0f} TB/year"], a count as the integer itself.

    Python formats a float with the format [.1f] by rounding its exact
    value to one decimal, ties to the even digit, and prints NaN as
    "nan"; the sign is printed whenever the value is negative, also
    when it rounds to zero.  The option [,] groups the digits of the
    integer part in threes.  This file defines both formats on the
    rationals, on which the witnesses of the development are
    evaluated, and proves that the decimal shown is the value rounded
    to the nearest, that the grouping only inserts separators, and
    what the cards read on the empty view. *)

From Stdlib Require Import QArith Qcanon Ascii String.
From stdpp Require Import numbers pretty.
From S2P Require Import Prelude Order Sorting Numeric Series Frame.
From S2P Require Import Scenario Widgets Sidebar Overview.
#[local] Close Scope Q_scope.
#[local] Close Scope Qc_scope.

(** ** Rounding to the nearest integer, ties to even *)

Section rounding.
#[local] Open Scope Z_scope.
Implicit Types (n k : Z) (d : positive).

(** [n / d] rounded. *)
Definition round_half_even n d : Z :=
  let q := n / Z.pos d in
  let r := n mod Z.pos d in
  if decide (2 * r < Z.pos d) then q
  else if decide (Z.pos d < 2 * r) then q + 1
  else if Z.even q then q else q + 1.

Lemma round_half_even_error n d :
  2 * Z.abs (n - round_half_even n d * Z.pos d) ≤ Z.pos d.
Proof.
  unfold round_half_even.
  pose proof (Z.div_mod n (Z.pos d) ltac:(lia)) as Hdm.
  pose proof (Z.mod_pos_bound n (Z.pos d) ltac:(lia)) as Hr.
  repeat case_decide; try destruct (Z.even _); nia.
Qed.

Lemma round_half_even_tie n d :
  2 * Z.abs (n - round_half_even n d * Z.pos d) = Z.pos d →
  Z.even (round_half_even n d) = true.
Proof.
  unfold round_half_even.
  pose proof (Z.div_mod n (Z.pos d) ltac:(lia)) as Hdm.
  pose proof (Z.mod_pos_bound n (Z.pos d) ltac:(lia)) as Hr.
  repeat case_decide; try nia.
  destruct (Z.even (n / Z.pos d)) eqn:He; [done|]. intros _.
  by rewrite Z.even_add, He.
Qed.

Lemma round_half_even_exact k d : round_half_even (k * Z.pos d) d = k.
Proof.
  unfold round_half_even. rewrite Z.div_mul, Z.mod_mul by lia.
  by rewrite decide_True by lia.
Qed.

Lemma round_half_even_mono n n' d :
  n ≤ n' → round_half_even n d ≤ round_half_even n' d.
Proof.
  intros Hn.
  pose proof (round_half_even_error n d) as H1.
  pose proof (round_half_even_error n' d) as H2.
  pose proof (round_half_even_tie n d) as T1.
  pose proof (round_half_even_tie n' d) as T2.
  destruct (decide (round_half_even n d ≤ round_half_even n' d)) as [|Hgt];
    [done|exfalso].
  assert (round_half_even n d = round_half_even n' d + 1) as Heq by nia.
  assert (2 * Z.abs (n - round_half_even n d * Z.pos d) = Z.pos d) as E1 by nia.
  assert (2 * Z.abs (n' - round_half_even n' d * Z.pos d) = Z.pos d) as E2 by nia.
  specialize (T1 E1). specialize (T2 E2).
  by rewrite Heq, Z.even_add, T2 in T1.
Qed.

Lemma round_half_even_nonneg n d : 0 ≤ n → 0 ≤ round_half_even n d.
Proof.
  intros Hn. rewrite <-(round_half_even_exact 0 d).
  by apply round_half_even_mono.
Qed.
End rounding.

(** ** The two formats *)

(** The magnitude of [x] in tenths, and in units, rounded. *)
Definition tenths (x : Qc) : Z :=
  round_half_even (Z.abs (Qnum x) * 10) (Qden x).

Definition units (x : Qc) : Z := round_half_even (Z.abs (Qnum x)) (Qden x).

Definition sign_str (x : Qc) : string :=
  if decide (Qnum x < 0)%Z then "-" else "".

(** [f"{x:.1f}"]. *)
Definition format_1f (x : Qc) : string :=
  sign_str x +:+ pretty (tenths x / 10)%Z +:+ "." +:+ pretty (tenths x mod 10)%Z.

(** The separators of [,]: a comma before every group of three
    digits, counted from the right.  [group3] runs over the digits
    from the right; [k] is the size of the current group. *)
Fixpoint group3 (ds : list ascii) (k : nat) : list ascii :=
  match ds with
  | [] => []
  | d :: ds' =>
      if decide (k = 3) then ","%char :: d :: group3 ds' 1
      else d :: group3 ds' (S k)
  end.

Definition thousands (s : string) : string :=
  string_of_list_ascii (reverse (group3 (reverse (list_ascii_of_string s)) 0)).

(** [f"{x:,.0f}"]. *)
Definition format_thousands_0f (x : Qc) : string :=
  sign_str x +:+ thousands (pretty (units x)).

(** The text without its separators. *)
Definition ungroup (s : string) : string :=
  string_of_list_ascii (filter (λ c, c ≠ ","%char) (list_ascii_of_string s)).

(** Lines 89, 92, 95, 98, 106, 109, 112 and 115: the text of a card. *)
Definition card_text (v : MetricValue Qc) : string :=
  match v with
  | Percent (Some x) => format_1f x +:+ "%"
  | Percent None => "nan%"
  | Volume x => format_thousands_0f x +:+ " TB/year"
  | Count n => pretty n
  end.

(** The cards as the page shows them. *)
Definition overview_cards (df : DataFrame Qc) (sel : Selection)
  : list (string * string) :=
  prod_map id card_text <$> tab1.overview df sel.

(** ** Grouping only inserts separators *)

Lemma group3_filter ds k :
  ","%char ∉ ds → filter (λ c, c ≠ ","%char) (group3 ds k) = ds.
Proof.
  revert k. induction ds as [|d ds IH]; intros k Hd; [done|].
  apply not_elem_of_cons in Hd as [Hne Hd]. cbn [group3].
  case_decide.
  - rewrite filter_cons_False by (by intros []).
    by rewrite filter_cons_True, IH by done.
  - by rewrite filter_cons_True, IH by done.
Qed.

Lemma ungroup_thousands s :
  ","%char ∉ list_ascii_of_string s → ungroup (thousands s) = s.
Proof.
  intros Hs. unfold ungroup, thousands.
  rewrite list_ascii_of_string_of_list_ascii, filter_reverse, group3_filter.
  - by rewrite reverse_involutive, string_of_list_ascii_of_string.
  - by rewrite elem_of_reverse.
Qed.

Lemma ungroup_app s1 s2 : ungroup (s1 +:+ s2) = ungroup s1 +:+ ungroup s2.
Proof.
  unfold ungroup. induction s1 as [|c s1 IH]; simpl; [done|].
  rewrite !filter_cons. case_decide; simpl; by rewrite IH.
Qed.

(** The decimal notation of a natural number has digits only. *)
Lemma pretty_N_go_no_comma (n : N) s :
  ","%char ∉ list_ascii_of_string s →
  ","%char ∉ list_ascii_of_string (pretty_N_go n s).
Proof.
  revert s. induction (N.lt_wf_0 n) as [n _ IH]; intros s Hs.
  assert (n = 0 ∨ 0 < n)%N as [->|?] by lia; [by rewrite pretty_N_go_0|].
  rewrite pretty_N_go_step by done. apply IH; [by apply N.div_lt|].
  simpl. apply not_elem_of_cons. split; [|done].
  unfold pretty_N_char. by repeat case_match.
Qed.

Lemma pretty_Z_no_comma (z : Z) :
  (0 ≤ z)%Z → ","%char ∉ list_ascii_of_string (pretty z).
Proof.
  destruct z as [|p|p]; [intros _|intros _|lia].
  - change (pretty 0%Z) with "0". simpl.
    apply not_elem_of_cons; split; [discriminate|apply not_elem_of_nil].
  - unfold pretty, pretty_Z, pretty, pretty_positive, pretty, pretty_N.
    case_decide; [lia|]. apply pretty_N_go_no_comma, not_elem_of_nil.
Qed.

Lemma units_nonneg x : (0 ≤ units x)%Z.
Proof. apply round_half_even_nonneg. lia. Qed.

Lemma tenths_nonneg x : (0 ≤ tenths x)%Z.
Proof. apply round_half_even_nonneg. lia. Qed.

(** ** The properties of the card texts *)

(** The decimal a percentage card shows is the magnitude of the
    value rounded to the nearest tenth: it differs from the value by
    at most half a tenth, and a value exactly between two tenths is
    shown with the even one. *)
Theorem format_1f_rounding x :
  ∃ t : Z,
    format_1f x
      = sign_str x +:+ pretty (t / 10)%Z +:+ "." +:+ pretty (t mod 10)%Z
    ∧ (0 ≤ t)%Z
    ∧ (2 * Z.abs (Z.abs (Qnum x) * 10 - t * Z.pos (Qden x)) ≤ Z.pos (Qden x))%Z
    ∧ ((2 * Z.abs (Z.abs (Qnum x) * 10 - t * Z.pos (Qden x)) = Z.pos (Qden x))%Z
       → Z.even t = true).
Proof.
  exists (tenths x). split_and!; [done|apply tenths_nonneg|..].
  - apply round_half_even_error.
  - apply round_half_even_tie.
Qed.


(** When one of the three selections is empty the page shows
    "nan%" on the five percentage cards, "0 TB/year" for the volume
    and "0" for both counts. *)
Theorem overview_cards_empty_dimension df sel :
  selected_years sel = [] ∨ selected_countries sel = []
    ∨ selected_industries sel = [] →
  overview_cards df sel =
    [ ("Average AI Adoption", "nan%"); ("Average Job Impact", "nan%");
      ("Average Revenue Impact", "nan%"); ("Average Consumer Trust", "nan%");
      ("Total AI Content Volume", "0 TB/year");
      ("Avg Collaboration Rate", "nan%");
      ("Countries Covered", "0"); ("Industries Covered", "0") ].
Proof.
  intros Hsel. unfold overview_cards, tab1.overview.
  by empty_view.
Qed.

(** ** Examples *)

Example format_examples :
  format_1f (Qc_of_Z 50) = "50.0"
  ∧ format_1f (Q2Qc (1 # 4)) = "0.2"
  ∧ format_1f (Q2Qc (3 # 4)) = "0.8"
  ∧ format_1f (Q2Qc (-1 # 25)) = "-0.0"
  ∧ format_1f (Q2Qc (1999 # 20)) = "100.0"
  ∧ format_thousands_0f (Q2Qc (2469135 # 2)) = "1,234,568"
  ∧ format_thousands_0f (Qc_of_Z 999) = "999"
  ∧ format_thousands_0f (Qc_of_Z (-1000)) = "-1,000".
Proof. by_eval. Qed.

(** The scenario of the specification: with years {2020},
    countries {USA} and industries {Media} the page shows the mean
    adoption of the two remaining records as "50.0%". *)
Example scenario_cards :
  overview_cards scenario_df (mkSelection [2020%Z] ["USA"] ["Media"])
  = [ ("Average AI Adoption", "50.0%"); ("Average Job Impact", "20.0%");
      ("Average Revenue Impact", "30.0%"); ("Average Consumer Trust", "60.0%");
      ("Total AI Content Volume", "30 TB/year");
      ("Avg Collaboration Rate", "40.0%");
      ("Countries Covered", "1"); ("Industries Covered", "1") ].
Proof. by_eval. Qed.

Lemma overview_cards_empty_dimension_witness :
  (selected_years (mkSelection [2020%Z] [] ["Media"]) = []
   ∨ selected_countries (mkSelection [2020%Z] [] ["Media"]) = []
   ∨ selected_industries (mkSelection [2020%Z] [] ["Media"]) = [])
  ∧ head (overview_cards scenario_df (mkSelection [2020%Z] [] ["Media"]))
    = Some ("Average AI Adoption", "nan%").
Proof.
  split; [right; left; reflexivity|].
  rewrite (overview_cards_empty_dimension scenario_df); [done|].
  right; left; reflexivity.
Defined.
