(* ===== verification/Float64.v ===== *)
(** * Float64: the number signature on binary64

    The cells of the table are IEEE 754 binary64 numbers.  The
    theorems of the development are stated for every implementation of
    [NumOps]; those that need the laws of exact arithmetic ([Number])
    are proved for exact numbers and, on the numbers of the program,
    hold up to rounding.  This file makes the boundary precise.

    [float_NumOps] implements the signature with the primitive
    floating-point numbers of Rocq, whose operations are those of the
    processor: the reductions of [Numeric] then compute what pandas
    computes on a column of fewer than eight cells, which numpy adds
    from left to right.  [float_value] is the exact rational value of
    a finite number, from which Python's format specifications round;
    [float_card_text] is the text of a card.

    The theorems that use the signature only (the filter, the empty
    view, the group-by tables, the rankings) hold on binary64 as they
    are.  The laws fail: addition is commutative ([float_add_comm],
    from the specification of the primitive operations) but not
    associative.  [float_cards_row_order] draws the line: the cards of
    a view of at most two records do not depend on the order of the
    records, and there are three records whose mean adoption rate is
    shown as "42.5%" in one row order and as "42.4%" in the other. *)

From Stdlib Require Import QArith Qcanon Floats Uint63.
From stdpp Require Import numbers pretty.
From S2P Require Import Prelude Order Sorting Numeric Series Frame.
From S2P Require Import Figure Scenario Widgets Sidebar Overview Format.
#[local] Close Scope Q_scope.
#[local] Close Scope Qc_scope.

(** ** The instance *)

#[export] Instance spec_float_eq_dec : EqDecision spec_float.
Proof. solve_decision. Defined.

#[export] Instance float_eq_dec : EqDecision float.
Proof.
  refine (λ x y, cast_if (decide (Prim2SF x = Prim2SF y))).
  - by apply Prim2SF_inj.
  - by intros ->.
Defined.

(** The conversion of an int64 to float64. *)
Definition float_of_Z (z : Z) : float :=
  match z with
  | Z.neg p => PrimFloat.opp (PrimFloat.of_uint63 (Uint63.of_Z (Z.pos p)))
  | _ => PrimFloat.of_uint63 (Uint63.of_Z z)
  end.

Definition float_le (x y : float) : Prop := PrimFloat.leb x y = true.

#[export] Instance float_le_dec : RelDecision float_le.
Proof. intros x y. unfold float_le. apply _. Defined.

#[export] Instance float_NumOps : NumOps float := {|
  nzero := 0%float;
  nadd := PrimFloat.add;
  ndiv x n := PrimFloat.div x (float_of_Z (Z.of_nat n));
  nofZ := float_of_Z;
  nle := float_le
|}.

(** ** The exact value of a number, and the text of a card *)

(** The rational a finite binary64 number denotes; [None] for an
    infinity and for NaN. *)
Definition float_value (x : float) : option Qc :=
  match Prim2SF x with
  | S754_zero _ => Some (Qc_of_Z 0)
  | S754_finite s m e =>
      let v := if decide (0 ≤ e)%Z then Qc_of_Z (Z.pos m * 2 ^ e)
               else Q2Qc (Z.pos m # Z.to_pos (2 ^ (- e))) in
      Some (if s then (- v)%Qc else v)
  | S754_infinity _ | S754_nan => None
  end.

(** The value of a cell for the formats of [Format]: NaN for a missing
    cell and for a number that is not finite. *)
Definition float_metric (v : MetricValue float) : MetricValue Qc :=
  match v with
  | Percent c => Percent (c ≫= float_value)
  | Volume x => Volume (default (Qc_of_Z 0) (float_value x))
  | Count n => Count n
  end.

(** Lines 89-115 on binary64. *)
Definition float_card_text (v : MetricValue float) : string :=
  card_text (float_metric v).

Definition float_cards (fdf : DataFrame float) : list (string * string) :=
  prod_map id float_card_text <$> tab1.overview_metrics fdf.

(** ** Three records *)

(** The binary64 numbers nearest to 31.1, 49.7 and 46.55, as the CSV
    reader returns them. *)
Definition rate_31_1 : float := 0x1.f19999999999ap+4%float.
Definition rate_49_7 : float := 0x1.8d9999999999ap+5%float.
Definition rate_46_55 : float := 0x1.7466666666666p+5%float.

Definition float_row (rate : float) : Row float :=
  mkRow 2024 "USA" "Media" (Some rate) None None None None None None None.

Definition float_df : DataFrame float :=
  [float_row rate_31_1; float_row rate_49_7; float_row rate_46_55].

(** ** What holds and what fails *)

Lemma float_value_rates :
  format_1f <$> float_value rate_31_1 = Some "31.1"
  ∧ format_1f <$> float_value rate_49_7 = Some "49.7"
  ∧ format_1f <$> float_value rate_46_55 = Some "46.5"
  ∧ float_value (float_of_Z 2020) = Some (Qc_of_Z 2020)
  ∧ float_value (PrimFloat.div 0 0) = None.
Proof. by_eval. Qed.

(** Addition of binary64 numbers is not associative. *)
Lemma float_add_not_assoc :
  (rate_31_1 ⊕ rate_49_7) ⊕ rate_46_55
  ≠ rate_31_1 ⊕ (rate_49_7 ⊕ rate_46_55).
Proof. by_eval. Qed.

(** Binary64 does not satisfy the laws of exact arithmetic. *)
Lemma float_not_Number : ¬ Number float.
Proof.
  intros Hn. apply float_add_not_assoc. symmetry. apply (assoc nadd).
Qed.

(** ** Addition is commutative

    What remains of the laws on binary64, from the specification of
    the primitive operations: addition is commutative, and adding two
    numbers to zero gives the same in both orders (also when one of
    them is the negative zero, which the first addition turns into
    the positive one). *)

Lemma SFadd_comm prec emax x y : SFadd prec emax x y = SFadd prec emax y x.
Proof.
  destruct x as [sx|sx| |sx mx ex], y as [sy|sy| |sy my ey]; try done;
    try by destruct sx, sy.
  cbn [SFadd]. by rewrite Z.min_comm, Z.add_comm.
Qed.

Lemma SFadd_zero_l prec emax y :
  SFadd prec emax (S754_zero false) y
  = match y with S754_zero _ => S754_zero false | _ => y end.
Proof. by destruct y as [[]| | |]. Qed.

Lemma float_add_comm : Comm (=) PrimFloat.add.
Proof.
  intros x y. apply Prim2SF_inj. rewrite !FloatAxioms.add_spec. apply SFadd_comm.
Qed.

Lemma float_sum_swap (a b : float) : nzero ⊕ a ⊕ b = nzero ⊕ b ⊕ a.
Proof.
  apply Prim2SF_inj. unfold nadd, nzero; simpl. rewrite !FloatAxioms.add_spec.
  change (Prim2SF 0) with (S754_zero false). unfold SF64add.
  rewrite !SFadd_zero_l.
  destruct (Prim2SF a) as [sa|sa| |sa ma ea], (Prim2SF b) as [sb|sb| |sb mb eb];
    try done; try (by destruct sa, sb); apply SFadd_comm.
Qed.

(** ** Views of two records

    With that much of the laws the cards of a view of at most two
    records do not depend on the order of the records, on any
    implementation of the numbers. *)

Section two_records.
Context `{NumOps V}.
Hypothesis sum_swap : ∀ a b : V, nzero ⊕ a ⊕ b = nzero ⊕ b ⊕ a.

Lemma nansum_swap (c1 c2 : cell V) : nansum [c1; c2] = nansum [c2; c1].
Proof. destruct c1, c2; try done. apply sum_swap. Qed.

Lemma nanmean_swap (c1 c2 : cell V) : nanmean [c1; c2] = nanmean [c2; c1].
Proof. unfold nanmean. rewrite nansum_swap. by destruct c1, c2. Qed.

Lemma overview_metrics_swap (r1 r2 : Row V) :
  tab1.overview_metrics [r1; r2] = tab1.overview_metrics [r2; r1].
Proof.
  unfold tab1.overview_metrics, tab1.avg_adoption, tab1.avg_job_loss,
    tab1.avg_revenue, tab1.avg_trust, tab1.avg_collab, tab1.total_content,
    tab1.num_countries, tab1.num_industries, col_mean.
  rewrite !fmap_cons, !fmap_nil.
  rewrite (nanmean_swap (AI_Adoption_Rate r1)), (nanmean_swap (Job_Loss_Due_to_AI r1)),
    (nanmean_swap (Revenue_Increase_Due_to_AI r1)),
    (nanmean_swap (Consumer_Trust_in_AI r1)),
    (nanmean_swap (Human_AI_Collaboration_Rate r1)),
    (nansum_swap (AI_Generated_Content_Volume r1)).
  by rewrite (nunique_Permutation _ _ (Permutation_swap (Country r2) (Country r1) [])),
    (nunique_Permutation _ _ (Permutation_swap (Industry r2) (Industry r1) [])).
Qed.

Lemma overview_metrics_le_2 (fdf1 fdf2 : DataFrame V) :
  fdf1 ≡ₚ fdf2 → length fdf1 ≤ 2 →
  tab1.overview_metrics fdf1 = tab1.overview_metrics fdf2.
Proof.
  intros Hp Hl.
  destruct (Permutation_length_le_2 _ _ Hp Hl) as [->|(r1 & r2 & -> & ->)];
    [done|apply overview_metrics_swap].
Qed.
End two_records.

Lemma float_cards_le_2 (fdf1 fdf2 : DataFrame float) :
  fdf1 ≡ₚ fdf2 → length fdf1 ≤ 2 → float_cards fdf1 = float_cards fdf2.
Proof.
  intros Hp Hl. unfold float_cards. f_equal.
  by apply overview_metrics_le_2; [apply float_sum_swap|..].
Qed.

(** C31. On binary64 the cards of a view of at most two records do
    not depend on the order of the records, and those of a view of
    three records can: the mean of the adoption rates 31.1, 49.7 and
    46.55 is shown as "42.5%" when the records come in this order and
    as "42.4%" when they come in the opposite order.  The
    independence of row order proved for exact numbers holds on the
    numbers of the program up to rounding only. *)
Theorem float_cards_row_order :
  (∀ fdf1 fdf2, fdf1 ≡ₚ fdf2 → length fdf1 ≤ 2 →
     float_cards fdf1 = float_cards fdf2)
  ∧ float_df ≡ₚ reverse float_df
  ∧ float_cards float_df !! 0 = Some ("Average AI Adoption", "42.5%")
  ∧ float_cards (reverse float_df) !! 0 = Some ("Average AI Adoption", "42.4%").
Proof.
  split_and!; [apply float_cards_le_2|by rewrite reverse_Permutation|by_eval..].
Qed.

(** The theorems that need the signature only hold on binary64: on
    an empty view the cards read as on exact numbers. *)
Lemma float_cards_empty (df : DataFrame float) sel :
  selected_years sel = [] ∨ selected_countries sel = []
    ∨ selected_industries sel = [] →
  float_cards (filtered_df df sel)
  = [ ("Average AI Adoption", "nan%"); ("Average Job Impact", "nan%");
      ("Average Revenue Impact", "nan%"); ("Average Consumer Trust", "nan%");
      ("Total AI Content Volume", "0 TB/year");
      ("Avg Collaboration Rate", "nan%");
      ("Countries Covered", "0"); ("Industries Covered", "0") ].
Proof.
  intros Hsel. empty_view. by_eval.
Qed.

Lemma float_cards_row_order_witness :
  float_cards [float_row rate_31_1; float_row rate_49_7]
  = float_cards [float_row rate_49_7; float_row rate_31_1].
Proof.
  apply (proj1 float_cards_row_order); [apply Permutation_swap|simpl; lia].
Defined.
