(* ===== verification/Summation.v ===== *)
(** * Summation: the sums numpy and pandas compute

    [Numeric] defines the sum of a column as the reference: the cells
    added to zero from left to right.  The libraries the script calls
    do not add that way.

    - [Series.sum()] and [Series.mean()] (lines 88-108) replace the
      missing cells by zero and call numpy, whose reduction of a
      contiguous float64 array is the pairwise summation
      [pairwise_sum]: fewer than eight cells are added from left to
      right; up to [PW_BLOCKSIZE] cells are added into eight
      accumulators, one block of eight cells at a time, the
      accumulators then added as a tree and the cells after the last
      full block added to the result; a longer array is cut at half
      its length rounded down to a multiple of eight and the sums of
      the two pieces are added.  The recursion is on pieces of the
      array, not on its structure, and is defined by well-founded
      recursion on the length.
    - [groupby(...).mean()] (lines 150-241) adds the cells of a group
      in row order with the compensated summation of Kahan
      ([kahan_add]): beside the sum it keeps the rounding error of the
      last addition and subtracts it from the next cell.

    The theorems show that on exact numbers both compute the
    reference, so that every theorem about [nansum], [nanmean] and
    [groupby_mean] is a theorem about the numbers the libraries
    return; and that on binary64 they do not: there are eight cells
    whose pairwise sum, and three whose compensated sum, differs from
    the sum from left to right. *)

From Equations Require Import Equations.
From Stdlib Require Import QArith Qcanon Floats.
From stdpp Require Import numbers list.
From S2P Require Import Prelude Order Sorting Numeric Series Frame.
From S2P Require Import Figure Scenario Float64.
#[local] Close Scope Q_scope.
#[local] Close Scope Qc_scope.

(** ** Subtraction *)

Class NumSub (V : Type) := nsub : V → V → V.
#[global] Hint Mode NumSub ! : typeclass_instances.
Arguments nsub {V _} _ _ : simpl never.
Infix "⊖" := nsub (at level 50, left associativity) : frame_scope.

(** The law of exact subtraction the compensated sum relies on. *)
Class ExactSub (V : Type) `{NumOps V, NumSub V} :=
  nsub_add (x y : V) : (x ⊕ y) ⊖ y = x.
#[global] Hint Mode ExactSub ! - - : typeclass_instances.

#[export] Instance Qc_NumSub : NumSub Qc := Qcminus.
#[export] Instance float_NumSub : NumSub float := PrimFloat.sub.

(** ** Pairwise summation *)

Definition PW_BLOCKSIZE : nat := 128.

(** Where an array of [n] cells is cut: at half its length, rounded
    down to a multiple of eight. *)
Definition cut (n : nat) : nat := n / 2 - (n / 2) mod 8.

Section pairwise.
Context `{NumOps V}.
Implicit Types (l r : list V).

(** The eight accumulators added as a tree. *)
Definition unrolled r : V :=
  match r with
  | [r0; r1; r2; r3; r4; r5; r6; r7] =>
      ((r0 ⊕ r1) ⊕ (r2 ⊕ r3)) ⊕ ((r4 ⊕ r5) ⊕ (r6 ⊕ r7))
  | _ => nzero
  end.

(** [k] blocks of eight cells of [l] added into the accumulators. *)
Fixpoint add_blocks (k : nat) r l : list V :=
  match k with
  | 0 => r
  | S k => add_blocks k (zip_with nadd r (take 8 l)) (drop 8 l)
  end.

(** The sum of eight cells and more: the accumulators start as the
    first block, take the other full blocks, are added as a tree, and
    the cells after the last full block are added from left to
    right. *)
Definition block_sum l : V :=
  let k := length l / 8 in
  foldl nadd (unrolled (add_blocks (k - 1) (take 8 l) (drop 8 l)))
    (drop (8 * k) l).

Lemma cut_bounds n : PW_BLOCKSIZE < n → 8 ≤ cut n ∧ cut n < n ∧ 8 ≤ n - cut n.
Proof.
  unfold cut, PW_BLOCKSIZE. intros Hn.
  pose proof (Nat.div_mod_eq n 2). pose proof (Nat.mod_upper_bound n 2).
  pose proof (Nat.mod_upper_bound (n / 2) 8). lia.
Qed.

Equations? pairwise_sum l : V by wf (length l) lt :=
  pairwise_sum l with decide (length l < 8) := {
    | left _ => sum_values l;
    | right _ with decide (length l ≤ PW_BLOCKSIZE) := {
      | left _ => block_sum l;
      | right _ => pairwise_sum (take (cut (length l)) l)
                   ⊕ pairwise_sum (drop (cut (length l)) l) } }.
Proof.
  all: pose proof (cut_bounds (length l)).
  - rewrite length_take. lia.
  - rewrite length_drop. lia.
Qed.

(** The same routine with a bound on the depth of the recursion. *)
Fixpoint pairwise_sum_depth (d : nat) l : option V :=
  match d with
  | 0 => None
  | S d =>
      if decide (length l < 8) then Some (sum_values l)
      else if decide (length l ≤ PW_BLOCKSIZE) then Some (block_sum l)
      else a ← pairwise_sum_depth d (take (cut (length l)) l);
           b ← pairwise_sum_depth d (drop (cut (length l)) l);
           Some (a ⊕ b)
  end.

Lemma pairwise_sum_depth_S d l :
  pairwise_sum_depth (S d) l
  = if decide (length l < 8) then Some (sum_values l)
    else if decide (length l ≤ PW_BLOCKSIZE) then Some (block_sum l)
    else a ← pairwise_sum_depth d (take (cut (length l)) l);
         b ← pairwise_sum_depth d (drop (cut (length l)) l);
         Some (a ⊕ b).
Proof. done. Qed.

Lemma pairwise_sum_eq l :
  pairwise_sum l
  = if decide (length l < 8) then sum_values l
    else if decide (length l ≤ PW_BLOCKSIZE) then block_sum l
    else pairwise_sum (take (cut (length l)) l)
         ⊕ pairwise_sum (drop (cut (length l)) l).
Proof. funelim (pairwise_sum l); by rewrite ?Heq0, ?Heq. Qed.

Lemma cut_halves n : cut n ≤ n / 2 ∧ n - cut n ≤ n / 2 + 8.
Proof.
  unfold cut. pose proof (Nat.div_mod_eq n 2). pose proof (Nat.mod_upper_bound n 2).
  pose proof (Nat.mod_upper_bound (n / 2) 8). lia.
Qed.

Lemma pairwise_sum_depth_enough d l :
  length l ≤ 112 * 2 ^ d + 16 →
  pairwise_sum_depth (S d) l = Some (pairwise_sum l).
Proof.
  revert l. induction d as [|d IH]; intros l Hl;
    rewrite pairwise_sum_eq, pairwise_sum_depth_S; repeat case_decide; try done.
  pose proof (cut_halves (length l)). pose proof (Nat.div_mod_eq (length l) 2).
  rewrite Nat.pow_succ_r' in Hl.
  rewrite !IH; [done|rewrite ?length_take, ?length_drop; lia..].
Qed.

(** What pandas hands to numpy: the column with zero in the place of
    its missing cells. *)
Definition fillna0 (s : list (cell V)) : list V := default nzero <$> s.

(** [Series.sum()] and [Series.mean()]. *)
Definition series_sum (s : list (cell V)) : V := pairwise_sum (fillna0 s).

Definition series_mean (s : list (cell V)) : cell V :=
  if decide (nancount s = 0) then None
  else Some (ndiv (series_sum s) (nancount s)).
End pairwise.

(** ** Compensated summation *)

Section kahan.
Context `{NumOps V, NumSub V}.
Context {A : Type} `{PyOrd K} (key : A → K) (col : A → cell V).

(** One cell added to the accumulator of its group: the sum and the
    compensation.  A compensation that is not a number (it does not
    compare with itself) is reset to zero. *)
Definition kahan_add (a : V * V) (val : V) : V * V :=
  let y := val ⊖ a.2 in
  let t := a.1 ⊕ y in
  let c := (t ⊖ a.1) ⊖ y in
  (t, if decide (c ≼ c) then c else nzero).

Definition kahan_sum (l : list V) : V := (foldl kahan_add (nzero, nzero) l).1.

(** The mean of a group: missing cells are skipped. *)
Definition kahan_mean (s : list (cell V)) : cell V :=
  if decide (nancount s = 0) then None
  else Some (ndiv (kahan_sum (dropna s)) (nancount s)).

(** [df.groupby(key)[col].mean()] as pandas computes it. *)
Definition kahan_groupby_mean (df : list A) : list (K * cell V) :=
  agg key (λ rows, kahan_mean (col <$> rows)) df.
End kahan.

(** ** On exact numbers *)

#[export] Instance Qc_ExactSub : ExactSub Qc.
Proof. intros x y. unfold nsub, Qc_NumSub, nadd; simpl. ring. Qed.

Section exact.
Context `{Number V}.
Implicit Types (l r : list V) (s : list (cell V)).

Lemma nadd_interchange (a b c d : V) : (a ⊕ b) ⊕ (c ⊕ d) = (a ⊕ c) ⊕ (b ⊕ d).
Proof.
  rewrite <-!(assoc nadd). f_equal.
  by rewrite !(assoc nadd), (comm nadd b c).
Qed.

Lemma unrolled_sum r : length r = 8 → unrolled r = sum_values r.
Proof.
  intros Hr. do 9 (destruct r as [|? r]; try done).
  simpl. rewrite !sum_values_cons, sum_values_nil, (right_id nzero nadd).
  by rewrite !(assoc nadd).
Qed.

Lemma zip_with_nadd_sum r l :
  length r = length l →
  sum_values (zip_with nadd r l) = sum_values r ⊕ sum_values l.
Proof.
  revert l. induction r as [|x r IH]; intros [|y l] ?; simplify_eq/=.
  - by rewrite sum_values_nil, (left_id nzero nadd).
  - by rewrite !sum_values_cons, IH, nadd_interchange.
Qed.

Lemma add_blocks_sum k r l :
  length r = 8 → 8 * k ≤ length l →
  length (add_blocks k r l) = 8
  ∧ sum_values (add_blocks k r l) = sum_values r ⊕ sum_values (take (8 * k) l).
Proof.
  revert r l. induction k as [|k IH]; intros r l Hr Hl; simpl add_blocks.
  - by rewrite Nat.mul_0_r, take_0, sum_values_nil, (right_id nzero nadd).
  - assert (length (take 8 l) = 8) as Ht by (rewrite length_take; lia).
    destruct (IH (zip_with nadd r (take 8 l)) (drop 8 l)) as [Hlen ->].
    { rewrite length_zip_with. lia. }
    { rewrite length_drop. lia. }
    split; [done|]. rewrite zip_with_nadd_sum by congruence.
    rewrite <-(assoc nadd), <-sum_values_app, take_take_drop.
    do 3 f_equal. lia.
Qed.

Lemma block_sum_exact l : 8 ≤ length l → block_sum l = sum_values l.
Proof.
  intros Hl. unfold block_sum.
  pose proof (Nat.div_mod_eq (length l) 8) as Hk.
  pose proof (Nat.mod_upper_bound (length l) 8).
  destruct (add_blocks_sum (length l / 8 - 1) (take 8 l) (drop 8 l)) as [Hlen Hs].
  { rewrite length_take. lia. }
  { rewrite length_drop. lia. }
  rewrite foldl_nadd, unrolled_sum, Hs by done.
  rewrite <-!sum_values_app, take_take_drop.
  replace (8 + 8 * (length l / 8 - 1)) with (8 * (length l / 8)) by lia.
  by rewrite take_drop.
Qed.

Lemma pairwise_sum_exact l : pairwise_sum l = sum_values l.
Proof.
  funelim (pairwise_sum l); [done|apply block_sum_exact; lia|].
  rewrite H1, H2, <-sum_values_app. by rewrite take_drop.
Qed.

Lemma fillna0_sum s : sum_values (fillna0 s) = nansum s.
Proof.
  induction s as [|[x|] s IH]; [done|..]; unfold fillna0 in *; csimpl.
  - by rewrite sum_values_cons, IH, nansum_cons_Some.
  - by rewrite sum_values_cons, IH, (left_id nzero nadd), nansum_cons_None.
Qed.

Lemma series_sum_exact s : series_sum s = nansum s.
Proof. unfold series_sum. by rewrite pairwise_sum_exact, fillna0_sum. Qed.

Lemma series_mean_exact s : series_mean s = nanmean s.
Proof. unfold series_mean, nanmean. by rewrite series_sum_exact. Qed.

Context `{!NumSub V} `{!ExactSub V}.

Lemma nsub_zero (x : V) : x ⊖ nzero = x.
Proof.
  pose proof (nsub_add x nzero) as Hx. by rewrite (right_id nzero nadd) in Hx.
Qed.

Lemma nsub_diag (x : V) : x ⊖ x = nzero.
Proof.
  pose proof (nsub_add nzero x) as Hx. by rewrite (left_id nzero nadd) in Hx.
Qed.

Lemma kahan_add_exact (sumx val : V) :
  kahan_add (sumx, nzero) val = (sumx ⊕ val, nzero).
Proof.
  assert (((sumx ⊕ val) ⊖ sumx) ⊖ val = nzero) as Hc.
  { by rewrite (comm nadd sumx val), nsub_add, nsub_diag. }
  cbv beta iota zeta delta [kahan_add fst snd]. rewrite nsub_zero, Hc.
  by rewrite decide_True.
Qed.

Lemma foldl_kahan_add (sumx : V) l :
  foldl kahan_add (sumx, nzero) l = (sumx ⊕ sum_values l, nzero).
Proof.
  revert sumx. induction l as [|x l IH]; intros sumx; simpl.
  - by rewrite sum_values_nil, (right_id nzero nadd).
  - by rewrite kahan_add_exact, IH, sum_values_cons, (assoc nadd).
Qed.

Lemma kahan_sum_exact l : kahan_sum l = sum_values l.
Proof. unfold kahan_sum. by rewrite foldl_kahan_add, (left_id nzero nadd). Qed.

Lemma kahan_mean_exact s : kahan_mean s = nanmean s.
Proof. unfold kahan_mean, nanmean, nansum. by rewrite kahan_sum_exact. Qed.
End exact.

(** ** The claims *)

(** C20. The pairwise summation ends on every array, and the depth of
    its recursion is logarithmic in the length: a piece of at most
    128 cells is added without recursion, a longer one is cut into
    two pieces of eight cells at least, each shorter than the whole,
    and depth [d + 1] is enough for [112 * 2 ^ d + 16] cells. *)
Theorem pairwise_sum_terminates `{NumOps V} (l : list V) :
  pairwise_sum l
  = (if decide (length l < 8) then sum_values l
     else if decide (length l ≤ PW_BLOCKSIZE) then block_sum l
     else pairwise_sum (take (cut (length l)) l)
          ⊕ pairwise_sum (drop (cut (length l)) l))
  ∧ (PW_BLOCKSIZE < length l →
     8 ≤ length (take (cut (length l)) l) < length l
     ∧ 8 ≤ length (drop (cut (length l)) l) < length l)
  ∧ (∀ d, length l ≤ 112 * 2 ^ d + 16 →
       pairwise_sum_depth (S d) l = Some (pairwise_sum l)).
Proof.
  split_and!; [apply pairwise_sum_eq| |intros d; apply pairwise_sum_depth_enough].
  intros Hl. pose proof (cut_bounds _ Hl). rewrite length_take, length_drop. lia.
Qed.



(** ** On binary64 *)

(** Eight content volumes: one of 10^16 and seven of 1. *)
Definition eight_cells : list float := 1e16%float :: replicate 7 1%float.


Example exact_sums :
  pairwise_sum (Qc_of_nat <$> seq 1 10) = Qc_of_Z 55
  ∧ series_mean [Some (Qc_of_Z 1); None; Some (Qc_of_Z 2)] = Some (Q2Qc (3 # 2))
  ∧ kahan_sum (Qc_of_nat <$> seq 1 3) = Qc_of_Z 6
  ∧ pairwise_sum (Qc_of_nat <$> seq 1 300) = Qc_of_Z 45150
  ∧ pairwise_sum_depth 2 (Qc_of_nat <$> seq 1 300) = None
  ∧ pairwise_sum_depth 3 (Qc_of_nat <$> seq 1 300) = Some (Qc_of_Z 45150).
Proof. by_eval. Qed.

Lemma pairwise_sum_terminates_witness :
  pairwise_sum_depth 3 (Qc_of_nat <$> seq 1 300)
  = Some (pairwise_sum (Qc_of_nat <$> seq 1 300)).
Proof.
  apply (pairwise_sum_terminates (V:=Qc)). rewrite length_fmap, length_seq.
  simpl. lia.
Defined.



