(* ===== verification/Geography.v ===== *)
(** * Geography: the tables of the "Geographical" tab

    Lines 146-183 of [src/app2.py].  The tab computes from
    [filtered_df]:

    - [country_means], the mean of every numeric column per country
      (line 150), of which the map colours the adoption column;
    - [content_volume], the mean content volume per country (line
      163), drawn as bars in decreasing order (line 164);
    - [country_metric], the mean per country of the metric chosen in
      the select box (lines 171-178), drawn in decreasing order (line
      179).

    Each table is a [groupby('Country')] followed by [mean] and
    [reset_index]: one row per country of the view, countries in
    ascending order.  The theorems characterise the rows, relate the
    key column to the option list of the sidebar, show that the tables
    do not depend on the order of the records, that the bars are a
    ranking (a sorted permutation of the table, NaN last) and that a
    one-pass computation gives the same table. *)

From Stdlib Require Import QArith Qcanon.
From stdpp Require Import numbers.
From S2P Require Import Prelude Order Sorting Numeric Series Frame.
From S2P Require Import Figure Scenario Widgets Sidebar.
#[local] Close Scope Q_scope.
#[local] Close Scope Qc_scope.

Module tab2.
Section tab2.
Context `{NumOps V}.
Implicit Types (df fdf : DataFrame V) (sel : Selection) (r : Row V)
  (m : Metric) (c : string).

(** Line 149: [select_dtypes(include=[np.number]).columns]. *)
Definition numeric_cols : list NumericCol := numeric_columns.

(** The mean of one numeric column over a group. *)
Definition numeric_mean (rows : DataFrame V) (col : NumericCol) : cell V :=
  match col with
  | YearCol => int_mean (Year <$> rows)
  | MetricCol m => col_mean (metric_col m) rows
  end.

(** Line 150: one row per country; a row holds, under the header of
    each numeric column, the mean of that column. *)
Definition country_means fdf : list (string * list (string * cell V)) :=
  agg Country
    (λ rows, (λ col, (numeric_col_name col, numeric_mean rows col))
               <$> numeric_cols) fdf.

(** Lines 152-159: the map colours each country by the column
    "AI Adoption Rate (%)" of [country_means]; a country without a
    number there is left blank. *)
Definition choropleth_color fdf : list (string * cell V) :=
  (λ row, (row.1, mjoin (alookup "AI Adoption Rate (%)" row.2)))
    <$> country_means fdf.

(** Line 163. *)
Definition content_volume fdf : list (string * cell V) :=
  groupby_mean Country AI_Generated_Content_Volume fdf.

(** Line 164: the bars, in decreasing order of volume. *)
Definition content_volume_bars fdf : list (string * cell V) :=
  sort_values_desc snd (content_volume fdf).

(** Lines 171-176: the metrics the select box offers. *)
Definition metric_options : list Metric :=
  [AdoptionRate; JobLoss; RevenueIncrease; CollabRate; ConsumerTrust].

Definition metric (i : nat) : Metric :=
  default AdoptionRate (selectbox metric_options i).

(** Line 178. *)
Definition country_metric m fdf : list (string * cell V) :=
  groupby_mean Country (metric_col m) fdf.

(** Line 179: the bars, in decreasing order of the metric. *)
Definition country_metric_bars m fdf : list (string * cell V) :=
  sort_values_desc snd (country_metric m fdf).

(** The comparison chart as a function of the table, the selection and
    the position chosen in the select box. *)
Definition country_comparison df sel (i : nat) : list (string * cell V) :=
  country_metric_bars (metric i) (filtered_df df sel).

(** ** The select box *)

Lemma metric_selectbox i : selectbox metric_options i = Some (metric i).
Proof.
  unfold metric. destruct (selectbox_is_Some metric_options i) as [m ->]; done.
Qed.

Lemma metric_elem_of i : metric i ∈ metric_options.
Proof. eapply selectbox_elem_of, metric_selectbox. Qed.

(** ** The rows of the tables *)

Lemma elem_of_country_metric c x m fdf :
  (c, x) ∈ country_metric m fdf ↔
  c ∈ Country <$> fdf
  ∧ x = col_mean (metric_col m) (filter (λ r, Country r = c) fdf).
Proof. exact (elem_of_groupby_mean Country (metric_col m) c x fdf). Qed.

Lemma country_metric_keys m fdf : (country_metric m fdf).*1 = countries fdf.
Proof. exact (groupby_mean_keys Country (metric_col m) fdf). Qed.

Lemma choropleth_color_eq fdf :
  choropleth_color fdf = country_metric AdoptionRate fdf.
Proof.
  unfold choropleth_color, country_means, country_metric, groupby_mean, agg.
  rewrite <-list_fmap_compose. by apply list_fmap_ext; intros ? [??].
Qed.

Lemma content_volume_eq fdf : content_volume fdf = country_metric ContentVolume fdf.
Proof. done. Qed.

(** The comparison table has one row per country of the view: its
    key column is the list of options the sidebar would compute from
    the view, that is the distinct countries in strictly ascending
    order, and it is within the countries selected. *)
Theorem country_metric_countries m df sel :
  (country_metric m (filtered_df df sel)).*1 = countries (filtered_df df sel)
  ∧ Sorted py_lt (country_metric m (filtered_df df sel)).*1
  ∧ (country_metric m (filtered_df df sel)).*1 ⊆ selected_countries sel.
Proof.
  rewrite country_metric_keys. split_and!; [done| |apply countries_filtered_df].
  exact (Sorted_group_keys Country (filtered_df df sel)).
Qed.

(** C9. The value of a row is the mean of the chosen metric over the
    records of the view with that country, and a country has a row
    exactly when the view has a record of it. *)
Theorem country_metric_spec c x m df sel :
  (c, x) ∈ country_metric m (filtered_df df sel) ↔
  (∃ r, r ∈ df ∧ selects sel r ∧ Country r = c)
  ∧ x = col_mean (metric_col m)
          (filter (λ r, Country r = c ∧ selects sel r) df).
Proof.
  rewrite elem_of_country_metric, filtered_df_filter, list_filter_filter.
  rewrite list_elem_of_fmap. setoid_rewrite list_elem_of_filter.
  naive_solver.
Qed.

(** ** The bars are a ranking *)

(** C26. The bars of the comparison chart are the rows of the table,
    each once, in decreasing order of the metric with the countries
    whose mean is NaN last. *)
Theorem country_metric_bars_ranking `{!Number V} m fdf :
  country_metric_bars m fdf ≡ₚ country_metric m fdf
  ∧ StronglySorted (λ p q, desc_nan_last p.2 q.2) (country_metric_bars m fdf).
Proof.
  split; [apply sort_values_desc_Permutation|].
  apply (sort_values_desc_sorted snd).
Qed.

Lemma content_volume_bars_ranking `{!Number V} fdf :
  content_volume_bars fdf ≡ₚ content_volume fdf
  ∧ StronglySorted (λ p q, desc_nan_last p.2 q.2) (content_volume_bars fdf).
Proof.
  split; [apply sort_values_desc_Permutation|].
  apply (sort_values_desc_sorted snd).
Qed.

(** ** Row order *)

#[export] Instance country_metric_Permutation `{!Number V} m :
  Proper ((≡ₚ) ==> (=)) (country_metric m).
Proof. apply groupby_mean_Permutation, _. Qed.

(** The comparison chart does not depend on the order of the
    records of the table: two tables with the same records give the
    same bars in the same order, for every selection and metric. *)
Theorem country_comparison_Permutation `{!Number V} df1 df2 sel i :
  df1 ≡ₚ df2 → country_comparison df1 sel i = country_comparison df2 sel i.
Proof.
  intros Hdf. unfold country_comparison, country_metric_bars.
  by rewrite (country_metric_Permutation _ _ _ (filtered_df_Permutation _ _ Hdf _ _ eq_refl)).
Qed.

(** ** One record, and bounds *)

(** A country with exactly one record in the view is shown with
    that record's own value. *)
Theorem country_metric_single `{!Number V} m r fdf :
  filter (λ r', Country r' = Country r) fdf = [r] →
  (Country r, metric_col m r) ∈ country_metric m fdf.
Proof. exact (groupby_mean_single Country (metric_col m) r fdf). Qed.

(** Every mean of the comparison chart lies between any two
    bounds of the cells of the metric in the table. *)
Theorem country_comparison_bounds `{!Number V} lo hi df sel i c x :
  (∀ r v, r ∈ df → metric_col (metric i) r = Some v → lo ≼ v ∧ v ≼ hi) →
  (c, Some x) ∈ country_comparison df sel i → lo ≼ x ∧ x ≼ hi.
Proof.
  intros Hb. unfold country_comparison, country_metric_bars.
  rewrite elem_of_sort_values_desc.
  apply (groupby_mean_bounds Country (metric_col (metric i))).
  intros r v Hr. apply elem_of_filtered_df in Hr. apply Hb, Hr.
Qed.

(** ** The one-pass computation *)


(** ** The figures *)

(** [country_means] as the table handed to plotly: the column
    "Country" of [reset_index], then one column per numeric column. *)
Definition country_means_table fdf : Table V :=
  wide_table "Country" (numeric_col_name <$> numeric_cols) (country_means fdf).

(** Lines 152-161. *)
Definition choropleth fdf : Figure V :=
  mkFigure Choropleth (country_means_table fdf) None None
    (Some "AI Adoption Rate (%)") [] None (Some "Country") []
    "Average AI Adoption Rate by Country"
    [ ("locationmode", "country names"); ("color_continuous_scale", "Viridis");
      ("height", "700"); ("width", "1000") ].

(** Lines 164-168. *)
Definition content_volume_figure fdf : Figure V :=
  mkFigure Bar
    (kv_table "Country" "AI-Generated Content Volume (TBs per year)"
       (content_volume_bars fdf))
    (Some "Country") (Some "AI-Generated Content Volume (TBs per year)") None
    [] None None [] "AI-Generated Content Volume by Country"
    [("color_discrete_sequence", "#dfed1f")].

(** Lines 179-183. *)
Definition country_metric_figure m fdf : Figure V :=
  mkFigure Bar (kv_table "Country" (metric_name m) (country_metric_bars m fdf))
    (Some "Country") (Some (metric_name m)) None [] None None []
    (metric_name m +:+ " by Country") [("color_discrete_sequence", "#855bef")].

(** The figures of the tab, in the order the script draws them. *)
Definition figures fdf (i : nat) : list (Figure V) :=
  [choropleth fdf; content_volume_figure fdf; country_metric_figure (metric i) fdf].

(** The map draws the countries whose name plotly knows and leaves
    the others out; [known] is plotly's list of country names. *)
Definition choropleth_shown (known : list string) fdf : list (string * cell V) :=
  filter (λ p, p.1 ∈ known) (choropleth_color fdf).

Lemma country_means_row_length fdf :
  Forall (λ p, length p.2 = length (numeric_col_name <$> numeric_cols))
    (country_means fdf).
Proof.
  unfold country_means, agg. apply Forall_fmap, Forall_forall.
  by intros [c rows] _.
Qed.

Lemma country_means_table_ok fdf : table_ok (country_means_table fdf).
Proof.
  apply wide_table_ok; [by_eval|apply country_means_row_length].
Qed.

Lemma metric_name_ne_Country m : "Country" ≠ metric_name m.
Proof. by destruct m. Qed.

Lemma geography_figures_ok fdf i : Forall figure_ok (figures fdf i).
Proof.
  unfold figures. each_figure;
    first [apply country_means_table_ok
          |apply kv_table_ok, metric_name_ne_Country
          |apply (kv_table_ok _ (metric_name ContentVolume)),
             metric_name_ne_Country
          |by_eval|simpl; set_solver].
Qed.

Lemma choropleth_shown_sublist known fdf :
  choropleth_shown known fdf `sublist_of` country_metric AdoptionRate fdf.
Proof. rewrite <-choropleth_color_eq. apply sublist_filter. Qed.

Lemma elem_of_choropleth_shown known c x fdf :
  (c, x) ∈ choropleth_shown known fdf ↔
  c ∈ known ∧ c ∈ Country <$> fdf
  ∧ x = col_mean AI_Adoption_Rate (filter (λ r, Country r = c) fdf).
Proof.
  unfold choropleth_shown.
  by rewrite list_elem_of_filter, choropleth_color_eq, elem_of_country_metric.
Qed.

Lemma choropleth_shown_keys known fdf :
  (choropleth_shown known fdf).*1 = filter (.∈ known) (countries fdf).
Proof.
  unfold choropleth_shown.
  by rewrite <-(country_metric_keys AdoptionRate), <-choropleth_color_eq,
    (filter_fmap fst).
Qed.

End tab2.
End tab2.

(** ** The scenario of the specification *)


(** When plotly knows "USA" but not "UK", the map shows the USA
    only; the bars of the comparison keep both countries. *)
Example scenario_choropleth :
  tab2.choropleth_shown ["USA"] scenario_df = [("USA", num 50)]
  ∧ (tab2.country_metric_bars AdoptionRate scenario_df).*1 = ["USA"; "UK"].
Proof. by_eval. Qed.

Lemma country_metric_bars_ranking_witness :
  tab2.country_metric_bars JobLoss scenario_df
    ≡ₚ tab2.country_metric JobLoss scenario_df
  ∧ StronglySorted (λ p q, desc_nan_last p.2 q.2)
      (tab2.country_metric_bars JobLoss scenario_df).
Proof. exact (tab2.country_metric_bars_ranking JobLoss scenario_df). Defined.

Lemma country_comparison_Permutation_witness :
  scenario_df ≡ₚ scenario_df_permuted
  ∧ tab2.country_comparison scenario_df
      (mkSelection [2020%Z; 2021%Z] ["USA"; "UK"] ["Media"; "Retail"]) 1
    = tab2.country_comparison scenario_df_permuted
      (mkSelection [2020%Z; 2021%Z] ["USA"; "UK"] ["Media"; "Retail"]) 1.
Proof.
  split; [apply scenario_df_Permutation|].
  apply tab2.country_comparison_Permutation, scenario_df_Permutation.
Defined.

Lemma country_metric_single_witness :
  filter (λ r', Country r' = Country row_uk) scenario_df = [row_uk]
  ∧ ("UK", None) ∈ tab2.country_metric JobLoss scenario_df.
Proof.
  split; [by_eval|].
  apply (tab2.country_metric_single JobLoss row_uk scenario_df). by_eval.
Defined.

Lemma country_comparison_bounds_witness :
  ("USA", num 50) ∈ tab2.country_comparison scenario_df
      (mkSelection [2020%Z] ["USA"] ["Media"]) 0
  ∧ Qc_of_Z 0 ≼ Qc_of_Z 50 ∧ Qc_of_Z 50 ≼ Qc_of_Z 100.
Proof.
  assert (("USA", num 50) ∈ tab2.country_comparison scenario_df
      (mkSelection [2020%Z] ["USA"] ["Media"]) 0) as Hin by by_eval.
  split; [exact Hin|].
  refine (tab2.country_comparison_bounds _ _ scenario_df _ 0 _ _ _ Hin).
  intros r v Hr. by apply scenario_df_percent.
Defined.
