(* ===== verification/Industry.v ===== *)
(** * Industry: the tables of the "Industry" tab

    Lines 185-213 of [src/app2.py].  The tab draws from
    [filtered_df]:

    - a sunburst of the content volume with the path Industry,
      Country (lines 188-191): [px.sunburst] adds up the volume of the
      records of every (industry, country) pair for the outer ring and
      of every industry for the inner ring;
    - a box plot of the adoption rate per industry (lines 195-197):
      one box per industry, in order of first appearance, over the
      adoption rates of its records;
    - [industry_metric], the mean per industry of the metric chosen
      in the select box (lines 201-208), drawn in decreasing order
      (line 209).

    The theorems characterise the comparison table, show that the
    rings of the sunburst agree (a sector of the inner ring is the sum
    of its sectors of the outer ring, and both rings add up to the
    "Total AI Content Volume" card of the overview) and that the boxes
    partition the adoption rates of the view. *)

From Stdlib Require Import QArith Qcanon.
From stdpp Require Import numbers.
From S2P Require Import Prelude Order Sorting Numeric Series Frame.
From S2P Require Import Figure Scenario Widgets Sidebar Overview.
#[local] Close Scope Q_scope.
#[local] Close Scope Qc_scope.

Module tab3.
Section tab3.
Context `{NumOps V}.
Implicit Types (df fdf rows : DataFrame V) (sel : Selection) (r : Row V)
  (m : Metric) (ind : string) (x : cell V).

(** Lines 188-191: the value of a sector is the sum of the content
    volume of its records. *)
Definition sector_value rows : V :=
  nansum (AI_Generated_Content_Volume <$> rows).

(** The outer ring: one sector per industry and country. *)
Definition sunburst_leaves fdf : list (string * string * V) :=
  agg (λ r, (Industry r, Country r)) sector_value fdf.

(** The inner ring: one sector per industry. *)
Definition sunburst_sectors fdf : list (string * V) :=
  agg Industry sector_value fdf.

(** Lines 195-197: one box per industry, in order of first
    appearance, over the adoption rates of its records. *)
Definition box_groups fdf : list (string * list V) :=
  (λ ind, (ind, dropna (AI_Adoption_Rate <$> filter (λ r, Industry r = ind) fdf)))
    <$> unique (Industry <$> fdf).

(** Lines 201-206: the metrics the select box offers. *)
Definition metric_options : list Metric :=
  [AdoptionRate; JobLoss; RevenueIncrease; CollabRate; ConsumerTrust].

Definition metric (i : nat) : Metric :=
  default AdoptionRate (selectbox metric_options i).

(** Line 208. *)
Definition industry_metric m fdf : list (string * cell V) :=
  groupby_mean Industry (metric_col m) fdf.

(** Line 209: the bars, in decreasing order of the metric. *)
Definition industry_metric_bars m fdf : list (string * cell V) :=
  sort_values_desc snd (industry_metric m fdf).

(** The comparison chart as a function of the table, the selection and
    the position chosen in the select box. *)
Definition industry_comparison df sel (i : nat) : list (string * cell V) :=
  industry_metric_bars (metric i) (filtered_df df sel).

(** ** The comparison chart *)

Lemma elem_of_industry_metric ind x m fdf :
  (ind, x) ∈ industry_metric m fdf ↔
  ind ∈ Industry <$> fdf
  ∧ x = col_mean (metric_col m) (filter (λ r, Industry r = ind) fdf).
Proof. exact (elem_of_groupby_mean Industry (metric_col m) ind x fdf). Qed.

Lemma industry_metric_keys m fdf : (industry_metric m fdf).*1 = industries fdf.
Proof. exact (groupby_mean_keys Industry (metric_col m) fdf). Qed.

(** The comparison chart has exactly one bar per industry of the
    view, each an industry selected in the sidebar; the bar shows the
    mean of the chosen metric over the records of the view of that
    industry. *)
Theorem industry_comparison_spec df sel i :
  (∀ ind x, (ind, x) ∈ industry_comparison df sel i ↔
     (∃ r, r ∈ df ∧ selects sel r ∧ Industry r = ind)
     ∧ x = col_mean (metric_col (metric i))
             (filter (λ r, Industry r = ind ∧ selects sel r) df))
  ∧ (industry_comparison df sel i).*1 ≡ₚ industries (filtered_df df sel)
  ∧ (industry_comparison df sel i).*1 ⊆ selected_industries sel.
Proof.
  unfold industry_comparison, industry_metric_bars.
  assert ((sort_values_desc snd (industry_metric (metric i)
            (filtered_df df sel))).*1 ≡ₚ industries (filtered_df df sel)) as Hk.
  { by rewrite sort_values_desc_Permutation, industry_metric_keys. }
  split_and!; [|done|].
  - intros ind x. rewrite elem_of_sort_values_desc, elem_of_industry_metric.
    rewrite filtered_df_filter, list_filter_filter, list_elem_of_fmap.
    setoid_rewrite list_elem_of_filter. naive_solver.
  - intros ind. rewrite Hk. apply industries_filtered_df.
Qed.

(** ** The sunburst *)

Lemma agg_sector_value `{!Number V} `{PyOrd K} (key : Row V → K) fdf :
  sum_values (agg key sector_value fdf).*2 = tab1.total_content fdf.
Proof.
  rewrite (tab1.total_content_groupby key). unfold agg.
  by rewrite <-!list_fmap_compose.
Qed.

(** Both rings of the sunburst add up to the number on the
    "Total AI Content Volume" card: the sectors of the industries and
    the sectors of the (industry, country) pairs each partition the
    volume of the view. *)
Theorem sunburst_total `{!Number V} fdf :
  sum_values (sunburst_sectors fdf).*2 = tab1.total_content fdf
  ∧ sum_values (sunburst_leaves fdf).*2 = tab1.total_content fdf.
Proof. split; apply agg_sector_value. Qed.

(** The leaves of an industry are the sectors of the pairs of the
    records of that industry. *)
Lemma sunburst_leaves_filter ind fdf :
  filter (λ l, l.1.1 = ind) (sunburst_leaves fdf)
  = sunburst_leaves (filter (λ r, Industry r = ind) fdf).
Proof.
  symmetry.
  exact (agg_filter (λ r, (Industry r, Country r)) _ (λ k, k.1 = ind) fdf).
Qed.

Lemma elem_of_sunburst_sectors ind v fdf :
  (ind, v) ∈ sunburst_sectors fdf ↔
  ind ∈ Industry <$> fdf ∧ v = sector_value (filter (λ r, Industry r = ind) fdf).
Proof.
  unfold sunburst_sectors. rewrite elem_of_agg, elem_of_group_keys.
  rewrite list_elem_of_fmap. naive_solver.
Qed.

Lemma elem_of_sunburst_leaves ind c v fdf :
  (ind, c, v) ∈ sunburst_leaves fdf ↔
  (∃ r, r ∈ fdf ∧ Industry r = ind ∧ Country r = c)
  ∧ v = sector_value (filter (λ r, (Industry r, Country r) = (ind, c)) fdf).
Proof.
  unfold sunburst_leaves. rewrite elem_of_agg, elem_of_group_keys.
  naive_solver.
Qed.

(** The rings of the sunburst agree: the sector of an industry is
    as large as the sectors of its countries together, an industry has
    a sector exactly when one of its pairs has, and the sectors of the
    industries add up to the "Total AI Content Volume" card. *)
Theorem sunburst_hierarchy `{!Number V} fdf :
  (∀ ind v, (ind, v) ∈ sunburst_sectors fdf →
     v = sum_values (filter (λ l, l.1.1 = ind) (sunburst_leaves fdf)).*2)
  ∧ (∀ ind, ind ∈ (sunburst_sectors fdf).*1 ↔
       ∃ c v, (ind, c, v) ∈ sunburst_leaves fdf)
  ∧ sum_values (sunburst_sectors fdf).*2 = tab1.total_content fdf.
Proof.
  split_and!; [| |apply agg_sector_value].
  - intros ind v [_ ->]%elem_of_sunburst_sectors.
    rewrite sunburst_leaves_filter. symmetry. apply agg_sector_value.
  - intros ind. unfold sunburst_sectors.
    rewrite agg_keys, elem_of_group_keys.
    setoid_rewrite elem_of_sunburst_leaves. naive_solver.
Qed.

(** ** The boxes *)

Lemma elem_of_box_groups ind vs fdf :
  (ind, vs) ∈ box_groups fdf ↔
  ind ∈ Industry <$> fdf
  ∧ vs = dropna (AI_Adoption_Rate <$> filter (λ r, Industry r = ind) fdf).
Proof.
  unfold box_groups. rewrite list_elem_of_fmap.
  setoid_rewrite elem_of_unique. naive_solver.
Qed.

Lemma box_groups_keys fdf : (box_groups fdf).*1 = unique (Industry <$> fdf).
Proof. unfold box_groups. rewrite <-list_fmap_compose. apply list_fmap_id. Qed.

Lemma dropna_fmap_mjoin {A} (f : A → cell V) (gs : list (list A)) :
  dropna (f <$> mjoin gs) = mjoin ((λ g, dropna (f <$> g)) <$> gs).
Proof.
  induction gs as [|g gs IH]; [done|].
  csimpl. by rewrite fmap_app, dropna_app, IH.
Qed.

(** The boxes partition the adoption rates of the view: every
    record with an adoption rate contributes it to the box of its
    industry and to no other, and the boxes are labelled with the
    distinct industries of the view. *)
Theorem box_groups_partition fdf :
  mjoin (box_groups fdf).*2 ≡ₚ dropna (AI_Adoption_Rate <$> fdf)
  ∧ (box_groups fdf).*1 = unique (Industry <$> fdf).
Proof.
  split; [|apply box_groups_keys].
  unfold box_groups. rewrite <-!list_fmap_compose.
  rewrite <-(mjoin_unique_groups Industry fdf) at 2.
  by rewrite dropna_fmap_mjoin, <-list_fmap_compose.
Qed.

(** ** The figures *)

(** Lines 188-193. *)
Definition sunburst fdf : Figure V :=
  mkFigure Sunburst (frame_table fdf) None None None ["Industry"; "Country"]
    (Some "AI-Generated Content Volume (TBs per year)") None []
    "AI Content Volume by Industry and Country"
    [ ("color_discrete_sequence", "px.colors.qualitative.Pastel");
      ("height", "600"); ("width", "700") ].

(** Lines 195-198. *)
Definition adoption_box fdf : Figure V :=
  mkFigure Box (frame_table fdf) (Some "Industry") (Some "AI Adoption Rate (%)")
    None [] None None [] "AI Adoption Rate Distribution by Industry"
    [("color_discrete_sequence", "#9467bd")].

(** Lines 209-213. *)
Definition industry_metric_figure m fdf : Figure V :=
  mkFigure Bar (kv_table "Industry" (metric_name m) (industry_metric_bars m fdf))
    (Some "Industry") (Some (metric_name m)) None [] None None []
    (metric_name m +:+ " by Industry") [("color_discrete_sequence", "#a2f088")].

(** The figures of the tab, in the order the script draws them. *)
Definition figures fdf (i : nat) : list (Figure V) :=
  [sunburst fdf; adoption_box fdf; industry_metric_figure (metric i) fdf].

Lemma metric_name_ne_Industry m : "Industry" ≠ metric_name m.
Proof. by destruct m. Qed.

Lemma industry_figures_ok fdf i : Forall figure_ok (figures fdf i).
Proof.
  unfold figures. each_figure;
    first [apply frame_table_ok
          |apply kv_table_ok, metric_name_ne_Industry
          |by_eval|simpl; set_solver].
Qed.
End tab3.
End tab3.

(** ** The scenario of the specification *)

Example scenario_industry :
  tab3.industry_comparison scenario_df
    (mkSelection [2020%Z; 2021%Z] ["USA"; "UK"] ["Media"; "Retail"]) 1
  = [("Media", num 20); ("Retail", None)]
  ∧ tab3.sunburst_leaves scenario_df
    = [("Media", "USA", Qc_of_Z 30); ("Retail", "UK", Qc_of_Z 5)]
  ∧ tab3.box_groups scenario_df
    = [("Media", [Qc_of_Z 40; Qc_of_Z 60]); ("Retail", [Qc_of_Z 30])].
Proof. by_eval. Qed.

Lemma sunburst_total_witness :
  sum_values (tab3.sunburst_sectors scenario_df).*2
    = tab1.total_content scenario_df
  ∧ sum_values (tab3.sunburst_leaves scenario_df).*2
    = tab1.total_content scenario_df.
Proof. exact (tab3.sunburst_total scenario_df). Defined.

Lemma sunburst_hierarchy_witness :
  (∀ ind v, (ind, v) ∈ tab3.sunburst_sectors scenario_df →
     v = sum_values
           (filter (λ l, l.1.1 = ind) (tab3.sunburst_leaves scenario_df)).*2)
  ∧ (∀ ind, ind ∈ (tab3.sunburst_sectors scenario_df).*1 ↔
       ∃ c v, (ind, c, v) ∈ tab3.sunburst_leaves scenario_df)
  ∧ sum_values (tab3.sunburst_sectors scenario_df).*2
    = tab1.total_content scenario_df.
Proof. exact (tab3.sunburst_hierarchy scenario_df). Defined.
