(* ===== verification/Trends.v ===== *)
(** * Trends: the tables of the "Trends" tab

    Lines 215-246 of [src/app2.py].  The tab computes from
    [filtered_df] three tables, each a group-by on two keys followed
    by [mean] and [reset_index]:

    - [country_trend], the mean adoption rate per year and country
      (line 218);
    - [industry_trend], the same per year and industry (line 225);
    - [time_trend], the mean of the metric chosen in the select box
      per year and per value of the column chosen with the radio
      (lines 233-241).

    Each is drawn by [px.line] with the year on the x axis and one
    line per value of the second key.  pandas orders the rows of a
    two-key group-by lexicographically, year first; [lines] splits
    such a table into the lines [px.line] draws (one per colour, in
    order of first appearance, the points in table order).  The
    theorems characterise the rows, and show that along every line the
    years strictly increase, so that each line is the graph of a
    function of time drawn from left to right. *)

From Stdlib Require Import QArith Qcanon.
From stdpp Require Import numbers.
From S2P Require Import Prelude Order Sorting Numeric Series Frame.
From S2P Require Import Figure Scenario Widgets Sidebar.
#[local] Close Scope Q_scope.
#[local] Close Scope Qc_scope.

Module tab4.
Section tab4.
Context `{NumOps V}.
Implicit Types (df fdf : DataFrame V) (sel : Selection) (r : Row V)
  (m : Metric) (gb : GroupCol) (y : Z) (g : string) (x : cell V)
  (t : list (Z * string * cell V)).

(** Line 218. *)
Definition country_trend fdf : list (Z * string * cell V) :=
  groupby_mean (λ r, (Year r, Country r)) AI_Adoption_Rate fdf.

(** Line 225. *)
Definition industry_trend fdf : list (Z * string * cell V) :=
  groupby_mean (λ r, (Year r, Industry r)) AI_Adoption_Rate fdf.

(** Lines 233-238: the metrics the select box offers. *)
Definition metric_options : list Metric :=
  [AdoptionRate; JobLoss; RevenueIncrease; CollabRate; ConsumerTrust].

Definition metric (i : nat) : Metric :=
  default AdoptionRate (selectbox metric_options i).

(** Line 240. *)
Definition group_by_options : list GroupCol := [ByCountry; ByIndustry].

Definition group_by (j : nat) : GroupCol :=
  default ByCountry (radio group_by_options j).

(** Line 241. *)
Definition time_trend m gb fdf : list (Z * string * cell V) :=
  groupby_mean (λ r, (Year r, group_col gb r)) (metric_col m) fdf.

(** Lines 219-222, 226-229 and 242-245: [px.line] with [x="Year"] and
    [color] the second key draws one line per value of the second
    key, in order of first appearance; its points are the rows with
    that value, in table order. *)
Definition line_of g t : list (Z * cell V) :=
  (λ row, (row.1.1, row.2)) <$> filter (λ row, row.1.2 = g) t.

Definition lines t : list (string * list (Z * cell V)) :=
  (λ g, (g, line_of g t)) <$> unique ((λ row, row.1.2) <$> t).

(** The third chart as a function of the table, the selection, and
    the positions chosen in the select box and in the radio. *)
Definition trend_chart df sel (i j : nat) : list (string * list (Z * cell V)) :=
  lines (time_trend (metric i) (group_by j) (filtered_df df sel)).

(** ** The rows of the tables *)

Lemma elem_of_time_trend y g x m gb fdf :
  (y, g, x) ∈ time_trend m gb fdf ↔
  (∃ r, r ∈ fdf ∧ Year r = y ∧ group_col gb r = g)
  ∧ x = col_mean (metric_col m)
          (filter (λ r, Year r = y ∧ group_col gb r = g) fdf).
Proof.
  unfold time_trend.
  rewrite (elem_of_groupby_mean (λ r, (Year r, group_col gb r)) (metric_col m)).
  rewrite list_elem_of_fmap. unfold group_rows.
  rewrite (filter_ext_elem (λ r, (Year r, group_col gb r) = (y, g))
    (λ r, Year r = y ∧ group_col gb r = g) fdf) by naive_solver.
  naive_solver.
Qed.

Lemma time_trend_keys_sorted m gb fdf :
  StronglySorted py_lt (time_trend m gb fdf).*1.
Proof.
  unfold time_trend. rewrite groupby_mean_keys.
  apply StronglySorted_group_keys.
Qed.

(** The table of the third chart has one row per pair of a year
    and a group value that occurs in the view; its value is the mean
    of the chosen metric over the records of the view with that year
    and that group value. *)
Theorem time_trend_spec y g x m gb df sel :
  (y, g, x) ∈ time_trend m gb (filtered_df df sel) ↔
  (∃ r, r ∈ df ∧ selects sel r ∧ Year r = y ∧ group_col gb r = g)
  ∧ x = col_mean (metric_col m)
          (filter (λ r, (Year r = y ∧ group_col gb r = g) ∧ selects sel r) df).
Proof.
  rewrite elem_of_time_trend, filtered_df_filter, list_filter_filter.
  setoid_rewrite list_elem_of_filter. naive_solver.
Qed.

(** ** Lines *)

(** Within one group the lexicographic order is the order of the
    years. *)
Lemma py_lt_same_group (p q : Z * string) :
  p ≺ q → p.2 = q.2 → (p.1 < q.1)%Z.
Proof.
  destruct p as [y1 g1], q as [y2 g2]. simpl. intros [Hle Hne] <-.
  destruct Hle as [[Hy Hyne]|[Heq _]]; simpl in *.
  - unfold py_le in Hy; simpl in Hy. lia.
  - by subst.
Qed.

Lemma line_of_increasing g t :
  StronglySorted py_lt t.*1 → StronglySorted Z.lt (line_of g t).*1.
Proof.
  intros Hs. unfold line_of. rewrite <-list_fmap_compose.
  apply (StronglySorted_fmap _ (λ p q, p.1 ≺ q.1 ∧ p.1.2 = g ∧ q.1.2 = g)).
  { intros p q (Hpq & Hp & Hq). apply py_lt_same_group; [done|congruence]. }
  induction t as [|p t IH]; [constructor|].
  csimpl in Hs. apply StronglySorted_inv in Hs as [Hs Hall].
  rewrite filter_cons. case_decide as Hp; [|by apply IH].
  constructor; [by apply IH|]. apply Forall_forall.
  intros q [Hq Hin]%list_elem_of_filter. split_and!; [|done|done].
  apply (proj1 (Forall_forall _ _) Hall). by apply list_elem_of_fmap_2.
Qed.

Lemma elem_of_lines g pts t :
  (g, pts) ∈ lines t ↔ (∃ row, row ∈ t ∧ row.1.2 = g) ∧ pts = line_of g t.
Proof.
  unfold lines. rewrite list_elem_of_fmap.
  setoid_rewrite elem_of_unique. setoid_rewrite list_elem_of_fmap.
  naive_solver.
Qed.

(** C27. Along every line of the third chart the years strictly
    increase: a line has at most one point per year and is drawn from
    left to right in time, whatever the order of the records. *)
Theorem trend_chart_increasing df sel i j g pts :
  (g, pts) ∈ trend_chart df sel i j → StronglySorted Z.lt pts.*1.
Proof.
  intros [_ ->]%elem_of_lines. apply line_of_increasing, time_trend_keys_sorted.
Qed.

(** Every point of the third chart lies on a line of a group
    value that occurs in the view, at a year selected in the sidebar,
    and no line is empty. *)
Theorem trend_chart_points df sel i j g pts :
  (g, pts) ∈ trend_chart df sel i j →
  pts ≠ [] ∧ pts.*1 ⊆ selected_years sel
  ∧ ∃ r, r ∈ filtered_df df sel ∧ group_col (group_by j) r = g.
Proof.
  intros [(row & Hrow & Hg) ->]%elem_of_lines. split_and!.
  - intros Hnil. assert ((row.1.1, row.2) ∈ line_of g
      (time_trend (metric i) (group_by j) (filtered_df df sel))) as Hin.
    { unfold line_of. apply (list_elem_of_fmap_2 (λ row, (row.1.1, row.2))).
      by apply list_elem_of_filter. }
    rewrite Hnil in Hin. by apply elem_of_nil in Hin.
  - intros y ([y' x'] & -> & Hp)%list_elem_of_fmap. unfold line_of in Hp.
    apply list_elem_of_fmap in Hp as ([[y'' g'] x''] & [= -> ->] & Hf).
    apply list_elem_of_filter in Hf as [_ Hf]. simpl.
    apply elem_of_time_trend in Hf as [(r & Hr & <- & _) _].
    apply elem_of_filtered_df in Hr. apply Hr.
  - destruct row as [[y g'] x]. simpl in Hg. subst g'.
    apply elem_of_time_trend in Hrow as [(r & Hr & _ & Hg) _]. eauto.
Qed.

(** ** The default choices *)

Lemma trend_metric_selectbox i : selectbox metric_options i = Some (metric i).
Proof.
  unfold metric. destruct (selectbox_is_Some metric_options i) as [m ->]; done.
Qed.

(** With the choices the page starts with (the first metric, the
    first radio button) the table of the third chart is the table of
    the first chart; with the second radio button it is the table of
    the second chart. *)
Theorem time_trend_default fdf :
  time_trend (metric 0) (group_by 0) fdf = country_trend fdf
  ∧ time_trend (metric 0) (group_by 1) fdf = industry_trend fdf.
Proof. done. Qed.

(** ** Row order *)

#[export] Instance time_trend_Permutation `{!Number V} m gb :
  Proper ((≡ₚ) ==> (=)) (time_trend m gb).
Proof. apply groupby_mean_Permutation, _. Qed.

(** The third chart does not depend on the order of the records
    of the table. *)
Theorem trend_chart_Permutation `{!Number V} df1 df2 sel i j :
  df1 ≡ₚ df2 → trend_chart df1 sel i j = trend_chart df2 sel i j.
Proof.
  intros Hdf. unfold trend_chart.
  by rewrite (time_trend_Permutation _ _ _ _
    (filtered_df_Permutation _ _ Hdf _ _ eq_refl)).
Qed.

(** ** The figures *)

(** Lines 219-223. *)
Definition country_trend_figure fdf : Figure V :=
  mkFigure Line (ykv_table "Country" "AI Adoption Rate (%)" (country_trend fdf))
    (Some "Year") (Some "AI Adoption Rate (%)") (Some "Country") [] None None []
    "AI Adoption Rate Over Time by Country"
    [("color_discrete_sequence", "px.colors.qualitative.Dark24")].

(** Lines 226-230. *)
Definition industry_trend_figure fdf : Figure V :=
  mkFigure Line (ykv_table "Industry" "AI Adoption Rate (%)" (industry_trend fdf))
    (Some "Year") (Some "AI Adoption Rate (%)") (Some "Industry") [] None None []
    "AI Adoption Rate Over Time by Industry"
    [("color_discrete_sequence", "px.colors.qualitative.Light24")].

(** Lines 242-246. *)
Definition time_trend_figure m gb fdf : Figure V :=
  mkFigure Line
    (ykv_table (group_col_name gb) (metric_name m) (time_trend m gb fdf))
    (Some "Year") (Some (metric_name m)) (Some (group_col_name gb)) [] None
    None []
    (metric_name m +:+ " Over Time by " +:+ group_col_name gb)
    [("color_discrete_sequence", "px.colors.qualitative.Vivid")].

(** The figures of the tab, in the order the script draws them. *)
Definition figures fdf (i j : nat) : list (Figure V) :=
  [ country_trend_figure fdf; industry_trend_figure fdf;
    time_trend_figure (metric i) (group_by j) fdf ].

Lemma time_trend_table_ok m gb fdf :
  table_ok (ykv_table (group_col_name gb) (metric_name m) (time_trend m gb fdf)).
Proof. apply ykv_table_ok; by destruct gb, m. Qed.

Lemma trends_figures_ok fdf i j : Forall figure_ok (figures fdf i j).
Proof.
  unfold figures. each_figure;
    first [apply (time_trend_table_ok AdoptionRate ByCountry)
          |apply (time_trend_table_ok AdoptionRate ByIndustry)
          |apply time_trend_table_ok
          |by_eval|done|unfold fig_columns, columns; simpl; set_solver].
Qed.
End tab4.
End tab4.

(** ** The scenario of the specification *)

Example scenario_trend_chart :
  tab4.trend_chart scenario_df
    (mkSelection [2020%Z; 2021%Z] ["USA"; "UK"] ["Media"; "Retail"]) 0 0
  = [("USA", [(2020%Z, num 50)]); ("UK", [(2021%Z, num 30)])].
Proof. by_eval. Qed.

Lemma trend_chart_increasing_witness :
  ("USA", [(2020%Z, num 50)]) ∈ tab4.trend_chart scenario_df
    (mkSelection [2020%Z; 2021%Z] ["USA"; "UK"] ["Media"; "Retail"]) 0 0
  ∧ StronglySorted Z.lt [(2020%Z, num 50)].*1.
Proof.
  assert (("USA", [(2020%Z, num 50)]) ∈ tab4.trend_chart scenario_df
    (mkSelection [2020%Z; 2021%Z] ["USA"; "UK"] ["Media"; "Retail"]) 0 0)
    as Hin by by_eval.
  split; [exact Hin|]. exact (tab4.trend_chart_increasing _ _ _ _ _ _ Hin).
Defined.

Lemma trend_chart_points_witness :
  ("UK", [(2021%Z, num 30)]) ∈ tab4.trend_chart scenario_df
    (mkSelection [2020%Z; 2021%Z] ["USA"; "UK"] ["Media"; "Retail"]) 0 0
  ∧ [(2021%Z, num 30)].*1
    ⊆ selected_years
        (mkSelection [2020%Z; 2021%Z] ["USA"; "UK"] ["Media"; "Retail"]).
Proof.
  assert (("UK", [(2021%Z, num 30)]) ∈ tab4.trend_chart scenario_df
    (mkSelection [2020%Z; 2021%Z] ["USA"; "UK"] ["Media"; "Retail"]) 0 0)
    as Hin by by_eval.
  split; [exact Hin|]. exact (proj1 (proj2 (tab4.trend_chart_points _ _ _ _ _ _ Hin))).
Defined.

Lemma trend_chart_Permutation_witness :
  scenario_df ≡ₚ scenario_df_permuted
  ∧ tab4.trend_chart scenario_df
      (mkSelection [2020%Z; 2021%Z] ["USA"; "UK"] ["Media"; "Retail"]) 1 1
    = tab4.trend_chart scenario_df_permuted
      (mkSelection [2020%Z; 2021%Z] ["USA"; "UK"] ["Media"; "Retail"]) 1 1.
Proof.
  split; [apply scenario_df_Permutation|].
  apply tab4.trend_chart_Permutation, scenario_df_Permutation.
Defined.
