(* ===== verification/Tools.v ===== *)
(** * Tools: the tables of the "Deep Dive" tab

    Lines 248-415 of [src/app2.py].  The tab computes from
    [filtered_df]:

    - the points of the correlation scatter, for the two metrics
      chosen in the select boxes (lines 254-273);
    - [tool_counts], how often each tool is named in the column
      "Top AI Tools Used" (lines 277-278);
    - for the industry chosen among the industries of the view (lines
      288-291), the records of that industry and their tool counts,
      as the list of pairs the pie chart takes (lines 294-299);
    - the same for the country chosen among the countries of the view
      (lines 342-353).

    The theorems say what the count tables contain (every tool once,
    with the number of records that name it, in decreasing order),
    that the pies of the industries add up to the overall bar chart,
    and what happens on the empty view, where both select boxes have
    no option and return [None]. *)

From Stdlib Require Import QArith Qcanon.
From stdpp Require Import numbers.
From S2P Require Import Prelude Order Sorting Numeric Series Iterrows Frame.
From S2P Require Import Figure Scenario Widgets Sidebar.
#[local] Close Scope Q_scope.
#[local] Close Scope Qc_scope.

Module tab5.
Section tab5.
Context {V : Type} `{EqDecision V}.
Implicit Types (df fdf : DataFrame V) (sel : Selection) (r : Row V)
  (m : Metric) (t : string) (n : nat).

(** Lines 254-268: the metrics both axis select boxes offer. *)
Definition axis_options : list Metric :=
  [ AdoptionRate; ContentVolume; JobLoss; RevenueIncrease; CollabRate;
    ConsumerTrust ].

Definition x_axis (i : nat) : Metric :=
  default AdoptionRate (selectbox axis_options i).

Definition y_axis (i : nat) : Metric :=
  default AdoptionRate (selectbox axis_options i).

(** Lines 270-273: one point per record, coloured by industry. *)
Definition scatter_points (x y : Metric) fdf : list (cell V * cell V * string) :=
  (λ r, (metric_col x r, metric_col y r, Industry r)) <$> fdf.

(** Lines 277-278. *)
Definition tool_counts fdf : list (string * nat) :=
  value_counts (Top_AI_Tools_Used <$> fdf).

(** Lines 288-291: the options are the industries of the view in
    order of first appearance. *)
Definition selected_industry fdf (i : nat) : option string :=
  selectbox (unique (Industry <$> fdf)) i.

(** Line 294: [filtered_df[filtered_df['Industry'] == selected_industry]];
    compared with [None], no cell is equal. *)
Definition industry_tools fdf (ind : option string) : DataFrame V :=
  getitem_mask fdf (eq_mask (Some <$> (Industry <$> fdf)) ind).

(** Lines 295-296. *)
Definition industry_tool_counts fdf ind : list (string * nat) :=
  value_counts (Top_AI_Tools_Used <$> industry_tools fdf ind).

(** Lines 299 and 353: the rows as (name, value) pairs, by the
    comprehension over [tool_counts.iterrows()]; the label of a row
    is not used. *)
Definition echarts_data (tc : list (string * nat)) : list (string * nat) :=
  comprehension (λ x, (x.2.1, x.2.2)) (iterrows tc) [].

(** Line 299. *)
Definition industry_data fdf ind : list (string * nat) :=
  echarts_data (industry_tool_counts fdf ind).

(** Line 315: the title of the pie; Python prints a missing choice as
    "None". *)
Definition industry_title (ind : option string) : string :=
  "Tool Usage in " +:+ default "None" ind +:+ " Industry".

(** Lines 342-345. *)
Definition selected_country fdf (i : nat) : option string :=
  selectbox (unique (Country <$> fdf)) i.

(** Line 348. *)
Definition country_tools fdf (c : option string) : DataFrame V :=
  getitem_mask fdf (eq_mask (Some <$> (Country <$> fdf)) c).

(** Lines 349-350. *)
Definition country_tool_counts fdf c : list (string * nat) :=
  value_counts (Top_AI_Tools_Used <$> country_tools fdf c).

(** Line 353. *)
Definition country_data fdf c : list (string * nat) :=
  echarts_data (country_tool_counts fdf c).

(** Line 375. *)
Definition country_title (c : option string) : string :=
  "Tool Usage in " +:+ default "None" c.

(** The industry pie as a function of the table, the selection and
    the position chosen in the select box. *)
Definition industry_pie df sel (i : nat) : string * list (string * nat) :=
  let fdf := filtered_df df sel in
  let ind := selected_industry fdf i in
  (industry_title ind, industry_data fdf ind).

Definition country_pie df sel (i : nat) : string * list (string * nat) :=
  let fdf := filtered_df df sel in
  let c := selected_country fdf i in
  (country_title c, country_data fdf c).

(** The number of records of a table that name tool [t]. *)
Definition uses t fdf : nat := length (filter (λ r, Top_AI_Tools_Used r = Some t) fdf).

(** ** Selecting the rows of one industry or country *)

Lemma getitem_eq_mask {A} `{EqDecision A} (key : Row V → A) fdf (k : option A) :
  getitem_mask fdf (eq_mask (Some <$> (key <$> fdf)) k)
  = filter (λ r, Some (key r) = k) fdf.
Proof.
  unfold eq_mask. rewrite <-list_fmap_compose.
  exact (getitem_mask_fmap (Some ∘ key) (λ x, x = k) fdf).
Qed.

Lemma industry_tools_filter fdf ind :
  industry_tools fdf ind = filter (λ r, Some (Industry r) = ind) fdf.
Proof. apply getitem_eq_mask. Qed.

Lemma country_tools_filter fdf c :
  country_tools fdf c = filter (λ r, Some (Country r) = c) fdf.
Proof. apply getitem_eq_mask. Qed.

Lemma industry_tools_None fdf : industry_tools fdf None = [].
Proof. rewrite industry_tools_filter. by apply filter_False. Qed.

Lemma country_tools_None fdf : country_tools fdf None = [].
Proof. rewrite country_tools_filter. by apply filter_False. Qed.

(** The comprehension copies the count table. *)
Lemma echarts_data_eq (tc : list (string * nat)) : echarts_data tc = tc.
Proof.
  unfold echarts_data. rewrite comprehension_iterrows.
  rewrite <-(list_fmap_id tc) at 2. rewrite <-imap_const.
  apply imap_ext. by intros i [??] _.
Qed.

Lemma industry_data_eq fdf ind : industry_data fdf ind = industry_tool_counts fdf ind.
Proof. apply echarts_data_eq. Qed.

Lemma country_data_eq fdf c : country_data fdf c = country_tool_counts fdf c.
Proof. apply echarts_data_eq. Qed.

(** ** Counting tools *)

Lemma count_of_tools t fdf :
  count_of t (dropna (Top_AI_Tools_Used <$> fdf)) = uses t fdf.
Proof.
  unfold count_of, uses. induction fdf as [|r fdf IH]; [done|]. csimpl.
  rewrite (filter_cons (λ r, Top_AI_Tools_Used r = Some t)).
  destruct (Top_AI_Tools_Used r) as [t'|]; csimpl; rewrite ?filter_cons;
    repeat case_decide; simplify_eq/=; by rewrite ?IH.
Qed.

Lemma uses_pos t fdf : 0 < uses t fdf ↔ ∃ r, r ∈ fdf ∧ Top_AI_Tools_Used r = Some t.
Proof.
  rewrite <-count_of_tools, count_of_pos, elem_of_dropna, list_elem_of_fmap.
  naive_solver.
Qed.

Lemma elem_of_tool_counts t n fdf :
  (t, n) ∈ tool_counts fdf ↔ 0 < n ∧ n = uses t fdf.
Proof.
  unfold tool_counts. rewrite elem_of_value_counts, count_of_tools.
  rewrite <-elem_of_dropna, <-count_of_pos, count_of_tools.
  split; intros [? ->]; split; done.
Qed.

(** The bar chart of the tools has one bar per tool named in the
    view, with the number of records that name it; the bars are in
    decreasing order of that number and add up to the number of
    records that name a tool at all. *)
Theorem tool_counts_table fdf :
  (∀ t n, (t, n) ∈ tool_counts fdf ↔ 0 < n ∧ n = uses t fdf)
  ∧ NoDup (tool_counts fdf).*1
  ∧ StronglySorted (λ p q, q.2 ≤ p.2) (tool_counts fdf)
  ∧ sum_list (tool_counts fdf).*2
    = length (filter (λ r, is_Some (Top_AI_Tools_Used r)) fdf).
Proof.
  split_and!.
  - intros t n. apply elem_of_tool_counts.
  - apply NoDup_value_counts_keys.
  - apply value_counts_sorted.
  - unfold tool_counts. rewrite value_counts_total.
    induction fdf as [|r fdf IH]; [done|]. csimpl. rewrite filter_cons.
    destruct (Top_AI_Tools_Used r); csimpl; by rewrite IH.
Qed.

(** ** The select boxes on the view *)

Lemma selected_industry_None fdf i : selected_industry fdf i = None ↔ fdf = [].
Proof.
  unfold selected_industry. rewrite selectbox_None. split; [|by intros ->].
  by intros ?%unique_nil_inv%fmap_nil_inv.
Qed.

Lemma selected_industry_elem_of fdf i ind :
  selected_industry fdf i = Some ind → ∃ r, r ∈ fdf ∧ Industry r = ind.
Proof.
  intros Hs%selectbox_elem_of. rewrite elem_of_unique, list_elem_of_fmap in Hs.
  naive_solver.
Qed.

(** C38. On the empty view the industry select box has no option and
    returns [None]; the script then compares the column with [None],
    keeps no record, and draws an empty pie under the title
    "Tool Usage in None Industry".  The same holds when a dimension of
    the sidebar is empty. *)
Theorem industry_pie_empty df sel i :
  filtered_df df sel = [] →
  industry_pie df sel i = ("Tool Usage in None Industry", []).
Proof. unfold industry_pie. by intros ->. Qed.

(** On a non-empty view the industry chosen is an industry of a
    record of the view, hence one of those selected in the sidebar,
    and the records the pie is computed from are exactly the records
    of the view with that industry, of which there is at least one. *)
Theorem selected_industry_tools df sel i :
  filtered_df df sel ≠ [] →
  ∃ ind, selected_industry (filtered_df df sel) i = Some ind
    ∧ ind ∈ selected_industries sel
    ∧ industry_tools (filtered_df df sel) (Some ind)
      = filter (λ r, Industry r = ind) (filtered_df df sel)
    ∧ industry_tools (filtered_df df sel) (Some ind) ≠ [].
Proof.
  intros Hne. destruct (selected_industry (filtered_df df sel) i) as [ind|] eqn:Hs;
    [|by apply selected_industry_None in Hs].
  exists ind. destruct (selected_industry_elem_of _ _ _ Hs) as (r & Hr & Hind).
  rewrite industry_tools_filter. split_and!; [done| | |].
  - apply elem_of_filtered_df in Hr as (_ & _ & _ & Hi). by rewrite <-Hind.
  - apply filter_ext_elem. intros r' _. split; [by intros [= ->]|by intros ->].
  - intros Hnil. assert (r ∈ filter (λ r, Some (Industry r) = Some ind)
      (filtered_df df sel)) as Hin by (apply list_elem_of_filter; by subst).
    rewrite Hnil in Hin. by apply elem_of_nil in Hin.
Qed.

(** ** Pies and bars agree *)

(** The records that name a tool, split by a key. *)
Lemma uses_group_rows `{PyOrd K} (key : Row V → K) t fdf :
  uses t fdf = sum_list ((λ k, uses t (group_rows key k fdf)) <$> group_keys key fdf).
Proof.
  unfold uses at 1. rewrite <-(groupby_partition key fdf) at 1.
  unfold groupby. rewrite <-list_fmap_compose.
  induction (group_keys key fdf) as [|k ks IH]; [done|].
  csimpl. by rewrite filter_app, length_app, IH.
Qed.

(** For every tool, the bar of the overall chart is the sum over
    the industries of the view of the slices the industry pies give
    that tool: no record is lost or counted twice between the two
    charts. *)
Theorem tool_counts_by_industry t fdf :
  uses t fdf
  = sum_list ((λ ind, uses t (industry_tools fdf (Some ind))) <$> industries fdf).
Proof.
  rewrite (uses_group_rows Industry). f_equal. apply list_fmap_ext.
  intros _ ind _. rewrite industry_tools_filter. unfold group_rows.
  f_equal. apply filter_ext_elem. intros r' _. split; [by intros ->|by intros [= ->]].
Qed.

(** ** The axes of the scatter *)

Lemma x_axis_selectbox i : selectbox axis_options i = Some (x_axis i).
Proof.
  unfold x_axis. destruct (selectbox_is_Some axis_options i) as [m ->]; done.
Qed.

Lemma length_scatter_points x y fdf : length (scatter_points x y fdf) = length fdf.
Proof. apply length_fmap. Qed.

(** ** The figures *)

(** Lines 270-274. *)
Definition scatter x y fdf : Figure V :=
  mkFigure Scatter (frame_table fdf) (Some (metric_name x))
    (Some (metric_name y)) (Some "Industry") [] None None ["Country"; "Year"]
    ("Relationship between " +:+ metric_name x +:+ " and " +:+ metric_name y)
    [("color_discrete_sequence", "px.colors.qualitative.G10")].

(** Lines 277-278: [reset_index] and the new headers. *)
Definition tool_counts_frame (tc : list (string * nat)) : Table V :=
  mkTable [("Tool", Object); ("Count", Int64)]
    ((λ p, [VStr p.1; VInt (Z.of_nat p.2)]) <$> tc).

(** Lines 279-282. *)
Definition tool_counts_figure fdf : Figure V :=
  mkFigure Bar (tool_counts_frame (tool_counts fdf)) (Some "Tool") (Some "Count")
    None [] None None [] "Most Used AI Tools Overall"
    [("color_discrete_sequence", "#e8bbdb")].

(** Lines 302-339. *)
Definition industry_pie_chart fdf (i : nat) : PieChart :=
  let ind := selected_industry fdf i in
  mkPieChart "Tools" (industry_data fdf ind) (industry_title ind)
    [ ("radius", "30%, 70%"); ("label_formatter", "{b}: {c} ({d}%)");
      ("label_position", "outside"); ("title_pos_left", "center");
      ("legend_orient", "vertical"); ("legend_pos_top", "15%");
      ("legend_pos_left", "2%"); ("tooltip_trigger", "item");
      ("tooltip_formatter", "{a} <br/>{b}: {c} ({d}%)");
      ("label_is_show", "True"); ("borderRadius", "6");
      ("borderColor", "#fff"); ("borderWidth", "2"); ("height", "500px") ].

(** Lines 356-399. *)
Definition country_pie_chart fdf (i : nat) : PieChart :=
  let c := selected_country fdf i in
  mkPieChart "Tools" (country_data fdf c) (country_title c)
    [ ("radius", "30%, 70%"); ("label_formatter", "{b}: {c} ({d}%)");
      ("label_position", "outside");
      ("color", "#8dd3c7, #ffffb3, #bebada, #fb8072, #80b1d3, #fdb462, #b3de69, #fccde5, #d9d9d9, #bc80bd, #ccebc5, #ffed6f");
      ("title_pos_left", "center");
      ("legend_orient", "vertical"); ("legend_pos_top", "15%");
      ("legend_pos_left", "2%"); ("tooltip_trigger", "item");
      ("tooltip_formatter", "{a} <br/>{b}: {c} ({d}%)");
      ("label_is_show", "True"); ("borderRadius", "6");
      ("borderColor", "#fff"); ("borderWidth", "2"); ("height", "500px") ].

(** Lines 401-404. *)
Definition regulation_adoption_box fdf : Figure V :=
  mkFigure Box (frame_table fdf) (Some "Regulation Status")
    (Some "AI Adoption Rate (%)") None [] None None []
    "AI Adoption Rate by Regulation Strictness"
    [("color_discrete_sequence", "#17becf")].

(** Lines 406-409. *)
Definition regulation_job_loss_box fdf : Figure V :=
  mkFigure Box (frame_table fdf) (Some "Regulation Status")
    (Some "Job Loss Due to AI (%)") None [] None None []
    "Job Loss Due to AI by Regulation Strictness"
    [("color_discrete_sequence", "#bcbd22")].

(** Line 412: [select_dtypes(include=['float64', 'int64']).columns],
    the columns whose correlation matrix the heat map shows. *)
Definition numeric_cols : list string :=
  select_dtypes [Float64; Int64] frame_schema.

(** The plotly figures of the tab, in the order the script draws
    them. *)
Definition figures fdf (ix iy : nat) : list (Figure V) :=
  [ scatter (x_axis ix) (y_axis iy) fdf; tool_counts_figure fdf;
    regulation_adoption_box fdf; regulation_job_loss_box fdf ].

Lemma tool_counts_frame_ok tc : table_ok (tool_counts_frame tc).
Proof.
  split; [by_eval|]. apply Forall_fmap, Forall_forall. by intros p _.
Qed.

Lemma scatter_columns x y fdf : fig_columns (scatter x y fdf) ⊆ frame_columns.
Proof.
  intros c Hc. unfold fig_columns in Hc. simpl in Hc. set_unfold in Hc.
  destruct Hc as [->|[->|[->|[->|[->|[]]]]]];
    first [apply metric_name_frame_columns|by_eval].
Qed.

Lemma scatter_measures x y fdf :
  fig_measures (scatter x y fdf) ⊆ select_dtypes np_number frame_schema.
Proof. destruct x, y; by_eval. Qed.

Lemma tools_figures_ok fdf ix iy : Forall figure_ok (figures fdf ix iy).
Proof.
  unfold figures. each_figure;
    first [apply frame_table_ok|apply tool_counts_frame_ok
          |apply scatter_columns|apply scatter_measures|by_eval].
Qed.

(** The columns of the heat map are columns of the table: the
    selection [filtered_df[numeric_cols]] finds each of them. *)
Lemma numeric_cols_frame_columns : numeric_cols ⊆ frame_columns.
Proof. apply select_dtypes_subseteq. Qed.

(** They are the numeric columns, in table order. *)
Lemma numeric_cols_eq : numeric_cols = numeric_col_name <$> numeric_columns.
Proof. done. Qed.

(** The slices of a pie are the rows of the count table of the chosen
    industry. *)
Lemma pie_data_industry fdf i :
  pie_data (industry_pie_chart fdf i)
  = industry_tool_counts fdf (selected_industry fdf i).
Proof. apply industry_data_eq. Qed.
End tab5.
End tab5.

(** ** The scenario of the specification *)

Example scenario_tool_counts :
  tab5.tool_counts scenario_df = [("ChatGPT", 1); ("Bard", 1)]
  ∧ tab5.industry_pie scenario_df (mkSelection [2020%Z] ["USA"] ["Media"]) 0
    = ("Tool Usage in Media Industry", [("ChatGPT", 1); ("Bard", 1)])
  ∧ tab5.country_pie scenario_df (mkSelection [2021%Z] ["UK"] ["Retail"]) 0
    = ("Tool Usage in UK", []).
Proof. by_eval. Qed.


Lemma industry_pie_empty_witness :
  filtered_df scenario_df (mkSelection [2020%Z] [] ["Media"]) = []
  ∧ tab5.industry_pie scenario_df (mkSelection [2020%Z] [] ["Media"]) 0
    = ("Tool Usage in None Industry", []).
Proof.
  split; [by_eval|]. apply tab5.industry_pie_empty. by_eval.
Defined.

Lemma selected_industry_tools_witness :
  filtered_df scenario_df (mkSelection [2020%Z] ["USA"] ["Media"]) ≠ []
  ∧ ∃ ind,
      tab5.selected_industry
        (filtered_df scenario_df (mkSelection [2020%Z] ["USA"] ["Media"])) 0
      = Some ind
      ∧ ind ∈ selected_industries (mkSelection [2020%Z] ["USA"] ["Media"])
      ∧ tab5.industry_tools
          (filtered_df scenario_df (mkSelection [2020%Z] ["USA"] ["Media"]))
          (Some ind)
        = filter (λ r, Industry r = ind)
            (filtered_df scenario_df (mkSelection [2020%Z] ["USA"] ["Media"]))
      ∧ tab5.industry_tools
          (filtered_df scenario_df (mkSelection [2020%Z] ["USA"] ["Media"]))
          (Some ind) ≠ [].
Proof.
  split; [by_eval|]. apply tab5.selected_industry_tools. by_eval.
Defined.
