(* ===== verification/Heatmap.v ===== *)
(** * Heatmap: the correlation heat map of the "Deep Dive" tab

    Lines 411-415 of [src/app2.py]: the numeric columns of the view
    are selected by dtype, [DataFrame.corr()] computes their
    correlation matrix, and seaborn draws it as a heat map on which
    every cell that holds a number is annotated with that number in
    the format [.2f].

    [corr_matrix] is the double loop of pandas: it runs the one-pass
    update of [Pearson] for every pair of columns [(xi, yi)] with
    [yi ≤ xi] over the rows in which both cells are numbers, and
    writes the result to both [(xi, yi)] and [(yi, xi)].  A
    coefficient is in general irrational; the text of its annotation
    is computed exactly from its square with the integer square root
    ([sqrt_hundredths]).

    The theorems show that every entry of the matrix is Pearson's
    coefficient of its two columns by the textbook definition, that
    the matrix is symmetric with a diagonal of ones, where an entry is
    NaN, that every annotation lies between -1.00 and 1.00 and is the
    coefficient rounded to the nearest hundredth, and that the heat
    map does not depend on the order of the records. *)

From Stdlib Require Import QArith Qcanon.
From stdpp Require Import numbers pretty.
From S2P Require Import Prelude Order Sorting Numeric Series Frame Figure.
From S2P Require Import Scenario Widgets Sidebar Pearson Tools.
#[local] Close Scope Q_scope.
#[local] Close Scope Qc_scope.

(** ** Square roots in hundredths *)

Section hundredths.
#[local] Open Scope Z_scope.
Implicit Types (a m h : Z) (b : positive).

(** [floor (200 * sqrt (a / b))]. *)
Definition sqrt200 a b : Z := Z.sqrt (40000 * a / Z.pos b).

(** [100 * sqrt (a / b)] rounded to the nearest integer, ties to
    even. *)
Definition sqrt_hundredths a b : Z :=
  let m := sqrt200 a b in
  if Z.even m then m / 2
  else if decide (m * m * Z.pos b = 40000 * a) then
    if Z.even (m / 2) then m / 2 else m / 2 + 1
  else m / 2 + 1.

Lemma sqrt200_spec a b :
  0 ≤ a →
  0 ≤ sqrt200 a b
  ∧ sqrt200 a b * sqrt200 a b * Z.pos b ≤ 40000 * a
  ∧ 40000 * a < (sqrt200 a b + 1) * (sqrt200 a b + 1) * Z.pos b.
Proof.
  intros Ha. unfold sqrt200.
  pose proof (Z.div_mod (40000 * a) (Z.pos b) ltac:(lia)) as Hdm.
  pose proof (Z.mod_pos_bound (40000 * a) (Z.pos b) ltac:(lia)) as Hr.
  assert (0 ≤ 40000 * a / Z.pos b) as Hn by (apply Z.div_pos; lia).
  pose proof (Z.sqrt_spec _ Hn) as Hs. cbv zeta in Hs.
  pose proof (Z.sqrt_nonneg (40000 * a / Z.pos b)) as H0.
  split_and!; [done|nia|nia].
Qed.

(** The parity of [m] and its half. *)
Lemma even_odd_half m :
  (Z.even m = true ∧ m = 2 * (m / 2)) ∨ (Z.even m = false ∧ m = 2 * (m / 2) + 1).
Proof.
  rewrite Zeven_mod.
  pose proof (Z.div_mod m 2 ltac:(lia)) as Hdm.
  pose proof (Z.mod_pos_bound m 2 ltac:(lia)) as Hr.
  destruct (Z.eqb_spec (m mod 2) 0); [left|right]; (split; [done|lia]).
Qed.

Lemma sqrt_hundredths_spec a b :
  0 ≤ a →
  0 ≤ sqrt_hundredths a b
  ∧ (0 < sqrt_hundredths a b →
     (2 * sqrt_hundredths a b - 1) * (2 * sqrt_hundredths a b - 1) * Z.pos b
     ≤ 40000 * a)
  ∧ 40000 * a
    ≤ (2 * sqrt_hundredths a b + 1) * (2 * sqrt_hundredths a b + 1) * Z.pos b.
Proof.
  intros Ha. destruct (sqrt200_spec a b Ha) as (H0 & Hlo & Hhi).
  unfold sqrt_hundredths. cbv zeta.
  destruct (even_odd_half (sqrt200 a b)) as [[-> Hm]|[-> Hm]];
    [|case_decide; [destruct (Z.even _)|]]; split_and!; nia.
Qed.

Lemma sqrt_hundredths_le a b : 0 ≤ a ≤ Z.pos b → sqrt_hundredths a b ≤ 100.
Proof.
  intros [Ha Hb]. destruct (sqrt_hundredths_spec a b Ha) as (H0 & Hlo & _).
  destruct (decide (sqrt_hundredths a b ≤ 100)) as [|Hgt]; [done|exfalso].
  nia.
Qed.

(** A value exactly between two hundredths is shown with the even
    one. *)
Lemma sqrt_hundredths_tie a b :
  0 ≤ a →
  (2 * sqrt_hundredths a b - 1) * (2 * sqrt_hundredths a b - 1) * Z.pos b
    = 40000 * a
  ∨ (2 * sqrt_hundredths a b + 1) * (2 * sqrt_hundredths a b + 1) * Z.pos b
    = 40000 * a →
  Z.even (sqrt_hundredths a b) = true.
Proof.
  intros Ha. destruct (sqrt200_spec a b Ha) as (H0 & Hlo & Hhi).
  unfold sqrt_hundredths. cbv zeta.
  destruct (even_odd_half (sqrt200 a b)) as [[-> Hm]|[-> Hm]];
    generalize dependent (sqrt200 a b / 2); intros k Hm.
  - intros [Heq|Heq]; exfalso; [|nia].
    assert (k = 0 ∨ 1 ≤ k) as [->|Hk] by lia; nia.
  - case_decide as Htie.
    + destruct (Z.even k) eqn:Hev; [done|]. intros _.
      by rewrite Z.even_add, Hev.
    + intros [Heq|Heq]; exfalso; [|nia].
      assert (k = 0 ∨ 1 ≤ k) as [->|Hk] by lia; nia.
Qed.

(** A perfect square has its root. *)
Lemma sqrt_hundredths_square h b :
  0 ≤ h → sqrt_hundredths (h * h * Z.pos b) (b * 10000) = h.
Proof.
  intros Hh. unfold sqrt_hundredths, sqrt200. cbv zeta.
  assert (40000 * (h * h * Z.pos b) / Z.pos (b * 10000) = 2 * h * (2 * h)) as ->.
  { rewrite Pos2Z.inj_mul. symmetry. apply Z.div_unique_exact; lia. }
  rewrite Z.sqrt_square by lia.
  rewrite Z.even_mul. simpl. by rewrite (Z.mul_comm 2 h), Z.div_mul.
Qed.
End hundredths.

(** ** The matrix *)

Implicit Types (fdf : DataFrame Qc) (r : Row Qc) (cx cy : NumericCol)
  (cols : list NumericCol) (c : Coef) (i j : nat).

(** The column a header of [numeric_cols] names. *)
Definition numeric_col_of_name (name : string) : option NumericCol :=
  head (filter (λ col, numeric_col_name col = name) numeric_columns).

(** [filtered_df[numeric_cols]]: the columns the matrix is computed
    from. *)
Definition heat_columns : list NumericCol :=
  omap numeric_col_of_name tab5.numeric_cols.

(** The cell of a row in a numeric column, as the float64 [corr]
    works on: an int64 is converted. *)
Definition numeric_cell cx r : cell Qc :=
  match cx with
  | YearCol => Some (Qc_of_Z (Year r))
  | MetricCol m => metric_col m r
  end.

(** The rows in which both cells are numbers. *)
Definition complete_pairs cx cy fdf : list (Qc * Qc) :=
  omap (λ r, x ← numeric_cell cx r; y ← numeric_cell cy r; Some (x, y)) fdf.

(** [DataFrame.corr()]: for every [xi] and every [yi ≤ xi] the
    coefficient of the columns [xi] and [yi] is computed once and
    written to both [(xi, yi)] and [(yi, xi)]. *)
Definition corr_matrix cols fdf : list (list (option Coef)) :=
  imap (λ i ci,
    imap (λ j cj,
      if decide (j ≤ i) then nancorr (complete_pairs ci cj fdf)
      else nancorr (complete_pairs cj ci fdf)) cols) cols.

Definition corr fdf : list (list (option Coef)) := corr_matrix heat_columns fdf.

(** ** The annotations *)

(** The magnitude of a coefficient in hundredths, rounded. *)
Definition hundredths c : Z :=
  sqrt_hundredths (Qnum (coef_sq c)) (Qden (coef_sq c)).

Definition two_digits (n : Z) : string :=
  if decide (n < 10)%Z then "0" +:+ pretty n else pretty n.

(** [f"{r:.2f}"]. *)
Definition format_2f c : string :=
  (if coef_neg c then "-" else "")
  +:+ pretty (hundredths c / 100)%Z +:+ "." +:+ two_digits (hundredths c `mod` 100)%Z.

(** The annotation of an entry: seaborn masks the cells that hold
    NaN and writes nothing on them. *)
Definition annotate (e : option Coef) : option string := format_2f <$> e.

(** What the script hands to seaborn: the matrix with its labels, the
    text of the annotation of every cell (none where the matrix holds
    NaN, which seaborn masks) and the options. *)
Record HeatMap := mkHeatMap {
  hm_columns : list string;
  hm_index : list string;
  hm_data : list (list (option Coef));
  hm_annot : list (list (option string));
  hm_options : list (string * string);
}.

#[export] Instance HeatMap_eq_dec : EqDecision HeatMap.
Proof. solve_decision. Defined.

(** Lines 412-414. *)
Definition heatmap fdf : HeatMap :=
  mkHeatMap tab5.numeric_cols tab5.numeric_cols (corr fdf)
    ((λ row : list (option Coef), annotate <$> row) <$> corr fdf)
    [ ("figsize", "(12, 8)"); ("annot", "True"); ("cmap", "coolwarm");
      ("fmt", ".2f"); ("linewidths", "0.5") ].

(** ** The columns *)

Lemma heat_columns_eq : heat_columns = numeric_columns.
Proof. by_eval. Qed.

Lemma heat_columns_names : numeric_col_name <$> heat_columns = tab5.numeric_cols.
Proof. by_eval. Qed.

(** ** Every entry is Pearson's coefficient *)

Lemma complete_pairs_swap cx cy fdf :
  complete_pairs cy cx fdf = prod_swap <$> complete_pairs cx cy fdf.
Proof.
  unfold complete_pairs. induction fdf as [|r fdf IH]; [done|]. csimpl.
  destruct (numeric_cell cx r), (numeric_cell cy r); csimpl; by rewrite ?IH.
Qed.

Lemma corr_matrix_lookup cols fdf i j ci cj :
  cols !! i = Some ci → cols !! j = Some cj →
  corr_matrix cols fdf !! i ≫= (.!! j) = Some (pearson (complete_pairs ci cj fdf)).
Proof.
  intros Hi Hj. unfold corr_matrix.
  rewrite list_lookup_imap, Hi. simpl. rewrite list_lookup_imap, Hj. simpl.
  f_equal. rewrite !nancorr_pearson. case_decide; [done|].
  by rewrite (complete_pairs_swap ci cj), pearson_swap.
Qed.

Lemma length_corr_matrix cols fdf :
  length (corr_matrix cols fdf) = length cols
  ∧ Forall (λ row, length row = length cols) (corr_matrix cols fdf).
Proof.
  unfold corr_matrix. split; [by rewrite length_imap|].
  apply Forall_forall. intros row (i & ci & -> & _)%elem_of_lookup_imap_1.
  by rewrite length_imap.
Qed.

Lemma corr_matrix_elem_of cols fdf row e :
  row ∈ corr_matrix cols fdf → e ∈ row →
  ∃ ci cj, ci ∈ cols ∧ cj ∈ cols ∧ e = pearson (complete_pairs ci cj fdf).
Proof.
  intros (i & ci & -> & Hi)%elem_of_lookup_imap_1
    (j & cj & -> & Hj)%elem_of_lookup_imap_1.
  exists ci, cj. split_and!; [by eapply list_elem_of_lookup_2..|].
  rewrite !nancorr_pearson. case_decide; [done|].
  by rewrite (complete_pairs_swap ci cj), pearson_swap.
Qed.

#[export] Instance complete_pairs_Permutation cx cy :
  Proper ((≡ₚ) ==> (≡ₚ)) (complete_pairs cx cy).
Proof. apply omap_Permutation. Qed.

(** ** The annotation of a coefficient *)

Lemma Qc_nonneg_num (q : Qc) : (0 ≤ q)%Qc → (0 ≤ Qnum q)%Z.
Proof. unfold Qcle, Qle. simpl. lia. Qed.

Lemma Qc_le_1_num (q : Qc) : (q ≤ 1)%Qc → (Qnum q ≤ Z.pos (Qden q))%Z.
Proof. unfold Qcle, Qle. simpl. lia. Qed.

Lemma hundredths_bounds ps c :
  pearson ps = Some c → (0 ≤ hundredths c ≤ 100)%Z.
Proof.
  intros [H0 H1]%pearson_bounds. unfold hundredths. split.
  - by apply sqrt_hundredths_spec, Qc_nonneg_num.
  - apply sqrt_hundredths_le. split; [by apply Qc_nonneg_num|by apply Qc_le_1_num].
Qed.

Lemma hundredths_nearest ps c :
  pearson ps = Some c →
  ((0 < hundredths c →
    (2 * hundredths c - 1) * (2 * hundredths c - 1) * Z.pos (Qden (coef_sq c))
    ≤ 40000 * Qnum (coef_sq c))
   ∧ 40000 * Qnum (coef_sq c)
     ≤ (2 * hundredths c + 1) * (2 * hundredths c + 1)
       * Z.pos (Qden (coef_sq c)))%Z.
Proof.
  intros [H0 _]%pearson_bounds. by apply sqrt_hundredths_spec, Qc_nonneg_num.
Qed.

(** A column against itself *)

Lemma complete_pairs_diag cx fdf :
  complete_pairs cx cx fdf = diag (dropna (numeric_cell cx <$> fdf)).
Proof.
  unfold complete_pairs, diag, dropna. induction fdf as [|r fdf IH]; [done|].
  csimpl. destruct (numeric_cell cx r); csimpl; by rewrite ?IH.
Qed.

Lemma format_2f_one : format_2f (mkCoef false 1) = "1.00".
Proof. by_eval. Qed.

Lemma corr_matrix_sym cols fdf i j :
  corr_matrix cols fdf !! i ≫= (.!! j) = corr_matrix cols fdf !! j ≫= (.!! i).
Proof.
  destruct (cols !! i) as [ci|] eqn:Hi, (cols !! j) as [cj|] eqn:Hj.
  - rewrite (corr_matrix_lookup cols fdf i j ci cj),
      (corr_matrix_lookup cols fdf j i cj ci) by done.
    by rewrite (complete_pairs_swap ci cj), pearson_swap.
  - unfold corr_matrix. rewrite !list_lookup_imap, Hi, Hj. simpl.
    by rewrite list_lookup_imap, Hj.
  - unfold corr_matrix. rewrite !list_lookup_imap, Hi, Hj. simpl.
    by rewrite list_lookup_imap, Hi.
  - unfold corr_matrix. by rewrite !list_lookup_imap, Hi, Hj.
Qed.

#[export] Instance corr_matrix_Permutation cols :
  Proper ((≡ₚ) ==> (=)) (corr_matrix cols).
Proof.
  intros fdf1 fdf2 Hp. unfold corr_matrix.
  apply imap_ext. intros i ci _. apply imap_ext. intros j cj _.
  rewrite !nancorr_pearson.
  by rewrite !(pearson_Permutation _ _ (complete_pairs_Permutation _ _ _ _ Hp)).
Qed.

(** ** The properties of the heat map *)

(** C13. Every entry of the matrix pandas computes with its one-pass
    update over the lower triangle is Pearson's coefficient of its two
    columns by the textbook definition (means first, then the sums
    over the centred values), over the records in which both cells
    are numbers. *)
Theorem corr_pearson fdf i j ci cj :
  numeric_columns !! i = Some ci → numeric_columns !! j = Some cj →
  corr fdf !! i ≫= (.!! j) = Some (pearson (complete_pairs ci cj fdf)).
Proof. unfold corr. rewrite heat_columns_eq. apply corr_matrix_lookup. Qed.

(** The heat map is a square table over the seven numeric columns
    of the view, in table order on both axes, whatever the view
    holds. *)
Theorem heatmap_shape fdf :
  hm_columns (heatmap fdf) = numeric_col_name <$> numeric_columns
  ∧ hm_index (heatmap fdf) = hm_columns (heatmap fdf)
  ∧ length (hm_annot (heatmap fdf)) = 7
  ∧ Forall (λ row, length row = 7) (hm_annot (heatmap fdf)).
Proof.
  destruct (length_corr_matrix heat_columns fdf) as [Hlen Hrows].
  split_and!; [done|done|..]; cbn [heatmap hm_annot].
  - by rewrite length_fmap.
  - apply Forall_fmap. eapply Forall_impl; [done|].
    intros row Hrow. simpl. by rewrite length_fmap.
Qed.

(** C28. Every number the heat map prints lies between -1.00 and 1.00
    and is the coefficient rounded to the nearest hundredth: the
    square of the coefficient lies between the squares of the printed
    magnitude minus and plus half a hundredth. *)
Theorem heatmap_annot_bounds fdf row c :
  row ∈ hm_data (heatmap fdf) → Some c ∈ row →
  (0 ≤ hundredths c ≤ 100
   ∧ (0 < hundredths c →
      (2 * hundredths c - 1) * (2 * hundredths c - 1) * Z.pos (Qden (coef_sq c))
      ≤ 40000 * Qnum (coef_sq c))
   ∧ 40000 * Qnum (coef_sq c)
     ≤ (2 * hundredths c + 1) * (2 * hundredths c + 1)
       * Z.pos (Qden (coef_sq c)))%Z.
Proof.
  intros Hrow Hc.
  destruct (corr_matrix_elem_of _ _ _ _ Hrow Hc) as (ci & cj & _ & _ & Hp).
  symmetry in Hp. split; [by eapply hundredths_bounds|by eapply hundredths_nearest].
Qed.

(** C33. An entry of the matrix is NaN, and its cell left blank,
    exactly when one of its two columns is constant over the records
    in which both cells are numbers; this is the case of a view with
    fewer than two such records. *)
Theorem corr_nan fdf i j ci cj :
  numeric_columns !! i = Some ci → numeric_columns !! j = Some cj →
  corr fdf !! i ≫= (.!! j) = Some None ↔
  (∃ a, Forall (λ p, p.1 = a) (complete_pairs ci cj fdf))
  ∨ (∃ b, Forall (λ p, p.2 = b) (complete_pairs ci cj fdf)).
Proof.
  intros Hi Hj. unfold corr. rewrite heat_columns_eq.
  rewrite (corr_matrix_lookup _ fdf i j ci cj) by done.
  rewrite <-pearson_None. split; [by intros [= ->]|by intros ->].
Qed.

(** The matrix is symmetric, and its diagonal holds ones: the cell
    of a column against itself reads "1.00" unless it is blank. *)
Theorem corr_symmetric fdf i j c :
  corr fdf !! i ≫= (.!! j) = corr fdf !! j ≫= (.!! i)
  ∧ (corr fdf !! i ≫= (.!! i) = Some (Some c) → format_2f c = "1.00").
Proof.
  split; [apply corr_matrix_sym|]. unfold corr. rewrite heat_columns_eq.
  destruct (numeric_columns !! i) as [ci|] eqn:Hi.
  - rewrite (corr_matrix_lookup _ fdf i i ci ci), complete_pairs_diag by done.
    intros [= ->%pearson_diag]. apply format_2f_one.
  - unfold corr_matrix. by rewrite list_lookup_imap, Hi.
Qed.

(** The heat map does not depend on the order of the records. *)
Theorem heatmap_Permutation fdf1 fdf2 : fdf1 ≡ₚ fdf2 → heatmap fdf1 = heatmap fdf2.
Proof.
  intros Hp. unfold heatmap, corr.
  by rewrite (corr_matrix_Permutation _ _ _ Hp).
Qed.

(** ** The scenario of the specification *)

(** On the three records of the example table the year is constant
    over the two records that have a job loss, so that cell is blank;
    the two records of 2020 lie on a line in every pair of metrics,
    and the year falls as the adoption rate rises. *)
Example scenario_heatmap :
  hm_annot (heatmap scenario_df) !! 0
    = Some [ Some "1.00"; Some "-0.76"; None; Some "-0.76"; Some "-0.76";
             Some "-0.76"; Some "-0.76" ]
  ∧ hm_annot (heatmap scenario_df) !! 1
    = Some [ Some "-0.76"; Some "1.00"; Some "1.00"; Some "1.00"; Some "1.00";
             Some "1.00"; Some "1.00" ]
  ∧ hm_annot (heatmap []) = replicate 7 (replicate 7 None).
Proof. by_eval. Qed.

Example format_2f_examples :
  format_2f (mkCoef false (Q2Qc (1 # 64))) = "0.12"
  ∧ format_2f (mkCoef false (Q2Qc (9 # 64))) = "0.38"
  ∧ format_2f (mkCoef true (Q2Qc (1 # 1000000))) = "-0.00"
  ∧ format_2f (mkCoef true (Q2Qc (4 # 7))) = "-0.76"
  ∧ format_2f (mkCoef false (Q2Qc (1 # 2))) = "0.71".
Proof. by_eval. Qed.

Lemma corr_pearson_witness :
  corr scenario_df !! 0 ≫= (.!! 1)
  = Some (pearson (complete_pairs YearCol (MetricCol AdoptionRate) scenario_df)).
Proof. exact (corr_pearson scenario_df 0 1 _ _ eq_refl eq_refl). Defined.

Lemma heatmap_annot_bounds_witness :
  (0 ≤ hundredths (mkCoef true (Q2Qc (4 # 7))) ≤ 100
   ∧ (0 < hundredths (mkCoef true (Q2Qc (4 # 7))) →
      (2 * hundredths (mkCoef true (Q2Qc (4 # 7))) - 1)
      * (2 * hundredths (mkCoef true (Q2Qc (4 # 7))) - 1) * 7 ≤ 40000 * 4)
   ∧ 40000 * 4
     ≤ (2 * hundredths (mkCoef true (Q2Qc (4 # 7))) + 1)
       * (2 * hundredths (mkCoef true (Q2Qc (4 # 7))) + 1) * 7)%Z.
Proof.
  apply (heatmap_annot_bounds scenario_df
    (default [] (hm_data (heatmap scenario_df) !! 0))); by_eval.
Defined.

Lemma corr_nan_witness :
  corr scenario_df !! 0 ≫= (.!! 2) = Some None ↔
  (∃ a, Forall (λ p, p.1 = a)
          (complete_pairs YearCol (MetricCol JobLoss) scenario_df))
  ∨ (∃ b, Forall (λ p, p.2 = b)
            (complete_pairs YearCol (MetricCol JobLoss) scenario_df)).
Proof. exact (corr_nan scenario_df 0 2 _ _ eq_refl eq_refl). Defined.

Lemma heatmap_Permutation_witness :
  scenario_df ≡ₚ scenario_df_permuted
  ∧ heatmap scenario_df = heatmap scenario_df_permuted.
Proof.
  split; [apply scenario_df_Permutation|].
  exact (heatmap_Permutation _ _ scenario_df_Permutation).
Defined.
