(* ===== verification/Page.v ===== *)
(** * Page: one run of the script

    [render] is one run of [src/app2.py] from line 13 to the end on a
    loaded table, as a function of the table and of the state of every
    widget: the page, that is everything the script hands to
    Streamlit, in order, grouped by the container it is written to
    (the top of the page, the sidebar, and the five tabs of line 74).
    An [Element] is one call that draws ([st.title], [st.metric],
    [st.plotly_chart], ...) or one input widget with all its
    arguments; a [Block] is an element written to the container
    itself or a row of columns ([st.columns]) with the elements
    written to each.  The content of the tabs is built from the
    definitions of [Overview], [Format], [Geography], [Industry],
    [Trends], [Tools] and [Heatmap].

    Streamlit identifies an input widget by its arguments and its key
    and a plotly chart by its figure, and stops the run with an error
    when two of them on one page cannot be told apart.  The theorems
    show that this never happens, that every figure of every page is
    well formed, and what the tabs show ([page_content]) when a
    dimension of the sidebar is left empty: "nan%" and "0" on the
    cards and not one record in any table or chart. *)

From Stdlib Require Import QArith Qcanon.
From stdpp Require Import numbers pretty.
From S2P Require Import Prelude Order Sorting Numeric Pearson Series Frame.
From S2P Require Import Figure Scenario Widgets Sidebar Overview Format.
From S2P Require Import Geography Industry Trends Tools Heatmap.
#[local] Close Scope Q_scope.
#[local] Close Scope Qc_scope.

(** ** The state of the widgets *)

Record Inputs := mkInputs {
  in_sidebar : SidebarInput;
  in_country_metric : nat;
  in_industry_metric : nat;
  in_trend_metric : nat;
  in_group_by : nat;
  in_x_axis : nat;
  in_y_axis : nat;
  in_tool_industry : nat;
  in_tool_country : nat;
}.

(** The state of a fresh page: nothing touched. *)
Definition fresh : Inputs :=
  mkInputs (mkSidebarInput None None None None) 0 0 0 0 0 0 0 0.

(** ** The page *)

(** An input widget with the arguments the script gives it; the
    options are shown as text. *)
Inductive Widget :=
  | Multiselect (label : string) (options default : list string)
      (key : option string)
  | Selectbox (label : string) (options : list string)
  | Radio (label : string) (options : list string).

#[export] Instance Widget_eq_dec : EqDecision Widget.
Proof. solve_decision. Defined.

(** What the script hands to Streamlit. *)
Inductive Element :=
  | Title (s : string)
  | Markdown (s : string)
  | Header (s : string)
  | Subheader (s : string)
  | MetricCard (label text : string)
  | DataFrameView (t : Table Qc) (height : Z)
  | PlotlyChart (f : Figure Qc)
  | Echarts (p : PieChart)
  | Pyplot (h : HeatMap)
  | Input (w : Widget).

#[export] Instance Element_eq_dec : EqDecision Element.
Proof. solve_decision. Defined.

(** An element of a container, or a row of columns with the elements
    of each. *)
Inductive Block :=
  | Elem (e : Element)
  | Columns (cols : list (list Element)).

#[export] Instance Block_eq_dec : EqDecision Block.
Proof. solve_decision. Defined.

(** Line 13: [st.set_page_config]. *)
Record PageConfig := mkPageConfig {
  config_layout : string;
  config_page_title : string;
}.

#[export] Instance PageConfig_eq_dec : EqDecision PageConfig.
Proof. solve_decision. Defined.

Record Page := mkPage {
  page_config : PageConfig;
  page_top : list Block;
  page_sidebar : list Block;
  page_tabs : list (string * list Block);
}.

#[export] Instance Page_eq_dec : EqDecision Page.
Proof. solve_decision. Defined.

Implicit Types (df fdf : DataFrame Qc) (inp : Inputs) (sel : Selection)
  (e : Element) (b : Block) (p : Page) (w : Widget).

(** One column per element: [st.columns(n)] with one call in each
    [with] block. *)
Definition columns_of (es : list Element) : Block := Columns ((λ e, [e]) <$> es).

(** Lines 27-64: the sidebar. *)
Definition render_sidebar df : list Block :=
  [ Elem (Header "Filters");
    Elem (Input (Multiselect "Select Years" (pretty <$> years df)
            (pretty <$> default_years df) (Some "years_multiselect")));
    Elem (Input (Multiselect "Select Countries" (countries df)
            (default_countries df) (Some "countries_multiselect")));
    Elem (Input (Multiselect "Select Industries" (industries df)
            (default_industries df) (Some "industries_multiselect")));
    Elem (Input (Multiselect "Select Industries" (industries df)
            (default_industries df) None)) ].

(** Lines 82-144. *)
Definition render_tab1 fdf : list Block :=
  let cards := uncurry MetricCard ∘ prod_map id card_text
                 <$> tab1.overview_metrics fdf in
  [ Elem (Header "Dataset Overview");
    columns_of (take 4 cards);
    Elem (Markdown "---");
    columns_of (drop 4 cards);
    Elem (Markdown "---");
    Elem (Subheader "Raw Data Preview");
    Elem (DataFrameView (tab1.data_preview fdf) 300);
    Elem (Markdown "---");
    columns_of (PlotlyChart <$> tab1.figures fdf) ].

(** Lines 146-183. *)
Definition render_tab2 fdf inp : list Block :=
  Elem <$>
  [ Header "Geographical Analysis";
    PlotlyChart (tab2.choropleth fdf);
    PlotlyChart (tab2.content_volume_figure fdf);
    Subheader "Country Comparison";
    Input (Selectbox "Select metric to compare"
             (metric_name <$> tab2.metric_options));
    PlotlyChart
      (tab2.country_metric_figure (tab2.metric (in_country_metric inp)) fdf) ].

(** Lines 185-213. *)
Definition render_tab3 fdf inp : list Block :=
  Elem <$>
  [ Header "Industry Analysis";
    PlotlyChart (tab3.sunburst fdf);
    PlotlyChart (tab3.adoption_box fdf);
    Subheader "Industry Comparison";
    Input (Selectbox "Select metric for industry comparison"
             (metric_name <$> tab3.metric_options));
    PlotlyChart
      (tab3.industry_metric_figure (tab3.metric (in_industry_metric inp)) fdf) ].

(** Lines 215-246. *)
Definition render_tab4 fdf inp : list Block :=
  Elem <$>
  [ Header "Temporal Trends";
    PlotlyChart (tab4.country_trend_figure fdf);
    PlotlyChart (tab4.industry_trend_figure fdf);
    Subheader "Metric Trends Over Time";
    Input (Selectbox "Select metric to analyze over time"
             (metric_name <$> tab4.metric_options));
    Input (Radio "Group by" (group_col_name <$> tab4.group_by_options));
    PlotlyChart
      (tab4.time_trend_figure (tab4.metric (in_trend_metric inp))
         (tab4.group_by (in_group_by inp)) fdf) ].

(** Lines 248-415. *)
Definition render_tab5 fdf inp : list Block :=
  [ Elem (Header "Deep Dive Analysis");
    Elem (Subheader "Correlation Analysis");
    columns_of
      [ Input (Selectbox "X-axis variable" (metric_name <$> tab5.axis_options));
        Input (Selectbox "Y-axis variable" (metric_name <$> tab5.axis_options)) ];
    Elem (PlotlyChart
      (tab5.scatter (tab5.x_axis (in_x_axis inp)) (tab5.y_axis (in_y_axis inp))
         fdf));
    Elem (Subheader "AI Tool Popularity");
    Elem (PlotlyChart (tab5.tool_counts_figure fdf));
    Elem (Input (Selectbox "Select industry for tool analysis"
                   (unique (Industry <$> fdf))));
    Elem (Echarts (tab5.industry_pie_chart fdf (in_tool_industry inp)));
    Elem (Input (Selectbox "Select country for tool analysis"
                   (unique (Country <$> fdf))));
    Elem (Echarts (tab5.country_pie_chart fdf (in_tool_country inp)));
    Elem (Subheader "Regulation Impact");
    Elem (PlotlyChart (tab5.regulation_adoption_box fdf));
    Elem (PlotlyChart (tab5.regulation_job_loss_box fdf));
    Elem (Subheader "Correlation Heatmap (All Metrics)");
    Elem (Pyplot (heatmap fdf)) ].

(** Lines 13-415: one run of the script on a loaded table. *)
Definition render df inp : Page :=
  let fdf := run_filter df (in_sidebar inp) in
  mkPage
    (mkPageConfig "wide" "Global AI Content Impact Analysis")
    [ Elem (Title "🌍 Global AI Content Impact Analysis");
      Elem (Markdown "Exploring the influence of AI-generated content across industries and countries") ]
    (render_sidebar df)
    [ ("📊 Overview", render_tab1 fdf);
      ("🌐 Geographical", render_tab2 fdf inp);
      ("🏭 Industry", render_tab3 fdf inp);
      ("📈 Trends", render_tab4 fdf inp);
      ("🔍 Deep Dive", render_tab5 fdf inp) ].

(** ** The elements of a page *)

Definition block_elements b : list Element :=
  match b with Elem e => [e] | Columns cols => mjoin cols end.

Definition page_elements p : list Element :=
  (page_top p ++ page_sidebar p ++ mjoin (page_tabs p).*2) ≫= block_elements.

Definition element_figure e : option (Figure Qc) :=
  match e with PlotlyChart f => Some f | _ => None end.

Definition element_widget e : option Widget :=
  match e with Input w => Some w | _ => None end.

(** The plotly figures of a page, and its input widgets. *)
Definition page_figures p : list (Figure Qc) :=
  omap element_figure (page_elements p).

Definition page_widgets p : list Widget :=
  omap element_widget (page_elements p).

(** What tells two widgets with the same options apart: the kind, the
    label and the key. *)
Definition widget_name w : string * string * option string :=
  match w with
  | Multiselect label _ _ key => ("multiselect", label, key)
  | Selectbox label _ => ("selectbox", label, None)
  | Radio label _ => ("radio", label, None)
  end.

(** A multi-select is well formed when every default value is one of
    its options; Streamlit rejects it otherwise. *)
Definition widget_ok w : Prop :=
  match w with
  | Multiselect _ options default _ => default ⊆ options
  | Selectbox _ _ | Radio _ _ => True
  end.

(** What tells two figures over the same table apart. *)
Definition figure_name (f : Figure Qc) : ChartKind * string :=
  (fig_kind f, fig_title f).

(** What an element shows of the view: the text of a card, or the
    number of records of a table, of points of a chart, of slices of
    a pie, of annotated cells of the heat map. *)
Inductive Content :=
  | CardText (label text : string)
  | DataRows (n : nat).

#[export] Instance Content_eq_dec : EqDecision Content.
Proof. solve_decision. Defined.

Definition element_content e : option Content :=
  match e with
  | MetricCard label text => Some (CardText label text)
  | DataFrameView t _ => Some (DataRows (length (rows t)))
  | PlotlyChart f => Some (DataRows (length (rows (fig_data f))))
  | Echarts c => Some (DataRows (length (pie_data c)))
  | Pyplot h => Some (DataRows (length (dropna (mjoin (hm_annot h)))))
  | _ => None
  end.

(** What the tabs show of the view, in the order of the page. *)
Definition page_content p : list Content :=
  omap element_content (mjoin (page_tabs p).*2 ≫= block_elements).

(** ** The properties of a page *)

Lemma render_tabs_figures df inp :
  page_figures (render df inp)
  = tab1.figures (run_filter df (in_sidebar inp))
    ++ tab2.figures (run_filter df (in_sidebar inp)) (in_country_metric inp)
    ++ tab3.figures (run_filter df (in_sidebar inp)) (in_industry_metric inp)
    ++ tab4.figures (run_filter df (in_sidebar inp)) (in_trend_metric inp)
         (in_group_by inp)
    ++ tab5.figures (run_filter df (in_sidebar inp)) (in_x_axis inp)
         (in_y_axis inp).
Proof. done. Qed.

(** C12. Every figure of every page is well formed: its table is well
    typed with distinct headers, every column the plotly call names
    ([x], [y], [color], [path], [values], [locations], [hover_data])
    is a column of that table, and every column it draws as a
    quantity is numeric, whatever the data, the selection and the
    choices in the select boxes. *)
Theorem render_figures_ok df inp : Forall figure_ok (page_figures (render df inp)).
Proof.
  rewrite render_tabs_figures. repeat apply Forall_app_2.
  - apply tab1.overview_figures_ok.
  - apply tab2.geography_figures_ok.
  - apply tab3.industry_figures_ok.
  - apply tab4.trends_figures_ok.
  - apply tab5.tools_figures_ok.
Qed.

Lemma render_widget_names df inp :
  widget_name <$> page_widgets (render df inp)
  = [ ("multiselect", "Select Years", Some "years_multiselect");
      ("multiselect", "Select Countries", Some "countries_multiselect");
      ("multiselect", "Select Industries", Some "industries_multiselect");
      ("multiselect", "Select Industries", None);
      ("selectbox", "Select metric to compare", None);
      ("selectbox", "Select metric for industry comparison", None);
      ("selectbox", "Select metric to analyze over time", None);
      ("radio", "Group by", None);
      ("selectbox", "X-axis variable", None);
      ("selectbox", "Y-axis variable", None);
      ("selectbox", "Select industry for tool analysis", None);
      ("selectbox", "Select country for tool analysis", None) ].
Proof. done. Qed.

Lemma render_page_widgets df inp :
  page_widgets (render df inp)
  = [ Multiselect "Select Years" (pretty <$> years df)
        (pretty <$> default_years df) (Some "years_multiselect");
      Multiselect "Select Countries" (countries df) (default_countries df)
        (Some "countries_multiselect");
      Multiselect "Select Industries" (industries df) (default_industries df)
        (Some "industries_multiselect");
      Multiselect "Select Industries" (industries df) (default_industries df)
        None;
      Selectbox "Select metric to compare" (metric_name <$> tab2.metric_options);
      Selectbox "Select metric for industry comparison"
        (metric_name <$> tab3.metric_options);
      Selectbox "Select metric to analyze over time"
        (metric_name <$> tab4.metric_options);
      Radio "Group by" (group_col_name <$> tab4.group_by_options);
      Selectbox "X-axis variable" (metric_name <$> tab5.axis_options);
      Selectbox "Y-axis variable" (metric_name <$> tab5.axis_options);
      Selectbox "Select industry for tool analysis"
        (unique (Industry <$> run_filter df (in_sidebar inp)));
      Selectbox "Select country for tool analysis"
        (unique (Country <$> run_filter df (in_sidebar inp))) ].
Proof. done. Qed.

(** C14. No two input widgets of a page have the same arguments and
    key: the two "Select Industries" widgets differ by the key of the
    first, every other pair by its label; and every default value of
    a multi-select is one of its options.  Streamlit therefore never
    stops a run with a duplicate widget identifier or an invalid
    default. *)
Theorem render_widgets_ok df inp :
  NoDup (page_widgets (render df inp))
  ∧ Forall widget_ok (page_widgets (render df inp)).
Proof.
  split.
  - apply (NoDup_fmap_1 widget_name). rewrite render_widget_names. by_eval.
  - rewrite render_page_widgets.
    repeat (apply Forall_cons_2; [simpl; first [done|reflexivity]|]).
    apply Forall_nil_2.
Qed.

Lemma render_figure_names df inp :
  figure_name <$> page_figures (render df inp)
  = [ (Histogram, "AI Adoption Rate Distribution");
      (Histogram, "Job Loss Due to AI Distribution");
      (Choropleth, "Average AI Adoption Rate by Country");
      (Bar, "AI-Generated Content Volume by Country");
      (Bar, metric_name (tab2.metric (in_country_metric inp)) +:+ " by Country");
      (Sunburst, "AI Content Volume by Industry and Country");
      (Box, "AI Adoption Rate Distribution by Industry");
      (Bar, metric_name (tab3.metric (in_industry_metric inp)) +:+ " by Industry");
      (Line, "AI Adoption Rate Over Time by Country");
      (Line, "AI Adoption Rate Over Time by Industry");
      (Line, metric_name (tab4.metric (in_trend_metric inp)) +:+ " Over Time by "
             +:+ group_col_name (tab4.group_by (in_group_by inp)));
      (Scatter, "Relationship between "
                +:+ metric_name (tab5.x_axis (in_x_axis inp)) +:+ " and "
                +:+ metric_name (tab5.y_axis (in_y_axis inp)));
      (Bar, "Most Used AI Tools Overall");
      (Box, "AI Adoption Rate by Regulation Strictness");
      (Box, "Job Loss Due to AI by Regulation Strictness") ].
Proof. done. Qed.

(** Case analysis on the choices a goal still depends on. *)
Ltac destruct_choices :=
  repeat match goal with
         | |- context [match ?m with _ => _ end] => is_var m; destruct m
         end.

(** No two plotly charts of a page are the same figure: any two
    differ in their kind or in their title, whatever the data and the
    choices, also when the third trend chart shows the table of the
    first.  Their automatically generated identifiers are therefore
    distinct. *)
Theorem render_figures_NoDup df inp : NoDup (page_figures (render df inp)).
Proof.
  apply (NoDup_fmap_1 figure_name). rewrite render_figure_names.
  generalize (tab2.metric (in_country_metric inp))
    (tab3.metric (in_industry_metric inp)) (tab4.metric (in_trend_metric inp))
    (tab4.group_by (in_group_by inp)) (tab5.x_axis (in_x_axis inp))
    (tab5.y_axis (in_y_axis inp)).
  intros m2 m3 m4 gb mx my. apply NoDup_by_fst. intros k.
  destruct k; vm_compute; destruct_choices; by_eval.
Qed.

(** ** The tabs agree *)

(** C35. The tabs of one page agree on what the view holds.  The map,
    the volume bars and the comparison bars of the geographical tab
    have one row for each country counted on the "Countries Covered"
    card, in the ascending order the sidebar would list them in, and
    the select box of the country pie offers the same countries in
    order of first appearance; likewise the sunburst, the comparison
    bars, the boxes and the select box of the industry pie for the
    industries of the "Industries Covered" card.  All of them are
    among the countries and the industries selected in the sidebar. *)
Theorem page_keys_agree df sel m m' :
  let fdf := filtered_df df sel in
  ((tab2.choropleth_color fdf).*1 = countries fdf
   ∧ (tab2.content_volume fdf).*1 = countries fdf
   ∧ (tab2.country_metric m fdf).*1 = countries fdf
   ∧ unique (Country <$> fdf) ≡ₚ countries fdf
   ∧ tab1.num_countries fdf = length (countries fdf))
  ∧ ((tab3.sunburst_sectors fdf).*1 = industries fdf
     ∧ (tab3.industry_metric m' fdf).*1 = industries fdf
     ∧ (tab3.box_groups fdf).*1 ≡ₚ industries fdf
     ∧ unique (Industry <$> fdf) ≡ₚ industries fdf
     ∧ tab1.num_industries fdf = length (industries fdf))
  ∧ Sorted py_lt (countries fdf) ∧ countries fdf ⊆ selected_countries sel
  ∧ Sorted py_lt (industries fdf) ∧ industries fdf ⊆ selected_industries sel.
Proof.
  intros fdf. split_and!.
  - by rewrite tab2.choropleth_color_eq, tab2.country_metric_keys.
  - by rewrite tab2.content_volume_eq, tab2.country_metric_keys.
  - apply tab2.country_metric_keys.
  - symmetry. apply sorted_Permutation.
  - unfold tab1.num_countries, nunique, countries. by rewrite length_sorted.
  - exact (agg_keys Industry _ fdf).
  - apply tab3.industry_metric_keys.
  - rewrite tab3.box_groups_keys. symmetry. apply sorted_Permutation.
  - symmetry. apply sorted_Permutation.
  - unfold tab1.num_industries, nunique, industries. by rewrite length_sorted.
  - exact (Sorted_group_keys Country fdf).
  - apply countries_filtered_df.
  - exact (Sorted_group_keys Industry fdf).
  - apply industries_filtered_df.
Qed.

(** ** The page of an empty view *)

Lemma render_tabs_nil df inp :
  run_filter df (in_sidebar inp) = [] →
  page_tabs (render df inp) = page_tabs (render [] inp).
Proof. intros Hv. unfold render. cbn [page_tabs]. by rewrite Hv. Qed.

(** C29. When a dimension of the sidebar is left empty the whole page
    degrades to its "no data" display and nothing fails: the five
    percentage cards read "nan%", the volume "0 TB/year" and both
    counts "0", and the data preview, the fifteen plotly charts, both
    pies and the heat map are drawn without a record, a point, a
    slice or an annotated cell, whatever the table and the other
    choices. *)
Theorem render_empty_view df inp :
  selected_years (sidebar df (in_sidebar inp)) = []
  ∨ selected_countries (sidebar df (in_sidebar inp)) = []
  ∨ selected_industries (sidebar df (in_sidebar inp)) = [] →
  page_content (render df inp)
  = (uncurry CardText <$>
      [ ("Average AI Adoption", "nan%"); ("Average Job Impact", "nan%");
        ("Average Revenue Impact", "nan%"); ("Average Consumer Trust", "nan%");
        ("Total AI Content Volume", "0 TB/year");
        ("Avg Collaboration Rate", "nan%");
        ("Countries Covered", "0"); ("Industries Covered", "0") ])
    ++ replicate 19 (DataRows 0).
Proof.
  intros Hsel. unfold page_content. rewrite render_tabs_nil.
  - vm_compute. reflexivity.
  - unfold run_filter. by empty_view.
Qed.

(** ** Examples *)

(** The page of the example table with every year, country and
    industry selected: the cards of the specification's scenario and
    the number of records, bars, points, slices and annotated cells
    of each view; two cells of the heat map are blank because the
    only two records with a job loss are of the same year. *)
Example scenario_page_content :
  page_content (render scenario_df fresh)
  = (uncurry CardText <$>
      [ ("Average AI Adoption", "43.3%"); ("Average Job Impact", "20.0%");
        ("Average Revenue Impact", "23.3%"); ("Average Consumer Trust", "53.3%");
        ("Total AI Content Volume", "35 TB/year");
        ("Avg Collaboration Rate", "33.3%");
        ("Countries Covered", "2"); ("Industries Covered", "2") ])
    ++ (DataRows <$> [3; 3; 3; 2; 2; 2; 3; 3; 2; 2; 2; 2; 3; 2; 2; 2; 3; 3; 47]).
Proof. by_eval. Qed.

Lemma render_empty_view_witness :
  page_content
    (render scenario_df
       (mkInputs (mkSidebarInput None (Some []) None None) 0 0 0 0 0 0 0 0))
  = (uncurry CardText <$>
      [ ("Average AI Adoption", "nan%"); ("Average Job Impact", "nan%");
        ("Average Revenue Impact", "nan%"); ("Average Consumer Trust", "nan%");
        ("Total AI Content Volume", "0 TB/year");
        ("Avg Collaboration Rate", "nan%");
        ("Countries Covered", "0"); ("Industries Covered", "0") ])
    ++ replicate 19 (DataRows 0).
Proof. apply render_empty_view. right; left. reflexivity. Defined.
