(* ===== verification/Script.v ===== *)
(** * Script: one run of the script on the table the file holds

    [render] of [Page] is the run of the script on a table with the
    eleven columns of the specification.  [pd.read_csv] returns
    whatever table the file holds, and the script reads the columns
    by name: on a table that lacks one, the first statement that
    reads it raises, and the run stops there with the exception.

    [CsvTable] is a table as [pd.read_csv] returns it: the columns of
    its header and its records.  [accesses] lists, for every column
    of the specification, the first statement of the script that
    reads it, by its line, and how it reads it (indexing raises
    [KeyError], a plotly express call [ValueError]).  [run_script] is
    one run after the load: the exception of the first of these
    statements whose column is missing, or the page.

    The theorems show that the outcome is a page exactly when the file
    has every column of the specification, and otherwise the
    exception of the first statement, in script order, that reads a
    missing column, whatever the records and the state of the
    widgets. *)

From Stdlib Require Import QArith Qcanon.
From stdpp Require Import numbers sorting.
From S2P Require Import Prelude Order Sorting Numeric Pearson Series Frame.
From S2P Require Import Figure Scenario Widgets Sidebar Overview Format.
From S2P Require Import Geography Industry Trends Tools Heatmap Page.
#[local] Close Scope Q_scope.
#[local] Close Scope Qc_scope.

(** ** Exceptions and outcomes *)

Inductive Exception :=
  | FileNotFoundError
  | KeyError (col : string)
  | ValueError (col : string).

#[export] Instance Exception_eq_dec : EqDecision Exception.
Proof. solve_decision. Defined.

(** How a run ends: with the page, or with an exception raised by
    the statement at a line of the script. *)
Inductive Outcome :=
  | Shown (p : Page)
  | Raised (e : Exception) (line : nat).

#[export] Instance Outcome_eq_dec : EqDecision Outcome.
Proof. solve_decision. Defined.

(** ** The table of the file *)

Record CsvTable := mkCsvTable {
  csv_columns : list string;
  csv_records : DataFrame Qc;
}.

#[export] Instance CsvTable_eq_dec : EqDecision CsvTable.
Proof. solve_decision. Defined.

(** A file with the columns of the specification. *)
Definition csv_of (df : DataFrame Qc) : CsvTable := mkCsvTable frame_columns df.

(** ** The statements that read the columns *)

(** How a statement reads a column: [df['c']] or a plotly express
    call that names it. *)
Inductive Reader := Indexing | PlotlyExpress.

#[export] Instance Reader_eq_dec : EqDecision Reader.
Proof. solve_decision. Defined.

Definition raise (rd : Reader) (col : string) : Exception :=
  match rd with Indexing => KeyError col | PlotlyExpress => ValueError col end.

(** For every column, the line of the first statement that reads
    it. *)
Definition accesses : list (string * nat * Reader) :=
  [ ("Year", 30, Indexing); ("Country", 31, Indexing);
    ("Industry", 32, Indexing);
    (metric_name AdoptionRate, 88, Indexing);
    (metric_name JobLoss, 91, Indexing);
    (metric_name RevenueIncrease, 94, Indexing);
    (metric_name ConsumerTrust, 97, Indexing);
    (metric_name ContentVolume, 105, Indexing);
    (metric_name CollabRate, 108, Indexing);
    ("Top AI Tools Used", 277, Indexing);
    ("Regulation Status", 401, PlotlyExpress) ].

Definition first_missing (cols : list string) : option (string * nat * Reader) :=
  head (filter (λ a, a.1.1 ∉ cols) accesses).

(** Lines 22-415 on the table of the file. *)
Definition run_script (t : CsvTable) (inp : Inputs) : Outcome :=
  match first_missing (csv_columns t) with
  | Some (c, line, rd) => Raised (raise rd c) line
  | None => Shown (render (csv_records t) inp)
  end.

(** ** The first statement that fails *)

Lemma accesses_columns : accesses.*1.*1 = frame_columns.
Proof. done. Qed.

Lemma accesses_sorted : StronglySorted (λ a b, a.1.2 < b.1.2) accesses.
Proof. unfold accesses. repeat (constructor; [|by_eval]). constructor. Qed.

Lemma first_missing_None cols :
  first_missing cols = None ↔ frame_columns ⊆ cols.
Proof.
  unfold first_missing. rewrite head_filter_None, <-accesses_columns.
  rewrite <-list_fmap_compose, Forall_forall. unfold subseteq, list_subseteq.
  setoid_rewrite list_elem_of_fmap. split.
  - intros Hf c (a & -> & Ha). by apply dec_stable, Hf.
  - intros Hf a Ha Hn. apply Hn, Hf. by exists a.
Qed.

Lemma first_missing_Some cols c line rd :
  first_missing cols = Some (c, line, rd) →
  (c, line, rd) ∈ accesses ∧ (c ∉ cols)
  ∧ ∀ a, a ∈ accesses → a.1.2 < line → a.1.1 ∈ cols.
Proof.
  intros Hm. pose proof (head_Some_elem_of _ _ Hm) as [Hc _]%list_elem_of_filter.
  apply head_filter_Some in Hm as (l1 & l2 & Hl & Hl1). split_and!; [|done|].
  - rewrite Hl. set_solver.
  - intros a Ha Hlt. pose proof accesses_sorted as Hs. rewrite Hl in Hs, Ha.
    apply elem_of_app in Ha as [Ha|Ha].
    { rewrite Forall_forall in Hl1. by apply dec_stable, Hl1. }
    apply StronglySorted_app_1_r, StronglySorted_inv in Hs as [_ Hs].
    apply elem_of_cons in Ha as [->|Ha]; [simpl in Hlt; lia|].
    rewrite Forall_forall in Hs. specialize (Hs a Ha). simpl in Hs. lia.
Qed.

(** ** The outcome of a run *)

Lemma run_script_Shown t inp :
  frame_columns ⊆ csv_columns t →
  run_script t inp = Shown (render (csv_records t) inp).
Proof. intros Hc%first_missing_None. unfold run_script. by rewrite Hc. Qed.

Lemma run_script_csv_of df inp : run_script (csv_of df) inp = Shown (render df inp).
Proof. by apply run_script_Shown. Qed.

Lemma run_script_Raised t inp c line rd :
  first_missing (csv_columns t) = Some (c, line, rd) →
  run_script t inp = Raised (raise rd c) line.
Proof. intros Hc. unfold run_script. by rewrite Hc. Qed.


(** ** Examples *)

(** A file without the columns "Regulation Status" and "Top AI Tools
    Used" stops at line 277, one without "Regulation Status" only at
    the first box plot of line 401, one without "Country" before the
    sidebar is drawn. *)
Example run_script_examples :
  run_script (mkCsvTable (take 9 frame_columns) scenario_df) fresh
    = Raised (KeyError "Top AI Tools Used") 277
  ∧ run_script (mkCsvTable (take 10 frame_columns) scenario_df) fresh
    = Raised (ValueError "Regulation Status") 401
  ∧ run_script (mkCsvTable ("Year" :: drop 2 frame_columns) scenario_df) fresh
    = Raised (KeyError "Country") 31
  ∧ run_script (csv_of scenario_df) fresh = Shown (render scenario_df fresh).
Proof. done. Qed.
