(* ===== verification/Statements.v ===== *)
(** * Statements: the script statement by statement

    [render] of [Page] gives the page of a complete run and
    [run_script] of [Script] says which exception ends a run on a
    file that lacks a column.  Both are summaries.  This file has the
    script itself: the statements of lines 23 to 415 that read a
    column of the table or write to the page, in order, each with its
    line, the columns it reads by name and how ([stmt_reads]), and
    what it does to the page ([Action]).

    A run is a state machine.  Its state ([RunState]) is the page
    written so far and the containers the variables [col1], [col2],
    ... are bound to; [exec] is the effect of one statement;
    [run_stmts] executes the statements in order and stops at the
    first one that reads a column the file does not have, with the
    exception and the line, leaving the page as it is.  What the user
    then sees ([run_screen]) is that page and the exception.  A
    statement that is handed the table itself hands over the table
    as the file has it ([project]).

    The theorems show that the summaries are right: a run on a
    complete file builds the page of [render], and a run on any file
    ends as [run_script] says.  They show what is on the screen when
    a run stops: the page built by the statements above the failing
    line, which is a part of the page the complete run would have
    built ([page_le]), since no statement removes or changes what an
    earlier one wrote. *)

From Stdlib Require Import QArith Qcanon.
From stdpp Require Import numbers sorting pretty.
From S2P Require Import Prelude Order Sorting Numeric Pearson Series Frame.
From S2P Require Import Figure Scenario Widgets Sidebar Overview Format.
From S2P Require Import Geography Industry Trends Tools Heatmap Page Script.
#[local] Close Scope Q_scope.
#[local] Close Scope Qc_scope.

(** ** Statements *)

(** What a statement does to the page.  [compute] binds a name and
    writes nothing; [tab_write i] is a call inside [with tab(i+1):];
    [tab_columns i n] is [col1, ..., coln = st.columns(n)] inside that
    block; [col_write j] is a call inside [with col(j+1):]. *)
Inductive Action :=
  | compute
  | st_write (e : Element)
  | sidebar_write (e : Element)
  | st_tabs (names : list string)
  | tab_write (i : nat) (e : Element)
  | tab_columns (i n : nat)
  | col_write (j : nat) (e : Element).

#[export] Instance Action_eq_dec : EqDecision Action.
Proof. solve_decision. Defined.

Record Stmt := mkStmt {
  stmt_line : nat;
  stmt_reads : list (string * Reader);
  stmt_action : Action;
}.

#[export] Instance Stmt_eq_dec : EqDecision Stmt.
Proof. solve_decision. Defined.

(** The page written so far, and for every variable [col(j+1)] the
    column it is bound to: the tab, the block of the tab, the column
    of the block. *)
Record RunState := mkRunState {
  rs_page : Page;
  rs_cols : list (nat * nat * nat);
}.

Implicit Types (df fdf : DataFrame Qc) (inp : Inputs) (e : Element) (b : Block)
  (p : Page) (a : Action) (s : Stmt) (ss : list Stmt) (st : RunState)
  (cols : list string) (t : CsvTable).

(** ** The effect of a statement *)

Definition with_top (f : list Block → list Block) p : Page :=
  mkPage (page_config p) (f (page_top p)) (page_sidebar p) (page_tabs p).

Definition with_sidebar (f : list Block → list Block) p : Page :=
  mkPage (page_config p) (page_top p) (f (page_sidebar p)) (page_tabs p).

Definition with_tabs
    (f : list (string * list Block) → list (string * list Block)) p : Page :=
  mkPage (page_config p) (page_top p) (page_sidebar p) (f (page_tabs p)).

Definition in_tab (f : list Block → list Block) (i : nat) p : Page :=
  with_tabs (alter (prod_map id f) i) p.

Definition on_columns (f : list (list Element) → list (list Element)) b : Block :=
  match b with Columns cs => Columns (f cs) | Elem e => Elem e end.

Definition exec st a : RunState :=
  let p := rs_page st in
  match a with
  | compute => st
  | st_write e => mkRunState (with_top (.++ [Elem e]) p) (rs_cols st)
  | sidebar_write e => mkRunState (with_sidebar (.++ [Elem e]) p) (rs_cols st)
  | st_tabs names =>
      mkRunState (with_tabs (.++ ((., []) <$> names)) p) (rs_cols st)
  | tab_write i e => mkRunState (in_tab (.++ [Elem e]) i p) (rs_cols st)
  | tab_columns i n =>
      let k := length (default [] (snd <$> page_tabs p !! i)) in
      mkRunState (in_tab (.++ [Columns (replicate n [])]) i p)
        (((λ j, (i, k, j)) <$> seq 0 n) ++ drop n (rs_cols st))
  | col_write j e =>
      match rs_cols st !! j with
      | Some (i, k, c) =>
          mkRunState (in_tab (alter (on_columns (alter (.++ [e]) c)) k) i p)
            (rs_cols st)
      | None => st
      end
  end.

(** A statement finds the container it writes to: a tab that
    exists, a column of a row that exists; the page has one group of
    tabs, below everything written to the main container. *)
Definition in_scope st a : bool :=
  let tabs := page_tabs (rs_page st) in
  match a with
  | compute | sidebar_write _ => true
  | st_write _ | st_tabs _ => match tabs with [] => true | _ => false end
  | tab_write i _ | tab_columns i _ => i <? length tabs
  | col_write j _ =>
      match rs_cols st !! j with
      | Some (i, k, c) =>
          match snd <$> tabs !! i with
          | Some bs =>
              match bs !! k with
              | Some (Columns cs) => c <? length cs
              | _ => false
              end
          | None => false
          end
      | None => false
      end
  end.

Fixpoint scoped st (acts : list Action) : bool :=
  match acts with
  | [] => true
  | a :: acts => in_scope st a && scoped (exec st a) acts
  end.

(** ** A run *)

(** The first column a statement reads that the file does not
    have. *)
Definition missing_read cols s : option (string * Reader) :=
  head (filter (λ r, r.1 ∉ cols) (stmt_reads s)).

Fixpoint run_stmts cols st ss : RunState * option (Exception * nat) :=
  match ss with
  | [] => (st, None)
  | s :: ss =>
      match missing_read cols s with
      | Some (c, rd) => (st, Some (raise rd c, stmt_line s))
      | None => run_stmts cols (exec st (stmt_action s)) ss
      end
  end.

(** The state after line 13, [st.set_page_config]. *)
Definition start : RunState :=
  mkRunState (mkPage (mkPageConfig "wide" "Global AI Content Impact Analysis")
                [] [] []) [].

(** ** The table as the file has it *)

(** The columns of a table that are columns of the file. *)
Definition project cols (tb : Table Qc) : Table Qc :=
  mkTable (filter (λ cd, cd.1 ∈ cols) (schema tb))
    ((λ row, (filter (λ cv, cv.1 ∈ cols) (zip (columns tb) row)).*2) <$> rows tb).

(** A figure drawn from another table. *)
Definition with_data (tb : Table Qc) (f : Figure Qc) : Figure Qc :=
  mkFigure (fig_kind f) tb (fig_x f) (fig_y f) (fig_color f) (fig_path f)
    (fig_values f) (fig_locations f) (fig_hover f) (fig_title f) (fig_options f).

(** ** The script *)

Definition ix (c : string) : string * Reader := (c, Indexing).
Definition px (c : string) : string * Reader := (c, PlotlyExpress).

(** The cards of lines 89-115. *)
Definition card (label : string) (v : MetricValue Qc) : Element :=
  MetricCard label (card_text v).

(** Lines 23-74. *)
Definition script_head df : list Stmt :=
  [ mkStmt 23 [] (st_write (Title "🌍 Global AI Content Impact Analysis"));
    mkStmt 24 [] (st_write (Markdown "Exploring the influence of AI-generated content across industries and countries"));
    mkStmt 27 [] (sidebar_write (Header "Filters"));
    mkStmt 30 [ix "Year"] compute;
    mkStmt 31 [ix "Country"] compute;
    mkStmt 32 [ix "Industry"] compute;
    mkStmt 39 [] (sidebar_write (Input (Multiselect "Select Years"
      (pretty <$> years df) (pretty <$> default_years df)
      (Some "years_multiselect"))));
    mkStmt 46 [] (sidebar_write (Input (Multiselect "Select Countries"
      (countries df) (default_countries df) (Some "countries_multiselect"))));
    mkStmt 53 [] (sidebar_write (Input (Multiselect "Select Industries"
      (industries df) (default_industries df) (Some "industries_multiselect"))));
    mkStmt 60 [] (sidebar_write (Input (Multiselect "Select Industries"
      (industries df) (default_industries df) None)));
    mkStmt 67 [ix "Year"; ix "Country"; ix "Industry"] compute;
    mkStmt 74 [] (st_tabs [ "📊 Overview"; "🌐 Geographical"; "🏭 Industry";
                            "📈 Trends"; "🔍 Deep Dive" ]) ].

(** Lines 82-144; [frame] is [filtered_df] as a table. *)
Definition script_tab1 (frame : Table Qc) fdf : list Stmt :=
  [ mkStmt 83 [] (tab_write 0 (Header "Dataset Overview"));
    mkStmt 86 [] (tab_columns 0 4);
    mkStmt 88 [ix (metric_name AdoptionRate)] compute;
    mkStmt 89 [] (col_write 0
      (card "Average AI Adoption" (Percent (tab1.avg_adoption fdf))));
    mkStmt 91 [ix (metric_name JobLoss)] compute;
    mkStmt 92 [] (col_write 1
      (card "Average Job Impact" (Percent (tab1.avg_job_loss fdf))));
    mkStmt 94 [ix (metric_name RevenueIncrease)] compute;
    mkStmt 95 [] (col_write 2
      (card "Average Revenue Impact" (Percent (tab1.avg_revenue fdf))));
    mkStmt 97 [ix (metric_name ConsumerTrust)] compute;
    mkStmt 98 [] (col_write 3
      (card "Average Consumer Trust" (Percent (tab1.avg_trust fdf))));
    mkStmt 100 [] (tab_write 0 (Markdown "---"));
    mkStmt 103 [] (tab_columns 0 4);
    mkStmt 105 [ix (metric_name ContentVolume)] compute;
    mkStmt 106 [] (col_write 0
      (card "Total AI Content Volume" (Volume (tab1.total_content fdf))));
    mkStmt 108 [ix (metric_name CollabRate)] compute;
    mkStmt 109 [] (col_write 1
      (card "Avg Collaboration Rate" (Percent (tab1.avg_collab fdf))));
    mkStmt 111 [ix "Country"] compute;
    mkStmt 112 [] (col_write 2
      (card "Countries Covered" (Count (tab1.num_countries fdf))));
    mkStmt 114 [ix "Industry"] compute;
    mkStmt 115 [] (col_write 3
      (card "Industries Covered" (Count (tab1.num_industries fdf))));
    mkStmt 117 [] (tab_write 0 (Markdown "---"));
    mkStmt 118 [] (tab_write 0 (Subheader "Raw Data Preview"));
    mkStmt 119 [] (tab_write 0 (DataFrameView frame 300));
    mkStmt 120 [] (tab_write 0 (Markdown "---"));
    mkStmt 123 [] (tab_columns 0 2);
    mkStmt 125 [px (metric_name AdoptionRate)] compute;
    mkStmt 133 [] (col_write 0
      (PlotlyChart (with_data frame (tab1.adoption_histogram fdf))));
    mkStmt 136 [px (metric_name JobLoss)] compute;
    mkStmt 144 [] (col_write 1
      (PlotlyChart (with_data frame (tab1.job_loss_histogram fdf)))) ].

(** Lines 146-183. *)
Definition script_tab2 fdf inp : list Stmt :=
  let m := metric_name (tab2.metric (in_country_metric inp)) in
  [ mkStmt 147 [] (tab_write 1 (Header "Geographical Analysis"));
    mkStmt 150 [ix "Country"] compute;
    mkStmt 152 [px "Country"; px (metric_name AdoptionRate)] compute;
    mkStmt 161 [] (tab_write 1 (PlotlyChart (tab2.choropleth fdf)));
    mkStmt 163 [ix "Country"; ix (metric_name ContentVolume)] compute;
    mkStmt 164 [ix (metric_name ContentVolume); px "Country";
                px (metric_name ContentVolume)] compute;
    mkStmt 168 [] (tab_write 1 (PlotlyChart (tab2.content_volume_figure fdf)));
    mkStmt 170 [] (tab_write 1 (Subheader "Country Comparison"));
    mkStmt 171 [] (tab_write 1 (Input (Selectbox "Select metric to compare"
      (metric_name <$> tab2.metric_options))));
    mkStmt 178 [ix "Country"; ix m] compute;
    mkStmt 179 [ix m; px "Country"; px m] compute;
    mkStmt 183 [] (tab_write 1 (PlotlyChart
      (tab2.country_metric_figure (tab2.metric (in_country_metric inp)) fdf))) ].

(** Lines 185-213. *)
Definition script_tab3 (frame : Table Qc) fdf inp : list Stmt :=
  let m := metric_name (tab3.metric (in_industry_metric inp)) in
  [ mkStmt 186 [] (tab_write 2 (Header "Industry Analysis"));
    mkStmt 188 [px "Industry"; px "Country"; px (metric_name ContentVolume)]
      compute;
    mkStmt 193 [] (tab_write 2
      (PlotlyChart (with_data frame (tab3.sunburst fdf))));
    mkStmt 195 [px "Industry"; px (metric_name AdoptionRate)] compute;
    mkStmt 198 [] (tab_write 2
      (PlotlyChart (with_data frame (tab3.adoption_box fdf))));
    mkStmt 200 [] (tab_write 2 (Subheader "Industry Comparison"));
    mkStmt 201 [] (tab_write 2 (Input
      (Selectbox "Select metric for industry comparison"
         (metric_name <$> tab3.metric_options))));
    mkStmt 208 [ix "Industry"; ix m] compute;
    mkStmt 209 [ix m; px "Industry"; px m] compute;
    mkStmt 213 [] (tab_write 2 (PlotlyChart
      (tab3.industry_metric_figure (tab3.metric (in_industry_metric inp)) fdf))) ].

(** Lines 215-246. *)
Definition script_tab4 fdf inp : list Stmt :=
  let m := metric_name (tab4.metric (in_trend_metric inp)) in
  let g := group_col_name (tab4.group_by (in_group_by inp)) in
  [ mkStmt 216 [] (tab_write 3 (Header "Temporal Trends"));
    mkStmt 218 [ix "Year"; ix "Country"; ix (metric_name AdoptionRate)] compute;
    mkStmt 219 [px "Year"; px (metric_name AdoptionRate); px "Country"] compute;
    mkStmt 223 [] (tab_write 3 (PlotlyChart (tab4.country_trend_figure fdf)));
    mkStmt 225 [ix "Year"; ix "Industry"; ix (metric_name AdoptionRate)] compute;
    mkStmt 226 [px "Year"; px (metric_name AdoptionRate); px "Industry"] compute;
    mkStmt 230 [] (tab_write 3 (PlotlyChart (tab4.industry_trend_figure fdf)));
    mkStmt 232 [] (tab_write 3 (Subheader "Metric Trends Over Time"));
    mkStmt 233 [] (tab_write 3 (Input
      (Selectbox "Select metric to analyze over time"
         (metric_name <$> tab4.metric_options))));
    mkStmt 240 [] (tab_write 3 (Input
      (Radio "Group by" (group_col_name <$> tab4.group_by_options))));
    mkStmt 241 [ix "Year"; ix g; ix m] compute;
    mkStmt 242 [px "Year"; px m; px g] compute;
    mkStmt 246 [] (tab_write 3 (PlotlyChart
      (tab4.time_trend_figure (tab4.metric (in_trend_metric inp))
         (tab4.group_by (in_group_by inp)) fdf))) ].

(** Lines 248-415. *)
Definition script_tab5 (frame : Table Qc) fdf inp : list Stmt :=
  let x := tab5.x_axis (in_x_axis inp) in
  let y := tab5.y_axis (in_y_axis inp) in
  [ mkStmt 249 [] (tab_write 4 (Header "Deep Dive Analysis"));
    mkStmt 251 [] (tab_write 4 (Subheader "Correlation Analysis"));
    mkStmt 252 [] (tab_columns 4 2);
    mkStmt 254 [] (col_write 0 (Input
      (Selectbox "X-axis variable" (metric_name <$> tab5.axis_options))));
    mkStmt 262 [] (col_write 1 (Input
      (Selectbox "Y-axis variable" (metric_name <$> tab5.axis_options))));
    mkStmt 270 [px (metric_name x); px (metric_name y); px "Industry";
                px "Country"; px "Year"] compute;
    mkStmt 274 [] (tab_write 4
      (PlotlyChart (with_data frame (tab5.scatter x y fdf))));
    mkStmt 276 [] (tab_write 4 (Subheader "AI Tool Popularity"));
    mkStmt 277 [ix "Top AI Tools Used"] compute;
    mkStmt 282 [] (tab_write 4 (PlotlyChart (tab5.tool_counts_figure fdf)));
    mkStmt 288 [ix "Industry"] (tab_write 4 (Input
      (Selectbox "Select industry for tool analysis"
         (unique (Industry <$> fdf)))));
    mkStmt 294 [ix "Industry"] compute;
    mkStmt 295 [ix "Top AI Tools Used"] compute;
    mkStmt 339 [] (tab_write 4
      (Echarts (tab5.industry_pie_chart fdf (in_tool_industry inp))));
    mkStmt 342 [ix "Country"] (tab_write 4 (Input
      (Selectbox "Select country for tool analysis"
         (unique (Country <$> fdf)))));
    mkStmt 348 [ix "Country"] compute;
    mkStmt 349 [ix "Top AI Tools Used"] compute;
    mkStmt 399 [] (tab_write 4
      (Echarts (tab5.country_pie_chart fdf (in_tool_country inp))));
    mkStmt 400 [] (tab_write 4 (Subheader "Regulation Impact"));
    mkStmt 401 [px "Regulation Status"; px (metric_name AdoptionRate)] compute;
    mkStmt 404 [] (tab_write 4
      (PlotlyChart (with_data frame (tab5.regulation_adoption_box fdf))));
    mkStmt 406 [px "Regulation Status"; px (metric_name JobLoss)] compute;
    mkStmt 409 [] (tab_write 4
      (PlotlyChart (with_data frame (tab5.regulation_job_loss_box fdf))));
    mkStmt 411 [] (tab_write 4 (Subheader "Correlation Heatmap (All Metrics)"));
    mkStmt 415 [] (tab_write 4 (Pyplot (heatmap fdf))) ].

(** Lines 23-415 on a file with the columns [cols]. *)
Definition script cols df inp : list Stmt :=
  let fdf := run_filter df (in_sidebar inp) in
  let frame := project cols (frame_table fdf) in
  script_head df ++ script_tab1 frame fdf ++ script_tab2 fdf inp
    ++ script_tab3 frame fdf inp ++ script_tab4 fdf inp
    ++ script_tab5 frame fdf inp.

(** ** What the user sees *)

Record Screen := mkScreen {
  screen_page : Page;
  screen_error : option Exception;
}.

#[export] Instance Screen_eq_dec : EqDecision Screen.
Proof. solve_decision. Defined.

Definition run_table t inp : RunState * option (Exception * nat) :=
  run_stmts (csv_columns t) start (script (csv_columns t) (csv_records t) inp).

Definition run_screen t inp : Screen :=
  mkScreen (rs_page (run_table t inp).1) (fst <$> (run_table t inp).2).

(** The previews of a page: the columns of every table shown by
    [st.dataframe]. *)
Definition previews p : list (list string) :=
  omap (λ e, match e with DataFrameView tb _ => Some (columns tb) | _ => None end)
    (page_elements p).

(** The outcome of a run, as [Script] has it. *)
Definition outcome_of (r : RunState * option (Exception * nat)) : Outcome :=
  match r.2 with
  | Some (e, line) => Raised e line
  | None => Shown (rs_page r.1)
  end.

(** The statements above a line, and the page they build. *)
Definition before (line : nat) ss : list Stmt :=
  filter (λ s, stmt_line s < line) ss.

Definition page_of ss : Page := rs_page (foldl exec start (stmt_action <$> ss)).

(** ** The order on pages *)

Definition tab_elements (tb : string * list Block) : list Element :=
  tb.2 ≫= block_elements.

Definition tab_le (t1 t2 : string * list Block) : Prop :=
  t1.1 = t2.1 ∧ tab_elements t1 `sublist_of` tab_elements t2.

(** [page_le p1 p2]: everything on [p1] is on [p2], in the same
    container and in the same order. *)
Definition page_le (p1 p2 : Page) : Prop :=
  page_config p1 = page_config p2
  ∧ page_top p1 `prefix_of` page_top p2
  ∧ page_sidebar p1 `prefix_of` page_sidebar p2
  ∧ ∃ ts, ts `prefix_of` page_tabs p2 ∧ Forall2 tab_le (page_tabs p1) ts.

(** ** What the proofs use *)

(** The file has every column a statement reads. *)
Definition reads_in cols s : Prop := Forall (λ r, r.1 ∈ cols) (stmt_reads s).

(** A read at a line is covered by the table [accesses] of [Script]:
    the table has the column, at that line or above. *)
Definition covered (line : nat) (r : string * Reader) : Prop :=
  Exists (λ ac, ac.1.1 = r.1 ∧ ac.1.2 ≤ line) accesses.

Definition stmt_sig s : nat * list (string * Reader) := (stmt_line s, stmt_reads s).

Ltac script_unfold :=
  unfold script, script_head, script_tab1, script_tab2, script_tab3,
    script_tab4, script_tab5; cbn [app].

Ltac solve_covered :=
  unfold covered, ix, px; cbn [fst snd];
  try match goal with |- context [metric_name ?m] => is_var m; destruct m end;
  try match goal with |- context [group_col_name ?g] => is_var g; destruct g end;
  by_eval.

(** ** Runs of any list of statements *)

Lemma missing_read_None cols s : missing_read cols s = None ↔ reads_in cols s.
Proof.
  unfold missing_read, reads_in. rewrite head_filter_None.
  apply Forall_iff. intros r. split; [apply dec_stable|tauto].
Qed.

Lemma missing_read_first cols s c rd rest :
  stmt_reads s = (c, rd) :: rest → c ∉ cols → missing_read cols s = Some (c, rd).
Proof. intros Hr Hc. unfold missing_read. by rewrite Hr, filter_cons_True. Qed.

Lemma run_stmts_complete cols st ss :
  Forall (reads_in cols) ss →
  run_stmts cols st ss = (foldl exec st (stmt_action <$> ss), None).
Proof.
  revert st. induction ss as [|s ss IH]; intros st Hs; [done|].
  apply Forall_cons in Hs as [Hm%missing_read_None Hs]. simpl. rewrite Hm.
  by apply IH.
Qed.

Lemma before_above line ss :
  Forall (λ s, line ≤ stmt_line s) ss → before line ss = [].
Proof. intros Hs. apply filter_none. eapply Forall_impl; [done|]. simpl. lia. Qed.

Lemma before_cons_lt line s ss :
  stmt_line s < line → before line (s :: ss) = s :: before line ss.
Proof. intros. unfold before. by rewrite filter_cons_True. Qed.

Lemma sorted_cons_inv s ss :
  StronglySorted lt (stmt_line <$> s :: ss) →
  StronglySorted lt (stmt_line <$> ss)
  ∧ ∀ s', s' ∈ ss → stmt_line s < stmt_line s'.
Proof.
  rewrite fmap_cons. intros [Hs Hall]%StronglySorted_inv. split; [done|].
  intros s' Hs'. rewrite Forall_fmap, Forall_forall in Hall. by apply Hall.
Qed.

Lemma before_sorted_above line s ss :
  StronglySorted lt (stmt_line <$> s :: ss) → line ≤ stmt_line s →
  before line (s :: ss) = [].
Proof.
  intros [_ Hall]%sorted_cons_inv ?. apply before_above, Forall_cons.
  split; [done|]. apply Forall_forall. intros s' Hs'%Hall. lia.
Qed.

(** The statements above a line are a prefix of the script. *)
Lemma before_prefix line ss :
  StronglySorted lt (stmt_line <$> ss) → before line ss `prefix_of` ss.
Proof.
  induction ss as [|s ss IH]; [done|]. intros Hs.
  destruct (decide (stmt_line s < line)).
  - rewrite before_cons_lt by done. apply sorted_cons_inv in Hs as [Hs _].
    by apply prefix_cons, IH.
  - rewrite before_sorted_above by (done || lia). apply prefix_nil.
Qed.

(** A run stops at the first statement that reads a missing column,
    with the page of the statements above it. *)
Lemma run_stmts_stops cols st ss s c rd :
  StronglySorted lt (stmt_line <$> ss) →
  (∀ s', s' ∈ ss → stmt_line s' < stmt_line s → reads_in cols s') →
  s ∈ ss → missing_read cols s = Some (c, rd) →
  run_stmts cols st ss
  = (foldl exec st (stmt_action <$> before (stmt_line s) ss),
     Some (raise rd c, stmt_line s)).
Proof.
  revert st. induction ss as [|s' ss IH]; intros st Hs Hok Hin Hm;
    [by apply elem_of_nil in Hin|].
  apply elem_of_cons in Hin as [->|Hin].
  { by rewrite before_sorted_above; [simpl; rewrite Hm|..]. }
  apply sorted_cons_inv in Hs as [Hs Hall].
  pose proof (Hall s Hin) as Hlt.
  pose proof (Hok s' (list_elem_of_here _ _) Hlt) as Hs'%missing_read_None.
  rewrite before_cons_lt by done. simpl. rewrite Hs'.
  apply IH; [done| |done..]. intros s'' ??. apply Hok; [by right|done].
Qed.

(** ** Pages only grow *)

#[export] Instance tab_le_po : PreOrder tab_le.
Proof.
  split.
  - by intros [].
  - intros x y z [? ?] [? ?]. split; [congruence|by etrans].
Qed.

#[export] Instance page_le_po : PreOrder page_le.
Proof.
  split.
  - intros p. split_and!; [done..|]. by exists (page_tabs p).
  - intros p1 p2 p3 (? & ? & ? & ts1 & [k Hk] & Hf1) (? & ? & ? & ts2 & Hts2 & Hf2).
    split_and!; [congruence|by etrans..|].
    rewrite Hk in Hf2. apply Forall2_app_inv_l in Hf2 as (ts & k' & Hf3 & _ & ->).
    exists ts. split; [|by etrans]. etrans; [|done]. by apply prefix_app_r.
Qed.

Lemma Forall2_alter_grows {A} (R : relation A) `{!Reflexive R} (f : A → A) i l :
  (∀ x, R x (f x)) → Forall2 R l (alter f i l).
Proof.
  intros Hf. revert i. induction l as [|x l IH]; intros [|i]; cbn;
    [constructor..| |]; constructor; done.
Qed.

Lemma sublist_bind_alter {A B} (g : A → list B) (f : A → A) i l :
  (∀ x, g x `sublist_of` g (f x)) → l ≫= g `sublist_of` alter f i l ≫= g.
Proof.
  intros Hf. revert i. induction l as [|x l IH]; intros [|i]; cbn; [done..| |];
    by apply sublist_app.
Qed.

Lemma block_elements_write (c : nat) e b :
  block_elements b `sublist_of` block_elements (on_columns (alter (.++ [e]) c) b).
Proof.
  destruct b as [|cs]; [done|]. cbn. revert c.
  induction cs as [|x cs IH]; intros [|c]; cbn; [done..| |];
    apply sublist_app; try done. by apply sublist_inserts_r.
Qed.

Lemma in_tab_grows (f : list Block → list Block) i p :
  (∀ bs, bs ≫= block_elements `sublist_of` f bs ≫= block_elements) →
  page_le p (in_tab f i p).
Proof.
  intros Hf. split_and!; [done..|]. eexists. split; [done|].
  apply Forall2_alter_grows; [apply _|]. intros [name bs]. split; [done|]. apply Hf.
Qed.

Lemma exec_grows st a : page_le (rs_page st) (rs_page (exec st a)).
Proof.
  destruct a as [|e|e|names|i e|i n|j e]; simpl.
  - done.
  - split_and!; [done|by apply prefix_app_r|done|by eexists].
  - split_and!; [done|done|by apply prefix_app_r|by eexists].
  - split_and!; [done..|]. eexists. split; [by apply prefix_app_r|done].
  - apply in_tab_grows. intros bs. rewrite bind_app. by apply sublist_inserts_r.
  - apply in_tab_grows. intros bs. rewrite bind_app. by apply sublist_inserts_r.
  - destruct (rs_cols st !! j) as [[[i k] c]|]; [|done]. simpl.
    apply in_tab_grows. intros bs. apply sublist_bind_alter, block_elements_write.
Qed.

Lemma foldl_exec_grows st (acts : list Action) :
  page_le (rs_page st) (rs_page (foldl exec st acts)).
Proof.
  revert st. induction acts as [|a acts IH]; intros st; [done|].
  simpl. etrans; [apply exec_grows|apply IH].
Qed.

Lemma page_of_prefix ss1 ss2 : ss1 `prefix_of` ss2 → page_le (page_of ss1) (page_of ss2).
Proof.
  intros [k ->]. unfold page_of. rewrite fmap_app, foldl_app. apply foldl_exec_grows.
Qed.

(** ** The script *)

Lemma project_frame cols fdf :
  frame_columns ⊆ cols → project cols (frame_table fdf) = frame_table fdf.
Proof.
  intros Hc. unfold project, frame_table. cbn [schema rows columns].
  f_equal.
  - apply filter_all, Forall_forall. intros [c d] Hcd. apply Hc.
    by apply (list_elem_of_fmap_2 fst) in Hcd.
  - rewrite <-list_fmap_compose. apply list_fmap_ext. intros _ r _.
    unfold compose, columns. cbn [schema].
    rewrite filter_all; [by rewrite snd_zip|].
    apply Forall_forall. intros [c v] Hcv%elem_of_zip_l. by apply Hc.
Qed.

(** On a complete file the statements build the page of [render]. *)
Lemma script_page cols df inp :
  frame_columns ⊆ cols → page_of (script cols df inp) = render df inp.
Proof. intros Hc. unfold script. by rewrite (project_frame _ _ Hc). Qed.

(** Every statement of the script finds its container, whatever the
    file holds. *)
Lemma script_scoped cols df inp :
  scoped start (stmt_action <$> script cols df inp) = true.
Proof. reflexivity. Qed.

(** The statements are in the order of their lines. *)
Lemma script_sorted cols df inp :
  StronglySorted lt (stmt_line <$> script cols df inp).
Proof. script_unfold. cbn [fmap list_fmap stmt_line]. by_eval. Qed.

(** Every read of every statement is covered by [accesses]. *)
Lemma script_covered cols df inp :
  Forall (λ s, Forall (covered (stmt_line s)) (stmt_reads s)) (script cols df inp).
Proof.
  apply (Forall_fmap stmt_sig (λ x, Forall (covered x.1) x.2)).
  script_unfold. cbn [fmap list_fmap stmt_sig stmt_line stmt_reads].
  generalize (tab2.metric (in_country_metric inp)) (tab3.metric (in_industry_metric inp))
    (tab4.metric (in_trend_metric inp)) (tab4.group_by (in_group_by inp))
    (tab5.x_axis (in_x_axis inp)) (tab5.y_axis (in_y_axis inp)).
  intros m2 m3 m4 gb mx my.
  repeat (apply Forall_cons_2;
    [cbn [fst snd]; repeat (apply Forall_cons_2; [solve_covered|]); apply Forall_nil_2|]).
  apply Forall_nil_2.
Qed.

(** Every entry of [accesses] is the first read of a statement of
    the script at that line. *)
Lemma script_access cols df inp :
  Forall (λ ac, ∃ s rest, stmt_line s = ac.1.2
            ∧ stmt_reads s = (ac.1.1, ac.2) :: rest ∧ s ∈ script cols df inp)
    accesses.
Proof.
  apply Forall_forall. intros ac Hac.
  assert (∃ rest, (ac.1.2, (ac.1.1, ac.2) :: rest)
                  ∈ stmt_sig <$> script cols df inp) as [rest Hin].
  { revert ac Hac. apply Forall_forall. script_unfold.
    cbn [fmap list_fmap stmt_sig stmt_line stmt_reads]. unfold accesses.
    repeat (apply Forall_cons_2;
      [eexists; cbn [fst snd];
       repeat first [apply list_elem_of_here | apply list_elem_of_further]|]).
    apply Forall_nil_2. }
  apply list_elem_of_fmap in Hin as (s & [= Hl Hr] & Hs). by exists s, rest.
Qed.

Lemma access_column ac : ac ∈ accesses → ac.1.1 ∈ frame_columns.
Proof.
  intros Hac. rewrite <-accesses_columns, <-list_fmap_compose.
  by apply (list_elem_of_fmap_2 (fst ∘ fst)).
Qed.

Lemma script_reads_before cols df inp s line :
  (∀ ac, ac ∈ accesses → ac.1.2 < line → ac.1.1 ∈ cols) →
  s ∈ script cols df inp → stmt_line s < line → reads_in cols s.
Proof.
  intros Hp Hs Hl. pose proof (script_covered cols df inp) as Hc.
  rewrite Forall_forall in Hc. specialize (Hc s Hs).
  unfold reads_in. eapply Forall_impl; [done|].
  intros r (ac & Hac & <- & ?)%Exists_exists. apply Hp; [done|lia].
Qed.

Lemma script_reads_complete cols df inp :
  frame_columns ⊆ cols → Forall (reads_in cols) (script cols df inp).
Proof.
  intros Hc. eapply Forall_impl; [apply script_covered|]. intros s Hs.
  unfold reads_in. eapply Forall_impl; [exact Hs|].
  intros r (ac & Hac & <- & _)%Exists_exists. by apply Hc, access_column.
Qed.

(** ** Runs of the script *)

Lemma run_table_complete t inp :
  frame_columns ⊆ csv_columns t →
  (run_table t inp).2 = None
  ∧ rs_page (run_table t inp).1 = render (csv_records t) inp.
Proof.
  intros Hc. unfold run_table.
  rewrite run_stmts_complete by (by apply script_reads_complete).
  split; [done|]. by apply script_page.
Qed.

Lemma run_table_stopped t inp c line rd :
  first_missing (csv_columns t) = Some (c, line, rd) →
  run_table t inp
  = (foldl exec start
       (stmt_action <$> before line (script (csv_columns t) (csv_records t) inp)),
     Some (raise rd c, line)).
Proof.
  intros (Ha & Hc & Hp)%first_missing_Some.
  pose proof (script_access (csv_columns t) (csv_records t) inp) as Hs.
  rewrite Forall_forall in Hs.
  destruct (Hs _ Ha) as (s & rest & Hl & Hr & Hin). cbn [fst snd] in Hl, Hr.
  subst line. unfold run_table. apply run_stmts_stops;
    [apply script_sorted| |done|by eapply missing_read_first].
  intros s' ??. by eapply script_reads_before.
Qed.

(** The screen shows the page or the exception of the outcome. *)
Lemma run_screen_outcome t inp :
  match run_script t inp with
  | Shown p => run_screen t inp = mkScreen p None
  | Raised e _ => screen_error (run_screen t inp) = Some e
  end.
Proof.
  unfold run_script, run_screen.
  destruct (first_missing (csv_columns t)) as [[[c line] rd]|] eqn:Hm.
  - by rewrite (run_table_stopped _ _ _ _ _ Hm).
  - apply first_missing_None, (run_table_complete t inp) in Hm as [-> ->]. done.
Qed.

(** The page above each of the lines at which a run can stop. *)
Lemma page_before_line cols df inp line :
  let p := page_of (before line (script cols df inp)) in
  let r := render df inp in
  line ∈ accesses.*1.*2 →
  (line ≤ 32 →
     p = mkPage (page_config r) (page_top r) [Elem (Header "Filters")] [])
  ∧ (32 < line →
     page_top p = page_top r ∧ page_sidebar p = page_sidebar r
     ∧ (page_tabs p).*1 = (page_tabs r).*1)
  ∧ (32 < line ≤ 108 → drop 1 (page_tabs p).*2 = [[]; []; []; []])
  ∧ (108 < line →
     page_tabs p !! 1 = page_tabs r !! 1 ∧ page_tabs p !! 3 = page_tabs r !! 3).
Proof.
  intros p r Hl. subst p r. unfold accesses in Hl. cbn [fmap list_fmap fst snd] in Hl.
  repeat (apply elem_of_cons in Hl as [->|Hl]); [..|by apply elem_of_nil in Hl];
    (split_and!; intros; first [lia|split_and?; reflexivity]).
Qed.

(** ** The claims *)

(** C21. The statements of the script, run in order from the state
    after line 13 on a file that has every column of the
    specification, build the page of [render] and raise nothing: the
    page is a faithful summary of the script.  Every statement
    writes to a container that exists when it runs. *)
Theorem script_refines_render t inp :
  frame_columns ⊆ csv_columns t →
  run_screen t inp = mkScreen (render (csv_records t) inp) None
  ∧ scoped start
      (stmt_action <$> script (csv_columns t) (csv_records t) inp) = true.
Proof.
  intros [Hn Hp]%(run_table_complete t inp). split; [|apply script_scoped].
  unfold run_screen. by rewrite Hn, Hp.
Qed.

(** C22. On every file the run of the statements ends as [run_script]
    says: with the page when no column is missing, and otherwise with
    the exception and the line of the table [accesses], so that the
    table lists, for every column, the first statement that reads
    it. *)
Theorem run_table_outcome t inp : outcome_of (run_table t inp) = run_script t inp.
Proof.
  unfold run_script, outcome_of.
  destruct (first_missing (csv_columns t)) as [[[c line] rd]|] eqn:Hm.
  - by rewrite (run_table_stopped _ _ _ _ _ Hm).
  - apply first_missing_None, (run_table_complete t inp) in Hm as [-> ->]. done.
Qed.


(** C23. When a run stops with an exception the user sees the
    exception and the page written by the statements above the
    failing line, which is a part of the page the statements would
    have built together.  Without Year, Country or Industry that is
    the title and the header of the sidebar, with no widget and no
    tab; without a metric column the sidebar is complete and the
    tabs are there, all but the first empty; without the tools or
    the regulation column the Geographical and Trends tabs are those
    of the complete page. *)
Theorem screen_after_exception t inp c line rd :
  let ss := script (csv_columns t) (csv_records t) inp in
  let p := page_of (before line ss) in
  let r := render (csv_records t) inp in
  first_missing (csv_columns t) = Some (c, line, rd) →
  run_screen t inp = mkScreen p (Some (raise rd c))
  ∧ page_le p (page_of ss)
  ∧ (line ≤ 32 →
     p = mkPage (page_config r) (page_top r) [Elem (Header "Filters")] [])
  ∧ (32 < line →
     page_top p = page_top r ∧ page_sidebar p = page_sidebar r
     ∧ (page_tabs p).*1 = (page_tabs r).*1)
  ∧ (32 < line ≤ 108 → drop 1 (page_tabs p).*2 = [[]; []; []; []])
  ∧ (108 < line →
     page_tabs p !! 1 = page_tabs r !! 1 ∧ page_tabs p !! 3 = page_tabs r !! 3).
Proof.
  intros ss p r Hm. subst ss p r. split; [|split].
  - unfold run_screen. by rewrite (run_table_stopped _ _ _ _ _ Hm).
  - apply page_of_prefix, before_prefix, script_sorted.
  - apply page_before_line.
    apply first_missing_Some in Hm as [Ha _].
    by apply (list_elem_of_fmap_2 (snd ∘ fst)) in Ha; rewrite list_fmap_compose in Ha.
Qed.

(** ** Examples *)

(** The scenario table in a file without the columns of the tools
    and of the regulation, in one without the regulation only, in
    one without Country, and in one without the job loss column: the
    exception, how much of the page is there (elements, widgets,
    plotly figures), and the columns of the data preview. *)
Example screen_examples :
  let no_tools := run_screen (mkCsvTable (take 9 frame_columns) scenario_df) fresh in
  let no_regulation :=
    run_screen (mkCsvTable (take 10 frame_columns) scenario_df) fresh in
  let no_country :=
    run_screen (mkCsvTable ("Year" :: drop 2 frame_columns) scenario_df) fresh in
  let no_job_loss :=
    run_screen (mkCsvTable (filter (.≠ metric_name JobLoss) frame_columns)
                  scenario_df) fresh in
  let complete := run_screen (csv_of scenario_df) fresh in
  let size (sc : Screen) := (length (page_elements (screen_page sc)),
                            length (page_widgets (screen_page sc)),
                            length (page_figures (screen_page sc))) in
  (screen_error no_tools, size no_tools, previews (screen_page no_tools))
    = (Some (KeyError "Top AI Tools Used"), (48, 10, 12), [take 9 frame_columns])
  ∧ (screen_error no_regulation, size no_regulation,
     previews (screen_page no_regulation))
    = (Some (ValueError "Regulation Status"), (54, 12, 13), [take 10 frame_columns])
  ∧ (screen_error complete, size complete, previews (screen_page complete))
    = (None, (58, 12, 15), [frame_columns])
  ∧ no_country
    = mkScreen (mkPage (mkPageConfig "wide" "Global AI Content Impact Analysis")
        [ Elem (Title "🌍 Global AI Content Impact Analysis");
          Elem (Markdown "Exploring the influence of AI-generated content across industries and countries") ]
        [Elem (Header "Filters")] []) (Some (KeyError "Country"))
  ∧ (screen_error no_job_loss, page_tabs (screen_page no_job_loss))
    = (Some (KeyError "Job Loss Due to AI (%)"),
       [ ("📊 Overview",
          [ Elem (Header "Dataset Overview");
            Columns [[MetricCard "Average AI Adoption" "43.3%"]; []; []; []] ]);
         ("🌐 Geographical", []); ("🏭 Industry", []); ("📈 Trends", []);
         ("🔍 Deep Dive", []) ]).
Proof. cbv zeta. by_eval. Qed.

Lemma script_refines_render_witness :
  run_screen (csv_of scenario_df) fresh = mkScreen (render scenario_df fresh) None.
Proof. by apply (script_refines_render (csv_of scenario_df)). Defined.

Lemma screen_after_exception_witness :
  run_screen (mkCsvTable (take 10 frame_columns) scenario_df) fresh
  = mkScreen
      (page_of (before 401 (script (take 10 frame_columns) scenario_df fresh)))
      (Some (ValueError "Regulation Status")).
Proof.
  by apply (screen_after_exception (mkCsvTable (take 10 frame_columns) scenario_df)
              fresh "Regulation Status" 401 PlotlyExpress).
Defined.
