(* ===== verification/Dependence.v ===== *)
(** * Dependence: what the screen shows of a file

    A table of [Script] is the header of the file and its records,
    and a record has a field for every column of the specification,
    also for a column the header lacks.  This file shows that such a
    field is never looked at.  [present cols r] is the record [r]
    with the fields of the columns outside [cols] blanked, and two
    records [agree] on [cols] when they hold the same value in every
    column of [cols].

    Every element of the page comes with the columns it is computed
    from: the cards with one column each, the charts of a tab with
    the keys and the metrics, the pies with the tools.  These are
    the columns read by the statements above the one that writes the
    element ([stmt_reads] of [Statements]), so a run that reaches the
    element has them, and the statements above the failing line
    write the same elements whatever the other fields hold
    ([before_present]).  The table handed to [st.dataframe] and to
    the charts drawn from the frame is cut to the columns of the
    file ([project]).  Hence the screen is a function of the header
    and of the columns of the header ([screen_reads_columns]):
    agreement is an equivalence of tables ([same_file]) and
    [run_screen] respects it. *)

From Stdlib Require Import QArith Qcanon.
From stdpp Require Import numbers sorting pretty.
From S2P Require Import Prelude Order Sorting Numeric Pearson Series Frame.
From S2P Require Import Figure Scenario Widgets Sidebar Overview Format.
From S2P Require Import Geography Industry Trends Tools Heatmap Page Script.
From S2P Require Import Statements.
#[local] Close Scope Q_scope.
#[local] Close Scope Qc_scope.

Implicit Types (df fdf : DataFrame Qc) (inp : Inputs) (r : Row Qc)
  (cols : list string) (t : CsvTable).

(** ** Records of a file *)

(** The value of column [c] as a file with the columns [cols] has
    it: the cell, or nothing. *)
Definition keep {A} cols (c : string) (d x : A) : A :=
  if decide (c ∈ cols) then x else d.

(** A record reduced to the columns of the file. *)
Definition present cols r : Row Qc :=
  mkRow (keep cols "Year" 0%Z (Year r))
    (keep cols "Country" "" (Country r))
    (keep cols "Industry" "" (Industry r))
    (keep cols "AI Adoption Rate (%)" None (AI_Adoption_Rate r))
    (keep cols "Job Loss Due to AI (%)" None (Job_Loss_Due_to_AI r))
    (keep cols "Revenue Increase Due to AI (%)" None (Revenue_Increase_Due_to_AI r))
    (keep cols "Consumer Trust in AI (%)" None (Consumer_Trust_in_AI r))
    (keep cols "AI-Generated Content Volume (TBs per year)" None
       (AI_Generated_Content_Volume r))
    (keep cols "Human-AI Collaboration Rate (%)" None
       (Human_AI_Collaboration_Rate r))
    (keep cols "Top AI Tools Used" None (Top_AI_Tools_Used r))
    (keep cols "Regulation Status" None (Regulation_Status r)).

(** Two records hold the same value in every column of [cols]. *)
Definition agree cols r r' : Prop :=
  Forall (λ cv, cv.1 ∈ cols → cv.2.1 = cv.2.2)
    (zip frame_columns (zip (frame_row r) (frame_row r'))).

#[export] Instance agree_dec cols r r' : Decision (agree cols r r').
Proof. unfold agree. apply _. Defined.

(** The table with every record reduced to the columns of its
    header. *)
Definition as_read t : CsvTable :=
  mkCsvTable (csv_columns t) (present (csv_columns t) <$> csv_records t).

(** Two tables hold the same file: the same header, and records that
    agree on it one by one. *)
Definition same_file t t' : Prop :=
  csv_columns t = csv_columns t'
  ∧ Forall2 (agree (csv_columns t)) (csv_records t) (csv_records t').

#[export] Instance same_file_dec t t' : Decision (same_file t t').
Proof. unfold same_file. apply _. Defined.

(** ** Blanked fields *)

Section keep.
Context {A : Type} (cols : list string).

Lemma keep_in c (d x : A) : c ∈ cols → keep cols c d x = x.
Proof. intros. unfold keep. by rewrite decide_True. Qed.

Lemma keep_eq c (d x y : A) : (c ∈ cols → x = y) → keep cols c d x = keep cols c d y.
Proof. unfold keep. case_decide; auto. Qed.

Lemma keep_inj c (d x y : A) : c ∈ cols → keep cols c d x = keep cols c d y → x = y.
Proof. intros Hc. by rewrite !keep_in. Qed.
End keep.

Lemma agree_present cols r r' : agree cols r r' → present cols r = present cols r'.
Proof.
  unfold agree, frame_columns. cbn.
  rewrite !Forall_cons. cbn.
  intros (H1&H2&H3&H4&H5&H6&H7&H8&H9&H10&H11&_).
  unfold present. f_equal; apply keep_eq; intros Hc;
    repeat match goal with
      | H : _ ∈ cols → _ |- _ => first [specialize (H Hc)|clear H]
      end;
    unfold opt_str in *; repeat case_match; by simplify_eq.
Qed.

Lemma present_agree cols r r' : present cols r = present cols r' → agree cols r r'.
Proof.
  unfold present. intros [= HY HC HI H1 H2 H3 H4 H5 H6 HT HR].
  unfold agree, frame_columns. cbn.
  repeat (apply Forall_cons_2;
    [cbn [fst snd]; intros Hc; f_equal; by eapply keep_inj|]).
  apply Forall_nil_2.
Qed.

(** Agreement on a header is an equivalence of records, and holding
    the same file an equivalence of tables. *)
Lemma agree_iff cols r r' : agree cols r r' ↔ present cols r = present cols r'.
Proof. split; [apply agree_present|apply present_agree]. Qed.

#[export] Instance agree_equiv cols : Equivalence (agree cols).
Proof.
  split; repeat intros ?; rewrite !agree_iff in *; congruence.
Qed.

Lemma fmap_eq_Forall2 {A B} (f : A → B) (l k : list A) :
  f <$> l = f <$> k ↔ Forall2 (λ x y, f x = f y) l k.
Proof. by rewrite list_eq_Forall2, Forall2_fmap. Qed.

Lemma same_file_iff t t' : same_file t t' ↔ as_read t = as_read t'.
Proof.
  unfold same_file, as_read. split.
  - intros [Hc Hr]. rewrite <-Hc. f_equal. apply fmap_eq_Forall2.
    eapply Forall2_impl; [done|]. apply agree_present.
  - intros [= Hc Hr]. split; [done|]. rewrite <-Hc in Hr.
    apply fmap_eq_Forall2 in Hr.
    eapply Forall2_impl; [done|]. apply present_agree.
Qed.

#[export] Instance same_file_equiv : Equivalence same_file.
Proof.
  split; repeat intros ?; rewrite !same_file_iff in *; congruence.
Qed.

(** ** Functions of a table that do not see a change of its rows *)

Section natural.
Context {A : Type} (g : A → A).
Implicit Types (l : list A).

Lemma fmap_inv {B} (f : A → B) l : (∀ x, f (g x) = f x) → f <$> (g <$> l) = f <$> l.
Proof. intros Hf. rewrite <-list_fmap_compose. apply list_fmap_ext. intros; apply Hf. Qed.

Lemma filter_inv (P : A → Prop) `{!∀ x, Decision (P x)} l :
  (∀ x, P (g x) ↔ P x) → filter P (g <$> l) = g <$> filter P l.
Proof. intros HP. rewrite filter_fmap. f_equal. by apply list_filter_iff. Qed.

Lemma getitem_mask_inv l (m : list bool) :
  getitem_mask (g <$> l) m = g <$> getitem_mask l m.
Proof.
  unfold getitem_mask. revert m. induction l as [|x l IH]; intros [|b m]; [done..|].
  csimpl. rewrite !filter_cons. cbn [snd]. case_decide; csimpl; by rewrite IH.
Qed.

Section groupby.
Context `{PyOrd K} (key : A → K) (Hkey : ∀ x, key (g x) = key x).

Lemma group_rows_inv k l : group_rows key k (g <$> l) = g <$> group_rows key k l.
Proof. apply filter_inv. intros x. by rewrite Hkey. Qed.

Lemma agg_inv {B} (f : list A → B) l :
  (∀ rows, f (g <$> rows) = f rows) → agg key f (g <$> l) = agg key f l.
Proof.
  intros Hf. unfold agg, groupby, group_keys. rewrite (fmap_inv key) by done.
  rewrite <-!list_fmap_compose. apply list_fmap_ext. intros _ k _.
  unfold compose, prod_map. cbn [fst snd]. by rewrite group_rows_inv, Hf.
Qed.

Lemma groupby_mean_inv `{NumOps V} (col : A → cell V) l :
  (∀ x, col (g x) = col x) →
  groupby_mean key col (g <$> l) = groupby_mean key col l.
Proof. intros Hc. apply agg_inv. intros rows. unfold col_mean. by rewrite fmap_inv. Qed.
End groupby.
End natural.

(** ** The columns of the file in a record *)

Section present.
Context (cols : list string).
#[local] Abbreviation g := (present cols).

Lemma present_Year r : "Year" ∈ cols → Year (g r) = Year r.
Proof. apply keep_in. Qed.

Lemma present_Country r : "Country" ∈ cols → Country (g r) = Country r.
Proof. apply keep_in. Qed.

Lemma present_Industry r : "Industry" ∈ cols → Industry (g r) = Industry r.
Proof. apply keep_in. Qed.

Lemma present_tools r :
  "Top AI Tools Used" ∈ cols → Top_AI_Tools_Used (g r) = Top_AI_Tools_Used r.
Proof. apply keep_in. Qed.

Lemma present_metric_col m r :
  metric_name m ∈ cols → metric_col m (g r) = metric_col m r.
Proof. destruct m; apply keep_in. Qed.

Lemma present_group_col gb r :
  group_col_name gb ∈ cols → group_col gb (g r) = group_col gb r.
Proof. destruct gb; apply keep_in. Qed.

Lemma present_complete r : frame_columns ⊆ cols → g r = r.
Proof.
  intros Hc. destruct r. unfold present. cbn.
  f_equal; apply keep_in, Hc; by_eval.
Qed.

Lemma present_complete_fmap df : frame_columns ⊆ cols → g <$> df = df.
Proof.
  intros Hc. rewrite <-(list_fmap_id df) at 2. apply list_fmap_ext.
  intros; by apply present_complete.
Qed.

(** The table handed to the page has the columns of the file
    only. *)
Lemma filter_cons_agree {B} c (x y : B) (l l' : list (string * B)) :
  (c ∈ cols → x = y) →
  filter (λ cv, cv.1 ∈ cols) l = filter (λ cv, cv.1 ∈ cols) l' →
  filter (λ cv, cv.1 ∈ cols) ((c, x) :: l) = filter (λ cv, cv.1 ∈ cols) ((c, y) :: l').
Proof.
  intros Hxy Hl. rewrite !filter_cons. cbn [fst]. case_decide; [|done].
  by rewrite Hxy, Hl.
Qed.

Lemma project_present fdf :
  project cols (frame_table (g <$> fdf)) = project cols (frame_table fdf).
Proof.
  unfold project, frame_table. cbn [schema rows columns]. f_equal.
  rewrite <-!list_fmap_compose. apply list_fmap_ext. intros _ r _.
  unfold compose, frame_row, frame_schema. cbn [fmap list_fmap fst zip zip_with].
  f_equal. unfold present.
  cbn [Year Country Industry AI_Adoption_Rate Job_Loss_Due_to_AI
       Revenue_Increase_Due_to_AI Consumer_Trust_in_AI
       AI_Generated_Content_Volume Human_AI_Collaboration_Rate
       Top_AI_Tools_Used Regulation_Status].
  repeat (apply filter_cons_agree; [intros Hc; by rewrite (keep_in _ _ _ _ Hc)|]).
  done.
Qed.
End present.

(** A column of a record that the file has. *)
Ltac same_field :=
  intros; cbn beta;
  try match goal with |- (_, _) = (_, _) => f_equal end;
  first
    [ apply present_Year | apply present_Country | apply present_Industry
    | apply present_tools | apply present_metric_col | apply present_group_col
    | apply (present_metric_col _ AdoptionRate)
    | apply (present_metric_col _ JobLoss)
    | apply (present_metric_col _ RevenueIncrease)
    | apply (present_metric_col _ ConsumerTrust)
    | apply (present_metric_col _ ContentVolume)
    | apply (present_metric_col _ CollabRate) ];
  solve [auto].

Ltac known := first [assumption | intros []; assumption | same_field].

(** ** What each element reads *)

Section reads.
Context (cols : list string).
#[local] Abbreviation g := (present cols).

(** The cards of the first tab. *)
Lemma avg_adoption_present fdf :
  metric_name AdoptionRate ∈ cols →
  tab1.avg_adoption (g <$> fdf) = tab1.avg_adoption fdf.
Proof. intros. unfold tab1.avg_adoption, col_mean. by rewrite fmap_inv by same_field. Qed.

Lemma avg_job_loss_present fdf :
  metric_name JobLoss ∈ cols →
  tab1.avg_job_loss (g <$> fdf) = tab1.avg_job_loss fdf.
Proof. intros. unfold tab1.avg_job_loss, col_mean. by rewrite fmap_inv by same_field. Qed.

Lemma avg_revenue_present fdf :
  metric_name RevenueIncrease ∈ cols →
  tab1.avg_revenue (g <$> fdf) = tab1.avg_revenue fdf.
Proof. intros. unfold tab1.avg_revenue, col_mean. by rewrite fmap_inv by same_field. Qed.

Lemma avg_trust_present fdf :
  metric_name ConsumerTrust ∈ cols →
  tab1.avg_trust (g <$> fdf) = tab1.avg_trust fdf.
Proof. intros. unfold tab1.avg_trust, col_mean. by rewrite fmap_inv by same_field. Qed.

Lemma total_content_present fdf :
  metric_name ContentVolume ∈ cols →
  tab1.total_content (g <$> fdf) = tab1.total_content fdf.
Proof. intros. unfold tab1.total_content. by rewrite fmap_inv by same_field. Qed.

Lemma avg_collab_present fdf :
  metric_name CollabRate ∈ cols →
  tab1.avg_collab (g <$> fdf) = tab1.avg_collab fdf.
Proof. intros. unfold tab1.avg_collab, col_mean. by rewrite fmap_inv by same_field. Qed.

(** The charts of the tools. *)
Section tools.
Context (HT : "Top AI Tools Used" ∈ cols).

Lemma tool_counts_figure_present fdf :
  tab5.tool_counts_figure (g <$> fdf) = tab5.tool_counts_figure fdf.
Proof.
  unfold tab5.tool_counts_figure, tab5.tool_counts. by rewrite fmap_inv by same_field.
Qed.

Lemma industry_pie_chart_present fdf i :
  "Industry" ∈ cols →
  tab5.industry_pie_chart (g <$> fdf) i = tab5.industry_pie_chart fdf i.
Proof.
  intros. unfold tab5.industry_pie_chart, tab5.selected_industry, tab5.industry_data,
    tab5.industry_tool_counts, tab5.industry_tools.
  by rewrite getitem_mask_inv, !fmap_inv by same_field.
Qed.

Lemma country_pie_chart_present fdf i :
  "Country" ∈ cols →
  tab5.country_pie_chart (g <$> fdf) i = tab5.country_pie_chart fdf i.
Proof.
  intros. unfold tab5.country_pie_chart, tab5.selected_country, tab5.country_data,
    tab5.country_tool_counts, tab5.country_tools.
  by rewrite getitem_mask_inv, !fmap_inv by same_field.
Qed.
End tools.

(** The sidebar and the filter. *)
Section keys.
Context (HY : "Year" ∈ cols) (HC : "Country" ∈ cols) (HI : "Industry" ∈ cols).

Lemma years_present df : years (g <$> df) = years df.
Proof. unfold years. by rewrite fmap_inv by same_field. Qed.

Lemma countries_present df : countries (g <$> df) = countries df.
Proof. unfold countries. by rewrite fmap_inv by same_field. Qed.

Lemma industries_present df : industries (g <$> df) = industries df.
Proof. unfold industries. by rewrite fmap_inv by same_field. Qed.

Lemma run_filter_present df sin :
  run_filter (g <$> df) sin = g <$> run_filter df sin.
Proof.
  unfold run_filter, sidebar, default_years, default_countries, default_industries.
  rewrite years_present, countries_present, industries_present.
  rewrite !filtered_df_filter. apply filter_inv. intros r. unfold selects.
  by rewrite present_Year, present_Country, present_Industry.
Qed.

Lemma num_countries_present fdf :
  tab1.num_countries (g <$> fdf) = tab1.num_countries fdf.
Proof. unfold tab1.num_countries. by rewrite fmap_inv by same_field. Qed.

Lemma num_industries_present fdf :
  tab1.num_industries (g <$> fdf) = tab1.num_industries fdf.
Proof. unfold tab1.num_industries. by rewrite fmap_inv by same_field. Qed.

Lemma script_head_present df : script_head (g <$> df) = script_head df.
Proof.
  unfold script_head, default_years, default_countries, default_industries.
  by rewrite years_present, countries_present, industries_present.
Qed.

(** The charts of the second, third and fourth tab. *)
Section metrics.
Context (HM : ∀ m, metric_name m ∈ cols).

Lemma choropleth_present fdf : tab2.choropleth (g <$> fdf) = tab2.choropleth fdf.
Proof.
  unfold tab2.choropleth, tab2.country_means_table, tab2.country_means.
  rewrite agg_inv; [done|same_field|]. intros rows. apply list_fmap_ext.
  intros _ [|m] _; f_equal; cbn [tab2.numeric_mean]; unfold col_mean;
    by rewrite fmap_inv by same_field.
Qed.

Lemma content_volume_figure_present fdf :
  tab2.content_volume_figure (g <$> fdf) = tab2.content_volume_figure fdf.
Proof.
  unfold tab2.content_volume_figure, tab2.content_volume_bars, tab2.content_volume.
  by rewrite groupby_mean_inv by same_field.
Qed.

Lemma country_metric_figure_present m fdf :
  tab2.country_metric_figure m (g <$> fdf) = tab2.country_metric_figure m fdf.
Proof.
  unfold tab2.country_metric_figure, tab2.country_metric_bars, tab2.country_metric.
  by rewrite groupby_mean_inv by same_field.
Qed.

Lemma industry_metric_figure_present m fdf :
  tab3.industry_metric_figure m (g <$> fdf) = tab3.industry_metric_figure m fdf.
Proof.
  unfold tab3.industry_metric_figure, tab3.industry_metric_bars, tab3.industry_metric.
  by rewrite groupby_mean_inv by same_field.
Qed.

Lemma country_trend_figure_present fdf :
  tab4.country_trend_figure (g <$> fdf) = tab4.country_trend_figure fdf.
Proof.
  unfold tab4.country_trend_figure, tab4.country_trend.
  by rewrite groupby_mean_inv by same_field.
Qed.

Lemma industry_trend_figure_present fdf :
  tab4.industry_trend_figure (g <$> fdf) = tab4.industry_trend_figure fdf.
Proof.
  unfold tab4.industry_trend_figure, tab4.industry_trend.
  by rewrite groupby_mean_inv by same_field.
Qed.

Lemma time_trend_figure_present m gb fdf :
  tab4.time_trend_figure m gb (g <$> fdf) = tab4.time_trend_figure m gb fdf.
Proof.
  unfold tab4.time_trend_figure, tab4.time_trend.
  by destruct gb; rewrite groupby_mean_inv by same_field.
Qed.

(** The statements of the tabs. *)
Lemma script_tab1_present frame fdf :
  script_tab1 frame (g <$> fdf) = script_tab1 frame fdf.
Proof.
  unfold script_tab1.
  by rewrite avg_adoption_present, avg_job_loss_present, avg_revenue_present,
    avg_trust_present, total_content_present, avg_collab_present,
    num_countries_present, num_industries_present by done.
Qed.

Lemma script_tab2_present fdf inp : script_tab2 (g <$> fdf) inp = script_tab2 fdf inp.
Proof.
  unfold script_tab2.
  by rewrite choropleth_present, content_volume_figure_present,
    country_metric_figure_present.
Qed.

Lemma script_tab3_present frame fdf inp :
  script_tab3 frame (g <$> fdf) inp = script_tab3 frame fdf inp.
Proof. unfold script_tab3. by rewrite industry_metric_figure_present. Qed.

Lemma script_tab4_present fdf inp : script_tab4 (g <$> fdf) inp = script_tab4 fdf inp.
Proof.
  unfold script_tab4.
  by rewrite country_trend_figure_present, industry_trend_figure_present,
    time_trend_figure_present.
Qed.

Lemma script_tab5_tools frame fdf inp :
  before 277 (script_tab5 frame (g <$> fdf) inp)
  = before 277 (script_tab5 frame fdf inp).
Proof. reflexivity. Qed.

Lemma script_tab5_regulation frame fdf inp :
  "Top AI Tools Used" ∈ cols →
  before 401 (script_tab5 frame (g <$> fdf) inp)
  = before 401 (script_tab5 frame fdf inp).
Proof.
  intros. unfold script_tab5.
  by rewrite tool_counts_figure_present, industry_pie_chart_present,
    country_pie_chart_present, !fmap_inv by known.
Qed.
End metrics.
End keys.
End reads.

(** ** The statements above the failing line *)

Lemma reads_before cols line :
  (∀ ac, ac ∈ accesses → ac.1.2 < line → ac.1.1 ∈ cols) →
  Forall (λ ac, ac.1.2 < line → ac.1.1 ∈ cols) accesses.
Proof. intros Hp. by apply Forall_forall. Qed.

Lemma before_app line (ss1 ss2 : list Stmt) :
  before line (ss1 ++ ss2) = before line ss1 ++ before line ss2.
Proof. apply filter_app. Qed.

Lemma before_present cols df inp c line rd :
  first_missing cols = Some (c, line, rd) →
  before line (script cols (present cols <$> df) inp)
  = before line (script cols df inp).
Proof.
  intros (Ha & _ & Hp%reads_before)%first_missing_Some.
  unfold accesses in Ha, Hp. rewrite !Forall_cons in Hp. cbn [fst snd] in Hp.
  destruct Hp as (HY & HC & HI & H1 & H2 & H3 & H4 & H5 & H6 & H7 & H8 & _).
  repeat (apply elem_of_cons in Ha as [[= -> -> ->]|Ha]); [..|by apply elem_of_nil in Ha].
  1-3: reflexivity.
  all: repeat match goal with
         | H : _ < _ → _ |- _ => first [specialize (H ltac:(lia))|clear H]
         end.
  all: unfold script; cbv zeta; rewrite !before_app.
  all: rewrite run_filter_present, script_head_present, project_present by known.
  1-6: do 2 f_equal; try reflexivity; unfold script_tab1;
    by rewrite ?avg_adoption_present, ?avg_job_loss_present, ?avg_revenue_present,
      ?avg_trust_present, ?total_content_present by known.
  all: rewrite script_tab1_present, script_tab2_present, script_tab3_present,
         script_tab4_present by known.
  - by rewrite script_tab5_tools.
  - by rewrite script_tab5_regulation.
Qed.

(** ** The screen *)

(** The screen of a file is the screen of the file with every
    record reduced to the columns of the file. *)
Lemma run_screen_as_read t inp : run_screen (as_read t) inp = run_screen t inp.
Proof.
  unfold run_screen.
  destruct (first_missing (csv_columns t)) as [[[c line] rd]|] eqn:Hm.
  - rewrite (run_table_stopped (as_read t) inp c line rd Hm),
      (run_table_stopped t inp c line rd Hm).
    unfold as_read. cbn [fst snd csv_columns csv_records].
    by rewrite (before_present _ _ _ _ _ _ Hm).
  - apply first_missing_None in Hm. unfold as_read.
    rewrite present_complete_fmap by done. by destruct t.
Qed.

(** The screen respects the equivalence of tables. *)
#[export] Instance run_screen_proper : Proper (same_file ==> (=) ==> (=)) run_screen.
Proof.
  intros t t' Ht%same_file_iff inp _ <-.
  by rewrite <-(run_screen_as_read t), <-(run_screen_as_read t'), Ht.
Qed.

(** The exception on the screen is that of the first column the
    header lacks. *)
Lemma screen_error_header t inp :
  screen_error (run_screen t inp)
  = (λ ac, raise ac.2 ac.1.1) <$> first_missing (csv_columns t).
Proof.
  unfold run_screen.
  destruct (first_missing (csv_columns t)) as [[[c line] rd]|] eqn:Hm.
  - by rewrite (run_table_stopped _ _ _ _ _ Hm).
  - by apply first_missing_None, (run_table_complete t inp) in Hm as [-> _].
Qed.

(** ** The claim *)

(** C25. The screen depends on the records of a file only through
    the columns of its header: two tables that hold the same file,
    that is, with the same header and with records that agree, one
    by one, in the columns of the header, give the same page and the
    same exception on the same inputs, whatever the records hold in
    fields the header does not name.  Which exception ends the run
    depends on the header alone, not on the records or the
    inputs. *)
Theorem screen_reads_columns t t' inp inp' :
  same_file t t' →
  run_screen t inp = run_screen t' inp
  ∧ screen_error (run_screen t inp) = screen_error (run_screen t' inp').
Proof.
  intros Ht. split; [by rewrite Ht|].
  destruct Ht as [Hc _]. by rewrite !screen_error_header, Hc.
Qed.

Lemma screen_reads_columns_witness :
  run_screen (mkCsvTable (take 9 frame_columns) scenario_df) fresh
  = run_screen (as_read (mkCsvTable (take 9 frame_columns) scenario_df)) fresh
  ∧ screen_error (run_screen (mkCsvTable (take 9 frame_columns) scenario_df) fresh)
    = screen_error
        (run_screen (as_read (mkCsvTable (take 9 frame_columns) scenario_df)) fresh).
Proof.
  apply (screen_reads_columns (mkCsvTable (take 9 frame_columns) scenario_df)
           (as_read (mkCsvTable (take 9 frame_columns) scenario_df)) fresh fresh);
    by_eval.
Defined.

(** ** Examples *)

(** The example table in a file without the columns of the tools
    and of the regulation: blanking the two fields changes the
    records and not the screen; blanking the metrics, which the file
    has, changes the screen. *)
Example screen_dependence_examples :
  let cols := take 9 frame_columns in
  let t := mkCsvTable cols scenario_df in
  let blank := mkCsvTable cols (present (take 3 frame_columns) <$> scenario_df) in
  as_read t ≠ t ∧ same_file (as_read t) t
  ∧ Forall2 (agree (take 3 frame_columns)) (csv_records t) (csv_records blank)
  ∧ ¬ same_file t blank
  ∧ run_screen t fresh ≠ run_screen blank fresh.
Proof. cbv zeta. by_eval. Qed.
