(* ===== verification/Dashboard.v ===== *)
(** * Dashboard: the loader and the session

    [load_data] is lines 16-20 of [src/app2.py]: [pd.read_csv] behind
    [st.cache_data].  The cache is the only state that survives a
    run.  A session is a sequence of runs; each run sees the file as
    it is at that moment (its table, or [None] when it is missing or
    cannot be parsed, in which case [pd.read_csv] raises and the run
    stops with the error) and the widgets as the user left them.
    [step] is one run (the load, then [run_script] of [Script]),
    [run_session] a sequence of runs, and [reachable] the caches a
    session can be in.  [screen] is what the user sees after a run:
    the screen of [Statements], or the empty page with the exception
    of the load.

    The theorems show that the table is read once per session and
    never changes afterwards; that a failed load is not cached and is
    retried; that once a run has found a file with the columns of the
    specification every later run shows a page; and that a table that
    lacks a column is cached like any other, so that every later run
    stops with the same exception whatever the file holds by then. *)

From Stdlib Require Import QArith Qcanon.
From stdpp Require Import numbers.
From S2P Require Import Prelude Order Sorting Numeric Pearson Series Frame.
From S2P Require Import Figure Scenario Widgets Sidebar Overview Format.
From S2P Require Import Geography Industry Trends Tools Heatmap Page Script.
From S2P Require Import Statements.
#[local] Close Scope Q_scope.
#[local] Close Scope Qc_scope.

Implicit Types (t : CsvTable) (inp : Inputs) (p : Page).

(** ** The loader and the session *)

(** The file as a run finds it: the table it holds, or [None] when it
    is missing or cannot be parsed. *)
Definition File := option CsvTable.

(** The cache of [st.cache_data] for [load_data]: empty, or the table
    returned by the one call that succeeded. *)
Definition Cache := option CsvTable.

(** Lines 16-20: [df = load_data()].  A hit returns the cached table
    without reading the file; a miss reads the file and caches the
    table if there is one; an exception is not cached. *)
Definition load_data (file : File) (cache : Cache) : option CsvTable * Cache :=
  match cache with
  | Some t => (Some t, Some t)
  | None => (file, file)
  end.

(** The run after the load: the exception of [pd.read_csv] (line 18)
    when there is no table, the rest of the script otherwise. *)
Definition run (r : option CsvTable) inp : Outcome :=
  match r with
  | Some t => run_script t inp
  | None => Raised FileNotFoundError 18
  end.

(** What the user sees after the run: the screen of [Statements], or
    the empty page of line 13 with the exception of the load. *)
Definition screen (r : option CsvTable) inp : Screen :=
  match r with
  | Some t => run_screen t inp
  | None => mkScreen (rs_page start) (Some FileNotFoundError)
  end.

(** One run of the script: its outcome, and the cache after the
    run. *)
Definition step (cache : Cache) (ev : File * Inputs) : Outcome * Cache :=
  let '(r, cache') := load_data ev.1 cache in
  (run r ev.2, cache').

(** A session: the outcomes of a sequence of runs, and the cache at
    its end. *)
Fixpoint run_session (cache : Cache) (evs : list (File * Inputs))
  : list Outcome * Cache :=
  match evs with
  | [] => ([], cache)
  | ev :: evs' =>
      let '(o, cache') := step cache ev in
      let '(os, cache'') := run_session cache' evs' in
      (o :: os, cache'')
  end.

(** The caches a session that starts with an empty cache can be in. *)
Inductive reachable : Cache → Prop :=
  | reachable_init : reachable None
  | reachable_step cache ev : reachable cache → reachable (step cache ev).2.

(** The table of the first run of a session that found one. *)
Definition first_load (evs : list (File * Inputs)) : option CsvTable :=
  mjoin (head (filter is_Some evs.*1)).

(** ** The screen of a run *)

(** After every run the user sees the page of the outcome, or its
    exception above whatever the run had written. *)
Lemma screen_run r inp :
  match run r inp with
  | Shown p => screen r inp = mkScreen p None
  | Raised e _ => screen_error (screen r inp) = Some e
  end.
Proof. destruct r as [t|]; [apply run_screen_outcome|done]. Qed.

(** ** The loader *)

Lemma load_data_hit file t : load_data file (Some t) = (Some t, Some t).
Proof. done. Qed.

Lemma load_data_miss file : load_data file None = (file, file).
Proof. done. Qed.

Lemma step_hit t ev : step (Some t) ev = (run_script t ev.2, Some t).
Proof. done. Qed.

Lemma step_miss ev : step None ev = (run ev.1 ev.2, ev.1).
Proof. done. Qed.

Lemma run_session_cons cache ev evs :
  run_session cache (ev :: evs)
  = ((step cache ev).1 :: (run_session (step cache ev).2 evs).1,
     (run_session (step cache ev).2 evs).2).
Proof.
  cbn [run_session]. by destruct (step cache ev), (run_session _ evs).
Qed.

(** A loaded cache never changes. *)
Lemma run_session_hit t evs :
  run_session (Some t) evs = ((λ ev, run_script t ev.2) <$> evs, Some t).
Proof.
  induction evs as [|ev evs IH]; [done|].
  rewrite run_session_cons, step_hit. cbn [fst snd]. by rewrite IH.
Qed.

(** As long as the load fails nothing is shown and nothing is cached. *)
Lemma run_session_failing evs :
  Forall (λ ev, ev.1 = None) evs →
  run_session None evs = (const (Raised FileNotFoundError 18) <$> evs, None).
Proof.
  induction 1 as [|[file inp] evs Hev _ IH]; [done|].
  simpl in Hev. subst file. rewrite run_session_cons, step_miss.
  cbn [fst snd]. by rewrite IH.
Qed.

Lemma run_session_app cache evs1 evs2 :
  run_session cache (evs1 ++ evs2)
  = ((run_session cache evs1).1
       ++ (run_session (run_session cache evs1).2 evs2).1,
     (run_session (run_session cache evs1).2 evs2).2).
Proof.
  revert cache. induction evs1 as [|ev evs1 IH]; intros cache.
  { simpl. by destruct (run_session cache evs2). }
  rewrite <-app_comm_cons, !run_session_cons, IH. done.
Qed.

Lemma first_load_cons_None inp evs :
  first_load ((None, inp) :: evs) = first_load evs.
Proof. done. Qed.

Lemma first_load_cons_Some t inp evs :
  first_load ((Some t, inp) :: evs) = Some t.
Proof. done. Qed.

(** The cache at the end of a session holds the first table that was
    loaded. *)
Lemma run_session_cache evs : (run_session None evs).2 = first_load evs.
Proof.
  induction evs as [|[[t|] inp] evs IH]; [done|..].
  - rewrite run_session_cons, step_miss. cbn [fst snd].
    by rewrite run_session_hit, first_load_cons_Some.
  - rewrite run_session_cons, step_miss. cbn [fst snd].
    by rewrite first_load_cons_None.
Qed.

(** The reachable caches are the caches at the end of a session. *)
Lemma reachable_first_load cache : reachable cache → ∃ evs, cache = first_load evs.
Proof.
  induction 1 as [|cache [file inp] _ [evs ->]]; [by exists []|].
  exists (evs ++ [(file, inp)]). rewrite <-!run_session_cache, run_session_app.
  by rewrite run_session_cons.
Qed.

Lemma reachable_run_session evs : reachable (run_session None evs).2.
Proof.
  induction evs as [|ev evs IH] using rev_ind; [constructor|].
  rewrite run_session_app, run_session_cons. by constructor.
Qed.

(** The outcome of a run, from the runs up to it. *)
Lemma run_session_lookup evs k ev :
  evs !! k = Some ev →
  (run_session None evs).1 !! k = Some (run (first_load (take (S k) evs)) ev.2).
Proof.
  revert k. induction evs as [|[[t|] inp] evs IH]; intros k Hk; [done|..].
  - rewrite run_session_cons, step_miss. cbn [take fst snd].
    rewrite run_session_hit, first_load_cons_Some.
    destruct k as [|k]; simplify_eq/=; [done|].
    by rewrite list_lookup_fmap, Hk.
  - rewrite run_session_cons, step_miss. cbn [take fst snd].
    rewrite first_load_cons_None.
    destruct k as [|k]; simplify_eq/=; [done|]. by apply IH.
Qed.

(** A prefix that contains a run that found the file has loaded a
    table. *)
Lemma first_load_is_Some evs k n ev :
  evs !! k = Some ev → is_Some ev.1 → k < n → is_Some (first_load (take n evs)).
Proof.
  revert k n. induction evs as [|[[t|] inp] evs IH]; intros k n Hk Hev Hn;
    [done|..]; (destruct n as [|n]; [lia|]); cbn [take].
  - by rewrite first_load_cons_Some.
  - rewrite first_load_cons_None. destruct k as [|k]; simplify_eq/=.
    + by destruct Hev.
    + apply (IH k n); [done..|lia].
Qed.

(** The table loaded first stays the table loaded first. *)
Lemma first_load_take_le evs n m t :
  first_load (take n evs) = Some t → n ≤ m → first_load (take m evs) = Some t.
Proof.
  revert n m. induction evs as [|[[t'|] inp] evs IH]; intros n m Hn Hnm.
  - by rewrite take_nil in *.
  - destruct n as [|n]; [done|]. destruct m as [|m]; [lia|]. done.
  - destruct n as [|n]; [done|]. destruct m as [|m]; [lia|].
    cbn [take] in *. rewrite first_load_cons_None in *. apply (IH n); [done|lia].
Qed.

(** ** The properties of a session *)

(** C11. The table is loaded once per session: whatever the file holds
    at each run, the outcome of every run of a session is that of the
    script on one and the same table, the first one a run managed to
    load; the runs before it stop with the error of the load. *)
Theorem session_load_once evs :
  ∀ k ev, evs !! k = Some ev →
    (run_session None evs).1 !! k
    = Some (match first_load (take (S k) evs) with
            | Some t => run_script t ev.2
            | None => Raised FileNotFoundError 18
            end).
Proof. intros k ev Hk. by rewrite (run_session_lookup evs k ev). Qed.

(** C30. A failed load is not cached: while the file is missing or
    cannot be parsed every run stops with the error of the load, and
    the first run that finds the file runs the script on its table
    and caches it. *)
Theorem load_failure_retried evs t inp :
  Forall (λ ev, ev.1 = None) evs →
  run_session None (evs ++ [(Some t, inp)])
  = ((const (Raised FileNotFoundError 18) <$> evs) ++ [run_script t inp], Some t).
Proof.
  intros Hevs. rewrite run_session_app, (run_session_failing evs Hevs).
  cbn [fst snd]. by rewrite run_session_cons, step_miss.
Qed.

(** C34. Once a run has found the file, every later run of the
    session runs the script on the table loaded first, whatever
    happens to the file afterwards, and when that table has the
    columns of the specification it shows its page for the state of
    the widgets at that run. *)
Theorem session_eventually_renders evs k j ev ev' :
  evs !! k = Some ev → is_Some ev.1 → k ≤ j → evs !! j = Some ev' →
  ∃ t, first_load (take (S j) evs) = Some t
       ∧ (run_session None evs).1 !! j = Some (run_script t ev'.2)
       ∧ (frame_columns ⊆ csv_columns t →
          (run_session None evs).1 !! j
          = Some (Shown (render (csv_records t) ev'.2))).
Proof.
  intros Hk Hev Hkj Hj.
  destruct (first_load_is_Some evs k (S j) ev) as [t Ht]; [done..|lia|].
  exists t. rewrite (run_session_lookup evs j ev'), Ht by done.
  split_and!; [done..|]. intros Hc. simpl. by rewrite run_script_Shown.
Qed.

(** C17. A table that lacks a column is cached like any other: once
    a run has loaded it, every later run of the session stops with
    the exception of the first statement that reads a missing
    column, also when the file has been repaired in the meantime. *)
Theorem malformed_table_cached evs k j ev' t c line rd :
  first_load (take (S k) evs) = Some t →
  first_missing (csv_columns t) = Some (c, line, rd) →
  k ≤ j → evs !! j = Some ev' →
  (run_session None evs).1 !! j = Some (Raised (raise rd c) line).
Proof.
  intros Ht Hm Hkj Hj.
  rewrite (run_session_lookup evs j ev'), (first_load_take_le evs (S k) (S j) t)
    by (done || lia).
  simpl. by rewrite (run_script_Raised t ev'.2 c line rd).
Qed.

(** ** Examples *)

(** A session of four runs: the file is missing at first, appears,
    changes, and disappears again.  The first run shows an error; the
    three others show pages of the table the second run loaded. *)
Example session_example :
  run_session None
    [ (None, fresh); (Some (csv_of scenario_df), fresh);
      (Some (csv_of []), fresh); (None, fresh) ]
  = ( [ Raised FileNotFoundError 18; Shown (render scenario_df fresh);
        Shown (render scenario_df fresh); Shown (render scenario_df fresh) ],
      Some (csv_of scenario_df) ).
Proof. done. Qed.

(** A session of three runs: the file lacks the column "Year" at
    first and is repaired before the second run.  Every run stops at
    line 30. *)
Example session_malformed :
  run_session None
    [ (Some (mkCsvTable (drop 1 frame_columns) scenario_df), fresh);
      (Some (csv_of scenario_df), fresh); (Some (csv_of scenario_df), fresh) ]
  = ( [ Raised (KeyError "Year") 30; Raised (KeyError "Year") 30;
        Raised (KeyError "Year") 30 ],
      Some (mkCsvTable (drop 1 frame_columns) scenario_df) ).
Proof. done. Qed.

Lemma session_load_once_witness :
  [ (None, fresh); (Some (csv_of scenario_df), fresh);
    (Some (csv_of []), fresh) ] !! 2
    = Some (Some (csv_of []), fresh)
  ∧ (run_session None
       [ (None, fresh); (Some (csv_of scenario_df), fresh);
         (Some (csv_of []), fresh) ]).1 !! 2
    = Some (Shown (render scenario_df fresh)).
Proof.
  split; [done|].
  exact (session_load_once
    [ (None, fresh); (Some (csv_of scenario_df), fresh);
      (Some (csv_of []), fresh) ] 2
    (Some (csv_of []), fresh) eq_refl).
Defined.

Lemma load_failure_retried_witness :
  Forall (λ ev : File * Inputs, ev.1 = None) [(None, fresh); (None, fresh)]
  ∧ run_session None
      [(None, fresh); (None, fresh); (Some (csv_of scenario_df), fresh)]
    = ([ Raised FileNotFoundError 18; Raised FileNotFoundError 18;
         Shown (render scenario_df fresh) ], Some (csv_of scenario_df)).
Proof.
  assert (Forall (λ ev : File * Inputs, ev.1 = None)
            [(None, fresh); (None, fresh)]) as Hf by (by repeat constructor).
  split; [exact Hf|].
  exact (load_failure_retried [(None, fresh); (None, fresh)]
           (csv_of scenario_df) fresh Hf).
Defined.

Lemma session_eventually_renders_witness :
  ∃ t, first_load (take 3
          [ (None, fresh); (Some (csv_of scenario_df), fresh); (None, fresh);
            (Some (csv_of []), fresh) ]) = Some t
       ∧ (run_session None
            [ (None, fresh); (Some (csv_of scenario_df), fresh); (None, fresh);
              (Some (csv_of []), fresh) ]).1 !! 2
         = Some (run_script t fresh)
       ∧ (frame_columns ⊆ csv_columns t →
          (run_session None
             [ (None, fresh); (Some (csv_of scenario_df), fresh); (None, fresh);
               (Some (csv_of []), fresh) ]).1 !! 2
          = Some (Shown (render (csv_records t) fresh))).
Proof.
  apply (session_eventually_renders
    [ (None, fresh); (Some (csv_of scenario_df), fresh); (None, fresh);
      (Some (csv_of []), fresh) ] 1 2
    (Some (csv_of scenario_df), fresh) (None, fresh));
    [done|by eexists|lia|done].
Defined.

Lemma malformed_table_cached_witness :
  (run_session None
     [ (Some (mkCsvTable (drop 1 frame_columns) scenario_df), fresh);
       (Some (csv_of scenario_df), fresh) ]).1 !! 1
  = Some (Raised (KeyError "Year") 30).
Proof.
  apply (malformed_table_cached
    [ (Some (mkCsvTable (drop 1 frame_columns) scenario_df), fresh);
      (Some (csv_of scenario_df), fresh) ] 0 1
    (Some (csv_of scenario_df), fresh)
    (mkCsvTable (drop 1 frame_columns) scenario_df) "Year" 30 Indexing);
    [done|done|lia|done].
Defined.
